(** * validAI: the debate arena, its evidence system and its judge

    A shallow embedding of
      - [src/arena/evidence_system.py]  (Evidence, EvidenceScorer, EvidenceValidator),
      - [src/agents/judge_agent.py]     (JudgeAgent),
      - [src/arena/debate_orchestrator.py] (DebateState, DebateOrchestrator),
    then of the rest of the evidence system (EvidenceGatherer, the chains and
    combos of evidence), of the analysis endpoint of [src/api/rest.py] and of
    the research pipeline of [src/research/searcher_working.py],
    followed by the properties the specification states about them and by
    further properties read off the code.

    Conventions of the embedding.
      - Python numbers.  The evidence system and the judge compute with
        [float]s.  Their code is written once, over the interface [PyNumber],
        and read at two instances: [ExactQ], exact rational arithmetic (used for
        statements about all inputs), and [Binary64], IEEE binary64 as CPython
        computes it (used to evaluate the code on concrete inputs).
      - The orchestrator's confidences start at [50.0] and only ever receive
        the integers [+5], [(5 - tier) * 5] and [-10]; they are integer-valued
        floats and are modelled in [Z].  Its thresholds and the draws of
        [random.random()] are modelled by their exact rational values.
      - Strings are Rocq strings (sequences of 8-bit characters); [str.lower]
        and the regular expression [\d] are modelled on ASCII.
      - [KeyError], [IndexError] and [AttributeError] are results of type
        [Result].
      - Time.  The pauses of the orchestrator ([asyncio.sleep]) add up in
        the world it runs in, and the [duration] of a debate is what the
        clock makes of them; the stamps [start_time] and [timestamp], which
        nothing reads back but that difference, are left out. *)

From Stdlib Require Import ZArith QArith Qabs Qround Floats String Ascii List Bool.
From Stdlib Require Import DecimalString Lia Lqa.
From Stdlib Require Import Sorted Permutation.
Import ListNotations.

Set Warnings "-inexact-float,-register-all".

(* ================================================================== *)
(** * Python numbers *)
(* ================================================================== *)

Declare Scope num_scope.
Delimit Scope num_scope with num.

(** The operations the sources apply to numbers.  [of_Z] is the conversion of
  an [int]; [of_decimal] reads a decimal literal such as [0.30]. *)
Class PyNumber (num : Type) : Type := {
  of_Z : Z -> num;
  of_decimal : Q -> num;
  num_add : num -> num -> num;
  num_sub : num -> num -> num;
  num_mul : num -> num -> num;
  num_div : num -> num -> num;
  num_abs : num -> num;
  num_ltb : num -> num -> bool;
  num_leb : num -> num -> bool
}.

Infix "+" := num_add : num_scope.
Infix "-" := num_sub : num_scope.
Infix "*" := num_mul : num_scope.
Infix "/" := num_div : num_scope.
Infix "<?" := num_ltb (at level 70, no associativity) : num_scope.
Infix "<=?" := num_leb (at level 70, no associativity) : num_scope.
Notation "x >? y" := (num_ltb y x) (at level 70, no associativity) : num_scope.
Notation "x >=? y" := (num_leb y x) (at level 70, no associativity) : num_scope.

Section PyBuiltins.
Context {num : Type} {N : PyNumber num}.
Local Open Scope num_scope.

(** [min(a, b)]: the first of the smallest, so [b] only when [b < a]. *)
Definition py_min (a b : num) : num := if b <? a then b else a.

(** [max(a, b)]: the first of the largest, so [b] only when [b > a]. *)
Definition py_max (a b : num) : num := if b >? a then b else a.

(** [sum(xs)]: a left fold that starts from the int [0]. *)
Definition py_sum (xs : list num) : num := fold_left num_add xs (of_Z 0).
End PyBuiltins.

(** ** Exact rationals *)

Definition Qltb (x y : Q) : bool := negb (Qle_bool y x).

#[export] Instance ExactQ : PyNumber Q := {|
  of_Z := inject_Z;
  of_decimal := fun q => q;
  num_add := Qplus;
  num_sub := Qminus;
  num_mul := Qmult;
  num_div := Qdiv;
  num_abs := Qabs;
  num_ltb := Qltb;
  num_leb := Qle_bool
|}.

(** ** IEEE binary64 *)

(** An [int] converted to the nearest double (ties to even). *)
Definition f64_of_Z (z : Z) : float := SF2Prim (binary_normalize 53 1024 z 0 false).

(** A decimal literal [n / d]: numerator and denominator of the literals in
  the sources are exact doubles, and IEEE division rounds their quotient
  correctly, which is the double the Python parser produces. *)
Definition f64_of_decimal (q : Q) : float :=
  PrimFloat.div (f64_of_Z (Qnum q)) (f64_of_Z (Zpos (Qden q))).

#[export] Instance Binary64 : PyNumber float := {|
  of_Z := f64_of_Z;
  of_decimal := f64_of_decimal;
  num_add := PrimFloat.add;
  num_sub := PrimFloat.sub;
  num_mul := PrimFloat.mul;
  num_div := PrimFloat.div;
  num_abs := PrimFloat.abs;
  num_ltb := PrimFloat.ltb;
  num_leb := PrimFloat.leb
|}.

(* ================================================================== *)
(** * Python strings *)
(* ================================================================== *)

Module PyStr.
Local Open Scope string_scope.

Definition is_digit (c : ascii) : bool :=
  let n := nat_of_ascii c in (48 <=? n)%nat && (n <=? 57)%nat.

Definition is_upper (c : ascii) : bool :=
  let n := nat_of_ascii c in (65 <=? n)%nat && (n <=? 90)%nat.

Definition lower_char (c : ascii) : ascii :=
  if is_upper c then ascii_of_nat (nat_of_ascii c + 32) else c.

(** [s.lower()] *)
Fixpoint lower (s : string) : string :=
  match s with
  | EmptyString => EmptyString
  | String c s' => String (lower_char c) (lower s')
  end.

(** [s.startswith(p)] *)
Fixpoint startswith (p s : string) : bool :=
  match p, s with
  | EmptyString, _ => true
  | String _ _, EmptyString => false
  | String a p', String b s' => Ascii.eqb a b && startswith p' s'
  end.

(** [p in s] for strings: [p] occurs in [s] at some position. *)
Fixpoint contains (p s : string) : bool :=
  startswith p s ||
  match s with
  | EmptyString => false
  | String _ s' => contains p s'
  end.

(** The length of the longest run of digits that [s] starts with. *)
Fixpoint digit_run (s : string) : nat :=
  match s with
  | String c s' => if is_digit c then S (digit_run s') else O
  | EmptyString => O
  end.

(** [re.search(r'\d+', s)]: the leftmost match, as (start, length);
    [None] when no position starts a non-empty run of digits. *)
Fixpoint re_search_digits (s : string) : option (nat * nat) :=
  match s with
  | EmptyString => None
  | String c s' =>
      if is_digit c then Some (O, digit_run s)
      else match re_search_digits s' with
           | Some (i, n) => Some (S i, n)
           | None => None
           end
  end.

(** [bool(x)] of an optional match object. *)
Definition truthy {A} (m : option A) : bool :=
  match m with Some _ => true | None => false end.

(** [c] is one of the characters of [s]. *)
Fixpoint occurs (c : ascii) (s : string) : Prop :=
  match s with
  | EmptyString => False
  | String a s' => a = c \/ occurs c s'
  end.

(** [p] occurs in [s]: [s] is [pre ++ p ++ post]. *)
Definition substring_of (p s : string) : Prop :=
  exists pre post, s = pre ++ p ++ post.
End PyStr.

(* ================================================================== *)
(** * arena/evidence_system.py *)
(* ================================================================== *)

(** [class EvidenceTier(Enum)] with the integer values of its members. *)
Inductive EvidenceTier : Type := PLATINUM | GOLD | SILVER | BRONZE.

Definition tier_value (t : EvidenceTier) : Z :=
  match t with PLATINUM => 1 | GOLD => 2 | SILVER => 3 | BRONZE => 4 end.

(** The dict [_extract_data_points] builds: a key ("percentages", "costs",
    "timeframes", "metrics") with the regular-expression matches found, each
    match the tuple of its groups. *)
Definition ExtractedData : Type := list (string * list (list string)).

Section EvidenceSystem.
Context {num : Type} {N : PyNumber num}.
Local Open Scope string_scope.
Local Open Scope num_scope.

(** [@dataclass class Evidence].  The two optional lists [counter_evidence]
    and [supporting_evidence] are never read or written by the code below
    and are not part of the record. *)
Record Evidence : Type := mkEvidence {
  claim : string;
  source : string;
  url : string;
  tier : EvidenceTier;
  relevance_score : num;
  recency_score : num;
  credibility_score : num;
  raw_text : string;
  extracted_data : option ExtractedData
}.

(** The dict [tier_weights] of [Evidence.total_score]. *)
Definition tier_weights (t : EvidenceTier) : Z :=
  match t with PLATINUM => 10 | GOLD => 5 | SILVER => 2 | BRONZE => 1 end.

(** [Evidence.total_score]: Python multiplies from the left. *)
Definition total_score (e : Evidence) : num :=
  let base_weight := of_Z (tier_weights (tier e)) in
  base_weight * relevance_score e * recency_score e * credibility_score e.

(** ** EvidenceScorer *)

(** [EvidenceScorer.score_evidence_collection] *)
Definition score_evidence_collection (evidence_list : list Evidence) : num :=
  match evidence_list with
  | [] => of_decimal 0.0
  | _ =>
      let total := py_sum (map total_score evidence_list) in
      total / of_Z (Z.of_nat (length evidence_list))
  end.

(** [EvidenceScorer.compare_evidence] *)
Definition compare_evidence (evidence1 evidence2 : Evidence) : string :=
  let score1 := total_score evidence1 in
  let score2 := total_score evidence2 in
  if score1 >? score2 * of_decimal 1.5 then "evidence1_dominates"
  else if score2 >? score1 * of_decimal 1.5 then "evidence2_dominates"
  else if score1 >? score2 then "evidence1_wins"
  else if score2 >? score1 then "evidence2_wins"
  else "draw".

(** ** EvidenceValidator *)

(** What a rule returns: [(is_valid, issue)]. *)
Definition RuleResult : Type := (bool * option string)%type.

(** [not evidence.extracted_data]: true for [None] and for the empty dict. *)
Definition not_extracted_data (d : option ExtractedData) : bool :=
  match d with
  | None => true
  | Some [] => true
  | Some (_ :: _) => false
  end.

(** [EvidenceValidator._check_has_source] *)
Definition _check_has_source (evidence : Evidence) : RuleResult :=
  if String.eqb (source evidence) "" || String.eqb (source evidence) "unknown"
  then (false, Some "No valid source provided")
  else (true, None).

(** [EvidenceValidator._check_has_data] *)
Definition _check_has_data (evidence : Evidence) : RuleResult :=
  if not_extracted_data (extracted_data evidence) then
    let has_numbers := PyStr.truthy (PyStr.re_search_digits (claim evidence)) in
    let has_specifics :=
      existsb (fun word => PyStr.contains word (PyStr.lower (claim evidence)))
              ["study"; "report"; "analysis"; "data"] in
    if negb has_numbers && negb has_specifics
    then (false, Some "No specific data or metrics provided")
    else (true, None)
  else (true, None).

(** [EvidenceValidator._check_not_pure_opinion] *)
Definition _check_not_pure_opinion (evidence : Evidence) : RuleResult :=
  let opinion_signals :=
    ["i think"; "i believe"; "in my opinion"; "i feel"; "seems like"] in
  let claim_lower := PyStr.lower (claim evidence) in
  if existsb (fun signal => PyStr.contains signal claim_lower) opinion_signals
  then (false, Some "Evidence appears to be opinion-based")
  else (true, None).

(** [EvidenceValidator._check_recency] *)
Definition _check_recency (evidence : Evidence) : RuleResult :=
  if recency_score evidence <? of_decimal 0.3
  then (false, Some "Evidence may be outdated")
  else (true, None).

(** [EvidenceValidator._check_credibility] *)
Definition _check_credibility (evidence : Evidence) : RuleResult :=
  if credibility_score evidence <? of_decimal 0.3
  then (false, Some "Source has low credibility")
  else (true, None).

(** [self.validation_rules], in the insertion order of the dict. *)
Definition validation_rules : list (string * (Evidence -> RuleResult)) :=
  [ ("has_source", _check_has_source);
    ("has_data", _check_has_data);
    ("not_opinion", _check_not_pure_opinion);
    ("recent_enough", _check_recency);
    ("credible_source", _check_credibility) ].

(** The loop of [validate_evidence]: every rule runs, the issue of each
    failed rule is appended. *)
Fixpoint run_rules (rules : list (string * (Evidence -> RuleResult)))
    (evidence : Evidence) (issues : list (option string)) : list (option string) :=
  match rules with
  | [] => issues
  | (_, rule_func) :: rest =>
      let '(is_valid, issue) := rule_func evidence in
      run_rules rest evidence (if is_valid then issues else issues ++ [issue])
  end.

(** [EvidenceValidator.validate_evidence]: [(is_valid, list_of_issues)]. *)
Definition validate_evidence (evidence : Evidence) : bool * list (option string) :=
  let issues := run_rules validation_rules evidence [] in
  (Nat.eqb (length issues) 0, issues).

End EvidenceSystem.

Arguments Evidence num : clear implicits.
Arguments mkEvidence {num}.

(* ================================================================== *)
(** * Exceptions *)
(* ================================================================== *)

Inductive Exception : Type :=
| KeyError (key : string)
| IndexError (what : string)
| AttributeError (name : string).

(** The outcome of a call: a value, or a raised exception. *)
Inductive Result (A : Type) : Type :=
| Ok (a : A)
| Raise (e : Exception).

Arguments Ok {A} a.
Arguments Raise {A} e.

Definition result_bind {A B} (r : Result A) (k : A -> Result B) : Result B :=
  match r with
  | Ok a => k a
  | Raise e => Raise e
  end.

Declare Scope result_scope.
Delimit Scope result_scope with result.
Notation "x <- r ;; k" := (result_bind r (fun x => k))
  (at level 61, r at next level, right associativity) : result_scope.

(** [d[key]] on an optional entry of a dict. *)
Definition subscript {A} (key : string) (entry : option A) : Result A :=
  match entry with
  | Some a => Ok a
  | None => Raise (KeyError key)
  end.

(** [d.get(key, default)] *)
Definition get_default {A} (entry : option A) (default : A) : A :=
  match entry with
  | Some a => a
  | None => default
  end.

(** A left-to-right [for] loop whose body may raise. *)
Fixpoint for_each {A S} (body : S -> A -> Result S) (xs : list A) (s : S) : Result S :=
  match xs with
  | [] => Ok s
  | x :: rest => result_bind (body s x) (for_each body rest)
  end.

(* ================================================================== *)
(** * agents/judge_agent.py *)
(* ================================================================== *)

Inductive VerdictType : Type := APPROVED | REJECTED | CONDITIONAL | NEEDS_RESEARCH.

Inductive JudgePersonality : Type := PRAGMATIST | INNOVATOR | USER_ADVOCATE.

(** The language model a judge holds ([ChatAnthropic(model=..., temperature=...)]). *)
Record Llm : Type := mkLlm {
  llm_model : string;
  llm_temperature : Q
}.

Definition verdict_eqb (a b : VerdictType) : bool :=
  match a, b with
  | APPROVED, APPROVED | REJECTED, REJECTED
  | CONDITIONAL, CONDITIONAL | NEEDS_RESEARCH, NEEDS_RESEARCH => true
  | _, _ => false
  end.

Section Judge.
Context {num : Type} {N : PyNumber num}.
(** The evidence summary handed to the judge; its code never looks inside. *)
Context {EvidenceSummary : Type}.
Local Open Scope string_scope.
Local Open Scope num_scope.

(** An argument of the transcript: a dict, each key present or absent. *)
Record Argument : Type := mkArgument {
  evidence_tier : option Z;
  categories : option (list string);
  impact : option num;
  severity : option string;
  issue : option string;
  cost_estimate : option num;
  summary : option string
}.

(** The [debate_transcript] dict. *)
Record Transcript : Type := mkTranscript {
  pro_arguments : option (list Argument);
  con_arguments : option (list Argument)
}.

(** [@dataclass class Verdict].  [key_factors] keeps each category with its
    score; the source renders the pair as the text [f"{k}: {v:.1f}"]. *)
Record Verdict : Type := mkVerdict {
  decision : VerdictType;
  confidence : num;
  key_factors : list (string * num);
  winning_arguments : list string;
  losing_arguments : list string;
  alternative_suggestion : option string;
  estimated_savings : option num;
  implementation_recommendation : string;
  risk_assessment : string
}.

(** A dict from category names to numbers, in insertion order. *)
Definition Scores : Type := list (string * num).

(** [key in d] *)
Definition dict_mem (key : string) (d : Scores) : bool :=
  existsb (fun kv => String.eqb (fst kv) key) d.

(** [d.get(key, default)] *)
Fixpoint dict_get (d : Scores) (key : string) (default : num) : num :=
  match d with
  | [] => default
  | (k, v) :: rest => if String.eqb k key then v else dict_get rest key default
  end.

(** [d[key] = f(d[key])] for a key of the dict. *)
Definition dict_update (d : Scores) (key : string) (f : num -> num) : Scores :=
  map (fun kv => if String.eqb (fst kv) key then (fst kv, f (snd kv)) else kv) d.

(** [JudgeAgent._get_scoring_weights] *)
Definition _get_scoring_weights (personality : JudgePersonality) : Scores :=
  match personality with
  | PRAGMATIST =>
      [ ("technical_feasibility", of_decimal 0.30);
        ("roi", of_decimal 0.35);
        ("risk", of_decimal 0.20);
        ("innovation", of_decimal 0.05);
        ("user_impact", of_decimal 0.10) ]
  | INNOVATOR =>
      [ ("technical_feasibility", of_decimal 0.15);
        ("roi", of_decimal 0.20);
        ("risk", of_decimal 0.10);
        ("innovation", of_decimal 0.35);
        ("user_impact", of_decimal 0.20) ]
  | USER_ADVOCATE =>
      [ ("technical_feasibility", of_decimal 0.15);
        ("roi", of_decimal 0.15);
        ("risk", of_decimal 0.10);
        ("innovation", of_decimal 0.10);
        ("user_impact", of_decimal 0.50) ]
  end.

(** [class JudgeAgent]: the attributes [__init__] sets. *)
Record JudgeAgent : Type := mkJudgeAgent {
  personality : JudgePersonality;
  llm : Llm;
  scoring_weights : Scores
}.

(** [JudgeAgent.__init__(personality, llm=None)] *)
Definition JudgeAgent_init (personality : JudgePersonality) (llm : option Llm) : JudgeAgent :=
  {| personality := personality;
     llm := get_default llm (mkLlm "claude-3-5-sonnet-20241022" 0.2);
     scoring_weights := _get_scoring_weights personality |}.

(** The [if]/[elif] chain on [arg["evidence_tier"]]. *)
Definition tier_weight (evidence_tier : Z) : num :=
  if Z.eqb evidence_tier 1 then of_decimal 1.0
  else if Z.eqb evidence_tier 2 then of_decimal 0.7
  else if Z.eqb evidence_tier 3 then of_decimal 0.4
  else of_decimal 0.2.

(** One iteration of a loop over arguments; [apply] is [+=] for the PRO
    loop and [-=] for the CON loop. *)
Definition score_argument (apply : num -> num -> num) (scores : Scores) (arg : Argument)
  : Result Scores :=
  (t <- subscript "evidence_tier" (evidence_tier arg) ;;
   let weight := tier_weight t in
   for_each
     (fun scores category =>
        if dict_mem category scores then
          i <- subscript "impact" (impact arg) ;;
          Ok (dict_update scores category (fun s => apply s (i * weight)))
        else Ok scores)
     (get_default (categories arg) [])
     scores)%result.

(** [JudgeAgent.evaluate_debate] *)
Definition evaluate_debate (pro_arguments con_arguments : list Argument)
    (evidence : EvidenceSummary) : Result Scores :=
  let scores : Scores :=
    [ ("technical_feasibility", of_Z 0);
      ("roi", of_Z 0);
      ("risk", of_Z 0);
      ("innovation", of_Z 0);
      ("user_impact", of_Z 0) ] in
  (scores <- for_each (score_argument num_add) pro_arguments scores ;;
   scores <- for_each (score_argument num_sub) con_arguments scores ;;
   Ok (map (fun kv => (fst kv, py_max (of_Z 0) (py_min (of_Z 100) (snd kv + of_Z 50))))
           scores))%result.

(** [JudgeAgent.calculate_final_score] *)
Definition calculate_final_score (self : JudgeAgent) (scores : Scores) : num :=
  fold_left
    (fun final_score kv =>
       final_score + snd kv * dict_get (scoring_weights self) (fst kv) (of_Z 0))
    scores (of_Z 0).

Definition critical_blockers : list string :=
  [ "security_breach_risk";
    "legal_violation";
    "data_loss_potential";
    "negative_roi_guaranteed" ].

(** [x in xs] for a list of strings. *)
Definition list_mem (x : string) (xs : list string) : bool :=
  existsb (String.eqb x) xs.

(** [JudgeAgent.determine_verdict] *)
Definition determine_verdict (final_score : num) (critical_issues : list string)
  : VerdictType :=
  if match critical_issues with [] => false | _ :: _ => true end
     && existsb (fun blocker => list_mem blocker critical_issues) critical_blockers
  then REJECTED
  else if final_score >=? of_Z 70 then APPROVED
  else if final_score >=? of_Z 50 then CONDITIONAL
  else if final_score >=? of_Z 40 then NEEDS_RESEARCH
  else REJECTED.

Definition alternatives : list (string * string) :=
  [ ("too_complex", "Consider a simpler MVP version focusing on core functionality");
    ("too_expensive", "Explore third-party solutions or open-source alternatives");
    ("low_user_value", "Conduct user research to identify actual pain points");
    ("high_risk", "Implement a small prototype to validate assumptions");
    ("poor_roi", "Focus on quick wins with immediate impact");
    ("maintenance_burden", "Consider a buy-vs-build analysis") ].

(** The first suggestion whose key occurs in [issue.lower()]. *)
Fixpoint first_alternative (table : list (string * string)) (issue : string) : option string :=
  match table with
  | [] => None
  | (key, suggestion) :: rest =>
      if PyStr.contains key (PyStr.lower issue) then Some suggestion
      else first_alternative rest issue
  end.

(** [JudgeAgent.generate_alternative] *)
Fixpoint generate_alternative (requirement : string) (issues : list string) : option string :=
  match issues with
  | [] => Some "Consider gathering more data before proceeding"
  | issue :: rest =>
      match first_alternative alternatives issue with
      | Some suggestion => Some suggestion
      | None => generate_alternative requirement rest
      end
  end.

(** [JudgeAgent._get_implementation_recommendation] *)
Definition _get_implementation_recommendation (verdict : VerdictType) : string :=
  match verdict with
  | APPROVED => "Proceed with implementation, but monitor adoption closely"
  | CONDITIONAL => "Address identified issues before proceeding"
  | NEEDS_RESEARCH => "Conduct further research and user validation"
  | REJECTED => "Do not proceed. Consider the suggested alternative"
  end.

(** [JudgeAgent._assess_risk_level] *)
Definition _assess_risk_level (scores : Scores) : string :=
  let risk_score := of_Z 100 - dict_get scores "risk" (of_Z 50) in
  if risk_score >=? of_Z 70 then "HIGH RISK ⚠️"
  else if risk_score >=? of_Z 40 then "MODERATE RISK ⚡"
  else "LOW RISK ✅".

(** [sorted(args, key=lambda x: x.get("impact", 0), reverse=True)]: a stable
    sort, so an argument goes before the first one whose impact is not
    greater than its own. *)
Definition impact_key (arg : Argument) : num := get_default (impact arg) (of_Z 0).

Fixpoint insert_by_impact (arg : Argument) (sorted : list Argument) : list Argument :=
  match sorted with
  | [] => [arg]
  | other :: rest =>
      if impact_key arg <? impact_key other
      then other :: insert_by_impact arg rest
      else arg :: sorted
  end.

Definition sorted_by_impact (args : list Argument) : list Argument :=
  fold_right insert_by_impact [] args.

(** The comprehension [[arg["issue"] for arg in con_arguments
    if arg.get("severity") == "critical"]]. *)
Fixpoint collect_critical_issues (con_arguments : list Argument) : Result (list string) :=
  match con_arguments with
  | [] => Ok []
  | arg :: rest =>
      match severity arg with
      | Some s =>
          if String.eqb s "critical" then
            (i <- subscript "issue" (issue arg) ;;
             issues <- collect_critical_issues rest ;;
             Ok (i :: issues))%result
          else collect_critical_issues rest
      | None => collect_critical_issues rest
      end
  end.

(** [JudgeAgent.render_verdict] *)
Definition render_verdict (self : JudgeAgent) (requirement : string)
    (debate_transcript : Transcript) (evidence_summary : EvidenceSummary)
  : Result Verdict :=
  let pro_arguments := get_default (pro_arguments debate_transcript) [] in
  let con_arguments := get_default (con_arguments debate_transcript) [] in
  (scores <- evaluate_debate pro_arguments con_arguments evidence_summary ;;
   let final_score := calculate_final_score self scores in
   critical_issues <- collect_critical_issues con_arguments ;;
   let verdict_type := determine_verdict final_score critical_issues in
   let alternative :=
     if verdict_eqb verdict_type REJECTED || verdict_eqb verdict_type CONDITIONAL
     then generate_alternative requirement critical_issues
     else None in
   let savings :=
     if verdict_eqb verdict_type REJECTED then
       let cost_estimates :=
         map (fun arg => get_default (cost_estimate arg) (of_Z 0)) con_arguments in
       match cost_estimates with
       | [] => None
       | _ :: _ => Some (py_sum cost_estimates)
       end
     else None in
   let sorted_pro := sorted_by_impact pro_arguments in
   let sorted_con := sorted_by_impact con_arguments in
   let winning_args :=
     if verdict_eqb verdict_type REJECTED then firstn 3 sorted_con else firstn 3 sorted_pro in
   let losing_args :=
     if verdict_eqb verdict_type REJECTED then firstn 3 sorted_pro else firstn 3 sorted_con in
   Ok {| decision := verdict_type;
         confidence := py_min (of_Z 100) (num_abs (final_score - of_Z 50) * of_Z 2);
         key_factors := scores;
         winning_arguments := map (fun arg => get_default (summary arg) "") winning_args;
         losing_arguments := map (fun arg => get_default (summary arg) "") losing_args;
         alternative_suggestion := alternative;
         estimated_savings := savings;
         implementation_recommendation := _get_implementation_recommendation verdict_type;
         risk_assessment := _assess_risk_level scores |})%result.

(** The local [final_score] of [render_verdict]. *)
Definition render_final_score (self : JudgeAgent) (debate_transcript : Transcript)
    (evidence_summary : EvidenceSummary) : Result num :=
  let pro_arguments := get_default (pro_arguments debate_transcript) [] in
  let con_arguments := get_default (con_arguments debate_transcript) [] in
  (scores <- evaluate_debate pro_arguments con_arguments evidence_summary ;;
   Ok (calculate_final_score self scores))%result.

End Judge.

Arguments Argument num : clear implicits.
Arguments Transcript num : clear implicits.
Arguments Verdict num : clear implicits.
Arguments JudgeAgent num : clear implicits.
Arguments Scores num : clear implicits.

(* ================================================================== *)
(** * arena/debate_orchestrator.py *)
(* ================================================================== *)

(** [class DebatePhase(Enum)] *)
Inductive DebatePhase : Type :=
| PRE_BATTLE
| OPENING_STATEMENTS
| EVIDENCE_DUEL
| CROSS_EXAMINATION
| FINAL_ARGUMENTS
| JUDGMENT
| COMPLETE.

(** The values the dicts of the orchestrator hold.  [VNum] is an [int] or an
    integer-valued [float] (the confidences), [VReal] any other [float]. *)
Inductive Value : Type :=
| VNone
| VBool (b : bool)
| VNum (z : Z)
| VReal (q : Q)
| VStr (s : string)
| VDict (entries : list (string * Value)).

Definition Dict : Type := list (string * Value).

(** [d[key]] *)
Fixpoint dict_lookup (d : Dict) (key : string) : option Value :=
  match d with
  | [] => None
  | (k, v) :: rest => if String.eqb k key then Some v else dict_lookup rest key
  end.

(** An agent of a team, or the judge: the code reads its [role] only. *)
Record Agent : Type := mkAgent { role : string }.

(** [@dataclass class DebateState]; [start_time] is a wall-clock reading. *)
Record DebateState : Type := mkDebateState {
  phase : DebatePhase;
  round_number : Z;
  pro_confidence : Z;
  con_confidence : Z;
  pro_evidence_score : Z;
  con_evidence_score : Z;
  current_speaker : option string;
  transcript : list Dict;
  evidence_presented : list Dict;
  objections : list Dict;
  dramatic_moments : list Dict
}.

(** [DebateState()]: the defaults of the dataclass. *)
Definition DebateState_default : DebateState :=
  {| phase := PRE_BATTLE;
     round_number := 0;
     pro_confidence := 50;
     con_confidence := 50;
     pro_evidence_score := 0;
     con_evidence_score := 0;
     current_speaker := None;
     transcript := [];
     evidence_presented := [];
     objections := [];
     dramatic_moments := [] |}.

(** [@dataclass class DebateEvent] (the second class of that name, which
    is the one [_emit_event] builds); [timestamp] is a wall-clock reading. *)
Record DebateEvent : Type := mkDebateEvent {
  event_type : string;
  agent : string;
  content : Dict;
  visual_effect : option string;
  sound_effect : option string;
  importance : Z
}.

(** [self.config] *)
Record Config : Type := mkConfig {
  max_rounds : Z;
  time_per_round : Z;
  evidence_weight_multiplier : Q;
  objection_threshold : Q;
  dramatic_moment_threshold : Q;
  enable_special_effects : bool;
  streaming_delay : Q
}.

(** The default configuration of [__init__]. *)
Definition default_config : Config :=
  {| max_rounds := 4;
     time_per_round := 45;
     evidence_weight_multiplier := 1.5;
     objection_threshold := 0.7;
     dramatic_moment_threshold := 20;
     enable_special_effects := true;
     streaming_delay := 0.5 |}.

(** One entry of the optional [debate_config] dict. *)
Inductive ConfigEntry : Type :=
| Set_max_rounds (v : Z)
| Set_time_per_round (v : Z)
| Set_evidence_weight_multiplier (v : Q)
| Set_objection_threshold (v : Q)
| Set_dramatic_moment_threshold (v : Q)
| Set_enable_special_effects (v : bool)
| Set_streaming_delay (v : Q).

Definition config_set (c : Config) (e : ConfigEntry) : Config :=
  match e with
  | Set_max_rounds v =>
      mkConfig v (time_per_round c) (evidence_weight_multiplier c) (objection_threshold c)
               (dramatic_moment_threshold c) (enable_special_effects c) (streaming_delay c)
  | Set_time_per_round v =>
      mkConfig (max_rounds c) v (evidence_weight_multiplier c) (objection_threshold c)
               (dramatic_moment_threshold c) (enable_special_effects c) (streaming_delay c)
  | Set_evidence_weight_multiplier v =>
      mkConfig (max_rounds c) (time_per_round c) v (objection_threshold c)
               (dramatic_moment_threshold c) (enable_special_effects c) (streaming_delay c)
  | Set_objection_threshold v =>
      mkConfig (max_rounds c) (time_per_round c) (evidence_weight_multiplier c) v
               (dramatic_moment_threshold c) (enable_special_effects c) (streaming_delay c)
  | Set_dramatic_moment_threshold v =>
      mkConfig (max_rounds c) (time_per_round c) (evidence_weight_multiplier c)
               (objection_threshold c) v (enable_special_effects c) (streaming_delay c)
  | Set_enable_special_effects v =>
      mkConfig (max_rounds c) (time_per_round c) (evidence_weight_multiplier c)
               (objection_threshold c) (dramatic_moment_threshold c) v (streaming_delay c)
  | Set_streaming_delay v =>
      mkConfig (max_rounds c) (time_per_round c) (evidence_weight_multiplier c)
               (objection_threshold c) (dramatic_moment_threshold c)
               (enable_special_effects c) v
  end.

(** [self.config.update(debate_config)] *)
Definition config_update (c : Config) (debate_config : list ConfigEntry) : Config :=
  fold_left config_set debate_config c.

(** [class DebateOrchestrator]: its attributes.  [event_queue] holds the
    events put on the queue so far, oldest first; [primary_pro] and
    [primary_con] do not exist before [_initialize_debate] sets them. *)
Record DebateOrchestrator : Type := mkDebateOrchestrator {
  pro_agents : list Agent;
  con_agents : list Agent;
  judge_agent : Agent;
  state : DebateState;
  config : Config;
  event_queue : list DebateEvent;
  primary_pro : option Agent;
  primary_con : option Agent
}.

(** [DebateOrchestrator.__init__] *)
Definition DebateOrchestrator_init (pro_agents con_agents : list Agent) (judge_agent : Agent)
    (debate_config : option (list ConfigEntry)) : DebateOrchestrator :=
  {| pro_agents := pro_agents;
     con_agents := con_agents;
     judge_agent := judge_agent;
     state := DebateState_default;
     config := match debate_config with
               | Some (e :: es) => config_update default_config (e :: es)
               | _ => default_config
               end;
     event_queue := [];
     primary_pro := None;
     primary_con := None |}.

(** ** The state the methods run in *)

(** What a method can touch: the orchestrator object, the position of the
    random generator in its stream of draws, and the time the run has paused
    in all, in seconds. *)
Record World : Type := mkWorld {
  self : DebateOrchestrator;
  draws : nat;
  slept : Q
}.

(** A method: from a world to its result and the world it leaves, or to an
    exception. *)
Definition M (A : Type) : Type := World -> Result (A * World).

Definition ret {A} (a : A) : M A := fun w => Ok (a, w).

Definition bind {A B} (m : M A) (k : A -> M B) : M B :=
  fun w => match m w with
           | Ok (a, w') => k a w'
           | Raise e => Raise e
           end.

Definition raise {A} (e : Exception) : M A := fun _ => Raise e.

Declare Scope orch_scope.
Delimit Scope orch_scope with orch.
Notation "x <- m ;; k" := (bind m (fun x => k))
  (at level 61, m at next level, right associativity) : orch_scope.
Notation "m ;; k" := (bind m (fun _ => k))
  (at level 61, right associativity) : orch_scope.

Definition get_self : M DebateOrchestrator := fun w => Ok (self w, w).

Definition get_state : M DebateState := fun w => Ok (state (self w), w).

Definition get_slept : M Q := fun w => Ok (slept w, w).

Definition set_self (o : DebateOrchestrator) : M unit :=
  fun w => Ok (tt, mkWorld o (draws w) (slept w)).

(** [await asyncio.sleep(delay)] *)
Definition asyncio_sleep (delay : Q) : M unit :=
  fun w => Ok (tt, mkWorld (self w) (draws w) (slept w + delay)%Q).

Definition with_state (o : DebateOrchestrator) (st : DebateState) : DebateOrchestrator :=
  mkDebateOrchestrator (pro_agents o) (con_agents o) (judge_agent o) st (config o)
                       (event_queue o) (primary_pro o) (primary_con o).

Definition with_event_queue (o : DebateOrchestrator) (q : list DebateEvent)
  : DebateOrchestrator :=
  mkDebateOrchestrator (pro_agents o) (con_agents o) (judge_agent o) (state o) (config o)
                       q (primary_pro o) (primary_con o).

Definition with_primaries (o : DebateOrchestrator) (p c : option Agent)
  : DebateOrchestrator :=
  mkDebateOrchestrator (pro_agents o) (con_agents o) (judge_agent o) (state o) (config o)
                       (event_queue o) p c.

(** An assignment to attributes of [self.state]. *)
Definition modify_state (f : DebateState -> DebateState) : M unit :=
  fun w => Ok (tt, mkWorld (with_state (self w) (f (state (self w)))) (draws w) (slept w)).

Definition set_phase (p : DebatePhase) (st : DebateState) : DebateState :=
  mkDebateState p (round_number st) (pro_confidence st) (con_confidence st)
                (pro_evidence_score st) (con_evidence_score st) (current_speaker st)
                (transcript st) (evidence_presented st) (objections st)
                (dramatic_moments st).

Definition set_round_number (n : Z) (st : DebateState) : DebateState :=
  mkDebateState (phase st) n (pro_confidence st) (con_confidence st)
                (pro_evidence_score st) (con_evidence_score st) (current_speaker st)
                (transcript st) (evidence_presented st) (objections st)
                (dramatic_moments st).

Definition set_pro_confidence (c : Z) (st : DebateState) : DebateState :=
  mkDebateState (phase st) (round_number st) c (con_confidence st)
                (pro_evidence_score st) (con_evidence_score st) (current_speaker st)
                (transcript st) (evidence_presented st) (objections st)
                (dramatic_moments st).

Definition set_con_confidence (c : Z) (st : DebateState) : DebateState :=
  mkDebateState (phase st) (round_number st) (pro_confidence st) c
                (pro_evidence_score st) (con_evidence_score st) (current_speaker st)
                (transcript st) (evidence_presented st) (objections st)
                (dramatic_moments st).

Definition set_pro_evidence_score (c : Z) (st : DebateState) : DebateState :=
  mkDebateState (phase st) (round_number st) (pro_confidence st) (con_confidence st)
                c (con_evidence_score st) (current_speaker st)
                (transcript st) (evidence_presented st) (objections st)
                (dramatic_moments st).

Definition set_con_evidence_score (c : Z) (st : DebateState) : DebateState :=
  mkDebateState (phase st) (round_number st) (pro_confidence st) (con_confidence st)
                (pro_evidence_score st) c (current_speaker st)
                (transcript st) (evidence_presented st) (objections st)
                (dramatic_moments st).

Definition set_dramatic_moments (d : list Dict) (st : DebateState) : DebateState :=
  mkDebateState (phase st) (round_number st) (pro_confidence st) (con_confidence st)
                (pro_evidence_score st) (con_evidence_score st) (current_speaker st)
                (transcript st) (evidence_presented st) (objections st) d.

(** [self.primary_pro] and [self.primary_con], read. *)
Definition get_primary_pro : M Agent :=
  fun w => match primary_pro (self w) with
           | Some a => Ok (a, w)
           | None => Raise (AttributeError "primary_pro")
           end.

Definition get_primary_con : M Agent :=
  fun w => match primary_con (self w) with
           | Some a => Ok (a, w)
           | None => Raise (AttributeError "primary_con")
           end.

(** [str(n)] of an [int]. *)
Definition str_of_Z (n : Z) : string := DecimalString.NilZero.string_of_int (Z.to_int n).

Section Orchestrator.
(** The random generator: the stream of uniform draws from [[0, 1)] that the
    module [random] turns into its results. *)
Variable rng : nat -> Q.
(** The clock: [(datetime.now() - self.state.start_time).seconds] when the
    pauses of the run add up to the given time; the rest of what passed is
    the time the machine took. *)
Variable clock : Q -> Z.
Local Open Scope string_scope.
Local Open Scope Z_scope.
Local Open Scope orch_scope.

(** [random.random()] *)
Definition random_random : M Q :=
  fun w => Ok (rng (draws w), mkWorld (self w) (S (draws w)) (slept w)).

(** [random.randint(a, b)]: one draw, spread evenly over [a..b]. *)
Definition random_randint (a b : Z) : M Z :=
  u <- random_random ;;
  ret (a + Qfloor (u * inject_Z (b - a + 1))).

(** [random.choice(seq)]: [IndexError] on an empty sequence, otherwise one
    draw spread evenly over the positions. *)
Definition random_choice {A} (seq : list A) : M A :=
  match seq with
  | [] => raise (IndexError "Cannot choose from an empty sequence")
  | _ :: _ =>
      u <- random_random ;;
      match nth_error seq (Z.to_nat (Qfloor (u * inject_Z (Z.of_nat (length seq))))) with
      | Some a => ret a
      | None => raise (IndexError "list index out of range")
      end
  end.

(** [DebateOrchestrator._emit_event]: the event joins the queue, and the
    run pauses for the streaming delay when the special effects are on. *)
Definition _emit_event (event_type agent : string) (content : Dict)
    (visual_effect sound_effect : option string) (importance : Z) : M unit :=
  fun w =>
    let event := mkDebateEvent event_type agent content visual_effect sound_effect importance in
    Ok (tt, mkWorld (with_event_queue (self w) (event_queue (self w) ++ [event])) (draws w)
              (if enable_special_effects (config (self w))
               then slept w + streaming_delay (config (self w))
               else slept w)%Q).

(** [DebateOrchestrator._update_confidence] *)
Definition _update_confidence : M unit :=
  st <- get_state ;;
  _emit_event "confidence_update" "system"
    [ ("pro_confidence", VNum (pro_confidence st));
      ("con_confidence", VNum (con_confidence st)) ]
    (Some "meter_change") None 1.

(** [DebateOrchestrator._get_agent_argument] *)
Definition _get_agent_argument (agent : Agent) (prompt : string) : M string :=
  ret (role agent ++ "'s argument about: " ++ prompt)%string.

(** The evidence dict of [_gather_evidence]. *)
Record GatheredEvidence : Type := mkGatheredEvidence {
  ev_source : string;
  ev_claim : string;
  ev_tier : Z;
  ev_relevance : Q;
  ev_url : string
}.

Definition evidence_dict (e : GatheredEvidence) : Value :=
  VDict [ ("source", VStr (ev_source e));
          ("claim", VStr (ev_claim e));
          ("tier", VNum (ev_tier e));
          ("relevance", VReal (ev_relevance e));
          ("url", VStr (ev_url e)) ].

(** [DebateOrchestrator._gather_evidence] *)
Definition _gather_evidence (agent : Agent) (requirement stance : string)
  : M GatheredEvidence :=
  tier <- random_randint 1 4 ;;
  relevance <- random_random ;;
  ret {| ev_source := "Research Database";
         ev_claim := ("Evidence "
                      ++ (if String.eqb stance "support" then "supporting" else "opposing")
                      ++ " " ++ requirement)%string;
         ev_tier := tier;
         ev_relevance := relevance;
         ev_url := "https://example.com/evidence" |}.

(** [DebateOrchestrator._present_evidence] *)
Definition _present_evidence (agent : Agent) (evidence : GatheredEvidence) (team : string)
  : M unit :=
  let impact := (5 - ev_tier evidence) * 5 in
  _emit_event "evidence_presented" (role agent)
    [ ("evidence", evidence_dict evidence);
      ("team", VStr team);
      ("impact", VNum impact) ]
    (Some ("evidence_tier_" ++ str_of_Z (ev_tier evidence))%string) None
    (Z.min 5 (6 - ev_tier evidence)) ;;
  (if String.eqb team "PRO" then
     modify_state (fun st =>
       set_pro_evidence_score (pro_evidence_score st + impact)
         (set_pro_confidence (pro_confidence st + impact) st))
   else
     modify_state (fun st =>
       set_con_evidence_score (con_evidence_score st + impact)
         (set_con_confidence (con_confidence st + impact) st))) ;;
  _update_confidence.

(** [DebateOrchestrator._generate_objection] *)
Definition _generate_objection (agent : Agent) (evidence : GatheredEvidence) : M string :=
  ret "This evidence is flawed because...".

(** [DebateOrchestrator._attempt_objection] *)
Definition _attempt_objection (objecting_agent : Agent) (evidence : GatheredEvidence)
    (team : string) : M unit :=
  r <- random_random ;;
  o <- get_self ;;
  if Qltb (objection_threshold (config o)) r then ret tt
  else
    objection <- _generate_objection objecting_agent evidence ;;
    _emit_event "objection_raised" (role objecting_agent)
      [ ("objection", VStr "OBJECTION!");
        ("reason", VStr objection);
        ("target_evidence", evidence_dict evidence);
        ("team", VStr team) ]
      (Some "objection_splash") (Some "objection_shout") 4 ;;
    (if String.eqb team "PRO" then
       modify_state (fun st => set_con_confidence (con_confidence st - 10) st)
     else
       modify_state (fun st => set_pro_confidence (pro_confidence st - 10) st)) ;;
    _update_confidence.

(** [DebateOrchestrator._check_dramatic_moment] *)
Definition _check_dramatic_moment : M unit :=
  st <- get_state ;;
  o <- get_self ;;
  let confidence_diff := Z.abs (pro_confidence st - con_confidence st) in
  if Qltb (dramatic_moment_threshold (config o)) (inject_Z confidence_diff) then
    let leading_team :=
      if con_confidence st <? pro_confidence st then "PRO" else "CON" in
    _emit_event "dramatic_moment" "system"
      [ ("type", VStr "momentum_shift");
        ("leading_team", VStr leading_team);
        ("confidence_gap", VNum confidence_diff);
        ("message", VStr (leading_team ++ " team takes commanding lead!")%string) ]
      (Some "screen_shake") (Some "crowd_gasp") 4 ;;
    modify_state (fun st =>
      set_dramatic_moments
        (dramatic_moments st ++
           [ [ ("round", VNum (round_number st));
               ("type", VStr "momentum_shift");
               ("details", VStr (leading_team ++ " dominance")%string) ] ])
        st)
  else ret tt.

(** [DebateOrchestrator._initialize_debate] *)
Definition _initialize_debate (requirement : string) : M unit :=
  modify_state (set_phase PRE_BATTLE) ;;
  _emit_event "phase_change" "system"
    [ ("phase", VStr "pre_battle");
      ("message", VStr ("Analyzing requirement: " ++ requirement)%string);
      ("action", VStr "Agents preparing arguments...") ]
    (Some "fade_in") None 1 ;;
  o <- get_self ;;
  asyncio_sleep (streaming_delay (config o) * 2)%Q ;;
  o <- get_self ;;
  p <- random_choice (pro_agents o) ;;
  c <- random_choice (con_agents o) ;;
  o <- get_self ;;
  set_self (with_primaries o (Some p) (Some c)) ;;
  _emit_event "agent_selection" "system"
    [ ("pro_speaker", VStr (role p));
      ("con_speaker", VStr (role c));
      ("message", VStr "Champions selected for battle!") ]
    (Some "spotlight") None 3.

(** [DebateOrchestrator._run_opening_statements] *)
Definition _run_opening_statements (requirement : string) : M unit :=
  modify_state (set_phase OPENING_STATEMENTS) ;;
  modify_state (set_round_number 1) ;;
  _emit_event "phase_change" "system"
    [ ("phase", VStr "opening_statements");
      ("round", VNum 1);
      ("message", VStr "ROUND 1: Opening Statements") ]
    (Some "banner_slide") (Some "bell_ring") 1 ;;
  p <- get_primary_pro ;;
  pro_opening <- _get_agent_argument p
    ("Make a compelling opening statement for why we should implement: " ++ requirement)%string ;;
  _emit_event "agent_speaks" (role p)
    [ ("team", VStr "PRO");
      ("argument", VStr pro_opening);
      ("confidence_impact", VNum 5) ]
    (Some "slide_left") None 1 ;;
  modify_state (fun st => set_pro_confidence (pro_confidence st + 5) st) ;;
  _update_confidence ;;
  c <- get_primary_con ;;
  con_opening <- _get_agent_argument c
    ("Make a compelling opening statement for why we should NOT implement: "
       ++ requirement)%string ;;
  _emit_event "agent_speaks" (role c)
    [ ("team", VStr "CON");
      ("argument", VStr con_opening);
      ("confidence_impact", VNum 5) ]
    (Some "slide_right") None 1 ;;
  modify_state (fun st => set_con_confidence (con_confidence st + 5) st) ;;
  _update_confidence.

(** The first half of a pass of the loop of [_run_evidence_duel]: PRO
    presents evidence, CON may object to it. *)
Definition pro_presents (requirement : string) : M unit :=
  p <- get_primary_pro ;;
  pro_evidence <- _gather_evidence p requirement "support" ;;
  _present_evidence p pro_evidence "PRO" ;;
  if 3 <=? ev_tier pro_evidence then
    c <- get_primary_con ;;
    _attempt_objection c pro_evidence "CON"
  else ret tt.

(** The second half: CON presents evidence, PRO may object to it. *)
Definition con_presents (requirement : string) : M unit :=
  c <- get_primary_con ;;
  con_evidence <- _gather_evidence c requirement "oppose" ;;
  _present_evidence c con_evidence "CON" ;;
  if 3 <=? ev_tier con_evidence then
    p <- get_primary_pro ;;
    _attempt_objection p con_evidence "PRO"
  else ret tt.

(** One pass of the loop of [_run_evidence_duel]. *)
Definition evidence_round (requirement : string) : M unit :=
  pro_presents requirement ;;
  con_presents requirement ;;
  _check_dramatic_moment.

(** [for i in range(n): body] *)
Fixpoint repeat_m (n : nat) (body : M unit) : M unit :=
  match n with
  | O => ret tt
  | S n' => body ;; repeat_m n' body
  end.

(** [DebateOrchestrator._run_evidence_duel] *)
Definition _run_evidence_duel (requirement : string) : M unit :=
  modify_state (set_phase EVIDENCE_DUEL) ;;
  modify_state (set_round_number 2) ;;
  _emit_event "phase_change" "system"
    [ ("phase", VStr "evidence_duel");
      ("round", VNum 2);
      ("message", VStr "ROUND 2: Evidence Duel!") ]
    (Some "lightning_flash") (Some "thunder") 4 ;;
  let evidence_rounds := 3%nat in
  repeat_m evidence_rounds (evidence_round requirement).

(** [DebateOrchestrator._generate_critical_question] *)
Definition _generate_critical_question (agent : Agent) (requirement strategy : string)
  : M string :=
  ret ("Critical question from " ++ role agent ++ " about " ++ requirement)%string.

(** [DebateOrchestrator._respond_to_question] *)
Definition _respond_to_question (agent : Agent) (question : string) : M string :=
  ret (role agent ++ "'s response to: " ++ question)%string.

(** [DebateOrchestrator._evaluate_response] *)
Definition _evaluate_response (response : string) : M string :=
  random_choice ["strong"; "moderate"; "weak"; "evasive"].

(** [DebateOrchestrator._run_cross_examination] *)
Definition _run_cross_examination (requirement : string) : M unit :=
  modify_state (set_phase CROSS_EXAMINATION) ;;
  modify_state (set_round_number 3) ;;
  _emit_event "phase_change" "system"
    [ ("phase", VStr "cross_examination");
      ("round", VNum 3);
      ("message", VStr "ROUND 3: Cross-Examination!") ]
    (Some "split_screen") None 3 ;;
  p <- get_primary_pro ;;
  pro_question <- _generate_critical_question p requirement "challenge_opposition" ;;
  c <- get_primary_con ;;
  _emit_event "critical_question" (role p)
    [ ("question", VStr pro_question);
      ("target", VStr (role c)) ]
    (Some "zoom_in") None 1 ;;
  con_response <- _respond_to_question c pro_question ;;
  effectiveness <- _evaluate_response con_response ;;
  _emit_event "question_response" (role c)
    [ ("response", VStr con_response);
      ("effectiveness", VStr effectiveness) ]
    None None 1 ;;
  con_question <- _generate_critical_question c requirement "expose_weakness" ;;
  _emit_event "critical_question" (role c)
    [ ("question", VStr con_question);
      ("target", VStr (role p)) ]
    (Some "zoom_in") None 1 ;;
  pro_response <- _respond_to_question p con_question ;;
  effectiveness <- _evaluate_response pro_response ;;
  _emit_event "question_response" (role p)
    [ ("response", VStr pro_response);
      ("effectiveness", VStr effectiveness) ]
    None None 1.

(** [DebateOrchestrator._knockout_finish] *)
Definition _knockout_finish (winning_team : string) (winning_agent : Agent) : M unit :=
  _emit_event "dramatic_moment" "system"
    [ ("type", VStr "knockout");
      ("winning_team", VStr winning_team);
      ("message", VStr "KNOCKOUT! Devastating victory!") ]
    (Some "knockout_animation") (Some "knockout_bell") 5 ;;
  finishing_argument <- _get_agent_argument winning_agent
    "Deliver your finishing argument - you've completely dominated this debate!" ;;
  _emit_event "finishing_move" (role winning_agent)
    [ ("argument", VStr finishing_argument);
      ("team", VStr winning_team) ]
    (Some "epic_finish") (Some "victory_fanfare") 5.

(** One pass of the loop of [_normal_final_arguments]. *)
Definition final_argument_of (requirement : string) (agent : Agent) (team : string) : M unit :=
  final_arg <- _get_agent_argument agent
    ("Make your final, most compelling argument about " ++ requirement)%string ;;
  _emit_event "final_argument" (role agent)
    [ ("argument", VStr final_arg);
      ("team", VStr team) ]
    (Some "spotlight_focus") None 1.

(** [DebateOrchestrator._normal_final_arguments] *)
Definition _normal_final_arguments (requirement : string) : M unit :=
  p <- get_primary_pro ;;
  c <- get_primary_con ;;
  final_argument_of requirement p "PRO" ;;
  final_argument_of requirement c "CON".

(** [DebateOrchestrator._run_final_arguments] *)
Definition _run_final_arguments (requirement : string) : M unit :=
  modify_state (set_phase FINAL_ARGUMENTS) ;;
  modify_state (set_round_number 4) ;;
  _emit_event "phase_change" "system"
    [ ("phase", VStr "final_arguments");
      ("round", VNum 4);
      ("message", VStr "ROUND 4: Final Arguments!") ]
    (Some "dramatic_pause") None 4 ;;
  st <- get_state ;;
  if pro_confidence st <? 10 then
    c <- get_primary_con ;;
    _knockout_finish "CON" c
  else if con_confidence st <? 10 then
    p <- get_primary_pro ;;
    _knockout_finish "PRO" p
  else
    _normal_final_arguments requirement.

(** The verdict dict of [_get_judge_verdict]. *)
Record JudgeVerdict : Type := mkJudgeVerdict {
  jv_decision : string;
  jv_confidence : Z;
  jv_reasoning : string;
  jv_alternative : string;
  jv_savings : Z
}.

(** [DebateOrchestrator._get_judge_verdict] *)
Definition _get_judge_verdict (requirement : string) : M JudgeVerdict :=
  st <- get_state ;;
  ret {| jv_decision :=
           if pro_confidence st <? con_confidence st then "REJECTED" else "APPROVED";
         jv_confidence := Z.abs (con_confidence st - pro_confidence st);
         jv_reasoning := "Based on the evidence presented...";
         jv_alternative := "Consider this alternative approach...";
         jv_savings :=
           if pro_confidence st <? con_confidence st then 2100000 else 0 |}.

(** [DebateOrchestrator._run_judgment] *)
Definition _run_judgment (requirement : string) : M JudgeVerdict :=
  modify_state (set_phase JUDGMENT) ;;
  _emit_event "phase_change" "system"
    [ ("phase", VStr "judgment");
      ("message", VStr "The Judge deliberates...") ]
    (Some "gavel_raise") (Some "drum_roll") 5 ;;
  o <- get_self ;;
  asyncio_sleep (streaming_delay (config o) * 3)%Q ;;
  verdict <- _get_judge_verdict requirement ;;
  o <- get_self ;;
  let rejected := String.eqb (jv_decision verdict) "REJECTED" in
  _emit_event "verdict_rendered" (role (judge_agent o))
    [ ("verdict", VStr (jv_decision verdict));
      ("confidence", VNum (jv_confidence verdict));
      ("reasoning", VStr (jv_reasoning verdict));
      ("alternative", VStr (jv_alternative verdict));
      ("savings", VNum (jv_savings verdict)) ]
    (Some (if rejected then "gavel_strike" else "confetti"))
    (Some (if rejected then "gavel" else "applause")) 5 ;;
  modify_state (set_phase COMPLETE) ;;
  ret verdict.

(** The dict of [_compile_results]. *)
Record DebateSummary : Type := mkDebateSummary {
  duration : Z;
  rounds : Z;
  final_confidence_pro : Z;
  final_confidence_con : Z;
  evidence_scores_pro : Z;
  evidence_scores_con : Z;
  summary_dramatic_moments : list Dict;
  summary_objections : Z
}.

Record DebateResult : Type := mkDebateResult {
  result_requirement : string;
  result_verdict : JudgeVerdict;
  debate_summary : DebateSummary;
  result_transcript : list Dict;
  result_evidence : list Dict;
  replay_available : bool
}.

(** [DebateOrchestrator._compile_results] *)
Definition _compile_results (verdict : JudgeVerdict) : M DebateResult :=
  st <- get_state ;;
  paused <- get_slept ;;
  ret {| result_requirement := "The analyzed requirement";
         result_verdict := verdict;
         debate_summary :=
           {| duration := clock paused;
              rounds := round_number st;
              final_confidence_pro := pro_confidence st;
              final_confidence_con := con_confidence st;
              evidence_scores_pro := pro_evidence_score st;
              evidence_scores_con := con_evidence_score st;
              summary_dramatic_moments := dramatic_moments st;
              summary_objections := Z.of_nat (length (objections st)) |};
         result_transcript := transcript st;
         result_evidence := evidence_presented st;
         replay_available := true |}.

(** [DebateOrchestrator.analyze_requirement] *)
Definition analyze_requirement (requirement : string) : M DebateResult :=
  _initialize_debate requirement ;;
  _run_opening_statements requirement ;;
  _run_evidence_duel requirement ;;
  _run_cross_examination requirement ;;
  _run_final_arguments requirement ;;
  verdict <- _run_judgment requirement ;;
  _compile_results verdict.

End Orchestrator.

(* ================================================================== *)
(** * Python strings, sets and slices, continued *)
(* ================================================================== *)

Module PyText.
Local Open Scope string_scope.

(** [c.isspace()] on ASCII: tab to carriage return, the four separators
    [\x1c]..[\x1f], and the space. *)
Definition is_space (c : ascii) : bool :=
  let n := nat_of_ascii c in
  ((9 <=? n)%nat && (n <=? 13)%nat) || ((28 <=? n)%nat && (n <=? 32)%nat).

(** The loop of [s.split()]: [word] is the run of non-space characters
    read so far. *)
Fixpoint split_from (s word : string) : list string :=
  match s with
  | EmptyString => if String.eqb word "" then [] else [word]
  | String c s' =>
      if is_space c then
        if String.eqb word "" then split_from s' "" else word :: split_from s' ""
      else split_from s' (word ++ String c "")
  end.

(** [s.split()]: the maximal runs of non-space characters. *)
Definition split (s : string) : list string := split_from s "".

(** The loop of [s.split(sep)] for a non-empty [sep]: [piece] is the piece
    read so far, [skip] the number of characters of a separator just found
    that are still to be passed over. *)
Fixpoint split_on_from (sep s piece : string) (skip : nat) : list string :=
  match s with
  | EmptyString => [piece]
  | String c s' =>
      match skip with
      | S k => split_on_from sep s' piece k
      | O =>
          if PyStr.startswith sep s
          then piece :: split_on_from sep s' "" (String.length sep - 1)
          else split_on_from sep s' (piece ++ String c "") 0
      end
  end.

(** [s.split(sep)] *)
Definition split_on (sep s : string) : list string := split_on_from sep s "" 0.

(** [s.lstrip()], [s.rstrip()] and [s.strip()] *)
Fixpoint lstrip (s : string) : string :=
  match s with
  | EmptyString => EmptyString
  | String c s' => if is_space c then lstrip s' else s
  end.

Fixpoint rstrip (s : string) : string :=
  match s with
  | EmptyString => EmptyString
  | String c s' =>
      let r := rstrip s' in
      if is_space c && String.eqb r "" then EmptyString else String c r
  end.

Definition strip (s : string) : string := rstrip (lstrip s).

(** [s.replace(a, b)] for single characters [a] and [b]. *)
Fixpoint replace_char (a b : ascii) (s : string) : string :=
  match s with
  | EmptyString => EmptyString
  | String c s' => String (if Ascii.eqb c a then b else c) (replace_char a b s')
  end.

(** [x in xs] *)
Definition mem (x : string) (xs : list string) : bool := existsb (String.eqb x) xs.

(** [set(xs)]: the members of the list, each once.  The code below reads
    the size and the emptiness of its sets only, never their order. *)
Definition set_of (xs : list string) : list string := nodup string_dec xs.

(** [a & b] *)
Definition inter (a b : list string) : list string := filter (fun x => mem x b) a.

(** [a.update(b)] *)
Definition union (a b : list string) : list string := set_of (a ++ b).

(** [xs[:n]] for an [int] [n]: a negative [n] counts from the end. *)
Definition slice_to {A} (xs : list A) (n : Z) : list A :=
  if (0 <=? n)%Z then firstn (Z.to_nat n) xs
  else firstn (List.length xs - Z.to_nat (- n)) xs.

End PyText.

(* ================================================================== *)
(** * arena/evidence_system.py, continued: gathering and chaining *)
(* ================================================================== *)

(** A search result: a dict from keys to the texts found, in the order of
    insertion. *)
Definition SearchResult : Type := list (string * string).

(** [result.get(key, "")] *)
Fixpoint result_get (result : SearchResult) (key : string) : string :=
  match result with
  | [] => EmptyString
  | (k, v) :: rest => if String.eqb k key then v else result_get rest key
  end.

(** What the call of a search tool comes to: a list of results, a value
    that is not a list, or an exception. *)
Inductive SearchOutcome : Type :=
| Results (results : list SearchResult)
| NotAList
| SearchRaised.

(** What the module takes from libraries and from the clock:
    - [hashlib.md5(text.encode()).hexdigest()];
    - [urlparse(url).netloc], [None] where [urlparse] raises;
    - [re.findall(pattern, text)], each match the tuple of its groups;
    - the age in days [(datetime.now() - datetime.fromisoformat(text)).days]
      at the [n]-th reading of the clock, [None] where the parse or the
      difference raises. *)
Class Platform : Type := {
  md5_hexdigest : string -> string;
  urlparse_netloc : string -> option string;
  re_findall : string -> string -> list (list string);
  days_old : nat -> string -> option Z
}.

(** A search tool: an object with a state of its own, whose method
    [search_evidence(query, stance)] answers a call and moves the state. *)
Class SearchTool (Tool : Type) : Type := {
  search_evidence : string -> string -> Tool -> SearchOutcome * Tool
}.

Section EvidenceGathering.
Context {num : Type} {N : PyNumber num}.
Context {P : Platform} {Tool : Type} {T : SearchTool Tool}.
Local Open Scope string_scope.
Local Open Scope num_scope.

(** [Evidence.hash] *)
Definition hash (e : Evidence num) : string :=
  let content := source e ++ ":" ++ claim e ++ ":" ++ url e in
  substring 0 8 (md5_hexdigest content).

(** ** EvidenceGatherer *)

(** [self.source_credibility], in the insertion order of the dict. *)
Definition source_credibility : list (string * num) :=
  [ ("arxiv.org", of_decimal 0.9);
    ("scholar.google.com", of_decimal 0.9);
    ("pubmed.ncbi.nlm.nih.gov", of_decimal 0.95);
    ("acm.org", of_decimal 0.9);
    ("ieee.org", of_decimal 0.9);
    ("gartner.com", of_decimal 0.85);
    ("forrester.com", of_decimal 0.85);
    ("mckinsey.com", of_decimal 0.85);
    ("github.com", of_decimal 0.8);
    ("stackoverflow.com", of_decimal 0.75);
    ("hackernews", of_decimal 0.7);
    ("techcrunch.com", of_decimal 0.6);
    ("medium.com", of_decimal 0.5);
    ("reddit.com", of_decimal 0.4);
    ("default", of_decimal 0.5) ].

(** What a gatherer holds and reads: its search tool, and the number of
    readings of the clock made so far. *)
Record Gatherer : Type := mkGatherer {
  search_tool : Tool;
  clock_reads : nat
}.

(** [EvidenceGatherer._generate_search_queries] *)
Definition _generate_search_queries (requirement stance : string) : list string :=
  if String.eqb stance "support" then
    [ requirement ++ " success stories";
      requirement ++ " ROI benefits";
      requirement ++ " implementation guide";
      "why " ++ requirement ++ " important" ]
  else if String.eqb stance "oppose" then
    [ requirement ++ " failed";
      requirement ++ " problems issues";
      "why not " ++ requirement;
      requirement ++ " alternatives better" ]
  else
    [ requirement ++ " analysis";
      requirement ++ " pros and cons";
      requirement ++ " case study";
      requirement ++ " best practices" ].

(** [EvidenceGatherer._search_and_parse]: a value that is not a list and an
    exception both come to the empty list. *)
Definition _search_and_parse (query : string) (self : Gatherer)
  : list SearchResult * Gatherer :=
  let '(outcome, tool) := search_evidence query "neutral" (search_tool self) in
  let self := mkGatherer tool (clock_reads self) in
  match outcome with
  | Results results => (results, self)
  | NotAList => ([], self)
  | SearchRaised => ([], self)
  end.

(** [EvidenceGatherer._extract_domain] *)
Definition _extract_domain (url : string) : string :=
  match urlparse_netloc url with
  | Some netloc => netloc
  | None => "unknown"
  end.

(** [EvidenceGatherer._extract_claim] *)
Definition _extract_claim (title snippet : string) : string :=
  if (20 <? String.length title)%nat then title
  else
    let sentences := PyText.split_on ". " snippet in
    match sentences with
    | first :: _ => first
    | [] => substring 0 100 snippet
    end.

(** [any(domain in source for domain in domains)] *)
Definition any_in (domains : list string) (source : string) : bool :=
  existsb (fun domain => PyStr.contains domain source) domains.

(** [EvidenceGatherer._determine_tier] *)
Definition _determine_tier (source url : string) : EvidenceTier :=
  let academic_domains := ["arxiv.org"; "pubmed"; "acm.org"; "ieee.org"; "scholar.google"] in
  if any_in academic_domains source then PLATINUM
  else
    let industry_domains := ["gartner.com"; "forrester.com"; "mckinsey.com"; "deloitte.com"] in
    if any_in industry_domains source then GOLD
    else
      let tech_domains := ["github.com"; "stackoverflow.com"; "hackernews"; "dev.to"] in
      if any_in tech_domains source then SILVER
      else BRONZE.

(** [EvidenceGatherer._calculate_relevance] *)
Definition _calculate_relevance (text requirement : string) : num :=
  let requirement_words := PyText.set_of (PyText.split (PyStr.lower requirement)) in
  let text_words := PyText.set_of (PyText.split (PyStr.lower text)) in
  match requirement_words with
  | [] => of_decimal 0.0
  | _ :: _ =>
      let overlap := List.length (PyText.inter requirement_words text_words) in
      let relevance :=
        of_Z (Z.of_nat overlap) / of_Z (Z.of_nat (List.length requirement_words)) in
      py_min (of_decimal 1.0) relevance
  end.

(** [EvidenceGatherer._calculate_recency]: the clock is read once when the
    result carries a date. *)
Definition _calculate_recency (result : SearchResult) (self : Gatherer) : num * Gatherer :=
  let date_str := result_get result "date" in
  if String.eqb date_str "" then (of_decimal 0.5, self)
  else
    let self' := mkGatherer (search_tool self) (S (clock_reads self)) in
    match days_old (clock_reads self) date_str with
    | Some days =>
        (if (days <? 30)%Z then of_decimal 1.0
         else if (days <? 90)%Z then of_decimal 0.8
         else if (days <? 365)%Z then of_decimal 0.6
         else if (days <? 365 * 2)%Z then of_decimal 0.4
         else of_decimal 0.2,
         self')
    | None => (of_decimal 0.5, self')
    end.

(** The loop of [_get_source_credibility] over the items of the dict. *)
Fixpoint first_credibility (table : list (string * num)) (source : string) : option num :=
  match table with
  | [] => None
  | (domain, score) :: rest =>
      if PyStr.contains domain source then Some score
      else first_credibility rest source
  end.

(** [table[key]] *)
Fixpoint table_lookup (table : list (string * num)) (key : string) : option num :=
  match table with
  | [] => None
  | (k, v) :: rest => if String.eqb k key then Some v else table_lookup rest key
  end.

(** [EvidenceGatherer._get_source_credibility] *)
Definition _get_source_credibility (source : string) : Result num :=
  match first_credibility source_credibility source with
  | Some score => Ok score
  | None => subscript "default" (table_lookup source_credibility "default")
  end.

(** One [re.findall] of [_extract_data_points]: the key joins the dict when
    something was found. *)
Definition add_matches (key pattern text : string) (data_points : ExtractedData)
  : ExtractedData :=
  match re_findall pattern text with
  | [] => data_points
  | found => (data_points ++ [(key, found)])%list
  end.

(** [EvidenceGatherer._extract_data_points] *)
Definition _extract_data_points (text : string) : ExtractedData :=
  let data_points := [] in
  let data_points :=
    add_matches "percentages" "(\d+(?:\.\d+)?)\s*%" text data_points in
  let data_points :=
    add_matches "costs" "\$\s*(\d+(?:,\d{3})*(?:\.\d+)?)\s*([MBK])?" text data_points in
  let data_points :=
    add_matches "timeframes" "(\d+)\s*(months?|years?|weeks?|days?)" text data_points in
  let data_points :=
    add_matches "metrics" "\b(\d+(?:,\d{3})*)\b" text data_points in
  data_points.

(** One pass of the loop of [_process_search_results]: [None] for a result
    that is skipped.  The record is built with [extracted_data] left at its
    default and the field is assigned right after; the record below is the
    one that joins the list. *)
Definition process_result (result : SearchResult) (requirement : string) (self : Gatherer)
  : Result (option (Evidence num) * Gatherer) :=
  let title := result_get result "title" in
  let snippet := result_get result "snippet" in
  let url := result_get result "url" in
  let source := _extract_domain url in
  if String.eqb url "" || String.eqb snippet "" then Ok (None, self)
  else
    let claim := _extract_claim title snippet in
    let tier := _determine_tier source url in
    let relevance := _calculate_relevance snippet requirement in
    let '(recency, self) := _calculate_recency result self in
    (credibility <- _get_source_credibility source ;;
     let evidence :=
       mkEvidence claim source url tier relevance recency credibility snippet
                  (Some (_extract_data_points snippet)) in
     Ok (Some evidence, self))%result.

(** [EvidenceGatherer._process_search_results] *)
Fixpoint _process_search_results (results : list SearchResult) (requirement : string)
    (self : Gatherer) : Result (list (Evidence num) * Gatherer) :=
  match results with
  | [] => Ok ([], self)
  | result :: rest =>
      (step <- process_result result requirement self ;;
       let '(evidence, self) := step in
       others <- _process_search_results rest requirement self ;;
       let '(evidence_list, self) := others in
       Ok (match evidence with
           | Some e => e :: evidence_list
           | None => evidence_list
           end, self))%result
  end.

(** The loop of [_deduplicate_evidence]: [seen_hashes] is the set of the
    hashes met so far. *)
Fixpoint dedup_from (evidence_list : list (Evidence num)) (seen_hashes : list string)
  : list (Evidence num) :=
  match evidence_list with
  | [] => []
  | evidence :: rest =>
      if PyText.mem (hash evidence) seen_hashes then dedup_from rest seen_hashes
      else evidence :: dedup_from rest (hash evidence :: seen_hashes)
  end.

(** [EvidenceGatherer._deduplicate_evidence] *)
Definition _deduplicate_evidence (evidence_list : list (Evidence num))
  : list (Evidence num) :=
  dedup_from evidence_list [].

(** [sorted(evidence, key=lambda e: e.total_score, reverse=True)]: a stable
    sort, so a record goes before the first one whose score is not greater
    than its own. *)
Fixpoint insert_by_score (e : Evidence num) (sorted : list (Evidence num))
  : list (Evidence num) :=
  match sorted with
  | [] => [e]
  | other :: rest =>
      if total_score e <? total_score other
      then other :: insert_by_score e rest
      else e :: sorted
  end.

Definition sorted_by_score (evidence : list (Evidence num)) : list (Evidence num) :=
  fold_right insert_by_score [] evidence.

(** The loop of [gather_evidence] over the queries it searches. *)
Fixpoint search_all (queries : list string) (requirement : string) (self : Gatherer)
  : Result (list (Evidence num) * Gatherer) :=
  match queries with
  | [] => Ok ([], self)
  | query :: rest =>
      let '(results, self) := _search_and_parse query self in
      (found <- _process_search_results results requirement self ;;
       let '(evidence_list, self) := found in
       others <- search_all rest requirement self ;;
       let '(all_evidence, self) := others in
       Ok ((evidence_list ++ all_evidence)%list, self))%result
  end.

(** [EvidenceGatherer.gather_evidence] *)
Definition gather_evidence (requirement stance : string) (max_sources : Z) (self : Gatherer)
  : Result (list (Evidence num) * Gatherer) :=
  let queries := _generate_search_queries requirement stance in
  (found <- search_all (PyText.slice_to queries 3) requirement self ;;
   let '(all_evidence, self) := found in
   let unique_evidence := _deduplicate_evidence all_evidence in
   let ranked_evidence := sorted_by_score unique_evidence in
   Ok (PyText.slice_to ranked_evidence max_sources, self))%result.

(** ** EvidenceScorer, continued *)

(** The words of a claim: [set(claim.lower().split())]. *)
Definition claim_keywords (e : Evidence num) : list string :=
  PyText.set_of (PyText.split (PyStr.lower (claim e))).

Definition negation_words : list string :=
  ["not"; "no"; "failed"; "wrong"; "false"; "myth"; "problem"].

(** [bool(s)] of a set. *)
Definition nonempty (s : list string) : bool :=
  match s with [] => false | _ :: _ => true end.

(** [EvidenceScorer.find_counter_evidence] *)
Fixpoint find_counter_evidence (evidence : Evidence num) (evidence_pool : list (Evidence num))
  : list (Evidence num) :=
  match evidence_pool with
  | [] => []
  | other :: rest =>
      if String.eqb (hash other) (hash evidence) then find_counter_evidence evidence rest
      else
        let other_keywords := claim_keywords other in
        if nonempty (PyText.inter negation_words other_keywords)
           && nonempty (PyText.inter (claim_keywords evidence) other_keywords)
        then other :: find_counter_evidence evidence rest
        else find_counter_evidence evidence rest
  end.

(** [EvidenceScorer._evidence_supports] *)
Definition _evidence_supports (evidence : Evidence num) (chain : list (Evidence num)) : bool :=
  let chain_keywords :=
    fold_left (fun keywords e => PyText.union keywords (PyText.split (PyStr.lower (claim e))))
              chain [] in
  let evidence_keywords := claim_keywords evidence in
  let overlap := List.length (PyText.inter chain_keywords evidence_keywords) in
  (3 <=? overlap)%nat.

(** The inner loop of [create_evidence_chain]: the chain grows by every
    record not yet used that supports it as it then stands. *)
Fixpoint extend_chain (others chain : list (Evidence num)) (used_evidence : list string)
  : list (Evidence num) * list string :=
  match others with
  | [] => (chain, used_evidence)
  | other :: rest =>
      if PyText.mem (hash other) used_evidence then extend_chain rest chain used_evidence
      else if _evidence_supports other chain
      then extend_chain rest (chain ++ [other])%list (hash other :: used_evidence)
      else extend_chain rest chain used_evidence
  end.

(** The outer loop of [create_evidence_chain] over [todo], the records of
    [evidence_list] still to be visited. *)
Fixpoint chains_from (todo evidence_list : list (Evidence num))
    (chains : list (list (Evidence num))) (used_evidence : list string)
  : list (list (Evidence num)) :=
  match todo with
  | [] => chains
  | evidence :: rest =>
      if PyText.mem (hash evidence) used_evidence
      then chains_from rest evidence_list chains used_evidence
      else
        let '(chain, used_evidence) :=
          extend_chain evidence_list [evidence] (hash evidence :: used_evidence) in
        chains_from rest evidence_list
          (if (1 <? List.length chain)%nat then (chains ++ [chain])%list else chains)
          used_evidence
  end.

(** [EvidenceScorer.create_evidence_chain] *)
Definition create_evidence_chain (evidence_list : list (Evidence num))
  : list (list (Evidence num)) :=
  chains_from evidence_list evidence_list [] [].

(** ** EvidenceCombo *)

(** The dict [check_for_combo] returns. *)
Record Combo : Type := mkCombo {
  combo_size : nat;
  combo_name : string;
  base_score : num;
  combo_score : num;
  multiplier : num;
  evidence_chain : list (Evidence num)
}.

(** [EvidenceCombo._generate_combo_name] *)
Definition _generate_combo_name (size : nat) : string :=
  match size with
  | 3%nat => "Triple Evidence Strike!"
  | 4%nat => "Quadruple Data Slam!"
  | 5%nat => "Pentagon Evidence Formation!"
  | 6%nat => "Hexagon Truth Bomb!"
  | 7%nat => "Lucky Seven Evidence Chain!"
  | 8%nat => "Octagon Fact Fortress!"
  | _ => str_of_Z (Z.of_nat size) ++ "x Evidence ULTRA COMBO!"
  end.

(** [EvidenceCombo.check_for_combo], with [combo_threshold = 3] and
    [combo_multiplier = 1.5] as [__init__] sets them. *)
Definition check_for_combo (evidence_chain : list (Evidence num)) : option Combo :=
  let combo_threshold := 3%nat in
  let combo_multiplier := of_decimal 1.5 in
  if (combo_threshold <=? List.length evidence_chain)%nat then
    let base_score := py_sum (map total_score evidence_chain) in
    let combo_score := base_score * combo_multiplier in
    Some {| combo_size := List.length evidence_chain;
            combo_name := _generate_combo_name (List.length evidence_chain);
            base_score := base_score;
            combo_score := combo_score;
            multiplier := combo_multiplier;
            evidence_chain := evidence_chain |}
  else None.

End EvidenceGathering.

Arguments Gatherer Tool : clear implicits.
Arguments mkGatherer {Tool}.
Arguments search_tool {Tool}.
Arguments clock_reads {Tool}.
Arguments Combo num : clear implicits.

(* ================================================================== *)
(** * api/rest.py *)
(* ================================================================== *)

Module Rest.
Local Open Scope string_scope.
Local Open Scope Z_scope.

(** [class RequirementAnalysisRequest(BaseModel)] *)
Record RequirementAnalysisRequest : Type := mkRequirementAnalysisRequest {
  request_requirement : string;
  request_judge_type : string;
  request_debate_mode : string
}.

(** [class AnalysisResult(BaseModel)]; [timestamp] is a wall-clock reading.
    A field read with [.get] holds what the dict has under the key, or
    nothing. *)
Record AnalysisResult : Type := mkAnalysisResult {
  id : string;
  requirement : string;
  verdict : string;
  confidence : Z;
  key_evidence : list Dict;
  alternative_suggestion : option Value;
  estimated_savings : option Value;
  debate_transcript : list Dict
}.

(** What an endpoint answers: the value it returns, or the [HTTPException]
    it raises, whose [detail] is made of the exception caught. *)
Inductive Response (A : Type) : Type :=
| Returned (a : A)
| HTTPException (status_code : Z) (caught : Exception).

Arguments Returned {A} a.
Arguments HTTPException {A} status_code caught.

(** [debate_results], the results stored by id. *)
Definition Store : Type := list (string * AnalysisResult).

(** [debate_results[analysis_id] = ...] *)
Fixpoint store_set (debate_results : Store) (analysis_id : string) (r : AnalysisResult)
  : Store :=
  match debate_results with
  | [] => [(analysis_id, r)]
  | (k, v) :: rest =>
      if String.eqb k analysis_id then (k, r) :: rest
      else (k, v) :: store_set rest analysis_id r
  end.

(** The configuration [analyze_requirement] makes of the debate mode: the
    entry of the mode, or that of "standard" for any other text, with the
    special effects disabled. *)
Definition debate_config (debate_mode : string) : list ConfigEntry :=
  let config :=
    if String.eqb debate_mode "quick" then [Set_max_rounds 2; Set_streaming_delay 0.3]
    else if String.eqb debate_mode "deep" then [Set_max_rounds 6; Set_streaming_delay 0.7]
    else [Set_max_rounds 4; Set_streaming_delay 0.5] in
  (config ++ [Set_enable_special_effects false])%list.

(** The verdict of the orchestrator as the dict [_get_judge_verdict]
    builds, key by key. *)
Definition verdict_dict (v : JudgeVerdict) : Dict :=
  [ ("decision", VStr (jv_decision v));
    ("confidence", VNum (jv_confidence v));
    ("reasoning", VStr (jv_reasoning v));
    ("alternative", VStr (jv_alternative v));
    ("savings", VNum (jv_savings v)) ].

(** The [AnalysisResult] made of the bundle of the orchestrator. *)
Definition analysis_result (analysis_id : string) (request : RequirementAnalysisRequest)
    (result : DebateResult) : AnalysisResult :=
  {| id := analysis_id;
     requirement := request_requirement request;
     verdict := jv_decision (result_verdict result);
     confidence := jv_confidence (result_verdict result);
     key_evidence := firstn 5 (result_evidence result);
     alternative_suggestion :=
       dict_lookup (verdict_dict (result_verdict result)) "alternative_suggestion";
     estimated_savings :=
       dict_lookup (verdict_dict (result_verdict result)) "estimated_savings";
     debate_transcript := result_transcript result |}.

(** [POST /api/analyze].  The agents are those [create_pro_team()],
    [create_con_team()] and [create_judge(request.judge_type)] returned,
    [analysis_id] the text of the [uuid4] drawn, [rng] the draws the
    generator makes from the call on, and [clock] the clock of the
    orchestrator. *)
Definition analyze_requirement (rng : nat -> Q) (clock : Q -> Z)
    (pro_team con_team : list Agent)
    (judge : Agent) (analysis_id : string) (request : RequirementAnalysisRequest)
    (debate_results : Store) : Response AnalysisResult * Store :=
  let config := debate_config (request_debate_mode request) in
  let orchestrator := DebateOrchestrator_init pro_team con_team judge (Some config) in
  match analyze_requirement rng clock (request_requirement request)
          (mkWorld orchestrator 0 0) with
  | Ok (result, _) =>
      let analysis_result := analysis_result analysis_id request result in
      (Returned analysis_result, store_set debate_results analysis_id analysis_result)
  | Raise e => (HTTPException 500 e, debate_results)
  end.

End Rest.

(* ================================================================== *)
(** * research/searcher_working.py *)
(* ================================================================== *)

Module Pipeline.
Local Open Scope string_scope.
Local Open Scope Z_scope.

(** What [requests.get] comes to in [brave_search]: an exception, or a
    response with its status code and, for the reading of its JSON body, the
    list [data.get("web", {}).get("results", [])], or nothing where
    [response.json()] or the reading raises. *)
Inductive BraveAnswer : Type :=
| RequestRaised
| Answered (status_code : Z) (web_results : option (list SearchResult)).

(** What the pipeline takes from its environment and from the network:
    - [os.getenv("BRAVE_SEARCH_API_KEY")];
    - [int(os.getenv("MAX_EVIDENCE_QUERIES", "2"))], nothing where [int]
      raises;
    - the answer to the [n]-th request sent to the Brave API;
    - the text of the [n]-th run of [DuckDuckGoSearchRun], nothing where it
      raises. *)
Class Web : Type := {
  getenv_BRAVE_SEARCH_API_KEY : option string;
  int_MAX_EVIDENCE_QUERIES : option Z;
  requests_get : nat -> string -> BraveAnswer;
  DuckDuckGoSearchRun_run : nat -> string -> option string
}.

(** [class WorkingResearchPipeline]: whether [search_tools] has the key
    "brave_direct" (it always has "duckduckgo"), the flag and the counter of
    the Brave API, and the numbers of requests sent and of runs of DuckDuckGo
    so far.  The times of the rate limiter are wall-clock readings. *)
Record WorkingResearchPipeline : Type := mkWorkingResearchPipeline {
  brave_direct : bool;
  _brave_available : bool;
  api_call_count : Z;
  requests_sent : nat;
  duckduckgo_runs : nat
}.

Section Methods.
Context {P : Platform} {W : Web}.

(** [WorkingResearchPipeline.__init__] with [_initialize_search_tools] *)
Definition WorkingResearchPipeline_init : WorkingResearchPipeline :=
  {| brave_direct :=
       match getenv_BRAVE_SEARCH_API_KEY with
       | Some key => negb (String.eqb key "") && negb (PyStr.contains "your_brave" key)
       | None => false
       end;
     _brave_available := true;
     api_call_count := 0;
     requests_sent := 0;
     duckduckgo_runs := 0 |}.

(** [WorkingResearchPipeline._extract_domain] *)
Definition _extract_domain (url : string) : string :=
  match urlparse_netloc url with
  | Some netloc => netloc
  | None => "unknown"
  end.

(** The loop of [_use_duckduckgo_fallback] over the enumerated lines. *)
Fixpoint fallback_results (query : string) (lines : list string) (i : Z)
  : list SearchResult :=
  match lines with
  | [] => []
  | line :: rest =>
      let found :=
        if String.eqb (PyText.strip line) "" then []
        else [ [ ("title", "DuckDuckGo Result " ++ str_of_Z (i + 1));
                 ("snippet", substring 0 200 (PyText.strip line));
                 ("url", "https://duckduckgo.com/?q="
                         ++ PyText.replace_char " "%char "+"%char query);
                 ("source", "DuckDuckGo");
                 ("published", "Recent") ] ] in
      List.app found (fallback_results query rest (i + 1))
  end.

(** [WorkingResearchPipeline._use_duckduckgo_fallback] *)
Definition _use_duckduckgo_fallback (query : string) (self : WorkingResearchPipeline)
  : list SearchResult * WorkingResearchPipeline :=
  let ran := mkWorkingResearchPipeline (brave_direct self) (_brave_available self)
               (api_call_count self) (requests_sent self) (S (duckduckgo_runs self)) in
  match DuckDuckGoSearchRun_run (duckduckgo_runs self) query with
  | Some raw_results =>
      if String.eqb raw_results "" then ([], ran)
      else
        let lines := firstn 3 (PyText.split_on (String (ascii_of_nat 10) "") raw_results) in
        (fallback_results query lines 0, ran)
  | None => ([], ran)
  end.

(** The result [brave_search] makes of one entry of the answer. *)
Definition brave_result (result : SearchResult) : SearchResult :=
  [ ("title", result_get result "title");
    ("snippet", result_get result "description");
    ("url", result_get result "url");
    ("source", _extract_domain (result_get result "url"));
    ("published", result_get result "age") ].

(** [brave_search], the function [_create_brave_direct_search] returns. *)
Definition brave_search (query : string) (self : WorkingResearchPipeline)
  : list SearchResult * WorkingResearchPipeline :=
  let sent := mkWorkingResearchPipeline (brave_direct self) (_brave_available self)
                (api_call_count self) (S (requests_sent self)) (duckduckgo_runs self) in
  match requests_get (requests_sent self) query with
  | Answered status_code web_results =>
      let counted := mkWorkingResearchPipeline (brave_direct sent) (_brave_available sent)
                       (api_call_count sent + 1) (requests_sent sent)
                       (duckduckgo_runs sent) in
      if status_code =? 200 then
        match web_results with
        | Some found => (map brave_result (firstn 5 found), counted)
        | None => _use_duckduckgo_fallback query counted
        end
      else if status_code =? 429 then
        _use_duckduckgo_fallback query
          (mkWorkingResearchPipeline (brave_direct counted) false (api_call_count counted)
             (requests_sent counted) (duckduckgo_runs counted))
      else _use_duckduckgo_fallback query counted
  | RequestRaised => _use_duckduckgo_fallback query sent
  end.

(** [WorkingResearchPipeline._generate_search_queries] *)
Definition _generate_search_queries (requirement stance : string) : list string :=
  if String.eqb stance "support" then
    [ requirement ++ " success case study";
      requirement ++ " benefits ROI results";
      requirement ++ " implementation guide best practices" ]
  else if String.eqb stance "oppose" then
    [ requirement ++ " failed problems issues";
      requirement ++ " why not disadvantages";
      requirement ++ " alternatives better solution" ]
  else
    [ requirement ++ " analysis pros and cons";
      requirement ++ " implementation cost time";
      requirement ++ " market research adoption" ].

(** [WorkingResearchPipeline._parse_duckduckgo_result] *)
Definition _parse_duckduckgo_result (result_text query : string) : list SearchResult :=
  [ [ ("title", "Research: " ++ query);
      ("snippet", if (300 <? String.length result_text)%nat
                  then substring 0 300 result_text ++ "..."
                  else result_text);
      ("url", "https://duckduckgo.com");
      ("source", "duckduckgo.com");
      ("published", "recent") ] ].

(** One pass of the loop of [search_evidence]: what the query adds to
    [all_results]. *)
Definition search_query (query : string) (self : WorkingResearchPipeline)
  : list SearchResult * WorkingResearchPipeline :=
  if brave_direct self then brave_search query self
  else
    let ran := mkWorkingResearchPipeline (brave_direct self) (_brave_available self)
                 (api_call_count self) (requests_sent self) (S (duckduckgo_runs self)) in
    match DuckDuckGoSearchRun_run (duckduckgo_runs self) query with
    | Some duckduckgo_result => (_parse_duckduckgo_result duckduckgo_result query, ran)
    | None => ([], ran)
    end.

(** The loop of [search_evidence]. *)
Fixpoint search_queries (queries : list string) (self : WorkingResearchPipeline)
  : list SearchResult * WorkingResearchPipeline :=
  match queries with
  | [] => ([], self)
  | query :: rest =>
      let '(results, self) := search_query query self in
      let '(all_results, self) := search_queries rest self in
      ((results ++ all_results)%list, self)
  end.

(** [WorkingResearchPipeline.search_evidence] *)
Definition search_evidence (requirement stance : string) (self : WorkingResearchPipeline)
  : SearchOutcome * WorkingResearchPipeline :=
  let queries := _generate_search_queries requirement stance in
  match int_MAX_EVIDENCE_QUERIES with
  | Some max_queries =>
      let '(all_results, self) := search_queries (PyText.slice_to queries max_queries) self in
      (Results (firstn 10 all_results), self)
  | None => (SearchRaised, self)
  end.

(** The pipeline is the search tool of an [EvidenceGatherer]. *)
#[export] Instance pipeline_tool : SearchTool WorkingResearchPipeline :=
  Build_SearchTool WorkingResearchPipeline search_evidence.

End Methods.
End Pipeline.
(* ================================================================== *)
(** * Notions of the specification and sample inputs *)
(* ================================================================== *)

(** The ranges the dataclass documents for the three component scores. *)
Definition valid_scores (e : Evidence Q) : Prop :=
  (0 <= relevance_score e <= 1)%Q /\
  (0 <= recency_score e <= 1)%Q /\
  (0 <= credibility_score e <= 1)%Q.

Section Samples.
Local Open Scope string_scope.

(** Two records at the exact 1.5 margin: total scores 1.5 and 1.0. *)
Definition margin_a {num} {N : PyNumber num} : Evidence num :=
  mkEvidence "Teams report 30% faster delivery" "github.com" "https://github.com/a" SILVER
             (of_decimal 1.0) (of_decimal 1.0) (of_decimal 0.75)
             "Teams report 30% faster delivery after the change" None.

Definition margin_b {num} {N : PyNumber num} : Evidence num :=
  mkEvidence "A study of delivery speed" "example.com" "https://example.com/b" BRONZE
             (of_decimal 1.0) (of_decimal 1.0) (of_decimal 1.0)
             "A study of delivery speed" None.

(** Two records a rounding apart: the relevances are the doubles
    0x1.8000000000002p-1 and 0x1.0000000000001p-1, so the first total score
    is above 1.5 times the second by half a unit in the last place. *)
Definition rounded_a {num} {N : PyNumber num} : Evidence num :=
  mkEvidence "Removing the cache cut latency" "example.com" "https://example.com/a" BRONZE
             (of_decimal (6755399441055746 # 9007199254740992))
             (of_decimal 1.0) (of_decimal 1.0)
             "Removing the cache cut latency" None.

Definition rounded_b {num} {N : PyNumber num} : Evidence num :=
  mkEvidence "The cache is still needed" "example.com" "https://example.com/b" BRONZE
             (of_decimal (4503599627370497 # 9007199254740992))
             (of_decimal 1.0) (of_decimal 1.0)
             "The cache is still needed" None.

(** A record whose claim (a page title) holds no digit and none of the
    four words, while its snippet yielded a percentage. *)
Definition titled_evidence {num} {N : PyNumber num} : Evidence num :=
  mkEvidence "Microservices adoption is growing fast" "example.com"
             "https://example.com/post" BRONZE
             (of_decimal 0.5) (of_decimal 0.5) (of_decimal 0.5)
             "Adoption grew 40% last year"
             (Some [("percentages", [["40"]]); ("metrics", [["40"]])]).

(** The same title with nothing extracted from the snippet. *)
Definition bare_evidence {num} {N : PyNumber num} : Evidence num :=
  mkEvidence "Microservices adoption is growing fast" "example.com"
             "https://example.com/post" BRONZE
             (of_decimal 0.5) (of_decimal 0.5) (of_decimal 0.5)
             "Adoption keeps growing" (Some []).

(** The words [_check_has_data] looks for. *)
Definition data_words : list string :=
  ["study"; "report"; "analysis"; "data"].

(** "The claim contains a digit." *)
Definition claim_has_digit {num} (e : Evidence num) : Prop :=
  exists c, PyStr.occurs c (claim e) /\ PyStr.is_digit c = true.

(** "The claim contains one of the words", letter case apart. *)
Definition claim_has_data_word {num} (e : Evidence num) : Prop :=
  exists w, In w data_words /\ PyStr.substring_of w (PyStr.lower (claim e)).

(** "The record carries extracted data": a dict with at least one key. *)
Definition has_extracted_data {num} (e : Evidence num) : Prop :=
  exists entry rest, extracted_data e = Some (entry :: rest).

End Samples.

Section JudgeNotions.
Context {num : Type} {N : PyNumber num}.
Local Open Scope string_scope.

(** An argument dict that has the two keys [evaluate_debate] subscripts. *)
Definition scorable (arg : Argument num) : Prop :=
  (exists t, evidence_tier arg = Some t) /\ (exists i, impact arg = Some i).

(** A transcript [render_verdict] can read without a [KeyError]: every
    argument is scorable, and every CON argument of critical severity names
    its issue. *)
Definition readable (t : Transcript num) : Prop :=
  Forall scorable (get_default (pro_arguments t) []) /\
  Forall (fun arg =>
            scorable arg /\
            (severity arg = Some "critical" -> exists i, issue arg = Some i))
         (get_default (con_arguments t) []).

(** A CON argument of critical severity whose issue is a blocker. *)
Definition critical_blocker_argument (arg : Argument num) : Prop :=
  severity arg = Some "critical" /\
  exists blocker, issue arg = Some blocker /\ In blocker critical_blockers.

(** The CON argument of the specification's third example. *)
Definition breach_argument : Argument num :=
  {| evidence_tier := Some 2%Z;
     categories := Some ["risk"];
     impact := Some (of_Z 30);
     severity := Some "critical";
     issue := Some "security_breach_risk";
     cost_estimate := Some (of_Z 250000);
     summary := Some "The feature exposes customer data" |}.

(** A PRO argument strong enough to push the score up. *)
Definition strong_pro_argument : Argument num :=
  {| evidence_tier := Some 1%Z;
     categories := Some ["technical_feasibility"; "roi"; "risk"; "innovation"; "user_impact"];
     impact := Some (of_Z 80);
     severity := None;
     issue := None;
     cost_estimate := None;
     summary := Some "Every category improves" |}.

Definition breach_transcript : Transcript num :=
  {| pro_arguments := Some [strong_pro_argument];
     con_arguments := Some [breach_argument] |}.

(** A transcript without arguments: both keys present and empty. *)
Definition empty_transcript : Transcript num :=
  {| pro_arguments := Some []; con_arguments := Some [] |}.

End JudgeNotions.

Section OrchestratorNotions.
Local Open Scope string_scope.
Local Open Scope Z_scope.

(** The events a method put on the queue: what the queue holds after the
    call beyond what it held before. *)
Definition emitted (before after : World) (events : list DebateEvent) : Prop :=
  event_queue (self after) = (event_queue (self before) ++ events)%list.

(** The knockout path for [team], finished by [speaker]: the knockout
    announcement, then the finishing move of that team's representative. *)
Definition knockout_path (team : string) (speaker : Agent) (events : list DebateEvent)
  : Prop :=
  exists announcement finishing,
    events = [announcement; finishing]
    /\ event_type announcement = "dramatic_moment"
    /\ dict_lookup (content announcement) "type" = Some (VStr "knockout")
    /\ dict_lookup (content announcement) "winning_team" = Some (VStr team)
    /\ event_type finishing = "finishing_move"
    /\ agent finishing = role speaker
    /\ dict_lookup (content finishing) "team" = Some (VStr team).

(** The normal finals: a final argument of each side, PRO first. *)
Definition normal_finals (pro con : Agent) (events : list DebateEvent) : Prop :=
  exists first second,
    events = [first; second]
    /\ event_type first = "final_argument"
    /\ agent first = role pro
    /\ dict_lookup (content first) "team" = Some (VStr "PRO")
    /\ event_type second = "final_argument"
    /\ agent second = role con
    /\ dict_lookup (content second) "team" = Some (VStr "CON").

(** An event that announces the phase [name]. *)
Definition announces_phase (name : string) (e : DebateEvent) : Prop :=
  event_type e = "phase_change"
  /\ dict_lookup (content e) "phase" = Some (VStr name).

(** A world at the start of FINAL_ARGUMENTS with the given confidences:
    speakers chosen, three agents a side, default configuration. *)
Definition finals_world (pro con : Z) : World :=
  let agents := [mkAgent "Advocate"; mkAgent "Analyst"; mkAgent "Visionary"] in
  let critics := [mkAgent "Skeptic"; mkAgent "Auditor"; mkAgent "Realist"] in
  let o := DebateOrchestrator_init agents critics (mkAgent "Judge") None in
  mkWorld
    (with_primaries
       (with_state o (set_con_confidence con (set_pro_confidence pro (state o))))
       (Some (mkAgent "Advocate")) (Some (mkAgent "Skeptic")))
    16 0.

End OrchestratorNotions.

Section DuelNotions.
Local Open Scope string_scope.
Local Open Scope Z_scope.

(** What stays put while a debate runs: the teams, the judge, the
    configuration and, once chosen, the speakers. *)
Definition setup (w : World)
  : list Agent * list Agent * Agent * Config * option Agent * option Agent :=
  (pro_agents (self w), con_agents (self w), judge_agent (self w), config (self w),
   primary_pro (self w), primary_con (self w)).

(** A [confidence_update] event, read back: the two values it reports. *)
Definition reported_confidence (e : DebateEvent) : option (Z * Z) :=
  if String.eqb (event_type e) "confidence_update" then
    match dict_lookup (content e) "pro_confidence",
          dict_lookup (content e) "con_confidence" with
    | Some (VNum p), Some (VNum c) => Some (p, c)
    | _, _ => None
    end
  else None.

(** Every confidence the event reports lies in [[lo, hi]]. *)
Definition reports_within (lo hi : Z) (e : DebateEvent) : Prop :=
  event_type e = "confidence_update" ->
  exists p c, reported_confidence e = Some (p, c)
              /\ lo <= p <= hi /\ lo <= c <= hi.

(** The event is an objection. *)
Definition is_objection (e : DebateEvent) : bool :=
  String.eqb (event_type e) "objection_raised".

(** The tier [random.randint(1, 4)] makes of the draw [u]. *)
Definition tier_of_draw (u : Q) : Z := 1 + Qfloor (u * inject_Z (4 - 1 + 1)).

(** Every draw of the generator lies in [[0, 1)]. *)
Definition uniform_draws (rng : nat -> Q) : Prop :=
  forall n, (0 <= rng n)%Q /\ (rng n < 1)%Q.

(** [min(max(x, 0), 100)]: a value clamped into [[0, 100]]. *)
Definition clamp_0_100 (x : Z) : Z := Z.min (Z.max x 0) 100.

(** The world with both confidences clamped into [[0, 100]]. *)
Definition clamped_world (w : World) : World :=
  mkWorld
    (with_state (self w)
       (set_con_confidence (clamp_0_100 (con_confidence (state (self w))))
          (set_pro_confidence (clamp_0_100 (pro_confidence (state (self w))))
             (state (self w)))))
    (draws w) (slept w).

End DuelNotions.

Section ObjectionNotions.
Local Open Scope string_scope.
Local Open Scope Z_scope.

(** A world in the evidence duel under the default configuration: speakers
    chosen, both openings made. *)
Definition duel_world : World :=
  let agents := [mkAgent "Advocate"; mkAgent "Analyst"; mkAgent "Visionary"] in
  let critics := [mkAgent "Skeptic"; mkAgent "Auditor"; mkAgent "Realist"] in
  let o := DebateOrchestrator_init agents critics (mkAgent "Judge") None in
  mkWorld
    (with_primaries
       (with_state o (set_con_confidence 55 (set_pro_confidence 55 (state o))))
       (Some (mkAgent "Advocate")) (Some (mkAgent "Skeptic")))
    2 0.

(** A piece of SILVER evidence, as PRO may present it. *)
Definition weak_evidence : GatheredEvidence :=
  {| ev_source := "Research Database";
     ev_claim := "Evidence supporting Add offline mode";
     ev_tier := 3;
     ev_relevance := 0.25;
     ev_url := "https://example.com/evidence" |}.

(** CON attempts an objection to [weak_evidence] and the generator draws
    [r]: does an objection event join the queue? *)
Definition objection_raised_at (r : Q) : bool :=
  match _attempt_objection (fun _ => r) (mkAgent "Skeptic") weak_evidence "CON" duel_world with
  | Ok (_, w') =>
      existsb is_objection (skipn (length (event_queue (self duel_world)))
                                  (event_queue (self w')))
  | Raise _ => false
  end.

(** The objection is raised at every draw of the interval [[lo, hi]]. *)
Definition objects_throughout (lo hi : Q) : Prop :=
  forall r : Q, (lo <= r <= hi)%Q -> objection_raised_at r = true.

End ObjectionNotions.

Section RunNotions.
Local Open Scope Z_scope.

(** Where the two confidences can stand after [k] passes of the evidence
    duel: each pass adds at most 20 and takes away at most 5. *)
Definition duel_bounds (k : Z) (w : World) : Prop :=
  55 - 5 * k <= pro_confidence (state (self w)) <= 55 + 20 * k /\
  55 - 5 * k <= con_confidence (state (self w)) <= 55 + 20 * k.

(** Both speakers are chosen. *)
Definition speakers_chosen (w : World) : Prop :=
  (exists p, primary_pro (self w) = Some p) /\ (exists c, primary_con (self w) = Some c).

(** The phases announced on a queue, in the order of their [phase_change]
    events. *)
Definition announced_phases (queue : list DebateEvent) : list string :=
  flat_map (fun e =>
              if String.eqb (event_type e) "phase_change" then
                match dict_lookup (content e) "phase" with
                | Some (VStr name) => [name]
                | _ => []
                end
              else []) queue.

(** The six phases a run announces, in the order of [DebatePhase]. *)
Definition phase_order : list string :=
  [ "pre_battle"; "opening_statements"; "evidence_duel"; "cross_examination";
    "final_arguments"; "judgment" ]%string.

(** A fresh orchestrator, before any draw and any pause. *)
Definition fresh_world (pro_team con_team : list Agent) (judge : Agent)
    (debate_config : option (list ConfigEntry)) : World :=
  mkWorld (DebateOrchestrator_init pro_team con_team judge debate_config) 0 0.

End RunNotions.

Section RunSamples.
Local Open Scope string_scope.
Local Open Scope Z_scope.

Definition sample_pro_team : list Agent :=
  [mkAgent "Advocate"; mkAgent "Analyst"; mkAgent "Visionary"].

Definition sample_con_team : list Agent :=
  [mkAgent "Skeptic"; mkAgent "Auditor"; mkAgent "Realist"].

(** A generator whose every draw is 1/8: each tier drawn is 1 (PLATINUM). *)
Definition low_draws : nat -> Q := fun _ => (1 # 8)%Q.

(** A generator whose every draw is 0.6: each tier drawn is 3 (SILVER) and
    each objection is raised under the default threshold. *)
Definition middling_draws : nat -> Q := fun _ => 0.6%Q.

(** A clock for sample runs: the machine takes no time, so what passed is
    the pauses, in whole seconds. *)
Definition steady_clock : Q -> Z := Qfloor.

(** A whole run under the default configuration in which every piece of
    evidence is PLATINUM. *)
Definition platinum_run : Result (DebateResult * World) :=
  analyze_requirement low_draws steady_clock "Add offline mode"
    (fresh_world sample_pro_team sample_con_team (mkAgent "Judge") None).

(** A generator for a run in which PRO draws tier 1 three times and CON
    draws the tiers 2, 2 and 4, the last without an objection: two draws
    choose the speakers, then each pass draws a tier and a relevance for PRO
    and for CON, and the last pass one more for the objection. *)
Definition lopsided_draws : nat -> Q :=
  fun n => nth n [ 0.1; 0.1;
                   0.1; 0.5; 0.3; 0.5;
                   0.1; 0.5; 0.3; 0.5;
                   0.1; 0.5; 0.8; 0.5; 0.9 ]%Q 0.5%Q.

Definition lopsided_run : Result (DebateResult * World) :=
  analyze_requirement lopsided_draws steady_clock "Add offline mode"
    (fresh_world sample_pro_team sample_con_team (mkAgent "Judge") None).

(** The confidence gaps of the momentum shifts announced on the queue. *)
Definition momentum_gaps (queue : list DebateEvent) : list Z :=
  flat_map (fun e =>
              if String.eqb (event_type e) "dramatic_moment" then
                match dict_lookup (content e) "type",
                      dict_lookup (content e) "confidence_gap" with
                | Some (VStr "momentum_shift"), Some (VNum gap) => [gap]
                | _, _ => []
                end
              else []) queue.

(** Some event of the queue reports a PRO confidence above [bound]. *)
Definition reports_pro_above (bound : Z) (queue : list DebateEvent) : bool :=
  existsb (fun e => match reported_confidence e with
                    | Some (p, _) => bound <? p
                    | None => false
                    end) queue.

End RunSamples.

(* ================================================================== *)
(** * Notions and sample inputs for the further properties *)
(* ================================================================== *)

Section GatheringNotions.
Local Open Scope string_scope.

(** [kept] holds some of the members of [all], in the order of [all]. *)
Inductive subsequence {A : Type} : list A -> list A -> Prop :=
| subsequence_nil : subsequence [] []
| subsequence_keep (x : A) (kept all : list A) :
    subsequence kept all -> subsequence (x :: kept) (x :: all)
| subsequence_drop (x : A) (kept all : list A) :
    subsequence kept all -> subsequence kept (x :: all).

(** The first record of a list that has the hash [h]. *)
Definition first_with_hash {num} {P : Platform} (h : string) (l : list (Evidence num))
  : option (Evidence num) :=
  find (fun e => String.eqb (hash e) h) l.

(** "[a] goes before [b]" in a ranking: the score of [b] is not greater. *)
Definition outranks (a b : Evidence Q) : Prop := (total_score b <= total_score a)%Q.

(** The words of a text, letter case apart: [text.lower().split()]. *)
Definition words (text : string) : list string := PyText.split (PyStr.lower text).

(** The ranges of the three component scores of a record that
    [_process_search_results] builds. *)
Definition gathered_scores (e : Evidence Q) : Prop :=
  (0 <= relevance_score e <= 1)%Q /\
  (0.2 <= recency_score e <= 1)%Q /\
  (0.4 <= credibility_score e <= 0.95)%Q.

(** The state of a search tool after a series of calls [(query, stance)]. *)
Fixpoint tool_after {Tool} {T : SearchTool Tool} (calls : list (string * string))
    (tool : Tool) : Tool :=
  match calls with
  | [] => tool
  | (query, stance) :: rest => tool_after rest (snd (search_evidence query stance tool))
  end.

(** The results a series of calls brings in, call after call; a call that
    raises or answers with something other than a list brings none. *)
Fixpoint answers {Tool} {T : SearchTool Tool} (calls : list (string * string))
    (tool : Tool) : list SearchResult :=
  match calls with
  | [] => []
  | (query, stance) :: rest =>
      (match fst (search_evidence query stance tool) with
       | Results results => results
       | NotAList => []
       | SearchRaised => []
       end ++ answers rest (snd (search_evidence query stance tool)))%list
  end.

(** The record was made of the search result: it carries its URL and its
    snippet. *)
Definition made_of {num} (e : Evidence num) (result : SearchResult) : Prop :=
  url e = result_get result "url" /\ raw_text e = result_get result "snippet".

(** A record as [_process_search_results] makes them of the results
    [results]: made of one of them, with a URL and a snippet that are not
    empty, component scores in their ranges and a total score of at most
    9.5. *)
Definition well_gathered (results : list SearchResult) (e : Evidence Q) : Prop :=
  (exists result, In result results /\ made_of e result)
  /\ url e <> "" /\ raw_text e <> ""
  /\ gathered_scores e /\ (0 <= total_score e <= 9.5)%Q.

(** The calls [gather_evidence] makes for a list of queries. *)
Definition neutral_calls (queries : list string) : list (string * string) :=
  map (fun query => (query, "neutral")) queries.

(** The signals [_check_not_pure_opinion] looks for. *)
Definition opinion_signals : list string :=
  ["i think"; "i believe"; "in my opinion"; "i feel"; "seems like"].

(** "The claim reads as an opinion": it contains one of the signals, letter
    case apart. *)
Definition claim_is_opinion {num} (e : Evidence num) : Prop :=
  exists signal, In signal opinion_signals /\ PyStr.substring_of signal (PyStr.lower (claim e)).

(** The rules of the validator that a record fails, in the order of the
    rules. *)
Definition failed_rules {num} {N : PyNumber num} (e : Evidence num)
  : list (string * (Evidence num -> RuleResult)) :=
  filter (fun rule => negb (fst (snd rule e))) validation_rules.

(** A stand-in for [urlparse(url).netloc] on plain URLs: the text between
    "://" and the next "/", and the empty text when the URL has no "://". *)
Fixpoint up_to_slash (s : string) : string :=
  match s with
  | EmptyString => EmptyString
  | String c s' => if Ascii.eqb c "/"%char then EmptyString else String c (up_to_slash s')
  end.

Fixpoint plain_netloc (url : string) : string :=
  match url with
  | EmptyString => EmptyString
  | String c url' =>
      if PyStr.startswith "://" url then up_to_slash (substring 3 (String.length url) url)
      else plain_netloc url'
  end.

(** A platform for sample runs: the digest is the text itself, no regular
    expression matches, and the only date understood is "2021-03-01", taken
    to lie 1200 days back. *)
Definition sample_platform : Platform :=
  {| md5_hexdigest := fun text => text;
     urlparse_netloc := fun url => Some (plain_netloc url);
     re_findall := fun _ _ => [];
     days_old := fun _ date => if String.eqb date "2021-03-01" then Some 1200%Z else None |}.

(** A search tool for sample runs: it answers from a script, call by call,
    and raises when the script is used up. *)
Definition scripted_tool : SearchTool (list SearchOutcome) :=
  {| search_evidence := fun _ _ script =>
       match script with
       | [] => (SearchRaised, [])
       | outcome :: rest => (outcome, rest)
       end |}.

(** A dated result of a search, from a source of the credibility table. *)
Definition dated_result : SearchResult :=
  [ ("title", "OAuth rollout: lessons from 40 production migrations");
    ("snippet", "We migrated 40 services to OAuth. Most needed two sprints.");
    ("url", "https://github.com/acme/oauth-notes");
    ("date", "2021-03-01") ].

(** The record [_process_search_results] makes of [dated_result] for the
    requirement "OAuth services" on the sample platform. *)
Definition dated_evidence : Evidence Q :=
  mkEvidence "OAuth rollout: lessons from 40 production migrations" "github.com"
             "https://github.com/acme/oauth-notes" SILVER (1 # 2)%Q 0.2%Q 0.8%Q
             "We migrated 40 services to OAuth. Most needed two sprints." (Some []).

(** The test [find_counter_evidence] puts each record of the pool to. *)
Definition counters {num} {P : Platform} (evidence other : Evidence num) : bool :=
  negb (String.eqb (hash other) (hash evidence))
  && nonempty (PyText.inter negation_words (claim_keywords other))
  && nonempty (PyText.inter (claim_keywords evidence) (claim_keywords other)).

(** [w] is a word of the claim of [e] and of the claim of a record of
    [chain], letter case apart. *)
Definition shared_word {num} (e : Evidence num) (chain : list (Evidence num)) (w : string)
  : Prop :=
  In w (words (claim e)) /\ exists c, In c chain /\ In w (words (claim c)).

(** The records [added] joined [chain] one after the other, each supporting
    the chain as it stood when it joined. *)
Fixpoint grown {num} (chain added : list (Evidence num)) : Prop :=
  match added with
  | [] => True
  | e :: rest => _evidence_supports e chain = true /\ grown (chain ++ [e]) rest
  end.

(** A chain as [create_evidence_chain] builds them: a first record and at
    least one more, each of which supported the chain when it joined. *)
Definition well_chained {num} (chain : list (Evidence num)) : Prop :=
  exists first second rest,
    chain = first :: second :: rest /\ grown [first] (second :: rest).

End GatheringNotions.


Section JudgeReadingNotions.
Context {num : Type}.
Local Open Scope string_scope.

(** The categories the judge scores. *)
Definition judged_categories : list string :=
  ["technical_feasibility"; "roi"; "risk"; "innovation"; "user_impact"].

(** The argument names one of the five categories. *)
Definition names_category (arg : Argument num) : Prop :=
  exists category,
    In category (get_default (categories arg) []) /\ In category judged_categories.

(** The keys [evaluate_debate] needs of an argument: "evidence_tier", and
    "impact" when the argument names one of the five categories. *)
Definition can_be_scored (arg : Argument num) : Prop :=
  evidence_tier arg <> None /\ (names_category arg -> impact arg <> None).

(** The keys [render_verdict] needs of a transcript: those of every
    argument, and "issue" in every CON argument of critical severity. *)
Definition can_be_read (t : Transcript num) : Prop :=
  Forall can_be_scored (get_default (pro_arguments t) [])
  /\ Forall can_be_scored (get_default (con_arguments t) [])
  /\ Forall (fun arg => severity arg = Some "critical" -> issue arg <> None)
            (get_default (con_arguments t) []).

(** One of the three [KeyError]s the judge can raise. *)
Definition missing_key (e : Exception) : Prop :=
  e = KeyError "evidence_tier" \/ e = KeyError "impact" \/ e = KeyError "issue".

(** A PRO argument without "impact" that names no category of the judge. *)
Definition offtopic_argument {N : PyNumber num} : Argument num :=
  {| evidence_tier := Some 4%Z;
     categories := Some ["marketing"];
     impact := None;
     severity := None;
     issue := None;
     cost_estimate := None;
     summary := Some "The brand benefits" |}.

Definition offtopic_transcript {N : PyNumber num} : Transcript num :=
  {| pro_arguments := Some [offtopic_argument]; con_arguments := None |}.

End JudgeReadingNotions.

Section LedgerNotions.
Local Open Scope string_scope.
Local Open Scope Z_scope.

(** The event is an objection raised by [team]. *)
Definition raised_by (team : string) (e : DebateEvent) : bool :=
  String.eqb (event_type e) "objection_raised"
  && match dict_lookup (content e) "team" with
     | Some (VStr t) => String.eqb t team
     | _ => false
     end.

(** The number of objections [team] raised, by the events of the queue. *)
Definition objections_by (team : string) (queue : list DebateEvent) : Z :=
  Z.of_nat (length (filter (raised_by team) queue)).

(** The event is a piece of evidence presented by [team]. *)
Definition presented_by (team : string) (e : DebateEvent) : bool :=
  String.eqb (event_type e) "evidence_presented"
  && match dict_lookup (content e) "team" with
     | Some (VStr t) => String.eqb t team
     | _ => false
     end.

(** The number of pieces of evidence [team] presented, by the events of the
    queue. *)
Definition presentations_by (team : string) (queue : list DebateEvent) : Z :=
  Z.of_nat (length (filter (presented_by team) queue)).

(** The event belongs to a knockout: its announcement or the finishing move. *)
Definition is_knockout (e : DebateEvent) : bool :=
  String.eqb (event_type e) "finishing_move"
  || (String.eqb (event_type e) "dramatic_moment"
      && match dict_lookup (content e) "type" with
         | Some (VStr t) => String.eqb t "knockout"
         | _ => false
         end).

(** The speakers of the final arguments on the queue, with their teams. *)
Definition final_speakers (queue : list DebateEvent) : list (string * option Value) :=
  flat_map (fun e =>
              if String.eqb (event_type e) "final_argument"
              then [(agent e, dict_lookup (content e) "team")]
              else []) queue.

(** The books of a debate after the openings added [opened] to each side and
    each side presented evidence [presented] times: a confidence is the
    starting 50, the opening, the evidence score of the side and ten off for
    each objection of the other side; nothing is ever logged but the
    momentum shifts, all of round 2. *)
Definition books (opened presented : Z) (w : World) : Prop :=
  let st := state (self w) in
  let queue := event_queue (self w) in
  pro_confidence st = 50 + opened + pro_evidence_score st - 10 * objections_by "CON" queue
  /\ con_confidence st = 50 + opened + con_evidence_score st - 10 * objections_by "PRO" queue
  /\ 5 * presented <= pro_evidence_score st <= 20 * presented
  /\ 5 * presented <= con_evidence_score st <= 20 * presented
  /\ presentations_by "PRO" queue = presented
  /\ presentations_by "CON" queue = presented
  /\ 0 <= objections_by "CON" queue <= presented
  /\ 0 <= objections_by "PRO" queue <= presented
  /\ Z.of_nat (length (dramatic_moments st)) <= presented
  /\ length (dramatic_moments st) = length (momentum_gaps queue)
  /\ Forall (fun moment => dict_lookup moment "round" = Some (VNum 2)) (dramatic_moments st)
  /\ transcript st = []
  /\ evidence_presented st = []
  /\ objections st = [].

(** How a debate closed, by the events of the queue: whether a knockout was
    announced, and who made the final arguments. *)
Definition closing (w : World) : bool * list (string * option Value) :=
  (existsb is_knockout (event_queue (self w)), final_speakers (event_queue (self w))).

End LedgerNotions.

Section SettingsNotions.
Local Open Scope string_scope.

(** The orchestrator with another configuration. *)
Definition with_config (o : DebateOrchestrator) (cfg : Config) : DebateOrchestrator :=
  mkDebateOrchestrator (pro_agents o) (con_agents o) (judge_agent o) (state o) cfg
                       (event_queue o) (primary_pro o) (primary_con o).

(** The two configurations agree on the two thresholds. *)
Definition same_thresholds (c1 c2 : Config) : Prop :=
  objection_threshold c1 = objection_threshold c2
  /\ dramatic_moment_threshold c1 = dramatic_moment_threshold c2.

(** The second orchestrator is the first but for its configuration, which
    has the same thresholds. *)
Definition same_but_settings (o1 o2 : DebateOrchestrator) : Prop :=
  exists cfg, o2 = with_config o1 cfg /\ same_thresholds (config o1) cfg.

(** The second world is the first but for the configuration, which has the
    same thresholds, and for the time paused. *)
Definition same_but_pauses (w1 w2 : World) : Prop :=
  same_but_settings (self w1) (self w2) /\ draws w2 = draws w1.

(** The two methods run alike from worlds that differ in the settings and
    the pauses only: both return, with values that [R] relates and worlds
    that still differ in nothing else, or both raise the same exception. *)
Definition alike {A} (R : A -> A -> Prop) (m1 m2 : M A) : Prop :=
  forall w1 w2 : World,
    same_but_pauses w1 w2 ->
    match m1 w1, m2 w2 with
    | Ok (a1, w1'), Ok (a2, w2') => R a1 a2 /\ same_but_pauses w1' w2'
    | Raise e1, Raise e2 => e1 = e2
    | _, _ => False
    end.

(** The method reads no setting but the two thresholds, and what it returns
    does not depend on the pauses. *)
Definition ignores_settings {A} (m : M A) : Prop := alike eq m m.

(** The two bundles are the same but for the duration. *)
Definition same_but_duration (r1 r2 : DebateResult) : Prop :=
  result_requirement r1 = result_requirement r2
  /\ result_verdict r1 = result_verdict r2
  /\ rounds (debate_summary r1) = rounds (debate_summary r2)
  /\ final_confidence_pro (debate_summary r1) = final_confidence_pro (debate_summary r2)
  /\ final_confidence_con (debate_summary r1) = final_confidence_con (debate_summary r2)
  /\ evidence_scores_pro (debate_summary r1) = evidence_scores_pro (debate_summary r2)
  /\ evidence_scores_con (debate_summary r1) = evidence_scores_con (debate_summary r2)
  /\ summary_dramatic_moments (debate_summary r1)
     = summary_dramatic_moments (debate_summary r2)
  /\ summary_objections (debate_summary r1) = summary_objections (debate_summary r2)
  /\ result_transcript r1 = result_transcript r2
  /\ result_evidence r1 = result_evidence r2
  /\ replay_available r1 = replay_available r2.

(** The duration the method returns is what the clock makes of the time
    paused by the end. *)
Definition times_the_pauses (clock : Q -> Z) (m : M DebateResult) : Prop :=
  forall w result w',
    m w = Ok (result, w') -> duration (debate_summary result) = clock (slept w').

(** The settings of the three analysis depths of the REST interface. *)
Definition quick_settings : list ConfigEntry :=
  [Set_max_rounds 2; Set_streaming_delay 0.3; Set_enable_special_effects false].

Definition deep_settings : list ConfigEntry :=
  [Set_max_rounds 6; Set_streaming_delay 0.7; Set_enable_special_effects false].

(** The runs of the two depths on the sample teams. *)
Definition quick_run : Result (DebateResult * World) :=
  analyze_requirement middling_draws steady_clock "Add offline mode"
    (fresh_world sample_pro_team sample_con_team (mkAgent "Judge") (Some quick_settings)).

Definition deep_run : Result (DebateResult * World) :=
  analyze_requirement middling_draws steady_clock "Add offline mode"
    (fresh_world sample_pro_team sample_con_team (mkAgent "Judge") (Some deep_settings)).

End SettingsNotions.

Section PipelineNotions.
Local Open Scope string_scope.

(** The keys of a result of the pipeline, in the order of the dict. *)
Definition result_keys : list string := ["title"; "snippet"; "url"; "source"; "published"].

(** The result carries no date. *)
Definition undated (result : SearchResult) : Prop := result_get result "date" = "".

(** The result is the one [_parse_duckduckgo_result] makes of the text
    DuckDuckGo answered to a query of 11 characters or more. *)
Definition duckduckgo_page (result : SearchResult) : Prop :=
  exists text query,
    [result] = Pipeline._parse_duckduckgo_result text query
    /\ (11 <= String.length query)%nat.

(** A record made of such a result: evidence of the lowest tier from the
    search page itself, titled after the query. *)
Definition duckduckgo_evidence (e : Evidence Q) : Prop :=
  source e = "duckduckgo.com"
  /\ url e = "https://duckduckgo.com"
  /\ tier e = BRONZE
  /\ credibility_score e = 0.5%Q
  /\ recency_score e = 0.5%Q
  /\ PyStr.startswith "Research: " (claim e) = true
  /\ (total_score e == relevance_score e * (1 # 4))%Q.

(** A network for sample runs: no key of the Brave API, two queries a
    search, and DuckDuckGo answers every query with the same line. *)
Definition sample_web : Pipeline.Web :=
  {| Pipeline.getenv_BRAVE_SEARCH_API_KEY := None;
     Pipeline.int_MAX_EVIDENCE_QUERIES := Some 2%Z;
     Pipeline.requests_get := fun _ _ => Pipeline.RequestRaised;
     Pipeline.DuckDuckGoSearchRun_run :=
       fun _ _ => Some "Offline mode raised retention in 3 of 4 case studies." |}.

End PipelineNotions.

Section ChainLoopNotions.
Context {num : Type} {P : Platform}.

(** The state of the outer loop of [create_evidence_chain] after it went
    through the records [visited]: the chains made so far and the hashes
    marked as used. *)
Fixpoint chain_state (visited evidence_list : list (Evidence num))
    (chains : list (list (Evidence num))) (used_evidence : list string)
  : list (list (Evidence num)) * list string :=
  match visited with
  | [] => (chains, used_evidence)
  | evidence :: rest =>
      if PyText.mem (hash evidence) used_evidence
      then chain_state rest evidence_list chains used_evidence
      else
        let '(chain, used_evidence) :=
          extend_chain evidence_list [evidence] (hash evidence :: used_evidence) in
        chain_state rest evidence_list
          (if (1 <? List.length chain)%nat then (chains ++ [chain])%list else chains)
          used_evidence
  end.

End ChainLoopNotions.
(* ================================================================== *)
(** * Properties: strings *)
(* ================================================================== *)

Section StringFacts.
Import PyStr.
Local Open Scope string_scope.

Lemma startswith_iff (p s : string) :
  startswith p s = true <-> exists post, s = p ++ post.
Proof.
  revert s; induction p as [|a p IH]; intros s; simpl.
  - split; [intros _; now exists s | reflexivity].
  - destruct s as [|b s]; simpl.
    + split; [discriminate | intros [post E]; discriminate].
    + rewrite andb_true_iff, Ascii.eqb_eq, IH. split.
      * intros [-> [post ->]]. now exists post.
      * intros [post E]. injection E as -> ->. split; [reflexivity | now exists post].
Qed.

Lemma contains_iff (p s : string) :
  contains p s = true <-> substring_of p s.
Proof.
  unfold substring_of. induction s as [|b s IH].
  - simpl. rewrite orb_false_r, startswith_iff. split.
    + intros [post E]. now exists "", post.
    + intros [pre [post E]]. destruct pre; simpl in E.
      * now exists post.
      * discriminate.
  - cbn [contains]. rewrite orb_true_iff, startswith_iff, IH. split.
    + intros [[post E] | [pre [post E]]].
      * now exists "", post.
      * exists (String b pre), post. simpl. now rewrite E.
    + intros [pre [post E]]. destruct pre as [|c pre]; simpl in E.
      * left. now exists post.
      * right. injection E as _ E. now exists pre, post.
Qed.

Lemma re_search_digits_iff (s : string) :
  truthy (re_search_digits s) = true <-> exists c, occurs c s /\ is_digit c = true.
Proof.
  induction s as [|a s IH]; simpl.
  - split; [discriminate | intros [c [[] _]]].
  - destruct (is_digit a) eqn:Ha; simpl.
    + split; [intros _; exists a; auto | reflexivity].
    + destruct (re_search_digits s) as [[i n]|]; simpl in *.
      * split; [intros _ | reflexivity].
        destruct (proj1 IH eq_refl) as [c [Hc Hd]]. exists c; auto.
      * split; [discriminate |].
        intros [c [[-> | Hc] Hd]]; [congruence |].
        apply IH. exists c; auto.
Qed.

(** A match of [\d+] is a non-empty run of digits. *)
Lemma re_search_digits_nonempty (s : string) (i n : nat) :
  re_search_digits s = Some (i, n) -> (0 < n)%nat.
Proof.
  revert i n; induction s as [|a s IH]; intros i n; simpl; [discriminate |].
  destruct (is_digit a) eqn:Ha.
  - intros E; injection E as <- <-. lia.
  - destruct (re_search_digits s) as [[j m]|]; [|discriminate].
    intros E; injection E as <- <-. now apply (IH j).
Qed.

End StringFacts.

(* ================================================================== *)
(** * Properties: the evidence system *)
(* ================================================================== *)

Lemma Qltb_iff (x y : Q) : Qltb x y = true <-> (x < y)%Q.
Proof.
  unfold Qltb. rewrite negb_true_iff, <- not_true_iff_false, Qle_bool_iff.
  split; [apply Qnot_le_lt | apply Qlt_not_le].
Qed.

Lemma Qltb_false_iff (x y : Q) : Qltb x y = false <-> (y <= x)%Q.
Proof.
  unfold Qltb. now rewrite negb_false_iff, Qle_bool_iff.
Qed.

Lemma tier_weights_pos (t : EvidenceTier) : (0 < tier_weights t)%Z.
Proof. destruct t; reflexivity. Qed.

Lemma total_score_nonneg (e : Evidence Q) :
  valid_scores e -> (0 <= total_score e)%Q.
Proof.
  intros [[Hr _] [[Hc _] [Hd _]]]. unfold total_score; simpl.
  repeat apply Qmult_le_0_compat; try assumption.
  change 0%Q with (inject_Z 0). rewrite <- Zle_Qle.
  pose proof (tier_weights_pos (tier e)). lia.
Qed.

(** The five outcomes of [compare_evidence], read off its chain of tests,
    for scores that are not negative. *)
Lemma compare_evidence_nonneg (a b : Evidence Q) :
  (0 <= total_score a)%Q -> (0 <= total_score b)%Q ->
  (compare_evidence a b = "evidence1_dominates"%string
     <-> (total_score b * 1.5 < total_score a)%Q) /\
  (compare_evidence a b = "evidence2_dominates"%string
     <-> (total_score a * 1.5 < total_score b)%Q) /\
  (compare_evidence a b = "evidence1_wins"%string
     <-> (total_score b < total_score a /\ total_score a <= total_score b * 1.5)%Q) /\
  (compare_evidence a b = "evidence2_wins"%string
     <-> (total_score a < total_score b /\ total_score b <= total_score a * 1.5)%Q) /\
  (compare_evidence a b = "draw"%string
     <-> (total_score a == total_score b)%Q).
Proof.
  unfold compare_evidence. cbn [num_ltb num_mul of_decimal ExactQ].
  generalize (total_score a) (total_score b). intros s1 s2 Ha Hb.
  destruct (Qltb (s2 * 1.5) s1) eqn:E1;
    [apply Qltb_iff in E1 | apply Qltb_false_iff in E1].
  { repeat split; intros; try discriminate; try reflexivity; lra. }
  destruct (Qltb (s1 * 1.5) s2) eqn:E2;
    [apply Qltb_iff in E2 | apply Qltb_false_iff in E2].
  { repeat split; intros; try discriminate; try reflexivity; lra. }
  destruct (Qltb s2 s1) eqn:E3;
    [apply Qltb_iff in E3 | apply Qltb_false_iff in E3].
  { repeat split; intros; try discriminate; try reflexivity; lra. }
  destruct (Qltb s1 s2) eqn:E4;
    [apply Qltb_iff in E4 | apply Qltb_false_iff in E4].
  { repeat split; intros; try discriminate; try reflexivity; lra. }
  repeat split; intros; try discriminate; try reflexivity; lra.
Qed.

(** The first test of [compare_evidence], for any arithmetic: dominance of
    the first record is exactly [score1 > score2 * 1.5]. *)
Lemma compare_evidence_dominates_iff {num} {N : PyNumber num} (a b : Evidence num) :
  compare_evidence a b = "evidence1_dominates"%string
  <-> num_ltb (num_mul (total_score b) (of_decimal 1.5)) (total_score a) = true.
Proof.
  unfold compare_evidence.
  destruct (num_ltb (num_mul (total_score b) (of_decimal 1.5)) (total_score a)).
  - split; reflexivity.
  - split; [|discriminate].
    repeat match goal with |- context [if ?c then _ else _] => destruct c end;
      discriminate.
Qed.

(** C6.  The total score of an evidence record is the product, taken from
    the left, of the weight of its tier and its relevance, recency and
    credibility scores; the weights are PLATINUM 10, GOLD 5, SILVER 2 and
    BRONZE 1, so a larger tier number always has a strictly smaller weight. *)
Theorem total_score_is_weighted_product :
  forall (num : Type) (N : PyNumber num) (e : Evidence num),
    total_score e
    = (of_Z (tier_weights (tier e)) * relevance_score e * recency_score e
       * credibility_score e)%num
    /\ tier_weights PLATINUM = 10%Z
    /\ tier_weights GOLD = 5%Z
    /\ tier_weights SILVER = 2%Z
    /\ tier_weights BRONZE = 1%Z
    /\ (forall t1 t2 : EvidenceTier,
          (tier_value t1 < tier_value t2)%Z -> (tier_weights t2 < tier_weights t1)%Z).
Proof.
  intros num N e. repeat split.
  intros t1 t2; destruct t1, t2; simpl; lia.
Qed.

Lemma total_score_is_weighted_product_witness :
  total_score (N := Binary64) margin_a = 1.5%float
  /\ (tier_weights BRONZE < tier_weights SILVER)%Z.
Proof.
  destruct (total_score_is_weighted_product float Binary64 margin_a)
    as (Hscore & _ & _ & _ & _ & Hmono).
  split.
  - rewrite Hscore. vm_compute. reflexivity.
  - apply Hmono. simpl. lia.
Defined.

(** C7 (as amended).  [compare_evidence] decides on the numbers it
    computes, whatever the arithmetic: it reports dominance of the first
    record exactly when its total score is strictly greater than the
    product, as computed, of the other score and 1.5, else dominance of the
    second record exactly when the mirrored test holds, else a simple win of
    the record whose score is strictly greater, and a draw exactly when none
    of the four tests holds.  In exact arithmetic, for records whose
    component scores lie in [0, 1], this is: dominance exactly when one total
    score is strictly greater than 1.5 times the other, a simple win exactly
    when one score is strictly greater than the other without exceeding 1.5
    times it, and a draw exactly when the two scores are equal. *)
Theorem compare_evidence_outcomes :
  forall (num : Type) (N : PyNumber num) (a b : Evidence num),
    ((compare_evidence a b = "evidence1_dominates"%string
        <-> (total_score a >? total_score b * of_decimal 1.5)%num = true) /\
     (compare_evidence a b = "evidence2_dominates"%string
        <-> (total_score a >? total_score b * of_decimal 1.5)%num = false
            /\ (total_score b >? total_score a * of_decimal 1.5)%num = true) /\
     (compare_evidence a b = "evidence1_wins"%string
        <-> (total_score a >? total_score b * of_decimal 1.5)%num = false
            /\ (total_score b >? total_score a * of_decimal 1.5)%num = false
            /\ (total_score a >? total_score b)%num = true) /\
     (compare_evidence a b = "evidence2_wins"%string
        <-> (total_score a >? total_score b * of_decimal 1.5)%num = false
            /\ (total_score b >? total_score a * of_decimal 1.5)%num = false
            /\ (total_score a >? total_score b)%num = false
            /\ (total_score b >? total_score a)%num = true) /\
     (compare_evidence a b = "draw"%string
        <-> (total_score a >? total_score b * of_decimal 1.5)%num = false
            /\ (total_score b >? total_score a * of_decimal 1.5)%num = false
            /\ (total_score a >? total_score b)%num = false
            /\ (total_score b >? total_score a)%num = false))
    /\ forall x y : Evidence Q,
         valid_scores x -> valid_scores y ->
         (compare_evidence x y = "evidence1_dominates"%string
            <-> (total_score y * 1.5 < total_score x)%Q) /\
         (compare_evidence x y = "evidence2_dominates"%string
            <-> (total_score x * 1.5 < total_score y)%Q) /\
         (compare_evidence x y = "evidence1_wins"%string
            <-> (total_score y < total_score x /\ total_score x <= total_score y * 1.5)%Q) /\
         (compare_evidence x y = "evidence2_wins"%string
            <-> (total_score x < total_score y /\ total_score y <= total_score x * 1.5)%Q) /\
         (compare_evidence x y = "draw"%string
            <-> (total_score x == total_score y)%Q).
Proof.
  intros num N a b. split.
  - unfold compare_evidence. cbv zeta.
    destruct (total_score a >? total_score b * of_decimal 1.5)%num;
      [|destruct (total_score b >? total_score a * of_decimal 1.5)%num;
        [|destruct (total_score a >? total_score b)%num;
          [|destruct (total_score b >? total_score a)%num]]];
      repeat split; try reflexivity; try discriminate;
      try (intros H; decompose [and] H; discriminate).
  - intros x y Hx Hy. apply compare_evidence_nonneg; now apply total_score_nonneg.
Qed.

Lemma margin_a_valid : valid_scores margin_a.
Proof. unfold valid_scores; simpl. repeat split; lra. Qed.

Lemma margin_b_valid : valid_scores margin_b.
Proof. unfold valid_scores; simpl. repeat split; lra. Qed.

Lemma compare_evidence_outcomes_witness :
  valid_scores margin_a /\ valid_scores margin_b /\
  compare_evidence (N := ExactQ) margin_a margin_b = "evidence1_wins"%string.
Proof.
  split; [exact margin_a_valid | split; [exact margin_b_valid |]].
  destruct (proj2 (compare_evidence_outcomes Q ExactQ margin_a margin_b)
              margin_a margin_b margin_a_valid margin_b_valid)
    as (_ & _ & Hwin & _).
  apply Hwin. vm_compute. split; [reflexivity | discriminate].
Defined.

(** C7, the claim as stated fails: with total scores 1.5 and 1.0 the first
    record's score is at least 1.5 times the second's (it is exactly 1.5
    times it), yet [compare_evidence], run on doubles as well as on exact
    rationals, answers "evidence1_wins", not "evidence1_dominates". *)
Lemma compare_evidence_at_margin_is_win :
  total_score (N := Binary64) margin_a = 1.5%float
  /\ total_score (N := Binary64) margin_b = 1%float
  /\ PrimFloat.leb (1.5 * total_score (N := Binary64) margin_b)%float
                   (total_score (N := Binary64) margin_a) = true
  /\ compare_evidence (N := Binary64) margin_a margin_b = "evidence1_wins"%string
  /\ (1.5 * total_score (N := ExactQ) margin_b <= total_score (N := ExactQ) margin_a)%Q
  /\ compare_evidence (N := ExactQ) margin_a margin_b = "evidence1_wins"%string.
Proof.
  repeat split; try (vm_compute; reflexivity).
  vm_compute. discriminate.
Qed.

(** The rounding of the product decides on doubles: the first record
    scores strictly more than 1.5 times the second, as the exact arithmetic
    shows, yet on doubles the product of the second score and 1.5 rounds to
    the first score itself, and the answer is a simple win. *)
Lemma compare_evidence_rounds_the_margin :
  valid_scores rounded_a
  /\ valid_scores rounded_b
  /\ (total_score (N := ExactQ) rounded_b * 1.5 < total_score (N := ExactQ) rounded_a)%Q
  /\ compare_evidence (N := ExactQ) rounded_a rounded_b = "evidence1_dominates"%string
  /\ PrimFloat.mul (total_score (N := Binary64) rounded_b) (of_decimal (PyNumber := Binary64) 1.5)
     = total_score (N := Binary64) rounded_a
  /\ compare_evidence (N := Binary64) rounded_a rounded_b = "evidence1_wins"%string.
Proof.
  split; [unfold valid_scores; cbn; repeat split; lra |].
  split; [unfold valid_scores; cbn; repeat split; lra |].
  split; [vm_compute; reflexivity |].
  repeat split; vm_compute; reflexivity.
Qed.

(** ** The validator *)

Lemma not_extracted_data_false_iff {num} (e : Evidence num) :
  not_extracted_data (extracted_data e) = false <-> has_extracted_data e.
Proof.
  unfold has_extracted_data. destruct (extracted_data e) as [[|entry rest]|]; simpl.
  - split; [discriminate | intros (x & r & E); discriminate].
  - split; [intros _; now exists entry, rest | reflexivity].
  - split; [discriminate | intros (x & r & E); discriminate].
Qed.

Lemma has_specifics_iff {num} (e : Evidence num) :
  existsb (fun word => PyStr.contains word (PyStr.lower (claim e))) data_words = true
  <-> claim_has_data_word e.
Proof.
  unfold claim_has_data_word. rewrite existsb_exists.
  split; intros (w & Hin & Hw); exists w; (split; [exact Hin |]);
    now apply contains_iff.
Qed.

(** Issues already collected stay in the list a run of rules returns. *)
Lemma run_rules_keeps {num} {N : PyNumber num}
    (rules : list (string * (Evidence num -> RuleResult))) (e : Evidence num)
    (issues : list (option string)) (i : option string) :
  In i issues -> In i (run_rules rules e issues).
Proof.
  revert issues; induction rules as [|[name rule] rules IH]; intros issues Hin; simpl.
  - exact Hin.
  - destruct (rule e) as [[|] issue]; apply IH; [exact Hin |].
    apply in_or_app; now left.
Qed.

(** A rule of the list that fails leaves its issue in the result. *)
Lemma run_rules_reports {num} {N : PyNumber num}
    (rules : list (string * (Evidence num -> RuleResult))) (e : Evidence num)
    (issues : list (option string)) (name : string)
    (rule : Evidence num -> RuleResult) (issue : option string) :
  In (name, rule) rules -> rule e = (false, issue) ->
  In issue (run_rules rules e issues).
Proof.
  revert issues; induction rules as [|[name' rule'] rules IH]; intros issues Hin Hrule.
  - destruct Hin.
  - destruct Hin as [E | Hin]; cbn [run_rules].
    + injection E as _ ->. rewrite Hrule.
      apply run_rules_keeps. apply in_or_app; right; now left.
    + destruct (rule' e) as [v i]. now apply IH.
Qed.

(** C8 (as amended).  The [has_data] rule passes exactly when the record
    carries extracted data, or its claim contains a digit, or its lower-cased
    claim contains one of "study", "report", "analysis", "data".  When the
    rule fails, [validate_evidence] still returns for the record: its flag is
    [False] and its list of issues holds the rule's issue string. *)
Theorem has_data_rule :
  forall (num : Type) (N : PyNumber num) (e : Evidence num),
    (fst (_check_has_data e) = true
       <-> has_extracted_data e \/ claim_has_digit e \/ claim_has_data_word e)
    /\ (fst (_check_has_data e) = false ->
          _check_has_data e = (false, Some "No specific data or metrics provided"%string)
          /\ fst (validate_evidence e) = false
          /\ In (Some "No specific data or metrics provided"%string)
                (snd (validate_evidence e))).
Proof.
  intros num N e.
  assert (Hcases :
    forall bx bd bw,
      not_extracted_data (extracted_data e) = bx ->
      PyStr.truthy (PyStr.re_search_digits (claim e)) = bd ->
      existsb (fun word => PyStr.contains word (PyStr.lower (claim e))) data_words = bw ->
      _check_has_data e
      = if bx && negb bd && negb bw
        then (false, Some "No specific data or metrics provided"%string)
        else (true, None)).
  { intros bx bd bw <- <- <-. unfold _check_has_data, data_words.
    destruct (not_extracted_data (extracted_data e)); [|reflexivity].
    destruct (PyStr.truthy _); [reflexivity |].
    destruct (existsb _ _); reflexivity. }
  destruct (not_extracted_data (extracted_data e)) eqn:Ex;
    destruct (PyStr.truthy (PyStr.re_search_digits (claim e))) eqn:Ed;
    destruct (existsb (fun word => PyStr.contains word (PyStr.lower (claim e)))
                      data_words) eqn:Ew;
    rewrite (Hcases _ _ _ eq_refl eq_refl eq_refl); cbn [andb negb fst];
    (split; [split |]); try reflexivity; try discriminate;
    try (intros _; first
           [ left; now apply not_extracted_data_false_iff
           | right; left; now apply re_search_digits_iff
           | right; right; now apply has_specifics_iff ]).
  - intros [H | [H | H]];
      [ apply not_extracted_data_false_iff in H
      | apply re_search_digits_iff in H
      | apply has_specifics_iff in H ]; congruence.
  - intros _. split; [reflexivity |].
    assert (Hin : In (Some "No specific data or metrics provided"%string)
                     (snd (validate_evidence e))).
    { unfold validate_evidence. cbn [snd].
      apply (run_rules_reports validation_rules e [] "has_data"%string _check_has_data).
      - unfold validation_rules. right; left; reflexivity.
      - now rewrite (Hcases _ _ _ eq_refl eq_refl eq_refl). }
    split; [|exact Hin].
    unfold validate_evidence in *. cbn [fst snd] in *.
    destruct (run_rules validation_rules e []); [destruct Hin | reflexivity].
Qed.

Lemma has_data_rule_witness :
  fst (_check_has_data (bare_evidence (N := Binary64))) = false
  /\ fst (validate_evidence (N := Binary64) bare_evidence) = false
  /\ In (Some "No specific data or metrics provided"%string)
        (snd (validate_evidence (N := Binary64) bare_evidence)).
Proof.
  split; [reflexivity |].
  apply (has_data_rule float Binary64 bare_evidence). reflexivity.
Defined.

(** C8, the claim as stated fails: a record whose claim holds no digit and
    none of the four words passes the rule, because data was extracted from
    its snippet. *)
Lemma has_data_passes_on_extracted_data :
  _check_has_data (titled_evidence (N := Binary64)) = (true, None)
  /\ ~ claim_has_digit (titled_evidence (N := Binary64))
  /\ ~ claim_has_data_word (titled_evidence (N := Binary64)).
Proof.
  split; [reflexivity | split].
  - intros Hd. apply re_search_digits_iff in Hd. vm_compute in Hd. discriminate.
  - intros Hw. apply has_specifics_iff in Hw. vm_compute in Hw. discriminate.
Qed.

(* ================================================================== *)
(** * Properties: the judge *)
(* ================================================================== *)

Section JudgeFacts.
Context {num : Type} {N : PyNumber num} {EvidenceSummary : Type}.
Local Open Scope string_scope.

Lemma subscript_some {A} (key : string) (entry : option A) (a : A) :
  entry = Some a -> subscript key entry = Ok a.
Proof. now intros ->. Qed.

(** The loop over the categories of a scorable argument never raises. *)
Lemma score_categories_total (apply : num -> num -> num) (i weight : num)
    (cats : list string) (scores : Scores num) :
  exists scores',
    for_each
      (fun scores category =>
         if dict_mem category scores
         then result_bind (subscript "impact" (Some i))
                (fun i => Ok (dict_update scores category (fun s => apply s (num_mul i weight))))
         else Ok scores)
      cats scores = Ok scores'.
Proof.
  revert scores; induction cats as [|c cats IH]; intros scores; simpl.
  - now exists scores.
  - destruct (dict_mem c scores); simpl; apply IH.
Qed.

Lemma score_argument_total (apply : num -> num -> num) (scores : Scores num)
    (arg : Argument num) :
  scorable arg -> exists scores', score_argument apply scores arg = Ok scores'.
Proof.
  intros [[t Ht] [i Hi]]. unfold score_argument. rewrite Ht, Hi. simpl.
  apply score_categories_total.
Qed.

Lemma score_arguments_total (apply : num -> num -> num) (args : list (Argument num))
    (scores : Scores num) :
  Forall scorable args ->
  exists scores', for_each (score_argument apply) args scores = Ok scores'.
Proof.
  intros Hall; revert scores; induction Hall as [|arg args Harg _ IH]; intros scores; simpl.
  - now exists scores.
  - destruct (score_argument_total apply scores arg Harg) as [s' ->]. simpl. apply IH.
Qed.

Lemma evaluate_debate_total (pro con : list (Argument num)) (ev : EvidenceSummary) :
  Forall scorable pro -> Forall scorable con ->
  exists scores, evaluate_debate pro con ev = Ok scores.
Proof.
  intros Hpro Hcon. unfold evaluate_debate.
  destruct (score_arguments_total num_add pro
              [ ("technical_feasibility", of_Z 0); ("roi", of_Z 0); ("risk", of_Z 0);
                ("innovation", of_Z 0); ("user_impact", of_Z 0) ] Hpro) as [s1 ->].
  simpl.
  destruct (score_arguments_total num_sub con s1 Hcon) as [s2 ->].
  simpl. eauto.
Qed.

Lemma collect_critical_issues_total (con : list (Argument num)) :
  Forall (fun arg => severity arg = Some "critical" -> exists i, issue arg = Some i) con ->
  exists issues, collect_critical_issues con = Ok issues.
Proof.
  induction 1 as [|arg con Harg _ [issues IH]]; simpl.
  - now exists [].
  - destruct (severity arg) as [s|]; [|now exists issues].
    destruct (String.eqb s "critical") eqn:Es; [|now exists issues].
    apply String.eqb_eq in Es; subst s.
    destruct (Harg eq_refl) as [i ->]. simpl. rewrite IH. simpl. eauto.
Qed.

(** The issue of a critical CON argument is among the collected ones. *)
Lemma collect_critical_issues_In (con : list (Argument num)) (arg : Argument num)
    (i : string) (issues : list string) :
  In arg con -> severity arg = Some "critical" -> issue arg = Some i ->
  collect_critical_issues con = Ok issues -> In i issues.
Proof.
  intros Hin Hsev Hissue. revert issues.
  induction con as [|a con IH]; intros issues; [destruct Hin |].
  simpl. destruct Hin as [-> | Hin].
  - rewrite Hsev, Hissue. simpl.
    destruct (collect_critical_issues con) as [rest|]; simpl; [|discriminate].
    intros E; injection E as <-. now left.
  - specialize (IH Hin).
    destruct (severity a) as [s|]; [|now apply IH].
    destruct (String.eqb s "critical"); [|now apply IH].
    destruct (issue a) as [j|]; simpl; [|discriminate].
    destruct (collect_critical_issues con) as [rest|]; simpl; [|discriminate].
    intros E; injection E as <-. right. now apply IH.
Qed.

(** The override of [determine_verdict]: a blocker among the critical
    issues decides, whatever the score. *)
Lemma determine_verdict_blocker (final_score : num) (issues : list string)
    (blocker : string) :
  In blocker critical_blockers -> In blocker issues ->
  determine_verdict final_score issues = REJECTED.
Proof.
  intros Hb Hi. unfold determine_verdict.
  assert (E : existsb (fun b => list_mem b issues) critical_blockers = true).
  { apply existsb_exists. exists blocker. split; [exact Hb |].
    unfold list_mem. apply existsb_exists. exists blocker.
    split; [exact Hi | apply String.eqb_refl]. }
  rewrite E. destruct issues; [destruct Hi | reflexivity].
Qed.

End JudgeFacts.

(** C5.  When a CON argument of critical severity names an issue of the
    blocker set, every verdict [render_verdict] returns is REJECTED, whatever
    the arguments score; and on a transcript it can read, it does return one.
    So does, in particular, a critical "security_breach_risk". *)
Theorem critical_blocker_forces_rejection :
  forall (num : Type) (N : PyNumber num) (EvidenceSummary : Type)
         (judge : JudgeAgent num) (requirement : string) (t : Transcript num)
         (ev : EvidenceSummary) (arg : Argument num),
    In arg (get_default (con_arguments t) []) ->
    critical_blocker_argument arg ->
    (forall v, render_verdict judge requirement t ev = Ok v -> decision v = REJECTED)
    /\ (readable t ->
        exists v, render_verdict judge requirement t ev = Ok v /\ decision v = REJECTED).
Proof.
  intros num N EvidenceSummary judge requirement t ev arg Hin (Hsev & blocker & Hissue & Hb).
  assert (Hrej : forall v, render_verdict judge requirement t ev = Ok v ->
                           decision v = REJECTED).
  { intros v. unfold render_verdict.
    destruct (evaluate_debate _ _ ev) as [scores|]; simpl; [|discriminate].
    destruct (collect_critical_issues _) as [issues|] eqn:Ec; simpl; [|discriminate].
    pose proof (collect_critical_issues_In _ _ _ _ Hin Hsev Hissue Ec) as Hi.
    rewrite (determine_verdict_blocker _ _ _ Hb Hi).
    intros E; injection E as <-. reflexivity. }
  split; [exact Hrej |].
  intros [Hpro Hcon].
  assert (Hret : exists v, render_verdict judge requirement t ev = Ok v).
  { unfold render_verdict.
    destruct (evaluate_debate_total _ _ ev Hpro
                (Forall_impl _ (fun a H => proj1 H) Hcon)) as [scores ->].
    simpl.
    destruct (collect_critical_issues_total _
                (Forall_impl _ (fun a H => proj2 H) Hcon)) as [issues ->].
    simpl. eauto. }
  destruct Hret as [v Hv]. exists v. split; [exact Hv | now apply Hrej].
Qed.

Lemma breach_transcript_readable {num} {N : PyNumber num} :
  readable (breach_transcript (N := N)).
Proof.
  split; simpl.
  - repeat constructor; simpl; eauto.
  - repeat constructor; simpl; eauto.
Qed.

Lemma critical_blocker_forces_rejection_witness :
  In breach_argument (get_default (con_arguments (breach_transcript (N := Binary64))) [])
  /\ critical_blocker_argument (breach_argument (N := Binary64))
  /\ readable (breach_transcript (N := Binary64))
  /\ exists v,
       render_verdict (JudgeAgent_init PRAGMATIST None) "Add single sign-on"%string
                      breach_transcript tt = Ok v
       /\ decision v = REJECTED.
Proof.
  assert (Hin : In breach_argument
                   (get_default (con_arguments (breach_transcript (N := Binary64))) []))
    by (simpl; now left).
  assert (Hcrit : critical_blocker_argument (breach_argument (N := Binary64))).
  { split; [reflexivity |]. exists "security_breach_risk"%string.
    split; [reflexivity | simpl; now left]. }
  split; [exact Hin | split; [exact Hcrit | split; [exact breach_transcript_readable |]]].
  apply (critical_blocker_forces_rejection float Binary64 unit
           (JudgeAgent_init PRAGMATIST None) "Add single sign-on"%string
           breach_transcript tt breach_argument Hin Hcrit).
  exact breach_transcript_readable.
Defined.

(** C9.  The verdict is a function of the two argument lists and of the
    judge's personality alone: two judges of the same personality, whatever
    language model each holds, return the same final score and the same
    verdict (decision and confidence included) on the same transcript.  The
    requirement text and the evidence summary are not even read. *)
Theorem verdict_is_deterministic :
  forall (num : Type) (N : PyNumber num) (EvidenceSummary : Type)
         (p : JudgePersonality) (llm1 llm2 : option Llm)
         (requirement1 requirement2 : string) (t : Transcript num)
         (ev1 ev2 : EvidenceSummary),
    let judge1 := JudgeAgent_init p llm1 in
    let judge2 := JudgeAgent_init p llm2 in
    render_final_score judge1 t ev1 = render_final_score judge2 t ev2
    /\ render_verdict judge1 requirement1 t ev1 = render_verdict judge2 requirement2 t ev2.
Proof.
  intros num N EvidenceSummary p llm1 llm2 r1 r2 t ev1 ev2 judge1 judge2.
  assert (Hscores : forall pro con,
             evaluate_debate pro con ev1 = evaluate_debate (N := N) pro con ev2)
    by reflexivity.
  assert (Hfinal : forall scores,
             calculate_final_score judge1 scores = calculate_final_score judge2 scores)
    by reflexivity.
  split.
  - unfold render_final_score. rewrite Hscores.
    destruct (evaluate_debate _ _ ev2); simpl; [now rewrite Hfinal | reflexivity].
  - unfold render_verdict. rewrite Hscores.
    destruct (evaluate_debate _ _ ev2) as [scores|]; simpl; [|reflexivity].
    rewrite Hfinal.
    assert (Halt : forall issues,
               generate_alternative r1 issues = generate_alternative r2 issues).
    { induction issues as [|i issues IH]; cbn [generate_alternative]; [reflexivity |].
      destruct (first_alternative alternatives i); [reflexivity | exact IH]. }
    destruct (collect_critical_issues _) as [issues|]; simpl; [|reflexivity].
    now rewrite Halt.
Qed.

(** The table of weights as Python holds it: each decimal literal of the
    source read as the nearest double. *)
Lemma scoring_weights_as_doubles :
  _get_scoring_weights (N := Binary64) PRAGMATIST
  = [ ("technical_feasibility", 0.30); ("roi", 0.35); ("risk", 0.20);
      ("innovation", 0.05); ("user_impact", 0.10) ]%string%float
  /\ _get_scoring_weights (N := Binary64) INNOVATOR
  = [ ("technical_feasibility", 0.15); ("roi", 0.20); ("risk", 0.10);
      ("innovation", 0.35); ("user_impact", 0.20) ]%string%float
  /\ _get_scoring_weights (N := Binary64) USER_ADVOCATE
  = [ ("technical_feasibility", 0.15); ("roi", 0.15); ("risk", 0.10);
      ("innovation", 0.10); ("user_impact", 0.50) ]%string%float.
Proof. repeat split; vm_compute; reflexivity. Qed.

(** C4.  With no PRO argument and no CON argument, whatever the evidence
    summary holds, every judge personality gets five category scores of 50,
    a final score of exactly 50 (computed on doubles as Python does),
    the verdict CONDITIONAL and the confidence 0; the decimal weights of each
    personality sum to 1. *)
Theorem empty_debate_is_conditional :
  forall (EvidenceSummary : Type) (p : JudgePersonality) (llm : option Llm)
         (requirement : string) (t : Transcript float) (ev : EvidenceSummary),
    get_default (pro_arguments t) [] = [] ->
    get_default (con_arguments t) [] = [] ->
    let judge := JudgeAgent_init (N := Binary64) p llm in
    evaluate_debate (N := Binary64) [] [] ev
    = Ok [ ("technical_feasibility", 50); ("roi", 50); ("risk", 50);
           ("innovation", 50); ("user_impact", 50) ]%string%float
    /\ render_final_score judge t ev = Ok 50%float
    /\ (exists v, render_verdict judge requirement t ev = Ok v
                  /\ decision v = CONDITIONAL /\ confidence v = 0%float)
    /\ (py_sum (map snd (_get_scoring_weights (N := ExactQ) p)) == 1)%Q.
Proof.
  intros EvidenceSummary p llm requirement t ev Hpro Hcon judge.
  split; [reflexivity |].
  split; [unfold render_final_score; rewrite Hpro, Hcon; destruct p; reflexivity |].
  split.
  - unfold render_verdict. rewrite Hpro, Hcon.
    destruct p; (eexists; split; [reflexivity | split; reflexivity]).
  - destruct p; reflexivity.
Qed.

Lemma empty_debate_is_conditional_witness :
  get_default (pro_arguments (empty_transcript (num := float))) [] = []
  /\ get_default (con_arguments (empty_transcript (num := float))) [] = []
  /\ exists v,
       render_verdict (JudgeAgent_init (N := Binary64) INNOVATOR None)
                      "Add dark mode"%string empty_transcript (@nil string) = Ok v
       /\ decision v = CONDITIONAL /\ confidence v = 0%float.
Proof.
  split; [reflexivity | split; [reflexivity |]].
  apply (empty_debate_is_conditional (list string) INNOVATOR None "Add dark mode"%string
           empty_transcript (@nil string) eq_refl eq_refl).
Defined.

(* ================================================================== *)
(** * Properties: the orchestrator *)
(* ================================================================== *)

(** Puts the appends of single events into the shape [queue ++ events]. *)
Ltac queue_shape :=
  unfold emitted; simpl; rewrite <- ?app_assoc; simpl; reflexivity.

(** Runs the methods of the orchestrator on a world given by its fields,
    leaving arithmetic and the draws of the generator as they stand. *)
Ltac run_methods :=
  cbv beta iota zeta delta
      [ bind ret raise get_self get_state get_slept set_self modify_state asyncio_sleep
        with_state with_event_queue with_primaries
        set_phase set_round_number set_pro_confidence set_con_confidence
        set_pro_evidence_score set_con_evidence_score set_dramatic_moments
        get_primary_pro get_primary_con
        random_random random_randint
        _emit_event _update_confidence _get_agent_argument _gather_evidence
        _present_evidence _generate_objection _attempt_objection _check_dramatic_moment
        pro_presents con_presents evidence_round
        _initialize_debate _run_opening_statements _run_evidence_duel
        _run_cross_examination _generate_critical_question _respond_to_question
        _evaluate_response _compile_results
        self draws slept state config event_queue primary_pro primary_con
        pro_agents con_agents judge_agent
        phase round_number pro_confidence con_confidence
        pro_evidence_score con_evidence_score current_speaker transcript
        evidence_presented objections dramatic_moments
        ev_source ev_claim ev_tier ev_relevance ev_url
        String.eqb Ascii.eqb Bool.eqb andb fst snd ].

Section OrchestratorFacts.
Variable rng : nat -> Q.
Variable clock : Q -> Z.
Local Open Scope string_scope.
Local Open Scope Z_scope.

(** What [_run_final_arguments] leaves behind, branch by branch. *)
Lemma run_final_arguments_world (requirement : string) (w : World) (p c : Agent) :
  primary_pro (self w) = Some p -> primary_con (self w) = Some c ->
  exists w',
    _run_final_arguments requirement w = Ok (tt, w')
    /\ draws w' = draws w
    /\ state (self w')
       = set_round_number 4 (set_phase FINAL_ARGUMENTS (state (self w)))
    /\ config (self w') = config (self w)
    /\ judge_agent (self w') = judge_agent (self w)
    /\ exists opening finals,
         emitted w w' (opening :: finals)
         /\ announces_phase "final_arguments" opening
         /\ (if pro_confidence (state (self w)) <? 10 then knockout_path "CON" c finals
             else if con_confidence (state (self w)) <? 10 then knockout_path "PRO" p finals
             else normal_finals p c finals).
Proof.
  destruct w as [[pa ca j st cfg q pp pc] d sl]. simpl.
  intros -> ->.
  unfold _run_final_arguments, bind, modify_state, _emit_event, get_state. simpl.
  destruct (pro_confidence st <? 10) eqn:Hp; [|destruct (con_confidence st <? 10) eqn:Hc].
  - unfold get_primary_con, _knockout_finish, bind, _emit_event, _get_agent_argument, ret;
      simpl.
    eexists; split; [reflexivity |]; simpl.
    repeat split.
    do 2 eexists; split; [queue_shape |].
    split; [split; reflexivity |].
    do 2 eexists; repeat split; reflexivity.
  - unfold get_primary_pro, _knockout_finish, bind, _emit_event, _get_agent_argument, ret;
      simpl.
    eexists; split; [reflexivity |]; simpl.
    repeat split.
    do 2 eexists; split; [queue_shape |].
    split; [split; reflexivity |].
    do 2 eexists; repeat split; reflexivity.
  - unfold _normal_final_arguments, get_primary_pro, get_primary_con, final_argument_of,
      bind, _emit_event, _get_agent_argument, ret; simpl.
    eexists; split; [reflexivity |]; simpl.
    repeat split.
    do 2 eexists; split; [queue_shape |].
    split; [split; reflexivity |].
    do 2 eexists; repeat split; reflexivity.
Qed.

(** What [_run_judgment] leaves behind. *)
Lemma run_judgment_world (requirement : string) (w : World) :
  exists verdict w',
    _run_judgment requirement w = Ok (verdict, w')
    /\ draws w' = draws w
    /\ state (self w') = set_phase COMPLETE (state (self w))
    /\ jv_confidence verdict
       = Z.abs (con_confidence (state (self w)) - pro_confidence (state (self w)))
    /\ exists announcement rendering,
         emitted w w' [announcement; rendering]
         /\ announces_phase "judgment" announcement
         /\ event_type rendering = "verdict_rendered"
         /\ agent rendering = role (judge_agent (self w))
         /\ dict_lookup (content rendering) "verdict" = Some (VStr (jv_decision verdict))
         /\ jv_decision verdict
            = if pro_confidence (state (self w)) <? con_confidence (state (self w))
              then "REJECTED" else "APPROVED".
Proof.
  destruct w as [[pa ca j st cfg q pp pc] d sl].
  unfold _run_judgment, _get_judge_verdict, bind, modify_state, _emit_event, get_state,
    get_self, ret; simpl.
  do 2 eexists; split; [reflexivity |]; simpl.
  repeat split.
  do 2 eexists; split; [queue_shape |].
  repeat split.
Qed.

(** C2.  At the start of FINAL_ARGUMENTS, with both speakers chosen: if
    pro_confidence < 10 the CON-knockout path is taken (CON's representative
    delivers the finishing move); symmetrically, if con_confidence < 10, and
    pro_confidence is not, the PRO-knockout path is taken (the specification
    leaves open who wins when both are below 10); otherwise both sides make
    a final argument.  In every case the judgment follows: its phase change
    is announced, the verdict is rendered, and the run is COMPLETE. *)
Theorem final_arguments_then_judgment :
  forall (requirement : string) (w : World) (p c : Agent),
    primary_pro (self w) = Some p ->
    primary_con (self w) = Some c ->
    exists w1 verdict w2 opening finals announcement rendering,
      _run_final_arguments requirement w = Ok (tt, w1)
      /\ emitted w w1 (opening :: finals)
      /\ announces_phase "final_arguments" opening
      /\ (pro_confidence (state (self w)) < 10 -> knockout_path "CON" c finals)
      /\ (10 <= pro_confidence (state (self w)) ->
          con_confidence (state (self w)) < 10 -> knockout_path "PRO" p finals)
      /\ (10 <= pro_confidence (state (self w)) ->
          10 <= con_confidence (state (self w)) -> normal_finals p c finals)
      /\ _run_judgment requirement w1 = Ok (verdict, w2)
      /\ emitted w1 w2 [announcement; rendering]
      /\ announces_phase "judgment" announcement
      /\ event_type rendering = "verdict_rendered"
      /\ phase (state (self w2)) = COMPLETE.
Proof.
  intros requirement w p c Hp Hc.
  destruct (run_final_arguments_world requirement w p c Hp Hc)
    as (w1 & Hrun & _ & _ & _ & _ & opening & finals & Hq & Hopen & Hpath).
  destruct (run_judgment_world requirement w1)
    as (verdict & w2 & Hjudge & _ & Hst & _ & announcement & rendering & Hq2 & Hann & Hty & _).
  exists w1, verdict, w2, opening, finals, announcement, rendering.
  repeat split; try assumption; try (apply Hopen); try (apply Hann).
  - intros Hlt. apply Z.ltb_lt in Hlt. now rewrite Hlt in Hpath.
  - intros Hge Hlt. apply Z.ltb_ge in Hge. apply Z.ltb_lt in Hlt.
    now rewrite Hge, Hlt in Hpath.
  - intros Hge Hge'. apply Z.ltb_ge in Hge, Hge'. now rewrite Hge, Hge' in Hpath.
  - now rewrite Hst.
Qed.

Lemma final_arguments_then_judgment_witness :
  primary_pro (self (finals_world 50 5)) = Some (mkAgent "Advocate")
  /\ primary_con (self (finals_world 50 5)) = Some (mkAgent "Skeptic")
  /\ exists w1 finals,
       _run_final_arguments "Add offline mode" (finals_world 50 5) = Ok (tt, w1)
       /\ knockout_path "PRO" (mkAgent "Advocate") finals.
Proof.
  split; [reflexivity | split; [reflexivity |]].
  destruct (final_arguments_then_judgment "Add offline mode" (finals_world 50 5)
              (mkAgent "Advocate") (mkAgent "Skeptic") eq_refl eq_refl)
    as (w1 & _ & _ & _ & finals & _ & _ & Hrun & _ & _ & _ & Hpro & _).
  exists w1, finals. split; [exact Hrun |].
  apply Hpro; simpl; lia.
Defined.

(** The double knockout, which the specification leaves as an open
    question: with both confidences below 10 the method tests
    pro_confidence first, so the path taken is the CON-knockout path and not
    the PRO-knockout path. *)
Lemma double_knockout_takes_con_path :
  con_confidence (state (self (finals_world 5 5))) < 10
  /\ exists w1 opening finals,
       _run_final_arguments "Add offline mode" (finals_world 5 5) = Ok (tt, w1)
       /\ emitted (finals_world 5 5) w1 (opening :: finals)
       /\ knockout_path "CON" (mkAgent "Skeptic") finals
       /\ ~ knockout_path "PRO" (mkAgent "Advocate") finals.
Proof.
  split; [simpl; lia |].
  do 3 eexists. split; [reflexivity |].
  split; [queue_shape |].
  split.
  - do 2 eexists. repeat split.
  - intros (a & f & E & _ & _ & Hteam & _).
    injection E as <- <-. simpl in Hteam. discriminate.
Qed.

(** ** The evidence duel *)

Lemma update_confidence_world (w : World) :
  _update_confidence w
  = Ok (tt, mkWorld
              (with_event_queue (self w)
                 (event_queue (self w)
                    ++ [mkDebateEvent "confidence_update" "system"
                          [ ("pro_confidence", VNum (pro_confidence (state (self w))));
                            ("con_confidence", VNum (con_confidence (state (self w)))) ]
                          (Some "meter_change") None 1]))
              (draws w)
              (if enable_special_effects (config (self w))
               then slept w + streaming_delay (config (self w))
               else slept w)%Q).
Proof. reflexivity. Qed.

(** What a presentation by PRO followed by CON's chance to object leaves
    behind.  The generator is read three times when the tier is 3 or 4
    (tier, relevance, objection) and twice otherwise. *)
Lemma pro_presents_world (requirement : string) (w : World) (p c : Agent) :
  primary_pro (self w) = Some p -> primary_con (self w) = Some c ->
  let tier := tier_of_draw (rng (draws w)) in
  let weak := 3 <=? tier in
  let objected :=
    weak && Qle_bool (rng (S (S (draws w)))) (objection_threshold (config (self w))) in
  exists w' events,
    pro_presents rng requirement w = Ok (tt, w')
    /\ setup w' = setup w
    /\ draws w' = (if weak then 3 + draws w else 2 + draws w)%nat
    /\ state (self w')
       = set_pro_evidence_score
           (pro_evidence_score (state (self w)) + (5 - tier) * 5)
           (set_pro_confidence
              (pro_confidence (state (self w)) + (5 - tier) * 5
               - (if objected then 10 else 0))
              (state (self w)))
    /\ emitted w w' events
    /\ existsb is_objection events = objected
    /\ (forall lo hi,
          lo <= pro_confidence (state (self w')) ->
          pro_confidence (state (self w)) + (5 - tier) * 5 <= hi ->
          lo <= con_confidence (state (self w)) <= hi ->
          Forall (reports_within lo hi) events)
    /\ Forall (fun e => event_type e <> "phase_change") events.
Proof.
  destruct w as [[pa ca j st cfg q pp pc] d sl]. cbn [self primary_pro primary_con].
  intros -> ->. unfold setup, emitted. run_methods.
  fold (tier_of_draw (rng d)). generalize (tier_of_draw (rng d)); intros tier.
  destruct st as [ph rn cp cc ep ec sp tr evs ob dm]. run_methods.
  destruct (3 <=? tier); run_methods; unfold Qltb;
    [destruct (Qle_bool (rng (S (S d))) (objection_threshold cfg)) |];
    cbn [negb andb]; run_methods.
  all: do 2 eexists; (split; [reflexivity |]); run_methods.
  all: split; [reflexivity |]; split; [reflexivity |].
  all: split; [f_equal; lia |].
  all: split; [rewrite <- ?app_assoc; cbn [app]; reflexivity |].
  all: split; [reflexivity |].
  all: split; [|repeat constructor; discriminate].
  all: intros lo hi Hlo Hhi Hcon.
  all: repeat constructor; intros Hty; try discriminate Hty.
  all: do 2 eexists; (split; [reflexivity |]); lia.
Qed.

(** The same for a presentation by CON and PRO's chance to object. *)
Lemma con_presents_world (requirement : string) (w : World) (p c : Agent) :
  primary_pro (self w) = Some p -> primary_con (self w) = Some c ->
  let tier := tier_of_draw (rng (draws w)) in
  let weak := 3 <=? tier in
  let objected :=
    weak && Qle_bool (rng (S (S (draws w)))) (objection_threshold (config (self w))) in
  exists w' events,
    con_presents rng requirement w = Ok (tt, w')
    /\ setup w' = setup w
    /\ draws w' = (if weak then 3 + draws w else 2 + draws w)%nat
    /\ state (self w')
       = set_con_evidence_score
           (con_evidence_score (state (self w)) + (5 - tier) * 5)
           (set_con_confidence
              (con_confidence (state (self w)) + (5 - tier) * 5
               - (if objected then 10 else 0))
              (state (self w)))
    /\ emitted w w' events
    /\ existsb is_objection events = objected
    /\ (forall lo hi,
          lo <= con_confidence (state (self w')) ->
          con_confidence (state (self w)) + (5 - tier) * 5 <= hi ->
          lo <= pro_confidence (state (self w)) <= hi ->
          Forall (reports_within lo hi) events)
    /\ Forall (fun e => event_type e <> "phase_change") events.
Proof.
  destruct w as [[pa ca j st cfg q pp pc] d sl]. cbn [self primary_pro primary_con].
  intros -> ->. unfold setup, emitted. run_methods.
  fold (tier_of_draw (rng d)). generalize (tier_of_draw (rng d)); intros tier.
  destruct st as [ph rn cp cc ep ec sp tr evs ob dm]. run_methods.
  destruct (3 <=? tier); run_methods; unfold Qltb;
    [destruct (Qle_bool (rng (S (S d))) (objection_threshold cfg)) |];
    cbn [negb andb]; run_methods.
  all: do 2 eexists; (split; [reflexivity |]); run_methods.
  all: split; [reflexivity |]; split; [reflexivity |].
  all: split; [f_equal; lia |].
  all: split; [rewrite <- ?app_assoc; cbn [app]; reflexivity |].
  all: split; [reflexivity |].
  all: split; [|repeat constructor; discriminate].
  all: intros lo hi Hlo Hhi Hcon.
  all: repeat constructor; intros Hty; try discriminate Hty.
  all: do 2 eexists; (split; [reflexivity |]); lia.
Qed.

(** The check for a dramatic moment reports no confidence and raises no
    objection; it may only log a momentum shift. *)
Lemma check_dramatic_moment_world (w : World) :
  exists w' events,
    _check_dramatic_moment w = Ok (tt, w')
    /\ setup w' = setup w
    /\ draws w' = draws w
    /\ pro_confidence (state (self w')) = pro_confidence (state (self w))
    /\ con_confidence (state (self w')) = con_confidence (state (self w))
    /\ round_number (state (self w')) = round_number (state (self w))
    /\ emitted w w' events
    /\ Forall (fun e => event_type e = "dramatic_moment") events
    /\ (length events = 1%nat
        <-> (dramatic_moment_threshold (config (self w))
             < inject_Z (Z.abs (pro_confidence (state (self w))
                                - con_confidence (state (self w)))))%Q).
Proof.
  destruct w as [[pa ca j st cfg q pp pc] d sl].
  destruct st as [ph rn cp cc ep ec sp tr evs ob dm].
  unfold setup, emitted. run_methods.
  destruct (Qltb (dramatic_moment_threshold cfg) (inject_Z (Z.abs (cp - cc)))) eqn:Hgap;
    run_methods.
  - do 2 eexists. split; [reflexivity |]. run_methods.
    repeat split; try reflexivity.
    + repeat constructor.
    + intros _. now apply Qltb_iff.
  - exists (mkWorld
              (mkDebateOrchestrator pa ca j
                 (mkDebateState ph rn cp cc ep ec sp tr evs ob dm) cfg q pp pc) d sl), [].
    split; [reflexivity |]. run_methods.
    repeat split; try reflexivity; try (now rewrite app_nil_r).
    + constructor.
    + discriminate.
    + intros Hlt. apply Qltb_iff in Hlt. congruence.
Qed.

(** C3 (as amended).  In the evidence duel, evidence of tier 3 or 4 is
    objected to by the opposing side exactly when the draw of the generator
    is at most the configured [objection_threshold]; evidence of tier 1 or 2
    never is.  The threshold is 0.7 by default, so the default chance is 70%.
    An objection subtracts exactly 10 from the confidence of the presenting
    side, on top of the impact [(5 - tier) * 5] of the evidence, and leaves
    the other side's confidence alone. *)
Theorem objection_to_weak_evidence :
  forall (requirement : string) (w : World) (p c : Agent)
         (pro_team con_team : list Agent) (judge : Agent),
    primary_pro (self w) = Some p ->
    primary_con (self w) = Some c ->
    let tier := tier_of_draw (rng (draws w)) in
    let r := rng (S (S (draws w))) in
    let threshold := objection_threshold (config (self w)) in
    (exists w' events,
        pro_presents rng requirement w = Ok (tt, w')
        /\ emitted w w' events
        /\ (existsb is_objection events = true <-> 3 <= tier /\ (r <= threshold)%Q)
        /\ pro_confidence (state (self w'))
           = pro_confidence (state (self w)) + (5 - tier) * 5
             - (if existsb is_objection events then 10 else 0)
        /\ con_confidence (state (self w')) = con_confidence (state (self w)))
    /\ (exists w' events,
        con_presents rng requirement w = Ok (tt, w')
        /\ emitted w w' events
        /\ (existsb is_objection events = true <-> 3 <= tier /\ (r <= threshold)%Q)
        /\ con_confidence (state (self w'))
           = con_confidence (state (self w)) + (5 - tier) * 5
             - (if existsb is_objection events then 10 else 0)
        /\ pro_confidence (state (self w')) = pro_confidence (state (self w)))
    /\ objection_threshold (config (DebateOrchestrator_init pro_team con_team judge None))
       = 0.7%Q.
Proof.
  intros requirement w p c pro_team con_team judge Hp Hc tier r threshold.
  assert (Hiff : forall b : bool,
             b = (3 <=? tier) && Qle_bool r threshold ->
             (b = true <-> 3 <= tier /\ (r <= threshold)%Q)).
  { intros b ->. now rewrite andb_true_iff, Z.leb_le, Qle_bool_iff. }
  split; [|split; [|reflexivity]].
  - destruct (pro_presents_world requirement w p c Hp Hc)
      as (w' & events & Hrun & _ & _ & Hst & Hq & Hobj & _).
    exists w', events. split; [exact Hrun |]. split; [exact Hq |].
    split; [now apply Hiff |].
    rewrite Hst, Hobj. destruct (state (self w)); split; reflexivity.
  - destruct (con_presents_world requirement w p c Hp Hc)
      as (w' & events & Hrun & _ & _ & Hst & Hq & Hobj & _).
    exists w', events. split; [exact Hrun |]. split; [exact Hq |].
    split; [now apply Hiff |].
    rewrite Hst, Hobj. destruct (state (self w)); split; reflexivity.
Qed.

(** ** A whole run *)

Lemma bind_ok {A B} (m : M A) (k : A -> M B) (w w' : World) (a : A) :
  m w = Ok (a, w') -> bind m k w = k a w'.
Proof. unfold bind. now intros ->. Qed.

Lemma emitted_refl (w : World) : emitted w w [].
Proof. unfold emitted. now rewrite app_nil_r. Qed.

Lemma emitted_trans (w1 w2 w3 : World) (e1 e2 : list DebateEvent) :
  emitted w1 w2 e1 -> emitted w2 w3 e2 -> emitted w1 w3 (e1 ++ e2).
Proof. unfold emitted. intros H1 H2. now rewrite H2, H1, app_assoc. Qed.

Lemma reports_within_weaken (lo hi lo' hi' : Z) (e : DebateEvent) :
  lo' <= lo -> hi <= hi' -> reports_within lo hi e -> reports_within lo' hi' e.
Proof.
  intros Hlo Hhi H Hty. destruct (H Hty) as (p & c & E & Hp & Hc).
  exists p, c. split; [exact E | lia].
Qed.

Lemma reports_within_other (lo hi : Z) (e : DebateEvent) :
  event_type e <> "confidence_update" -> reports_within lo hi e.
Proof. intros Hne Hty. contradiction. Qed.

(** A draw from [[0, 1)] scaled by [n] and rounded down is an index
    below [n]. *)
Lemma floor_scaled_range (u : Q) (n : Z) :
  (0 <= u)%Q -> (u < 1)%Q -> 0 < n -> 0 <= Qfloor (u * inject_Z n) < n.
Proof.
  intros H0 H1 Hn.
  assert (HN : (0 < inject_Z n)%Q) by (change 0%Q with (inject_Z 0); now rewrite <- Zlt_Qlt).
  split.
  - change 0 with (Qfloor 0). apply Qfloor_resp_le. nra.
  - rewrite Zlt_Qlt. apply Qle_lt_trans with (u * inject_Z n)%Q.
    + apply Qfloor_le.
    + nra.
Qed.

Lemma tier_of_draw_range (u : Q) :
  (0 <= u)%Q -> (u < 1)%Q -> 1 <= tier_of_draw u <= 4.
Proof.
  intros H0 H1. unfold tier_of_draw. change (4 - 1 + 1) with 4.
  pose proof (floor_scaled_range u 4 H0 H1 eq_refl). lia.
Qed.

(** [random.choice] of a non-empty sequence returns one of its members
    and takes one draw. *)
Lemma random_choice_ok {A} (seq : list A) (w : World) :
  uniform_draws rng -> seq <> [] ->
  exists a, random_choice rng seq w = Ok (a, mkWorld (self w) (S (draws w)) (slept w))
            /\ In a seq.
Proof.
  intros Hu Hne. destruct seq as [|x seq]; [contradiction |].
  unfold random_choice, bind, random_random.
  set (n := Z.of_nat (length (x :: seq))).
  destruct (Hu (draws w)) as [H0 H1].
  assert (Hn : 0 < n) by (unfold n; simpl length; lia).
  pose proof (floor_scaled_range (rng (draws w)) n H0 H1 Hn) as Hi.
  destruct (nth_error (x :: seq) (Z.to_nat (Qfloor (rng (draws w) * inject_Z n)))) as [a|] eqn:E.
  - exists a. split; [reflexivity | now apply nth_error_In in E].
  - apply nth_error_None in E. unfold n in *. cbn [length] in *. lia.
Qed.

(** One pass of the duel moves each confidence by at least -5 and at most
    +20, and reports nothing outside the new bounds. *)
Lemma evidence_round_bounds (requirement : string) (k : Z) (w : World) :
  uniform_draws rng -> speakers_chosen w -> duel_bounds k w ->
  exists w' events,
    evidence_round rng requirement w = Ok (tt, w')
    /\ setup w' = setup w
    /\ round_number (state (self w')) = round_number (state (self w))
    /\ duel_bounds (k + 1) w'
    /\ emitted w w' events
    /\ Forall (reports_within (55 - 5 * (k + 1)) (55 + 20 * (k + 1))) events
    /\ Forall (fun e => event_type e <> "phase_change") events.
Proof.
  intros Hu [[p Hp] [c Hc]] [Hpro Hcon].
  destruct (pro_presents_world requirement w p c Hp Hc)
    as (w1 & e1 & Hrun1 & Hset1 & Hd1 & Hst1 & Hq1 & _ & Hrep1 & Hquiet1).
  assert (Hp1 : primary_pro (self w1) = Some p) by (unfold setup in Hset1; congruence).
  assert (Hc1 : primary_con (self w1) = Some c) by (unfold setup in Hset1; congruence).
  destruct (con_presents_world requirement w1 p c Hp1 Hc1)
    as (w2 & e2 & Hrun2 & Hset2 & Hd2 & Hst2 & Hq2 & _ & Hrep2 & Hquiet2).
  destruct (check_dramatic_moment_world w2)
    as (w3 & e3 & Hrun3 & Hset3 & _ & Hpro3 & Hcon3 & Hrn3 & Hq3 & Hty3 & _).
  pose proof (tier_of_draw_range _ (proj1 (Hu (draws w))) (proj2 (Hu (draws w)))) as Ht1.
  pose proof (tier_of_draw_range _ (proj1 (Hu (draws w1))) (proj2 (Hu (draws w1)))) as Ht2.
  set (t1 := tier_of_draw (rng (draws w))) in *.
  set (t2 := tier_of_draw (rng (draws w1))) in *.
  clearbody t1 t2.
  assert (Hpro1 : pro_confidence (state (self w)) - 5 <= pro_confidence (state (self w1))
                  /\ pro_confidence (state (self w1))
                     <= pro_confidence (state (self w)) + (5 - t1) * 5
                  /\ con_confidence (state (self w1)) = con_confidence (state (self w))
                  /\ round_number (state (self w1)) = round_number (state (self w))).
  { rewrite Hst1. unfold set_pro_evidence_score, set_pro_confidence.
    cbn [pro_confidence con_confidence round_number].
    destruct (3 <=? t1) eqn:Hw; [apply Z.leb_le in Hw | apply Z.leb_gt in Hw];
      cbn [andb]; [destruct (Qle_bool (rng (S (S (draws w)))) _) |]; lia. }
  assert (Hcon2 : con_confidence (state (self w1)) - 5 <= con_confidence (state (self w2))
                  /\ con_confidence (state (self w2))
                     <= con_confidence (state (self w1)) + (5 - t2) * 5
                  /\ pro_confidence (state (self w2)) = pro_confidence (state (self w1))
                  /\ round_number (state (self w2)) = round_number (state (self w1))).
  { rewrite Hst2. unfold set_con_evidence_score, set_con_confidence.
    cbn [pro_confidence con_confidence round_number].
    destruct (3 <=? t2) eqn:Hw; [apply Z.leb_le in Hw | apply Z.leb_gt in Hw];
      cbn [andb]; [destruct (Qle_bool (rng (S (S (draws w1)))) _) |]; lia. }
  exists w3, (e1 ++ e2 ++ e3)%list.
  split.
  { unfold evidence_round. rewrite (bind_ok _ _ _ _ _ Hrun1), (bind_ok _ _ _ _ _ Hrun2).
    exact Hrun3. }
  split; [congruence |].
  split; [lia |].
  split; [unfold duel_bounds; lia |].
  split; [eapply emitted_trans; [exact Hq1 | eapply emitted_trans; eassumption] |].
  split.
  - apply Forall_app; split; [|apply Forall_app; split].
    + apply Hrep1; lia.
    + apply Hrep2; lia.
    + eapply Forall_impl; [|exact Hty3].
      intros e He. apply reports_within_other. rewrite He. discriminate.
  - apply Forall_app; split; [exact Hquiet1 |apply Forall_app; split; [exact Hquiet2 |]].
    eapply Forall_impl; [|exact Hty3].
    intros e He. rewrite He. discriminate.
Qed.

(** Resolves the next [random.choice] of the goal. *)
Ltac choose_next Hu :=
  match goal with
  | |- context [random_choice ?g ?seq ?w] =>
      let a := fresh "chosen" in
      let Hr := fresh "Hchoice" in
      let Hin := fresh "Hmember" in
      destruct (random_choice_ok seq w Hu) as (a & Hr & Hin);
      [ try assumption; try discriminate | rewrite Hr ]
  end.

(** Events of a kind other than [confidence_update] report no confidence. *)
Ltac no_reports :=
  repeat constructor; apply reports_within_other; discriminate.

(** [_initialize_debate] on a fresh orchestrator: it chooses the speakers
    and leaves the state as [__init__] made it. *)
Lemma initialize_debate_world (requirement : string) (pro_team con_team : list Agent)
    (judge : Agent) (debate_config : option (list ConfigEntry)) :
  uniform_draws rng -> pro_team <> [] -> con_team <> [] ->
  exists w events,
    _initialize_debate rng requirement (fresh_world pro_team con_team judge debate_config)
    = Ok (tt, w)
    /\ speakers_chosen w
    /\ state (self w) = DebateState_default
    /\ config (self w)
       = config (DebateOrchestrator_init pro_team con_team judge debate_config)
    /\ event_queue (self w) = events
    /\ Forall (fun e => event_type e <> "confidence_update") events
    /\ announced_phases events = ["pre_battle"].
Proof.
  intros Hu Hpro Hcon. unfold fresh_world, DebateOrchestrator_init.
  generalize (match debate_config with
              | Some (e :: es) => config_update default_config (e :: es)
              | _ => default_config
              end); intros cfg.
  unfold DebateState_default. run_methods.
  choose_next Hu. run_methods. choose_next Hu. run_methods.
  do 2 eexists. split; [reflexivity |]. cbn [self state config event_queue].
  split; [split; eexists; reflexivity |].
  repeat split. cbn [app]. repeat constructor; discriminate.
Qed.

(** [_run_opening_statements]: each side gains 5, and both gains are
    reported. *)
Lemma run_opening_statements_world (requirement : string) (w : World) :
  speakers_chosen w ->
  exists w' events,
    _run_opening_statements requirement w = Ok (tt, w')
    /\ setup w' = setup w
    /\ pro_confidence (state (self w')) = pro_confidence (state (self w)) + 5
    /\ con_confidence (state (self w')) = con_confidence (state (self w)) + 5
    /\ emitted w w' events
    /\ (forall lo hi,
          lo <= pro_confidence (state (self w)) -> pro_confidence (state (self w)) + 5 <= hi ->
          lo <= con_confidence (state (self w)) -> con_confidence (state (self w)) + 5 <= hi ->
          Forall (reports_within lo hi) events)
    /\ announced_phases events = ["opening_statements"].
Proof.
  intros [[p Hp] [c Hc]].
  destruct w as [[pa ca j st cfg q pp pc] d sl]. cbn [self primary_pro primary_con] in Hp, Hc.
  subst pp pc. destruct st as [ph rn cp cc ep ec sp tr evs ob dm].
  unfold setup, emitted. run_methods.
  do 2 eexists. split; [reflexivity |]. run_methods.
  split; [reflexivity |]. split; [reflexivity |]. split; [reflexivity |].
  split; [rewrite <- ?app_assoc; cbn [app]; reflexivity |].
  split; [|reflexivity].
  intros lo hi Hp1 Hp2 Hc1 Hc2.
  repeat constructor; intros Hty; try discriminate Hty.
  all: do 2 eexists; (split; [reflexivity |]); lia.
Qed.

Lemma speakers_chosen_setup (w w' : World) :
  setup w' = setup w -> speakers_chosen w -> speakers_chosen w'.
Proof.
  unfold setup, speakers_chosen. intros E [[p Hp] [c Hc]].
  injection E as _ _ _ _ Ep Ec. rewrite Ep, Ec. eauto.
Qed.

(** Applies [evidence_round_bounds] to the next pass of the goal. *)
Ltac next_round Hu k :=
  match goal with
  | |- context [evidence_round ?g ?req ?w] =>
      let w' := fresh "w" in
      let ev := fresh "events" in
      let Hrun := fresh "Hrun" in
      let Hset := fresh "Hset" in
      let Hrn := fresh "Hround" in
      let Hb := fresh "Hbounds" in
      let Hq := fresh "Hqueue" in
      let Hrep := fresh "Hreports" in
      let Hquiet := fresh "Hquiet" in
      destruct (evidence_round_bounds req k w Hu)
        as (w' & ev & Hrun & Hset & Hrn & Hb & Hq & Hrep & Hquiet);
      [ | | rewrite Hrun ]
  end.

Lemma announced_phases_app (q1 q2 : list DebateEvent) :
  announced_phases (q1 ++ q2) = (announced_phases q1 ++ announced_phases q2)%list.
Proof. unfold announced_phases. apply flat_map_app. Qed.

Lemma announced_phases_none (events : list DebateEvent) :
  Forall (fun e => event_type e <> "phase_change") events ->
  announced_phases events = [].
Proof.
  induction 1 as [|e events He _ IH]; [reflexivity |].
  change (announced_phases (e :: events))
    with ((if String.eqb (event_type e) "phase_change"
           then match dict_lookup (content e) "phase" with
                | Some (VStr name) => [name]
                | _ => []
                end
           else []) ++ announced_phases events)%list.
  apply String.eqb_neq in He. now rewrite He, IH.
Qed.

Lemma announced_phases_one (name : string) (e : DebateEvent) (events : list DebateEvent) :
  announces_phase name e ->
  Forall (fun e => event_type e <> "phase_change") events ->
  announced_phases (e :: events) = [name].
Proof.
  intros [Hty Hname] Hquiet.
  change (announced_phases (e :: events))
    with ((if String.eqb (event_type e) "phase_change"
           then match dict_lookup (content e) "phase" with
                | Some (VStr name) => [name]
                | _ => []
                end
           else []) ++ announced_phases events)%list.
  rewrite Hty, Hname, (announced_phases_none _ Hquiet). reflexivity.
Qed.

(** [_run_evidence_duel]: three passes from 55 : 55 leave both confidences
    between 40 and 115 and report nothing outside that range. *)
Lemma run_evidence_duel_bounds (requirement : string) (w : World) :
  uniform_draws rng -> speakers_chosen w -> duel_bounds 0 w ->
  exists w' events,
    _run_evidence_duel rng requirement w = Ok (tt, w')
    /\ setup w' = setup w
    /\ duel_bounds 3 w'
    /\ emitted w w' events
    /\ Forall (reports_within 40 115) events
    /\ announced_phases events = ["evidence_duel"].
Proof.
  intros Hu Hsp Hb.
  destruct w as [[pa ca j st cfg q pp pc] d sl].
  destruct st as [ph rn cp cc ep ec sp tr evs ob dm].
  cbv beta iota zeta delta
      [ _run_evidence_duel bind modify_state _emit_event ret repeat_m
        with_state with_event_queue set_phase set_round_number
        self draws slept state config event_queue primary_pro primary_con
        pro_agents con_agents judge_agent
        phase round_number pro_confidence con_confidence
        pro_evidence_score con_evidence_score current_speaker transcript
        evidence_presented objections dramatic_moments ].
  next_round Hu 0; [exact Hsp | exact Hb |].
  pose proof (speakers_chosen_setup _ _ Hset Hsp) as Hsp0.
  next_round Hu 1; [exact Hsp0 | exact Hbounds |].
  pose proof (speakers_chosen_setup _ _ Hset0 Hsp0) as Hsp1.
  next_round Hu 2; [exact Hsp1 | exact Hbounds0 |].
  exists w1, ((mkDebateEvent "phase_change" "system"
                 [ ("phase", VStr "evidence_duel"); ("round", VNum 2);
                   ("message", VStr "ROUND 2: Evidence Duel!") ]
                 (Some "lightning_flash") (Some "thunder") 4
               :: events) ++ events0 ++ events1)%list.
  split; [reflexivity |].
  split; [rewrite Hset1, Hset0, Hset; reflexivity |].
  split; [exact Hbounds1 |].
  split.
  - unfold emitted in *. cbn [self event_queue] in *.
    rewrite Hqueue1, Hqueue0, Hqueue. rewrite <- !app_assoc. reflexivity.
  - split.
    + apply Forall_app; split; [constructor |]; [| |apply Forall_app; split].
      * apply reports_within_other; discriminate.
      * eapply Forall_impl; [|exact Hreports].
        intros e; apply reports_within_weaken; lia.
      * eapply Forall_impl; [|exact Hreports0].
        intros e; apply reports_within_weaken; lia.
      * eapply Forall_impl; [|exact Hreports1].
        intros e; apply reports_within_weaken; lia.
    + rewrite <- app_comm_cons, app_assoc.
      apply announced_phases_one; [split; reflexivity |].
      apply Forall_app; split; [apply Forall_app; split |]; assumption.
Qed.

(** [_run_cross_examination] touches no confidence and reports none. *)
Lemma run_cross_examination_world (requirement : string) (w : World) :
  uniform_draws rng -> speakers_chosen w ->
  exists w' events,
    _run_cross_examination rng requirement w = Ok (tt, w')
    /\ setup w' = setup w
    /\ pro_confidence (state (self w')) = pro_confidence (state (self w))
    /\ con_confidence (state (self w')) = con_confidence (state (self w))
    /\ emitted w w' events
    /\ Forall (fun e => event_type e <> "confidence_update") events
    /\ announced_phases events = ["cross_examination"].
Proof.
  intros Hu [[p Hp] [c Hc]].
  destruct w as [[pa ca j st cfg q pp pc] d sl]. cbn [self primary_pro primary_con] in Hp, Hc.
  subst pp pc. destruct st as [ph rn cp cc ep ec sp tr evs ob dm].
  unfold setup, emitted. run_methods.
  choose_next Hu. run_methods. choose_next Hu. run_methods.
  do 2 eexists. split; [reflexivity |]. run_methods.
  split; [reflexivity |]. split; [reflexivity |]. split; [reflexivity |].
  split; [rewrite <- ?app_assoc; cbn [app]; reflexivity |].
  split; [repeat constructor; discriminate | reflexivity].
Qed.

Lemma no_confidence_reports (lo hi : Z) (events : list DebateEvent) :
  Forall (fun e => event_type e <> "confidence_update") events ->
  Forall (reports_within lo hi) events.
Proof.
  intros H. eapply Forall_impl; [|exact H].
  intros e He. now apply reports_within_other.
Qed.

(** The knockout check of [_run_final_arguments] decides on the raw
    confidences as it would on the clamped ones: the same events follow. *)
Lemma knockout_check_ignores_clamping (requirement : string) (w : World) :
  speakers_chosen w ->
  exists w1 w2 events,
    _run_final_arguments requirement w = Ok (tt, w1)
    /\ _run_final_arguments requirement (clamped_world w) = Ok (tt, w2)
    /\ emitted w w1 events
    /\ emitted (clamped_world w) w2 events.
Proof.
  intros [[p Hp] [c Hc]].
  destruct w as [[pa ca j st cfg q pp pc] d sl]. cbn [self primary_pro primary_con] in Hp, Hc.
  subst pp pc. destruct st as [ph rn cp cc ep ec sp tr evs ob dm].
  unfold clamped_world, emitted, _run_final_arguments.
  cbv beta iota zeta delta
      [ bind ret modify_state get_state _emit_event
        with_state with_event_queue set_phase set_round_number
        set_pro_confidence set_con_confidence
        self draws slept state config event_queue primary_pro primary_con
        pro_agents con_agents judge_agent
        phase round_number pro_confidence con_confidence
        pro_evidence_score con_evidence_score current_speaker transcript
        evidence_presented objections dramatic_moments ].
  assert (Ep : (clamp_0_100 cp <? 10) = (cp <? 10)).
  { unfold clamp_0_100. destruct (cp <? 10) eqn:E;
      [apply Z.ltb_lt in E; apply Z.ltb_lt | apply Z.ltb_ge in E; apply Z.ltb_ge]; lia. }
  assert (Ec : (clamp_0_100 cc <? 10) = (cc <? 10)).
  { unfold clamp_0_100. destruct (cc <? 10) eqn:E;
      [apply Z.ltb_lt in E; apply Z.ltb_lt | apply Z.ltb_ge in E; apply Z.ltb_ge]; lia. }
  rewrite Ep, Ec.
  destruct (cp <? 10); [|destruct (cc <? 10)];
    cbv beta iota zeta delta
        [ bind ret get_primary_pro get_primary_con _knockout_finish
          _normal_final_arguments final_argument_of _get_agent_argument _emit_event
          with_event_queue
          self draws slept state config event_queue primary_pro primary_con
          pro_agents con_agents judge_agent ];
    do 3 eexists; (split; [reflexivity |]); (split; [reflexivity |]);
    cbn [self event_queue]; rewrite <- ?app_assoc; cbn [app]; split; reflexivity.
Qed.

(** The events of the final arguments are of three kinds. *)
Lemma final_events_kinds (team : string) (speaker p c : Agent)
    (finals : list DebateEvent) :
  knockout_path team speaker finals \/ normal_finals p c finals ->
  Forall (fun e => In (event_type e) ["dramatic_moment"; "finishing_move"; "final_argument"])
         finals.
Proof.
  intros [(x & y & -> & Hx & _ & _ & Hy & _) | (x & y & -> & Hx & _ & _ & Hy & _)];
    (apply Forall_cons; [| apply Forall_cons; [| apply Forall_nil]]);
    rewrite ?Hx, ?Hy; simpl; auto.
Qed.

(** A whole run of a fresh orchestrator: it returns, its last phase is
    COMPLETE after four rounds, the six phases were announced in order, the
    confidences it reported lie between 40 and 115, and its verdict follows
    the final confidences. *)
Lemma whole_run (requirement : string) (pro_team con_team : list Agent) (judge : Agent)
    (debate_config : option (list ConfigEntry)) :
  uniform_draws rng -> pro_team <> [] -> con_team <> [] ->
  exists result w,
    analyze_requirement rng clock requirement
      (fresh_world pro_team con_team judge debate_config) = Ok (result, w)
    /\ Forall (reports_within 40 115) (event_queue (self w))
    /\ final_confidence_pro (debate_summary result) = pro_confidence (state (self w))
    /\ final_confidence_con (debate_summary result) = con_confidence (state (self w))
    /\ 40 <= final_confidence_pro (debate_summary result) <= 115
    /\ 40 <= final_confidence_con (debate_summary result) <= 115
    /\ phase (state (self w)) = COMPLETE
    /\ rounds (debate_summary result) = 4
    /\ announced_phases (event_queue (self w)) = phase_order
    /\ jv_decision (result_verdict result)
       = (if final_confidence_pro (debate_summary result)
             <? final_confidence_con (debate_summary result)
          then "REJECTED" else "APPROVED")
    /\ jv_confidence (result_verdict result)
       = Z.abs (final_confidence_con (debate_summary result)
                - final_confidence_pro (debate_summary result)).
Proof.
  intros Hu Hpro Hcon.
  destruct (initialize_debate_world requirement pro_team con_team judge debate_config
              Hu Hpro Hcon) as (w1 & e1 & Hrun1 & Hsp1 & Hst1 & _ & Hq1 & Hty1 & Han1).
  destruct (run_opening_statements_world requirement w1 Hsp1)
    as (w2 & e2 & Hrun2 & Hset2 & Hp2 & Hc2 & Hq2 & Hrep2 & Han2).
  pose proof (speakers_chosen_setup _ _ Hset2 Hsp1) as Hsp2.
  rewrite Hst1 in Hp2, Hc2, Hrep2. cbn [DebateState_default pro_confidence con_confidence]
    in Hp2, Hc2, Hrep2.
  assert (Hb2 : duel_bounds 0 w2) by (unfold duel_bounds; lia).
  destruct (run_evidence_duel_bounds requirement w2 Hu Hsp2 Hb2)
    as (w3 & e3 & Hrun3 & Hset3 & Hb3 & Hq3 & Hrep3 & Han3).
  pose proof (speakers_chosen_setup _ _ Hset3 Hsp2) as Hsp3.
  destruct (run_cross_examination_world requirement w3 Hu Hsp3)
    as (w4 & e4 & Hrun4 & Hset4 & Hp4 & Hc4 & Hq4 & Hty4 & Han4).
  destruct (speakers_chosen_setup _ _ Hset4 Hsp3) as [[p Hpp] [c Hpc]].
  destruct (run_final_arguments_world requirement w4 p c Hpp Hpc)
    as (w5 & Hrun5 & _ & Hst5 & _ & _ & opening & finals & Hq5 & Hopen & Hpath).
  destruct (run_judgment_world requirement w5)
    as (verdict & w6 & Hrun6 & _ & Hst6 & Hconf & announcement & rendering & Hq6 & Hann
        & Hty6 & _ & _ & Hdec).
  assert (Hkinds : Forall (fun e => In (event_type e)
                                       ["dramatic_moment"; "finishing_move"; "final_argument"])
                          finals).
  { destruct (pro_confidence (state (self w4)) <? 10);
      [|destruct (con_confidence (state (self w4)) <? 10)].
    - apply (final_events_kinds "CON" c p c). now left.
    - apply (final_events_kinds "PRO" p p c). now left.
    - apply (final_events_kinds "PRO" p p c). now right. }
  assert (Hpro5 : pro_confidence (state (self w5)) = pro_confidence (state (self w3))).
  { rewrite Hst5. cbn. exact Hp4. }
  assert (Hcon5 : con_confidence (state (self w5)) = con_confidence (state (self w3))).
  { rewrite Hst5. cbn. exact Hc4. }
  assert (Hpro6 : pro_confidence (state (self w6)) = pro_confidence (state (self w5))).
  { rewrite Hst6. reflexivity. }
  assert (Hcon6 : con_confidence (state (self w6)) = con_confidence (state (self w5))).
  { rewrite Hst6. reflexivity. }
  exists {| result_requirement := "The analyzed requirement";
            result_verdict := verdict;
            debate_summary :=
              {| duration := clock (slept w6);
                 rounds := round_number (state (self w6));
                 final_confidence_pro := pro_confidence (state (self w6));
                 final_confidence_con := con_confidence (state (self w6));
                 evidence_scores_pro := pro_evidence_score (state (self w6));
                 evidence_scores_con := con_evidence_score (state (self w6));
                 summary_dramatic_moments := dramatic_moments (state (self w6));
                 summary_objections := Z.of_nat (length (objections (state (self w6)))) |};
            result_transcript := transcript (state (self w6));
            result_evidence := evidence_presented (state (self w6));
            replay_available := true |}, w6.
  cbn [debate_summary result_verdict final_confidence_pro final_confidence_con rounds].
  split.
  { unfold analyze_requirement.
    rewrite (bind_ok _ _ _ _ _ Hrun1), (bind_ok _ _ _ _ _ Hrun2), (bind_ok _ _ _ _ _ Hrun3),
      (bind_ok _ _ _ _ _ Hrun4), (bind_ok _ _ _ _ _ Hrun5), (bind_ok _ _ _ _ _ Hrun6).
    reflexivity. }
  split.
  { unfold emitted in *. rewrite Hq6, Hq5, Hq4, Hq3, Hq2, Hq1.
    repeat (apply Forall_app; split).
    - now apply no_confidence_reports.
    - apply Hrep2; lia.
    - exact Hrep3.
    - now apply no_confidence_reports.
    - constructor.
      + apply reports_within_other. destruct Hopen as [-> _]. discriminate.
      + eapply Forall_impl; [|exact Hkinds].
        intros e [H | [H | [H | []]]]; apply reports_within_other;
          rewrite <- H; discriminate.
    - repeat constructor; apply reports_within_other.
      + destruct Hann as [-> _]. discriminate.
      + rewrite Hty6. discriminate. }
  split; [reflexivity |]. split; [reflexivity |].
  unfold duel_bounds in Hb3.
  split; [lia |]. split; [lia |].
  split; [rewrite Hst6; reflexivity |].
  split; [rewrite Hst6, Hst5; reflexivity |].
  split.
  { unfold emitted in *. rewrite Hq6, Hq5, Hq4, Hq3, Hq2, Hq1.
    rewrite !announced_phases_app, Han1, Han2, Han3, Han4.
    rewrite (announced_phases_one "final_arguments" opening finals Hopen).
    - rewrite (announced_phases_one "judgment" announcement [rendering] Hann).
      + reflexivity.
      + repeat constructor. rewrite Hty6. discriminate.
    - eapply Forall_impl; [|exact Hkinds].
      intros e [H | [H | [H | []]]]; rewrite <- H; discriminate. }
  split.
  - rewrite Hdec, Hpro6, Hcon6. reflexivity.
  - rewrite Hconf, Hpro6, Hcon6. reflexivity.
Qed.

(** A run of a fresh orchestrator always completes, whatever the generator
    draws: [analyze_requirement] returns a result, the phase it ends in is
    COMPLETE, the round counter stands at 4, and the phases were announced
    once each in the order PRE_BATTLE, OPENING_STATEMENTS, EVIDENCE_DUEL,
    CROSS_EXAMINATION, FINAL_ARGUMENTS, JUDGMENT.  The verdict of the result
    is "REJECTED" when CON ends with the larger confidence and "APPROVED"
    otherwise, with the gap of the two confidences as its confidence. *)
Theorem run_completes_in_phase_order :
  forall (requirement : string) (pro_team con_team : list Agent) (judge : Agent)
         (debate_config : option (list ConfigEntry)),
    uniform_draws rng -> pro_team <> [] -> con_team <> [] ->
    exists result w,
      analyze_requirement rng clock requirement
        (fresh_world pro_team con_team judge debate_config) = Ok (result, w)
      /\ phase (state (self w)) = COMPLETE
      /\ rounds (debate_summary result) = 4
      /\ announced_phases (event_queue (self w)) = phase_order
      /\ jv_decision (result_verdict result)
         = (if final_confidence_pro (debate_summary result)
               <? final_confidence_con (debate_summary result)
            then "REJECTED" else "APPROVED")
      /\ jv_confidence (result_verdict result)
         = Z.abs (final_confidence_con (debate_summary result)
                  - final_confidence_pro (debate_summary result)).
Proof.
  intros requirement pro_team con_team judge debate_config Hu Hpro Hcon.
  destruct (whole_run requirement pro_team con_team judge debate_config Hu Hpro Hcon)
    as (result & w & Hrun & _ & _ & _ & _ & _ & Hphase & Hrounds & Horder & Hdec & Hconf).
  exists result, w. repeat split; assumption.
Qed.

(** C1 (as amended).  The orchestrator reports its running confidences as
    they are, without clamping: a [confidence_update] event carries the two
    values of the state at the moment it is emitted, and the final bundle
    carries the two values of the final state.  The dramatic-moment check
    compares the raw gap of the two confidences with its threshold; the
    knockout check compares the raw confidences with 10, which decides as
    the clamped values would.  Over a whole run of a fresh orchestrator, with
    teams that are not empty, every value reported lies between 40 and 115. *)
Theorem reported_confidence_is_the_running_value :
  forall (requirement : string) (pro_team con_team : list Agent) (judge : Agent)
         (debate_config : option (list ConfigEntry)),
    uniform_draws rng -> pro_team <> [] -> con_team <> [] ->
    (forall w : World,
        exists w' e,
          _update_confidence w = Ok (tt, w')
          /\ emitted w w' [e]
          /\ reported_confidence e
             = Some (pro_confidence (state (self w)), con_confidence (state (self w))))
    /\ (forall w : World,
          exists w' events,
            _check_dramatic_moment w = Ok (tt, w')
            /\ emitted w w' events
            /\ (length events = 1%nat
                <-> (dramatic_moment_threshold (config (self w))
                     < inject_Z (Z.abs (pro_confidence (state (self w))
                                        - con_confidence (state (self w)))))%Q))
    /\ (forall w : World,
          speakers_chosen w ->
          exists w1 w2 events,
            _run_final_arguments requirement w = Ok (tt, w1)
            /\ _run_final_arguments requirement (clamped_world w) = Ok (tt, w2)
            /\ emitted w w1 events
            /\ emitted (clamped_world w) w2 events)
    /\ exists result w,
         analyze_requirement rng clock requirement
           (fresh_world pro_team con_team judge debate_config) = Ok (result, w)
         /\ Forall (reports_within 40 115) (event_queue (self w))
         /\ final_confidence_pro (debate_summary result) = pro_confidence (state (self w))
         /\ final_confidence_con (debate_summary result) = con_confidence (state (self w))
         /\ 40 <= final_confidence_pro (debate_summary result) <= 115
         /\ 40 <= final_confidence_con (debate_summary result) <= 115.
Proof.
  intros requirement pro_team con_team judge debate_config Hu Hpro Hcon.
  split.
  { intros w. do 2 eexists. split; [apply update_confidence_world |].
    split; reflexivity. }
  split.
  { intros w. destruct (check_dramatic_moment_world w)
      as (w' & events & Hrun & _ & _ & _ & _ & _ & Hq & _ & Hgap).
    now exists w', events. }
  split; [intros w; apply knockout_check_ignores_clamping |].
  destruct (whole_run requirement pro_team con_team judge debate_config Hu Hpro Hcon)
    as (result & w & Hrun & Hrep & Hfp & Hfc & Hbp & Hbc & _).
  exists result, w. repeat split; try assumption; lia.
Qed.

End OrchestratorFacts.

(** ** Sample runs, and the start of a run *)

Section RunFacts.
Local Open Scope string_scope.
Local Open Scope Z_scope.

Lemma low_draws_uniform : uniform_draws low_draws.
Proof. intros n. unfold low_draws. split; lra. Qed.

Lemma middling_draws_uniform : uniform_draws middling_draws.
Proof. intros n. unfold middling_draws. split; lra. Qed.

Lemma reported_confidence_is_the_running_value_witness :
  uniform_draws low_draws
  /\ sample_pro_team <> []
  /\ sample_con_team <> []
  /\ exists result w,
       analyze_requirement low_draws steady_clock "Add offline mode"
         (fresh_world sample_pro_team sample_con_team (mkAgent "Judge") None)
       = Ok (result, w)
       /\ Forall (reports_within 40 115) (event_queue (self w))
       /\ 40 <= final_confidence_pro (debate_summary result) <= 115.
Proof.
  split; [exact low_draws_uniform |].
  split; [discriminate |]. split; [discriminate |].
  destruct (reported_confidence_is_the_running_value low_draws steady_clock "Add offline mode"
              sample_pro_team sample_con_team (mkAgent "Judge") None
              low_draws_uniform ltac:(discriminate) ltac:(discriminate))
    as (_ & _ & _ & result & w & Hrun & Hrep & _ & _ & Hpro & _).
  exists result, w. repeat split; try assumption; apply Hpro.
Defined.

Lemma run_completes_in_phase_order_witness :
  uniform_draws lopsided_draws
  /\ sample_pro_team <> []
  /\ sample_con_team <> []
  /\ exists result w,
       analyze_requirement lopsided_draws steady_clock "Add offline mode"
         (fresh_world sample_pro_team sample_con_team (mkAgent "Judge") None)
       = Ok (result, w)
       /\ phase (state (self w)) = COMPLETE
       /\ announced_phases (event_queue (self w)) = phase_order.
Proof.
  assert (Hu : uniform_draws lopsided_draws).
  { intros n. unfold lopsided_draws.
    do 15 (destruct n as [|n]; [simpl; split; lra |]).
    destruct n; simpl; split; lra. }
  split; [exact Hu |].
  split; [discriminate |]. split; [discriminate |].
  destruct (run_completes_in_phase_order lopsided_draws steady_clock "Add offline mode"
              sample_pro_team sample_con_team (mkAgent "Judge") None
              Hu ltac:(discriminate) ltac:(discriminate))
    as (result & w & Hrun & Hphase & _ & Horder & _).
  exists result, w. repeat split; assumption.
Defined.

(** C1, the claim as stated fails: in a run whose evidence is all PLATINUM
    the final bundle reports a PRO confidence of 115, and so does a
    [confidence_update] event of the queue; 115 is not in [0, 100].  And in a
    run that ends at 115 : 90 a momentum shift is announced with the raw gap
    25, above the threshold 20, where the clamped values are 10 apart. *)
Lemma confidence_reported_above_100 :
  match platinum_run with
  | Ok (result, w) =>
      final_confidence_pro (debate_summary result) = 115
      /\ final_confidence_con (debate_summary result) = 115
      /\ reports_pro_above 100 (event_queue (self w)) = true
  | Raise _ => False
  end
  /\ match lopsided_run with
     | Ok (result, w) =>
         final_confidence_pro (debate_summary result) = 115
         /\ final_confidence_con (debate_summary result) = 90
         /\ momentum_gaps (event_queue (self w)) = [25]
         /\ Z.abs (clamp_0_100 115 - clamp_0_100 90) = 10
     | Raise _ => False
     end.
Proof. vm_compute. repeat split. Qed.

Lemma objection_to_weak_evidence_witness :
  primary_pro (self duel_world) = Some (mkAgent "Advocate")
  /\ primary_con (self duel_world) = Some (mkAgent "Skeptic")
  /\ exists w' events,
       pro_presents middling_draws "Add offline mode" duel_world = Ok (tt, w')
       /\ emitted duel_world w' events
       /\ existsb is_objection events = true
       /\ pro_confidence (state (self w')) = 55 + (5 - 3) * 5 - 10.
Proof.
  split; [reflexivity | split; [reflexivity |]].
  destruct (objection_to_weak_evidence middling_draws "Add offline mode" duel_world
              (mkAgent "Advocate") (mkAgent "Skeptic") sample_pro_team sample_con_team
              (mkAgent "Judge") eq_refl eq_refl)
    as ((w' & events & Hrun & Hq & Hiff & Hpro & _) & _ & _).
  assert (Hobj : existsb is_objection events = true).
  { apply Hiff. vm_compute. split; discriminate. }
  exists w', events. repeat split; try assumption.
  rewrite Hpro, Hobj. reflexivity.
Defined.

(** C3, the claim as stated fails: under the default configuration the
    objection to weak evidence is raised at every draw of [0, 0.7], a set of
    draws of measure 0.7 and not 0.3; the draw 0.5 is one of them. *)
Lemma objection_raised_on_seven_tenths :
  objection_threshold (config (self duel_world)) = 0.7%Q
  /\ objects_throughout 0 0.7
  /\ objection_raised_at 0.5 = true
  /\ (0.3 < 0.7 - 0)%Q.
Proof.
  split; [reflexivity |]. split; [|split; [reflexivity | reflexivity]].
  intros r [_ Hr]. unfold objection_raised_at, duel_world.
  cbv beta iota zeta delta
      [ _attempt_objection bind random_random get_self _generate_objection
        DebateOrchestrator_init with_primaries with_state
        self config default_config objection_threshold draws ].
  apply Qltb_false_iff in Hr. rewrite Hr. reflexivity.
Qed.

(** C10.  A new orchestrator starts from the default debate state: phase
    PRE_BATTLE, round 0, both confidences 50, both evidence scores 0, no
    speaker and empty transcript, evidence, objection and dramatic-moment
    lists, with an empty queue of events; [_initialize_debate], the first
    step of a run, leaves that state as it is.  Both confidences are thus
    equal and 40 above the knockout floor of 10, and their gap of 0 is below
    the default dramatic-moment threshold of 20. *)
Theorem fresh_orchestrator_state :
  forall (rng : nat -> Q) (requirement : string) (pro_team con_team : list Agent)
         (judge : Agent) (debate_config : option (list ConfigEntry)),
    let o := DebateOrchestrator_init pro_team con_team judge debate_config in
    state o
    = {| phase := PRE_BATTLE;
         round_number := 0;
         pro_confidence := 50;
         con_confidence := 50;
         pro_evidence_score := 0;
         con_evidence_score := 0;
         current_speaker := None;
         transcript := [];
         evidence_presented := [];
         objections := [];
         dramatic_moments := [] |}
    /\ event_queue o = []
    /\ (uniform_draws rng -> pro_team <> [] -> con_team <> [] ->
        exists w,
          _initialize_debate rng requirement
            (fresh_world pro_team con_team judge debate_config) = Ok (tt, w)
          /\ state (self w) = state o)
    /\ pro_confidence (state o) = con_confidence (state o)
    /\ pro_confidence (state o) - 10 = 40
    /\ dramatic_moment_threshold default_config = 20%Q
    /\ (inject_Z (Z.abs (pro_confidence (state o) - con_confidence (state o)))
        < dramatic_moment_threshold default_config)%Q.
Proof.
  intros rng requirement pro_team con_team judge debate_config o.
  repeat split.
  intros Hu Hpro Hcon.
  destruct (initialize_debate_world rng requirement pro_team con_team judge debate_config
              Hu Hpro Hcon) as (w & events & Hrun & _ & Hst & _).
  exists w. split; [exact Hrun | exact Hst].
Qed.

Lemma fresh_orchestrator_state_witness :
  uniform_draws low_draws
  /\ sample_pro_team <> []
  /\ sample_con_team <> []
  /\ exists w,
       _initialize_debate low_draws "Add offline mode"
         (fresh_world sample_pro_team sample_con_team (mkAgent "Judge") None) = Ok (tt, w)
       /\ pro_confidence (state (self w)) = 50
       /\ con_confidence (state (self w)) = 50.
Proof.
  split; [exact low_draws_uniform |].
  split; [discriminate |]. split; [discriminate |].
  destruct (fresh_orchestrator_state low_draws "Add offline mode" sample_pro_team
              sample_con_team (mkAgent "Judge") None)
    as (_ & _ & Hinit & _).
  destruct (Hinit low_draws_uniform ltac:(discriminate) ltac:(discriminate)) as (w & Hrun & Hst).
  exists w. split; [exact Hrun |]. rewrite Hst. split; reflexivity.
Defined.

End RunFacts.
(* ================================================================== *)
(** * Properties: gathering, ranking and chaining evidence *)
(* ================================================================== *)

Section DedupFacts.
Context {num : Type} {P : Platform}.
Local Open Scope string_scope.

Lemma mem_iff (x : string) (xs : list string) : PyText.mem x xs = true <-> In x xs.
Proof.
  unfold PyText.mem. rewrite existsb_exists. split.
  - intros (y & Hin & E). apply String.eqb_eq in E. now subst.
  - intros Hin. exists x. split; [exact Hin | apply String.eqb_refl].
Qed.

Lemma mem_false_iff (x : string) (xs : list string) : PyText.mem x xs = false <-> ~ In x xs.
Proof. rewrite <- mem_iff. now destruct (PyText.mem x xs). Qed.

Lemma dedup_from_hashes (l : list (Evidence num)) (seen : list string) :
  NoDup (map hash (dedup_from l seen))
  /\ forall e, In e (dedup_from l seen) -> ~ In (hash e) seen.
Proof.
  revert seen; induction l as [|x l IH]; intros seen; cbn [dedup_from].
  - split; [constructor | intros e []].
  - destruct (PyText.mem (hash x) seen) eqn:E.
    + apply IH.
    + apply mem_false_iff in E. destruct (IH (hash x :: seen)) as [Hnd Hout].
      split.
      * cbn [map]. constructor; [|exact Hnd].
        intros Hin. apply in_map_iff in Hin. destruct Hin as (e & Eh & He).
        apply (Hout e He). left. now symmetry.
      * intros e [<- | He]; [exact E |].
        intros Hs. apply (Hout e He). now right.
Qed.

Lemma dedup_from_subsequence (l : list (Evidence num)) (seen : list string) :
  subsequence (dedup_from l seen) l.
Proof.
  revert seen; induction l as [|x l IH]; intros seen; cbn [dedup_from].
  - constructor.
  - destruct (PyText.mem (hash x) seen); constructor; apply IH.
Qed.

Lemma dedup_from_first (l : list (Evidence num)) (seen : list string) (h : string) :
  first_with_hash h (dedup_from l seen)
  = if PyText.mem h seen then None else first_with_hash h l.
Proof.
  unfold first_with_hash.
  revert seen; induction l as [|x l IH]; intros seen; cbn [dedup_from find].
  - now destruct (PyText.mem h seen).
  - destruct (PyText.mem (hash x) seen) eqn:E.
    + rewrite IH. destruct (String.eqb (hash x) h) eqn:Eh; [|reflexivity].
      apply String.eqb_eq in Eh. subst h. now rewrite E.
    + cbn [find]. destruct (String.eqb (hash x) h) eqn:Eh.
      * apply String.eqb_eq in Eh. subst h. now rewrite E.
      * rewrite IH. unfold PyText.mem at 1. cbn [existsb].
        rewrite String.eqb_sym, Eh. reflexivity.
Qed.

Lemma dedup_from_fixed (l : list (Evidence num)) (seen : list string) :
  NoDup (map hash l) -> (forall e, In e l -> ~ In (hash e) seen) ->
  dedup_from l seen = l.
Proof.
  revert seen; induction l as [|x l IH]; intros seen Hnd Hout; cbn [dedup_from].
  - reflexivity.
  - cbn [map] in Hnd. apply NoDup_cons_iff in Hnd. destruct Hnd as [Hx Hnd].
    assert (E : PyText.mem (hash x) seen = false).
    { apply mem_false_iff. apply Hout. now left. }
    rewrite E. f_equal. apply IH; [exact Hnd |].
    intros e He [Eh | Hs].
    + apply Hx. rewrite Eh. now apply in_map.
    + apply (Hout e); [now right | exact Hs].
Qed.

End DedupFacts.

(** The duplicates [_deduplicate_evidence] removes are the records whose
    hash was met before: of the records that share a hash the first stays and
    the later ones go.  No two records of the result share a hash, the result
    keeps the order of the list, and a second pass removes nothing. *)
Theorem deduplicate_keeps_first_of_each_hash :
  forall (num : Type) (P : Platform) (evidence_list : list (Evidence num)),
    let unique_evidence := _deduplicate_evidence evidence_list in
    NoDup (map hash unique_evidence)
    /\ subsequence unique_evidence evidence_list
    /\ (forall h, first_with_hash h unique_evidence = first_with_hash h evidence_list)
    /\ _deduplicate_evidence unique_evidence = unique_evidence.
Proof.
  intros num P l. unfold _deduplicate_evidence. cbv zeta.
  destruct (dedup_from_hashes l []) as [Hnd Hout].
  split; [exact Hnd |].
  split; [apply dedup_from_subsequence |].
  split; [intros h; now rewrite dedup_from_first |].
  apply dedup_from_fixed; [exact Hnd | intros e _ []].
Qed.

Section CredFacts.
Local Open Scope string_scope.

Lemma substring_of_trans (p q s : string) :
  PyStr.substring_of p q -> PyStr.substring_of q s -> PyStr.substring_of p s.
Proof.
  intros (a & b & ->) (c & d & ->). exists (c ++ a), (b ++ d).
  clear. induction c as [|x c IH]; simpl.
  - induction a as [|y a IHa]; simpl; [|now rewrite IHa].
    induction p as [|z p IHp]; simpl; [reflexivity | now rewrite IHp].
  - now rewrite IH.
Qed.

Lemma contains_longer (p q s : string) :
  PyStr.contains p q = true -> PyStr.contains q s = true -> PyStr.contains p s = true.
Proof.
  rewrite !contains_iff. apply substring_of_trans.
Qed.

Lemma any_in_true (domain : string) (domains : list string) (source : string) :
  In domain domains -> PyStr.contains domain source = true -> any_in domains source = true.
Proof.
  intros Hin Hc. unfold any_in. apply existsb_exists. now exists domain.
Qed.

Lemma tier_at_most_platinum (source url : string) :
  any_in ["arxiv.org"; "pubmed"; "acm.org"; "ieee.org"; "scholar.google"] source = true ->
  _determine_tier source url = PLATINUM.
Proof. unfold _determine_tier. now intros ->. Qed.

Lemma tier_at_most_gold (source url : string) :
  any_in ["gartner.com"; "forrester.com"; "mckinsey.com"; "deloitte.com"] source = true ->
  (tier_value (_determine_tier source url) <= 2)%Z.
Proof.
  unfold _determine_tier. intros ->.
  destruct (any_in _ source); simpl; lia.
Qed.

Lemma tier_at_most_silver (source url : string) :
  any_in ["github.com"; "stackoverflow.com"; "hackernews"; "dev.to"] source = true ->
  (tier_value (_determine_tier source url) <= 3)%Z.
Proof.
  unfold _determine_tier. intros ->.
  destruct (any_in _ source); [simpl; lia |].
  destruct (any_in _ source); simpl; lia.
Qed.

(** The credibility of a source, case by case of the table. *)
Lemma source_credibility_cases (source url : string) :
  exists c : Q,
    _get_source_credibility source = Ok c
    /\ (0.4 <= c <= 0.95)%Q
    /\ ((0.9 <= c)%Q -> _determine_tier source url = PLATINUM)
    /\ ((0.85 <= c)%Q -> (tier_value (_determine_tier source url) <= 2)%Z)
    /\ ((0.7 <= c)%Q -> (tier_value (_determine_tier source url) <= 3)%Z).
Proof.
  unfold _get_source_credibility, source_credibility. cbn [first_credibility of_decimal ExactQ].
  assert (Hp : forall d, In d ["arxiv.org"; "scholar.google.com"; "pubmed.ncbi.nlm.nih.gov";
                                 "acm.org"; "ieee.org"] ->
                         PyStr.contains d source = true ->
                         _determine_tier source url = PLATINUM).
  { intros d Hd Hc. apply tier_at_most_platinum.
    destruct Hd as [<- | [<- | [<- | [<- | [<- | []]]]]].
    - apply (any_in_true "arxiv.org"); [simpl; auto | exact Hc].
    - apply (any_in_true "scholar.google"); [simpl; auto 6 |].
      now apply (contains_longer _ "scholar.google.com").
    - apply (any_in_true "pubmed"); [simpl; auto |].
      now apply (contains_longer _ "pubmed.ncbi.nlm.nih.gov").
    - apply (any_in_true "acm.org"); [simpl; auto | exact Hc].
    - apply (any_in_true "ieee.org"); [simpl; auto | exact Hc]. }
  assert (Hg : forall d, In d ["gartner.com"; "forrester.com"; "mckinsey.com"] ->
                         PyStr.contains d source = true ->
                         (tier_value (_determine_tier source url) <= 2)%Z).
  { intros d Hd Hc. apply tier_at_most_gold.
    apply (any_in_true d); [simpl in *; intuition | exact Hc]. }
  assert (Hs : forall d, In d ["github.com"; "stackoverflow.com"; "hackernews"] ->
                         PyStr.contains d source = true ->
                         (tier_value (_determine_tier source url) <= 3)%Z).
  { intros d Hd Hc. apply tier_at_most_silver.
    apply (any_in_true d); [simpl in *; intuition | exact Hc]. }
  repeat match goal with
         | |- context [if PyStr.contains ?d source then _ else _] =>
             let E := fresh "E" in
             destruct (PyStr.contains d source) eqn:E;
             [ eexists; split; [reflexivity |]; split; [lra |];
               first
                 [ (* an academic key *)
                   assert (Ht : _determine_tier source url = PLATINUM)
                     by (eapply Hp; [|exact E]; simpl; auto 6);
                   rewrite Ht; repeat split; intros; simpl; lia
                 | assert (Ht : (tier_value (_determine_tier source url) <= 2)%Z)
                     by (eapply Hg; [|exact E]; simpl; auto 6);
                   split; [intros; lra |]; split; intros; lia
                 | assert (Ht : (tier_value (_determine_tier source url) <= 3)%Z)
                     by (eapply Hs; [|exact E]; simpl; auto 6);
                   split; [intros; lra |]; split; intros; [lra | lia]
                 | repeat split; intros; lra ]
             | ]
         end.
  cbn. eexists; split; [reflexivity |]. repeat split; intros; lra.
Qed.

End CredFacts.

Section SortFacts.
Local Open Scope Q_scope.

Lemma insert_by_score_perm (e : Evidence Q) (l : list (Evidence Q)) :
  Permutation (insert_by_score e l) (e :: l).
Proof.
  induction l as [|x l IH]; cbn [insert_by_score]; [reflexivity |].
  destruct (num_ltb (total_score e) (total_score x)); [|reflexivity].
  rewrite IH. apply perm_swap.
Qed.

Lemma sorted_by_score_perm (l : list (Evidence Q)) : Permutation (sorted_by_score l) l.
Proof.
  induction l as [|x l IH]; cbn [sorted_by_score fold_right]; [reflexivity |].
  rewrite insert_by_score_perm. now constructor.
Qed.

Lemma insert_by_score_sorted (e : Evidence Q) (l : list (Evidence Q)) :
  StronglySorted outranks l -> StronglySorted outranks (insert_by_score e l).
Proof.
  induction 1 as [|x l Hs IH Hx]; cbn [insert_by_score].
  - repeat constructor.
  - destruct (num_ltb (total_score e) (total_score x)) eqn:E; cbn [num_ltb ExactQ] in E.
    + apply Qltb_iff in E. constructor; [exact IH |].
      eapply Permutation_Forall; [symmetry; apply insert_by_score_perm |].
      constructor; [unfold outranks; lra | exact Hx].
    + apply Qltb_false_iff in E. constructor; [now constructor |].
      constructor; [exact E |].
      eapply Forall_impl; [|exact Hx]. unfold outranks. intros a Ha. lra.
Qed.

Lemma sorted_by_score_sorted (l : list (Evidence Q)) :
  StronglySorted outranks (sorted_by_score l).
Proof.
  induction l as [|x l IH]; cbn [sorted_by_score fold_right]; [constructor |].
  now apply insert_by_score_sorted.
Qed.

(** The sort is stable: the records of any one score keep their order. *)
Lemma insert_by_score_stable (s : Q) (e : Evidence Q) (l : list (Evidence Q)) :
  filter (fun a => Qeq_bool (total_score a) s) (insert_by_score e l)
  = filter (fun a => Qeq_bool (total_score a) s) (e :: l).
Proof.
  induction l as [|x l IH]; cbn [insert_by_score]; [reflexivity |].
  destruct (num_ltb (total_score e) (total_score x)) eqn:E; [|reflexivity].
  cbn [num_ltb ExactQ] in E. apply Qltb_iff in E.
  cbn [filter] in *. rewrite IH.
  destruct (Qeq_bool (total_score e) s) eqn:Ee; [|reflexivity].
  destruct (Qeq_bool (total_score x) s) eqn:Ex; [|reflexivity].
  apply Qeq_bool_iff in Ee, Ex. lra.
Qed.

Lemma sorted_by_score_stable (s : Q) (l : list (Evidence Q)) :
  filter (fun a => Qeq_bool (total_score a) s) (sorted_by_score l)
  = filter (fun a => Qeq_bool (total_score a) s) l.
Proof.
  induction l as [|x l IH]; cbn [sorted_by_score fold_right]; [reflexivity |].
  rewrite insert_by_score_stable. cbn [filter]. fold (sorted_by_score l). now rewrite IH.
Qed.

End SortFacts.

Section SliceFacts.
Context {A : Type}.

Lemma slice_to_firstn (xs : list A) (n : Z) :
  exists k, PyText.slice_to xs n = firstn k xs.
Proof. unfold PyText.slice_to. destruct (0 <=? n)%Z; eexists; reflexivity. Qed.

Lemma slice_to_length (xs : list A) (n : Z) :
  (0 <= n)%Z -> (Z.of_nat (length (PyText.slice_to xs n)) <= n)%Z.
Proof.
  intros Hn. unfold PyText.slice_to.
  assert (H0 : (0 <=? n)%Z = true) by (apply Z.leb_le; lia). rewrite H0.
  rewrite length_firstn. lia.
Qed.

Lemma slice_to_all (xs : list A) (n : Z) :
  (Z.of_nat (length xs) <= n)%Z -> PyText.slice_to xs n = xs.
Proof.
  intros Hn. unfold PyText.slice_to.
  assert (H0 : (0 <=? n)%Z = true) by (apply Z.leb_le; lia). rewrite H0.
  apply firstn_all2. lia.
Qed.

Lemma firstn_subsequence (k : nat) (xs : list A) : subsequence (firstn k xs) xs.
Proof.
  revert k; induction xs as [|x xs IH]; intros [|k]; cbn [firstn]; try constructor.
  - clear. induction xs; constructor; assumption.
  - apply IH.
Qed.

Lemma subsequence_Forall (P : A -> Prop) (kept all : list A) :
  subsequence kept all -> Forall P all -> Forall P kept.
Proof.
  induction 1 as [|x kept all _ IH|x kept all _ IH]; intros H.
  - constructor.
  - inversion H; subst. constructor; auto.
  - inversion H; subst. auto.
Qed.

Lemma subsequence_In (kept all : list A) (x : A) :
  subsequence kept all -> In x kept -> In x all.
Proof.
  induction 1 as [|y kept all _ IH|y kept all _ IH]; intros H.
  - destruct H.
  - destruct H as [-> | H]; [now left | right; auto].
  - right; auto.
Qed.

Lemma subsequence_map {B : Type} (f : A -> B) (kept all : list A) :
  subsequence kept all -> subsequence (map f kept) (map f all).
Proof. induction 1; cbn [map]; constructor; assumption. Qed.

Lemma subsequence_NoDup (kept all : list A) :
  subsequence kept all -> NoDup all -> NoDup kept.
Proof.
  induction 1 as [|x kept all Hs IH|x kept all Hs IH]; intros H.
  - constructor.
  - inversion H; subst. constructor; [|auto].
    intros Hin. apply (subsequence_In _ _ _ Hs) in Hin. contradiction.
  - inversion H; subst. auto.
Qed.

Lemma subsequence_sorted (R : A -> A -> Prop) (kept all : list A) :
  subsequence kept all -> StronglySorted R all -> StronglySorted R kept.
Proof.
  induction 1 as [|x kept all Hs IH|x kept all Hs IH]; intros H.
  - constructor.
  - inversion H; subst. constructor; [auto |].
    eapply subsequence_Forall; eassumption.
  - inversion H; subst. auto.
Qed.

Lemma subsequence_length (kept all : list A) :
  subsequence kept all -> (length kept <= length all)%nat.
Proof. induction 1; cbn [length]; lia. Qed.

End SliceFacts.
Section RelevanceFacts.
Local Open Scope string_scope.

Lemma filter_length_full {A} (f : A -> bool) (l : list A) :
  length (filter f l) = length l <-> forall x, In x l -> f x = true.
Proof.
  induction l as [|a l IH]; cbn [filter length].
  - split; [intros _ x [] | reflexivity].
  - pose proof (filter_length_le f l) as Hle.
    destruct (f a) eqn:E; cbn [length].
    + split.
      * intros H x [<- | Hx]; [exact E |]. apply IH; [lia | exact Hx].
      * intros H. f_equal. apply IH. intros x Hx. apply H. now right.
    + split; [lia |]. intros H. specialize (H a (or_introl eq_refl)). congruence.
Qed.

Lemma filter_length_none {A} (f : A -> bool) (l : list A) :
  length (filter f l) = 0%nat <-> forall x, In x l -> f x = false.
Proof.
  induction l as [|a l IH]; cbn [filter length].
  - split; [intros _ x [] | reflexivity].
  - destruct (f a) eqn:E; cbn [length].
    + split; [discriminate |]. intros H. specialize (H a (or_introl eq_refl)). congruence.
    + rewrite IH. split.
      * intros H x [<- | Hx]; [exact E | now apply H].
      * intros H x Hx. apply H. now right.
Qed.

Lemma set_of_In (x : string) (l : list string) : In x (PyText.set_of l) <-> In x l.
Proof. apply nodup_In. Qed.

Lemma set_of_nil (l : list string) : PyText.set_of l = [] <-> l = [].
Proof.
  split; [|intros ->; reflexivity].
  destruct l as [|x l]; [reflexivity |]. intros E.
  assert (H : In x (PyText.set_of (x :: l))) by (apply set_of_In; now left).
  rewrite E in H. destruct H.
Qed.

(** The share [overlap / total] of [_calculate_relevance], for [total > 0]. *)
Lemma share_range (overlap total : nat) :
  (0 < total)%nat -> (overlap <= total)%nat ->
  let share := (inject_Z (Z.of_nat overlap) / inject_Z (Z.of_nat total))%Q in
  (0 <= share <= 1)%Q
  /\ (share == 1 <-> overlap = total)%Q
  /\ (share == 0 <-> overlap = 0%nat)%Q.
Proof.
  intros Ht Hle share.
  assert (HT : (0 < inject_Z (Z.of_nat total))%Q).
  { change 0%Q with (inject_Z 0). rewrite <- Zlt_Qlt. lia. }
  assert (HO : (0 <= inject_Z (Z.of_nat overlap))%Q).
  { change 0%Q with (inject_Z 0). rewrite <- Zle_Qle. lia. }
  assert (HL : (inject_Z (Z.of_nat overlap) <= inject_Z (Z.of_nat total))%Q).
  { rewrite <- Zle_Qle. lia. }
  assert (Hs : (share * inject_Z (Z.of_nat total) == inject_Z (Z.of_nat overlap))%Q).
  { unfold share. field. lra. }
  assert (Hinj1 : (inject_Z (Z.of_nat overlap) == inject_Z (Z.of_nat total))%Q
                  <-> overlap = total).
  { rewrite inject_Z_injective. lia. }
  assert (Hinj0 : (inject_Z (Z.of_nat overlap) == 0)%Q <-> overlap = 0%nat).
  { change 0%Q with (inject_Z 0). rewrite inject_Z_injective. lia. }
  clearbody share.
  set (o := inject_Z (Z.of_nat overlap)) in *.
  set (t := inject_Z (Z.of_nat total)) in *.
  clearbody o t.
  split; [split; nra |]. split.
  - rewrite <- Hinj1. split; intros E; [rewrite E in Hs; lra | nra].
  - rewrite <- Hinj0. split; intros E; [rewrite E in Hs; lra | nra].
Qed.

End RelevanceFacts.

(** The relevance of a text to a requirement is the share of the distinct
    words of the requirement, letter case apart, that occur as words of the
    text; the cap [min(1.0, .)] never binds.  It lies in [0, 1], is 1 exactly
    when the requirement has a word and each of its words occurs in the text,
    and 0 exactly when none of them does (a requirement without words
    included). *)
Theorem relevance_is_share_of_requirement_words :
  forall text requirement : string,
    let relevance := _calculate_relevance (N := ExactQ) text requirement in
    let required := PyText.set_of (words requirement) in
    let found := filter (fun w => PyText.mem w (words text)) required in
    (0 <= relevance <= 1)%Q
    /\ (required <> [] ->
        relevance == inject_Z (Z.of_nat (length found)) / inject_Z (Z.of_nat (length required)))%Q
    /\ (relevance == 1
        <-> words requirement <> []
            /\ forall w, In w (words requirement) -> In w (words text))%Q
    /\ (relevance == 0
        <-> forall w, In w (words requirement) -> ~ In w (words text))%Q.
Proof.
  intros text requirement relevance required found.
  assert (Hfound : found = PyText.inter required (PyText.set_of (words text))).
  { unfold found, PyText.inter. apply filter_ext. intros w.
    destruct (PyText.mem w (words text)) eqn:E.
    - symmetry. apply mem_iff, set_of_In, mem_iff, E.
    - symmetry. apply mem_false_iff. rewrite set_of_In. now apply mem_false_iff. }
  assert (Hall : length found = length required
                 <-> forall w, In w (words requirement) -> In w (words text)).
  { unfold found. rewrite filter_length_full. unfold required. split.
    - intros H w Hw. apply mem_iff, H, set_of_In, Hw.
    - intros H w Hw. apply mem_iff, H, set_of_In, Hw. }
  assert (Hnone : length found = 0%nat
                  <-> forall w, In w (words requirement) -> ~ In w (words text)).
  { unfold found. rewrite filter_length_none. unfold required. split.
    - intros H w Hw. apply mem_false_iff, H, set_of_In, Hw.
    - intros H w Hw. apply mem_false_iff, H, set_of_In, Hw. }
  assert (Hle : (length found <= length required)%nat) by apply filter_length_le.
  unfold relevance, _calculate_relevance. fold (words requirement) (words text).
  fold required. rewrite <- Hfound.
  destruct required as [|w0 rest] eqn:Ereq.
  - assert (Hw : words requirement = []) by (apply set_of_nil; exact Ereq).
    cbn [of_decimal ExactQ]. split; [split; lra |].
    split; [intros H; now contradiction H |]. split.
    + split; [intros E; discriminate E |]. intros [Hne _]. contradiction.
    + split; [|reflexivity]. intros _ w Hin. rewrite Hw in Hin. destruct Hin.
  - assert (Hpos : (0 < length (w0 :: rest))%nat) by (cbn [length]; lia).
    destruct (share_range (length found) (length (w0 :: rest)) Hpos Hle)
      as (Hrange & Hone & Hzero).
    cbn [of_decimal of_Z num_div ExactQ] in *.
    set (share := (inject_Z (Z.of_nat (length found))
                   / inject_Z (Z.of_nat (length (w0 :: rest))))%Q) in *.
    assert (Hmin : (py_min (N := ExactQ) 1.0 share == share)%Q).
    { unfold py_min. cbn [num_ltb ExactQ].
      destruct (Qltb share 1.0) eqn:E; [reflexivity |].
      apply Qltb_false_iff in E. lra. }
    rewrite Hmin.
    split; [exact Hrange |]. split; [reflexivity |]. split.
    + rewrite Hone, Hall. split; [intros H; split; [|exact H] | intros [_ H]; exact H].
      intros Hw. apply set_of_nil in Hw. unfold required in Ereq. congruence.
    + now rewrite Hzero, Hnone.
Qed.

(** The relevance score lies in [0, 1]. *)
Lemma relevance_range (text requirement : string) :
  (0 <= _calculate_relevance (N := ExactQ) text requirement <= 1)%Q.
Proof.
  unfold _calculate_relevance.
  set (required := PyText.set_of (PyText.split (PyStr.lower requirement))).
  set (found := PyText.inter required _).
  assert (Hle : (length found <= length required)%nat) by apply filter_length_le.
  clearbody found. destruct required as [|w0 rest]; [cbn; split; lra |].
  assert (Hpos : (0 < length (w0 :: rest))%nat) by (cbn [length]; lia).
  destruct (share_range (length found) (length (w0 :: rest)) Hpos Hle) as (Hrange & _).
  cbn [of_decimal of_Z num_div ExactQ] in *.
  unfold py_min. cbn [num_ltb ExactQ].
  destruct (Qltb _ 1.0); [exact Hrange | split; lra].
Qed.

Section GatherFacts.
Context {P : Platform} {Tool : Type} {T : SearchTool Tool}.
Local Open Scope string_scope.

(** The recency score of a result: one of six values; below 0.3 exactly
    when the result carries a date that parses and lies 730 days back or
    more. *)
Lemma recency_cases (result : SearchResult) (self : Gatherer Tool) :
  let recency := fst (_calculate_recency (N := ExactQ) result self) in
  let date_str := result_get result "date" in
  (0.2 <= recency <= 1)%Q
  /\ search_tool (snd (_calculate_recency (N := ExactQ) result self)) = search_tool self
  /\ ((recency < 0.3)%Q
      <-> date_str <> ""
          /\ exists days, days_old (clock_reads self) date_str = Some days /\ (730 <= days)%Z)
  /\ (date_str = "" -> recency = 0.5%Q).
Proof.
  unfold _calculate_recency. cbv zeta.
  destruct (String.eqb (result_get result "date") "") eqn:Ed.
  - apply String.eqb_eq in Ed. cbn [fst snd of_decimal ExactQ].
    split; [split; lra |]. split; [reflexivity |]. split; [|reflexivity].
    split; [intros H; lra | intros [Hne _]; contradiction].
  - apply String.eqb_neq in Ed.
    destruct (days_old (clock_reads self) (result_get result "date")) as [days|] eqn:Ea.
    + cbn [fst snd of_decimal ExactQ search_tool].
      destruct (days <? 30)%Z eqn:E1; [|destruct (days <? 90)%Z eqn:E2;
        [|destruct (days <? 365)%Z eqn:E3; [|destruct (days <? 365 * 2)%Z eqn:E4]]];
        rewrite ?Z.ltb_lt, ?Z.ltb_ge in *.
      all: split; [split; lra |]; split; [reflexivity |]; split; [|contradiction].
      all: split; [intros H; try lra | intros [_ (d & Hd & Hold)]; injection Hd as <-; first [lia | lra]].
      split; [exact Ed |]. exists days. split; [reflexivity | lia].
    + cbn [fst snd of_decimal ExactQ search_tool].
      split; [split; lra |]. split; [reflexivity |]. split; [|contradiction].
      split; [intros H; lra | intros [_ (d & Hd & _)]; discriminate].
Qed.

(** What becomes of one search result. *)
Lemma process_result_ok (result : SearchResult) (requirement : string)
    (self : Gatherer Tool) :
  let title := result_get result "title" in
  let snippet := result_get result "snippet" in
  exists out self',
    process_result (N := ExactQ) result requirement self = Ok (out, self')
    /\ search_tool self' = search_tool self
    /\ match out with
       | None => result_get result "url" = "" \/ snippet = ""
       | Some e =>
           result_get result "url" <> "" /\ snippet <> ""
           /\ claim e = _extract_claim title snippet
           /\ url e = result_get result "url"
           /\ raw_text e = snippet
           /\ source e = _extract_domain (url e)
           /\ tier e = _determine_tier (source e) (url e)
           /\ relevance_score e = _calculate_relevance snippet requirement
           /\ recency_score e = fst (_calculate_recency result self)
           /\ _get_source_credibility (source e) = Ok (credibility_score e)
           /\ extracted_data e = Some (_extract_data_points snippet)
       end.
Proof.
  intros title snippet. unfold process_result. fold title snippet.
  destruct (String.eqb (result_get result "url") "") eqn:Eu.
  { apply String.eqb_eq in Eu. exists None, self. cbn [orb]. auto. }
  destruct (String.eqb snippet "") eqn:Es.
  { apply String.eqb_eq in Es. exists None, self. cbn [orb]. auto. }
  apply String.eqb_neq in Eu, Es. cbn [orb].
  destruct (recency_cases result self) as (_ & Htool & _).
  destruct (_calculate_recency result self) as [recency self1] eqn:Er.
  cbn [fst snd] in *.
  destruct (source_credibility_cases (_extract_domain (result_get result "url"))
              (result_get result "url")) as (c & Hc & _).
  rewrite Hc. cbn [result_bind].
  do 2 eexists. split; [reflexivity |]. split; [exact Htool |].
  cbn [claim url raw_text source tier relevance_score recency_score credibility_score
       extracted_data].
  repeat split; try assumption; reflexivity.
Qed.

(** The scores of a record built from a search result. *)
Lemma process_result_scores (result : SearchResult) (requirement : string)
    (self self' : Gatherer Tool) (e : Evidence Q) :
  process_result (N := ExactQ) result requirement self = Ok (Some e, self') ->
  made_of e result /\ url e <> "" /\ raw_text e <> ""
  /\ gathered_scores e /\ (0 <= total_score e <= 9.5)%Q.
Proof.
  intros Hrun.
  destruct (process_result_ok result requirement self)
    as (out & g & Hrun' & _ & Hout).
  rewrite Hrun in Hrun'. injection Hrun' as <- <-.
  destruct Hout as (Hu & Hs & _ & Eu & Er & Esrc & _ & Erel & Erec & Ecred & _).
  destruct (relevance_range (result_get result "snippet") requirement) as [Hr0 Hr1].
  destruct (recency_cases result self) as (Hrec & _).
  destruct (source_credibility_cases (source e) (url e)) as (c & Hc & Hcr & _).
  rewrite Ecred in Hc. injection Hc as <-.
  cbv zeta in Hrec. rewrite <- Erec in Hrec. rewrite <- Erel in Hr0, Hr1.
  assert (Hg : gathered_scores e) by (unfold gathered_scores; tauto).
  split; [split; assumption |].
  split; [now rewrite Eu |]. split; [now rewrite Er |]. split; [exact Hg |].
  unfold total_score. cbn [of_Z num_mul ExactQ].
  assert (Hw : (1 <= inject_Z (tier_weights (tier e)) <= 10)%Q).
  { split; [change 1%Q with (inject_Z 1) | change 10%Q with (inject_Z 10)];
      rewrite <- Zle_Qle; destruct (tier e); simpl; lia. }
  destruct Hg as (Ha & Hb & Hd).
  set (w := inject_Z (tier_weights (tier e))) in *.
  set (rl := relevance_score e) in *.
  set (rc := recency_score e) in *.
  set (cr := credibility_score e) in *.
  clearbody w rl rc cr.
  assert (0 <= w * rl <= 10)%Q by nra.
  assert (0 <= w * rl * rc <= 10)%Q by nra.
  split; nra.
Qed.

End GatherFacts.

Section GatherRun.
Context {P : Platform} {Tool : Type} {T : SearchTool Tool}.
Local Open Scope string_scope.

Lemma well_gathered_more (results more : list SearchResult) (e : Evidence Q) :
  incl results more -> well_gathered results e -> well_gathered more e.
Proof.
  intros Hincl ((result & Hin & Hmade) & H). split; [|exact H].
  exists result. split; [now apply Hincl | exact Hmade].
Qed.

Lemma process_search_results_ok (results : list SearchResult) (requirement : string)
    (self : Gatherer Tool) :
  exists evidence_list self',
    _process_search_results (N := ExactQ) results requirement self
    = Ok (evidence_list, self')
    /\ search_tool self' = search_tool self
    /\ (length evidence_list <= length results)%nat
    /\ Forall (well_gathered results) evidence_list.
Proof.
  revert self; induction results as [|result results IH]; intros self.
  - exists [], self. cbn. repeat split; [lia | constructor].
  - cbn [_process_search_results].
    destruct (process_result_ok result requirement self) as (out & self1 & Hrun & Htool & _).
    pose proof (process_result_scores result requirement self self1) as Hscores.
    rewrite Hrun in *. cbn [result_bind].
    destruct (IH self1) as (evs & self2 & Hrest & Htool2 & Hlen & Hall).
    rewrite Hrest. cbn [result_bind].
    assert (Hall' : Forall (well_gathered (result :: results)) evs).
    { eapply Forall_impl; [|exact Hall]. intros e. apply well_gathered_more.
      intros x Hx. now right. }
    do 2 eexists. split; [reflexivity |]. split; [congruence |].
    destruct out as [e|]; cbn [length]; (split; [lia |]); [|exact Hall'].
    constructor; [|exact Hall'].
    destruct (Hscores e eq_refl) as (Hmade & H). split; [|exact H].
    exists result. split; [now left | exact Hmade].
Qed.

Lemma search_all_ok (queries : list string) (requirement : string) (self : Gatherer Tool) :
  let calls := neutral_calls queries in
  exists all_evidence self',
    search_all (N := ExactQ) queries requirement self = Ok (all_evidence, self')
    /\ search_tool self' = tool_after calls (search_tool self)
    /\ (length all_evidence <= length (answers calls (search_tool self)))%nat
    /\ Forall (well_gathered (answers calls (search_tool self))) all_evidence.
Proof.
  revert self; induction queries as [|query queries IH]; intros self; cbv zeta.
  - exists [], self. cbn. repeat split; [lia | constructor].
  - cbn [search_all neutral_calls map tool_after answers]. unfold _search_and_parse.
    destruct (search_evidence query "neutral" (search_tool self)) as [outcome tool] eqn:Es.
    cbn [fst snd].
    set (results := match outcome with
                    | Results results => results
                    | NotAList => []
                    | SearchRaised => []
                    end).
    assert (Hstep : (let self0 := mkGatherer tool (clock_reads self) in
                     match outcome with
                     | Results results => (results, self0)
                     | NotAList => ([], self0)
                     | SearchRaised => ([], self0)
                     end) = (results, mkGatherer tool (clock_reads self))).
    { unfold results. now destruct outcome. }
    cbv zeta in Hstep. rewrite Hstep.
    destruct (process_search_results_ok results requirement
                (mkGatherer tool (clock_reads self)))
      as (evs & self1 & Hrun & Htool & Hlen & Hall).
    rewrite Hrun. cbn [result_bind].
    destruct (IH self1) as (others & self2 & Hrest & Htool2 & Hlen2 & Hall2).
    rewrite Hrest. cbn [result_bind].
    cbn [search_tool] in Htool. rewrite Htool in *.
    fold (neutral_calls queries).
    do 2 eexists. split; [reflexivity |]. split; [exact Htool2 |].
    split; [rewrite !length_app; lia |].
    apply Forall_app; split.
    + eapply Forall_impl; [|exact Hall]. intros e. apply well_gathered_more.
      intros x Hx. apply in_or_app. now left.
    + eapply Forall_impl; [|exact Hall2]. intros e. apply well_gathered_more.
      intros x Hx. apply in_or_app. now right.
Qed.

(** The queries of each stance: four of them. *)
Lemma search_queries_four (requirement stance : string) :
  exists q1 q2 q3 q4,
    _generate_search_queries requirement stance = [q1; q2; q3; q4]
    /\ PyText.slice_to (_generate_search_queries requirement stance) 3 = [q1; q2; q3].
Proof.
  unfold _generate_search_queries.
  destruct (String.eqb stance "support"); [|destruct (String.eqb stance "oppose")];
    do 4 eexists; split; reflexivity.
Qed.

(** What [gather_evidence] returns, in terms of what its searches found. *)
Lemma gather_evidence_ok (requirement stance : string) (max_sources : Z)
    (self : Gatherer Tool) :
  let queries := firstn 3 (_generate_search_queries requirement stance) in
  let calls := neutral_calls queries in
  exists all_evidence ranked self',
    search_all (N := ExactQ) queries requirement self = Ok (all_evidence, self')
    /\ gather_evidence (N := ExactQ) requirement stance max_sources self = Ok (ranked, self')
    /\ ranked = PyText.slice_to (sorted_by_score (_deduplicate_evidence all_evidence))
                                max_sources
    /\ search_tool self' = tool_after calls (search_tool self)
    /\ (length all_evidence <= length (answers calls (search_tool self)))%nat
    /\ Forall (well_gathered (answers calls (search_tool self))) all_evidence.
Proof.
  cbv zeta. unfold gather_evidence.
  change (PyText.slice_to (_generate_search_queries requirement stance) 3)
    with (firstn 3 (_generate_search_queries requirement stance)).
  destruct (search_all_ok (firstn 3 (_generate_search_queries requirement stance))
              requirement self) as (all_evidence & self' & Hrun & Htool & Hlen & Hall).
  rewrite Hrun. cbn [result_bind].
  exists all_evidence. do 2 eexists. split; [reflexivity |]. split; [reflexivity |].
  split; [reflexivity |]. repeat split; assumption.
Qed.

End GatherRun.

(** The evidence [gather_evidence] returns is ranked: the total scores
    never increase along the list.  No two records share a hash, at most
    [max_sources] records are returned when [max_sources] is not negative,
    and each record has a URL and a snippet that are not empty, a relevance
    in [0, 1], a recency in [0.2, 1], a credibility in [0.4, 0.95] and a
    total score of at most 9.5.  The call always returns. *)
Theorem gathered_evidence_is_ranked :
  forall (P : Platform) (Tool : Type) (T : SearchTool Tool)
         (requirement stance : string) (max_sources : Z) (self : Gatherer Tool),
    exists ranked self',
      gather_evidence (N := ExactQ) requirement stance max_sources self = Ok (ranked, self')
      /\ StronglySorted outranks ranked
      /\ NoDup (map hash ranked)
      /\ ((0 <= max_sources)%Z -> (Z.of_nat (length ranked) <= max_sources)%Z)
      /\ Forall (fun e => url e <> ""%string /\ raw_text e <> ""%string
                          /\ gathered_scores e /\ (0 <= total_score e <= 9.5)%Q) ranked.
Proof.
  intros P Tool T requirement stance max_sources self.
  destruct (gather_evidence_ok requirement stance max_sources self)
    as (all_evidence & ranked & self' & _ & Hrun & -> & _ & _ & Hall).
  exists (PyText.slice_to (sorted_by_score (_deduplicate_evidence all_evidence)) max_sources),
         self'.
  split; [exact Hrun |].
  destruct (slice_to_firstn (sorted_by_score (_deduplicate_evidence all_evidence)) max_sources)
    as [k Hk].
  pose proof (firstn_subsequence k (sorted_by_score (_deduplicate_evidence all_evidence)))
    as Hsub.
  rewrite <- Hk in Hsub.
  pose proof (sorted_by_score_perm (_deduplicate_evidence all_evidence)) as Hperm.
  split; [eapply subsequence_sorted; [exact Hsub | apply sorted_by_score_sorted] |].
  split.
  { eapply subsequence_NoDup; [apply subsequence_map; exact Hsub |].
    eapply Permutation_NoDup; [apply Permutation_map; symmetry; exact Hperm |].
    apply dedup_from_hashes. }
  split; [apply slice_to_length |].
  eapply subsequence_Forall; [exact Hsub |].
  eapply Permutation_Forall; [symmetry; exact Hperm |].
  eapply subsequence_Forall; [apply dedup_from_subsequence |].
  eapply Forall_impl; [|exact Hall]. intros e (_ & H). exact H.
Qed.

(** Whatever the stance, [gather_evidence] calls the search tool three
    times, each time with the stance "neutral", for the first three of the
    four queries of the stance; the fourth is never searched.  Every record
    returned is made of a result one of the three calls brought in, so there
    are no more records than results, and none when every call raised or
    answered with something other than a list. *)
Theorem gathering_searches_three_neutral_queries :
  forall (P : Platform) (Tool : Type) (T : SearchTool Tool)
         (requirement stance : string) (max_sources : Z) (self : Gatherer Tool),
    exists q1 q2 q3 q4 ranked self',
      _generate_search_queries requirement stance = [q1; q2; q3; q4]
      /\ gather_evidence (N := ExactQ) requirement stance max_sources self = Ok (ranked, self')
      /\ let calls := [(q1, "neutral"); (q2, "neutral"); (q3, "neutral")]%string in
         search_tool self' = tool_after calls (search_tool self)
         /\ Forall (fun e => exists result,
                        In result (answers calls (search_tool self)) /\ made_of e result)
                   ranked
         /\ (length ranked <= length (answers calls (search_tool self)))%nat.
Proof.
  intros P Tool T requirement stance max_sources self.
  destruct (search_queries_four requirement stance) as (q1 & q2 & q3 & q4 & Hq & _).
  destruct (gather_evidence_ok requirement stance max_sources self)
    as (all_evidence & ranked & self' & _ & Hrun & -> & Htool & Hlen & Hall).
  rewrite Hq in Htool, Hlen, Hall. cbn [firstn neutral_calls map] in Htool, Hlen, Hall.
  exists q1, q2, q3, q4. do 2 eexists. split; [exact Hq |]. split; [exact Hrun |].
  cbv zeta.
  destruct (slice_to_firstn (sorted_by_score (_deduplicate_evidence all_evidence)) max_sources)
    as [k Hk].
  pose proof (firstn_subsequence k (sorted_by_score (_deduplicate_evidence all_evidence)))
    as Hsub.
  rewrite <- Hk in Hsub.
  pose proof (sorted_by_score_perm (_deduplicate_evidence all_evidence)) as Hperm.
  split; [exact Htool |]. split.
  - eapply subsequence_Forall; [exact Hsub |].
    eapply Permutation_Forall; [symmetry; exact Hperm |].
    eapply subsequence_Forall; [apply dedup_from_subsequence |].
    eapply Forall_impl; [|exact Hall]. intros e (H & _). exact H.
  - apply subsequence_length in Hsub.
    apply Permutation_length in Hperm.
    pose proof (subsequence_length _ _ (dedup_from_subsequence all_evidence [])) as Hd.
    unfold _deduplicate_evidence in *. lia.
Qed.

(** The credibility of a source and the tier of its evidence come from two
    tables that agree one way: [_get_source_credibility] never raises and
    answers within [0.4, 0.95]; a credibility of 0.9 or more goes with the
    tier PLATINUM only, one of 0.85 or more with PLATINUM or GOLD, one of 0.7
    or more never with BRONZE.  The other way fails: a source can be PLATINUM
    and have the lowest credibility of the table. *)
Theorem credibility_bounds_the_tier :
  forall source url : string,
    exists credibility : Q,
      _get_source_credibility (N := ExactQ) source = Ok credibility
      /\ (0.4 <= credibility <= 0.95)%Q
      /\ ((0.9 <= credibility)%Q -> _determine_tier source url = PLATINUM)
      /\ ((0.85 <= credibility)%Q ->
          _determine_tier source url = PLATINUM \/ _determine_tier source url = GOLD)
      /\ ((0.7 <= credibility)%Q -> _determine_tier source url <> BRONZE)
      /\ _determine_tier "pubmed.reddit.com" url = PLATINUM
      /\ _get_source_credibility (N := ExactQ) "pubmed.reddit.com" = Ok 0.4%Q.
Proof.
  intros source url.
  destruct (source_credibility_cases source url) as (c & Hc & Hrange & Hp & Hg & Hs).
  exists c. split; [exact Hc |]. split; [exact Hrange |]. split; [exact Hp |].
  split; [|split; [|split; reflexivity]].
  - intros H. specialize (Hg H). destruct (_determine_tier source url); simpl in Hg; auto; lia.
  - intros H. specialize (Hs H). destruct (_determine_tier source url); simpl in Hs;
      try discriminate; lia.
Qed.

Section ValidatorFacts.
Local Open Scope string_scope.

Lemma check_has_data_iff {num} {N : PyNumber num} (e : Evidence num) :
  fst (_check_has_data e) = true
  <-> has_extracted_data e \/ claim_has_digit e \/ claim_has_data_word e.
Proof.
  unfold claim_has_digit.
  rewrite <- not_extracted_data_false_iff, <- re_search_digits_iff, <- has_specifics_iff.
  unfold _check_has_data, data_words.
  destruct (not_extracted_data (extracted_data e)); [|cbn; tauto].
  destruct (PyStr.truthy _); [cbn; tauto |].
  destruct (existsb _ _); cbn; intuition discriminate.
Qed.

Lemma check_opinion_iff {num} {N : PyNumber num} (e : Evidence num) :
  fst (_check_not_pure_opinion e) = true <-> ~ claim_is_opinion e.
Proof.
  unfold _check_not_pure_opinion, claim_is_opinion. cbv zeta.
  fold opinion_signals.
  destruct (existsb _ opinion_signals) eqn:E; cbn [fst].
  - split; [discriminate |]. intros H. exfalso. apply H.
    apply existsb_exists in E. destruct E as (s & Hin & Hs).
    exists s. split; [exact Hin | now apply contains_iff].
  - split; [|reflexivity]. intros _ (s & Hin & Hs).
    apply contains_iff in Hs.
    assert (Ht : existsb (fun signal => PyStr.contains signal (PyStr.lower (claim e)))
                         opinion_signals = true)
      by (apply existsb_exists; now exists s).
    congruence.
Qed.

Lemma check_has_source_iff {num} {N : PyNumber num} (e : Evidence num) :
  fst (_check_has_source e) = true <-> source e <> "" /\ source e <> "unknown".
Proof.
  unfold _check_has_source.
  destruct (String.eqb (source e) "") eqn:E1; [apply String.eqb_eq in E1|apply String.eqb_neq in E1];
    (destruct (String.eqb (source e) "unknown") eqn:E2;
       [apply String.eqb_eq in E2|apply String.eqb_neq in E2]);
    cbn; intuition congruence.
Qed.

Lemma check_recency_iff (e : Evidence Q) :
  fst (_check_recency e) = true <-> (0.3 <= recency_score e)%Q.
Proof.
  unfold _check_recency. cbn [num_ltb of_decimal ExactQ].
  destruct (Qltb (recency_score e) 0.3) eqn:E;
    [apply Qltb_iff in E | apply Qltb_false_iff in E]; cbn [fst].
  - split; [discriminate | intros H; lra].
  - tauto.
Qed.

Lemma check_credibility_iff (e : Evidence Q) :
  fst (_check_credibility e) = true <-> (0.3 <= credibility_score e)%Q.
Proof.
  unfold _check_credibility. cbn [num_ltb of_decimal ExactQ].
  destruct (Qltb (credibility_score e) 0.3) eqn:E;
    [apply Qltb_iff in E | apply Qltb_false_iff in E]; cbn [fst].
  - split; [discriminate | intros H; lra].
  - tauto.
Qed.

(** The loop of [validate_evidence] appends the issues of the rules that
    fail, in the order of the rules. *)
Lemma run_rules_failed {num} {N : PyNumber num}
    (rules : list (string * (Evidence num -> RuleResult))) (e : Evidence num)
    (issues : list (option string)) :
  run_rules rules e issues
  = (issues ++ map (fun rule => snd (snd rule e))
                   (filter (fun rule => negb (fst (snd rule e))) rules))%list.
Proof.
  revert issues; induction rules as [|[name rule] rules IH]; intros issues;
    cbn [run_rules filter map].
  - now rewrite app_nil_r.
  - cbn [snd]. destruct (rule e) as [[|] issue] eqn:E; cbn [fst snd negb]; rewrite IH.
    + reflexivity.
    + cbn [map snd]. rewrite E. cbn [snd]. now rewrite <- app_assoc.
Qed.

End ValidatorFacts.

(** [validate_evidence] runs the five rules in the order has_source,
    has_data, not_opinion, recent_enough, credible_source, and returns the
    issues of those that fail, in that order, each a text; the record is
    valid exactly when there is no issue, that is when its source is neither
    empty nor "unknown", it carries data (extracted data, a digit in the claim
    or one of the four data words), its claim holds no opinion signal, and its
    recency and credibility are both at least 0.3. *)
Theorem evidence_is_valid_iff_every_rule_passes :
  forall e : Evidence Q,
    let is_valid := fst (validate_evidence e) in
    let issues := snd (validate_evidence e) in
    issues = map (fun rule => snd (snd rule e)) (failed_rules e)
    /\ (length issues <= 5)%nat
    /\ Forall (fun issue => exists text : string, issue = Some text) issues
    /\ (is_valid = true <-> issues = [])
    /\ (is_valid = true
        <-> (source e <> ""%string /\ source e <> "unknown"%string)
            /\ (has_extracted_data e \/ claim_has_digit e \/ claim_has_data_word e)
            /\ ~ claim_is_opinion e
            /\ (0.3 <= recency_score e)%Q
            /\ (0.3 <= credibility_score e)%Q).
Proof.
  intros e is_valid issues.
  assert (Hissues : issues = map (fun rule => snd (snd rule e)) (failed_rules e)).
  { unfold issues, validate_evidence. cbn [snd]. now rewrite run_rules_failed. }
  assert (Hvalid : is_valid = true <-> issues = []).
  { unfold is_valid, issues, validate_evidence. cbn [fst snd].
    destruct (run_rules validation_rules e []); cbn; split; congruence. }
  split; [exact Hissues |].
  pose proof (check_has_source_iff e) as H1.
  pose proof (check_has_data_iff e) as H2.
  pose proof (check_opinion_iff e) as H3.
  pose proof (check_recency_iff e) as H4.
  pose proof (check_credibility_iff e) as H5.
  assert (Hfive :
    failed_rules e
    = ((if fst (_check_has_source e) then [] else [("has_source"%string, _check_has_source)])
       ++ (if fst (_check_has_data e) then [] else [("has_data"%string, _check_has_data)])
       ++ (if fst (_check_not_pure_opinion e) then []
           else [("not_opinion"%string, _check_not_pure_opinion)])
       ++ (if fst (_check_recency e) then [] else [("recent_enough"%string, _check_recency)])
       ++ (if fst (_check_credibility e) then []
           else [("credible_source"%string, _check_credibility)]))%list).
  { unfold failed_rules, validation_rules. cbn [filter snd].
    destruct (fst (_check_has_source e)), (fst (_check_has_data e)),
      (fst (_check_not_pure_opinion e)), (fst (_check_recency e)),
      (fst (_check_credibility e)); reflexivity. }
  assert (Htexts :
    (fst (_check_has_source e) = false -> exists t, snd (_check_has_source e) = Some t)
    /\ (fst (_check_has_data e) = false -> exists t, snd (_check_has_data e) = Some t)
    /\ (fst (_check_not_pure_opinion e) = false ->
        exists t, snd (_check_not_pure_opinion e) = Some t)
    /\ (fst (_check_recency e) = false -> exists t, snd (_check_recency e) = Some t)
    /\ (fst (_check_credibility e) = false -> exists t, snd (_check_credibility e) = Some t)).
  { unfold _check_has_source, _check_has_data, _check_not_pure_opinion, _check_recency,
      _check_credibility. cbv zeta.
    repeat split;
      repeat match goal with
             | |- context [if ?c then _ else _] => destruct c
             end; cbn; intros; try discriminate; eexists; reflexivity. }
  destruct Htexts as (T1 & T2 & T3 & T4 & T5).
  rewrite Hvalid, Hissues, Hfive.
  rewrite <- H1, <- H2, <- H3, <- H4, <- H5.
  destruct (fst (_check_has_source e)), (fst (_check_has_data e)),
    (fst (_check_not_pure_opinion e)), (fst (_check_recency e)),
    (fst (_check_credibility e)); cbn [app map length snd].
  all: split; [lia |].
  all: split; [repeat constructor; auto |].
  all: split; [tauto |].
  all: split; [intros H; try discriminate H; repeat split; reflexivity
              | intros (A & B & C & D & F); try discriminate; reflexivity].
Qed.

(** How the validator judges a record made of a search result: the rule
    credible_source always passes, for the credibility table holds nothing
    below 0.3; recent_enough fails exactly when the result carries a date
    that parses and lies 730 days back or more; and has_source fails exactly
    when [urlparse] raises on the URL or finds an empty or "unknown" network
    location in it. *)
Theorem validation_of_gathered_evidence :
  forall (P : Platform) (Tool : Type) (result : SearchResult) (requirement : string)
         (self self' : Gatherer Tool) (e : Evidence Q),
    process_result (N := ExactQ) result requirement self = Ok (Some e, self') ->
    let date_str := result_get result "date" in
    _check_credibility e = (true, None)
    /\ (fst (_check_recency e) = false
        <-> date_str <> ""%string
            /\ exists days,
                 days_old (clock_reads self) date_str = Some days /\ (730 <= days)%Z)
    /\ (fst (_check_has_source e) = false
        <-> urlparse_netloc (url e) = None
            \/ urlparse_netloc (url e) = Some ""%string
            \/ urlparse_netloc (url e) = Some "unknown"%string).
Proof.
  intros P Tool result requirement self self' e Hrun date_str. subst date_str.
  destruct (process_result_ok result requirement self) as (out & g & Hrun' & _ & Hout).
  rewrite Hrun in Hrun'. injection Hrun' as <- <-.
  destruct Hout as (_ & _ & _ & _ & _ & Esrc & _ & _ & Erec & Ecred & _).
  destruct (process_result_scores result requirement self self' e Hrun)
    as (_ & _ & _ & (_ & _ & Hcred) & _).
  destruct (recency_cases result self) as (_ & _ & Hold & _). cbv zeta in Hold.
  rewrite <- Erec in Hold.
  split; [|split].
  - pose proof (check_credibility_iff e) as H.
    unfold _check_credibility in *.
    destruct (num_ltb (credibility_score e) (of_decimal 0.3)); [|reflexivity].
    cbn [fst] in H. assert (F : false = true) by (apply H; lra). discriminate F.
  - rewrite <- Hold. pose proof (check_recency_iff e) as H.
    destruct (fst (_check_recency e)).
    + split; [discriminate |]. intros Hlt. assert (0.3 <= recency_score e)%Q by now apply H.
      lra.
    + split; [intros _ | reflexivity].
      apply Qnot_le_lt. intros Hle. apply H in Hle. discriminate.
  - pose proof (check_has_source_iff e) as H. rewrite Esrc in *. unfold _extract_domain in *.
    destruct (urlparse_netloc (url e)) as [netloc|].
    + destruct (fst (_check_has_source e)).
      * split; [discriminate |]. destruct (proj1 H eq_refl) as [H1 H2].
        intros [F | [F | F]]; [discriminate | |]; injection F as ->; contradiction.
      * split; [intros _ | reflexivity].
        destruct (string_dec netloc "") as [-> | N1]; [auto |].
        destruct (string_dec netloc "unknown") as [-> | N2]; [auto |].
        assert (F : false = true) by (apply H; split; assumption). discriminate F.
    + destruct (fst (_check_has_source e)).
      * destruct (proj1 H eq_refl) as [_ H2]. contradiction H2. reflexivity.
      * split; [auto | reflexivity].
Qed.

Lemma validation_of_gathered_evidence_witness :
  process_result (N := ExactQ) (P := sample_platform) dated_result "OAuth services"
                 (mkGatherer tt 0) = Ok (Some dated_evidence, mkGatherer tt 1)
  /\ _check_credibility dated_evidence = (true, None)
  /\ fst (_check_recency dated_evidence) = false.
Proof.
  assert (Hrun : process_result (N := ExactQ) (P := sample_platform) dated_result
                   "OAuth services" (mkGatherer tt 0)
                 = Ok (Some dated_evidence, mkGatherer tt 1)) by (vm_compute; reflexivity).
  split; [exact Hrun |].
  destruct (validation_of_gathered_evidence sample_platform unit dated_result
              "OAuth services" (mkGatherer tt 0) (mkGatherer tt 1) dated_evidence Hrun)
    as (Hcred & Hrec & _).
  split; [exact Hcred |].
  apply Hrec. split; [discriminate |].
  exists 1200%Z. split; [reflexivity | lia].
Defined.

Section CounterFacts.
Context {num : Type} {P : Platform}.
Local Open Scope string_scope.

Lemma nonempty_inter_iff (a b : list string) :
  nonempty (PyText.inter a b) = true <-> exists w, In w a /\ In w b.
Proof.
  unfold PyText.inter. split.
  - destruct (filter _ a) as [|w rest] eqn:E; [discriminate |]. intros _.
    assert (Hin : In w (filter (fun x => PyText.mem x b) a)) by (rewrite E; now left).
    apply filter_In in Hin. destruct Hin as [Ha Hb]. exists w. split; [exact Ha |].
    now apply mem_iff.
  - intros (w & Ha & Hb).
    assert (Hin : In w (filter (fun x => PyText.mem x b) a)).
    { apply filter_In. split; [exact Ha | now apply mem_iff]. }
    destruct (filter _ a); [destruct Hin | reflexivity].
Qed.

Lemma claim_keywords_In (e : Evidence num) (w : string) :
  In w (claim_keywords e) <-> In w (words (claim e)).
Proof. apply set_of_In. Qed.

Lemma find_counter_evidence_filter (evidence : Evidence num) (pool : list (Evidence num)) :
  find_counter_evidence evidence pool = filter (counters evidence) pool.
Proof.
  induction pool as [|other pool IH]; cbn [find_counter_evidence filter]; [reflexivity |].
  unfold counters at 1. destruct (String.eqb (hash other) (hash evidence)); cbn [negb andb].
  - exact IH.
  - destruct (nonempty _ && nonempty _); now rewrite IH.
Qed.

Lemma filter_subsequence {A} (f : A -> bool) (l : list A) : subsequence (filter f l) l.
Proof.
  induction l as [|x l IH]; cbn [filter]; [constructor |].
  destruct (f x); constructor; exact IH.
Qed.

End CounterFacts.

(** [find_counter_evidence] returns, in the order of the pool, exactly the
    records of the pool that have another hash than the evidence, hold one
    of the seven negation words as a word of their claim, and share a word of
    their claim with the claim of the evidence (letter case apart).  So the
    evidence never counters itself, and an evidence whose claim has no word
    has no counter-evidence. *)
Theorem counter_evidence_is_negation_with_shared_word :
  forall (num : Type) (P : Platform) (evidence : Evidence num)
         (evidence_pool : list (Evidence num)),
    let found := find_counter_evidence evidence evidence_pool in
    subsequence found evidence_pool
    /\ (forall other,
          In other found
          <-> In other evidence_pool
              /\ hash other <> hash evidence
              /\ (exists w, In w negation_words /\ In w (words (claim other)))
              /\ (exists w, In w (words (claim evidence)) /\ In w (words (claim other))))
    /\ ~ In evidence found
    /\ (words (claim evidence) = [] -> found = []).
Proof.
  intros num P evidence pool found.
  assert (Hfound : found = filter (counters evidence) pool)
    by apply find_counter_evidence_filter.
  assert (Hiff : forall other,
             In other found
             <-> In other pool
                 /\ hash other <> hash evidence
                 /\ (exists w, In w negation_words /\ In w (words (claim other)))
                 /\ (exists w, In w (words (claim evidence)) /\ In w (words (claim other)))).
  { intros other. rewrite Hfound, filter_In. unfold counters.
    rewrite !andb_true_iff, negb_true_iff, String.eqb_neq, !nonempty_inter_iff.
    split.
    - intros (Hin & (Hne & (w & Hw & Hk)) & (v & Hv & Hk')).
      apply claim_keywords_In in Hk, Hv, Hk'. eauto 10.
    - intros (Hin & Hne & (w & Hw & Hk) & (v & Hv & Hk')).
      apply claim_keywords_In in Hk, Hv, Hk'. eauto 10. }
  split; [rewrite Hfound; apply filter_subsequence |].
  split; [exact Hiff |]. split.
  - intros Hin. apply Hiff in Hin. destruct Hin as (_ & Hne & _). now apply Hne.
  - intros Hempty. destruct found as [|other rest] eqn:E; [reflexivity |].
    destruct (proj1 (Hiff other) (or_introl eq_refl)) as (_ & _ & _ & (w & Hw & _)).
    rewrite Hempty in Hw. destruct Hw.
Qed.

Section SupportFacts.
Context {num : Type}.
Local Open Scope string_scope.

Lemma chain_keywords_spec (chain : list (Evidence num)) (acc : list string) :
  NoDup acc ->
  let keywords :=
    fold_left (fun keywords e => PyText.union keywords (PyText.split (PyStr.lower (claim e))))
              chain acc in
  NoDup keywords
  /\ forall w, In w keywords
               <-> In w acc \/ exists c, In c chain /\ In w (words (claim c)).
Proof.
  revert acc; induction chain as [|c chain IH]; intros acc Hacc; cbn [fold_left].
  - split; [exact Hacc |]. intros w. split; [auto | intros [H | (c & [] & _)]; exact H].
  - destruct (IH (PyText.union acc (PyText.split (PyStr.lower (claim c)))))
      as (Hnd & Hin); [apply NoDup_nodup |].
    split; [exact Hnd |]. intros w. rewrite Hin. unfold PyText.union.
    rewrite set_of_In, in_app_iff. fold (words (claim c)). split.
    + intros [[H | H] | (c' & Hc' & H)]; [now left | right | right].
      * exists c. split; [now left | exact H].
      * exists c'. split; [now right | exact H].
    + intros [H | (c' & [<- | Hc'] & H)]; [now left; left | now left; right |].
      right. now exists c'.
Qed.

(** [_evidence_supports]: at least three different words are shared. *)
Lemma evidence_supports_iff (e : Evidence num) (chain : list (Evidence num)) :
  _evidence_supports e chain = true
  <-> exists shared, NoDup shared /\ length shared = 3%nat
                     /\ forall w, In w shared -> shared_word e chain w.
Proof.
  unfold _evidence_supports. cbv zeta.
  destruct (chain_keywords_spec chain [] (NoDup_nil _)) as (Hnd & Hin). cbv zeta in Hnd, Hin.
  set (keywords := fold_left _ chain []) in *. clearbody keywords.
  assert (Hcommon : forall w, In w (PyText.inter keywords (claim_keywords e))
                              <-> shared_word e chain w).
  { intros w. unfold PyText.inter, shared_word. rewrite filter_In, mem_iff, Hin.
    unfold claim_keywords. rewrite set_of_In. fold (words (claim e)).
    split; [intros [[[] | H] Hw]; auto | intros [Hw H]; auto]. }
  assert (Hnd' : NoDup (PyText.inter keywords (claim_keywords e))).
  { unfold PyText.inter. now apply NoDup_filter. }
  set (common := PyText.inter keywords (claim_keywords e)) in *. clearbody common.
  rewrite Nat.leb_le. split.
  - intros Hlen. destruct common as [|a [|b [|c rest]]]; cbn [length] in Hlen; try lia.
    exists [a; b; c]. split.
    + inversion Hnd' as [|? ? Ha Hnd1]; subst. inversion Hnd1 as [|? ? Hb Hnd2]; subst.
      inversion Hnd2 as [|? ? Hc _]; subst.
      repeat constructor; cbn in *; intuition.
    + split; [reflexivity |]. intros w Hw. apply Hcommon. cbn in *. intuition.
  - intros (shared & Hs & Hlen & Hall). rewrite <- Hlen.
    apply NoDup_incl_length; [exact Hs |]. intros w Hw. apply Hcommon. now apply Hall.
Qed.

End SupportFacts.

Section ChainFacts.
Context {num : Type} {P : Platform}.
Local Open Scope string_scope.

(** The inner loop of [create_evidence_chain]. *)
Lemma extend_chain_spec (others chain : list (Evidence num)) (used : list string) :
  exists added,
    extend_chain others chain used = ((chain ++ added)%list, (rev (map hash added) ++ used)%list)
    /\ subsequence added others
    /\ NoDup (map hash added)
    /\ (forall e, In e added -> ~ In (hash e) used)
    /\ grown chain added.
Proof.
  revert chain used; induction others as [|other others IH]; intros chain used;
    cbn [extend_chain].
  - exists []. rewrite app_nil_r. cbn. repeat split; [constructor | constructor | auto].
  - destruct (PyText.mem (hash other) used) eqn:Em.
    + destruct (IH chain used) as (added & Hrun & Hsub & Hnd & Hout & Hg).
      exists added. repeat split; try assumption. now constructor.
    + apply mem_false_iff in Em.
      destruct (_evidence_supports other chain) eqn:Es.
      * destruct (IH (chain ++ [other])%list (hash other :: used))
          as (added & Hrun & Hsub & Hnd & Hout & Hg).
        exists (other :: added). rewrite Hrun. cbn [map rev].
        rewrite <- !app_assoc. cbn [app].
        split; [reflexivity |]. split; [now constructor |].
        split.
        { constructor; [|exact Hnd]. intros Hin. apply in_map_iff in Hin.
          destruct Hin as (e & Eh & He). apply (Hout e He). left. now symmetry. }
        split.
        { intros e [<- | He]; [exact Em |]. intros Hu. apply (Hout e He). now right. }
        split; assumption.
      * destruct (IH chain used) as (added & Hrun & Hsub & Hnd & Hout & Hg).
        exists added. repeat split; try assumption. now constructor.
Qed.

Lemma NoDup_app_disjoint {A} (l1 l2 : list A) :
  NoDup l1 -> NoDup l2 -> (forall x, In x l1 -> ~ In x l2) -> NoDup (l1 ++ l2).
Proof.
  induction 1 as [|x l1 Hx Hnd IH]; intros H2 Hdis; cbn [app]; [exact H2 |].
  constructor.
  - intros Hin. apply in_app_or in Hin. destruct Hin as [Hin | Hin]; [contradiction |].
    apply (Hdis x); [now left | exact Hin].
  - apply IH; [exact H2 |]. intros y Hy. apply Hdis. now right.
Qed.

(** The outer loop keeps the chains long enough, within the list, well
    chained, and without a hash in common. *)
Lemma chains_from_inv (todo evidence_list : list (Evidence num))
    (chains : list (list (Evidence num))) (used : list string) :
  incl todo evidence_list ->
  Forall (fun chain => incl chain evidence_list) chains ->
  Forall well_chained chains ->
  NoDup (map hash (concat chains)) ->
  (forall e, In e (concat chains) -> In (hash e) used) ->
  let result := chains_from todo evidence_list chains used in
  Forall (fun chain => incl chain evidence_list) result
  /\ Forall well_chained result
  /\ NoDup (map hash (concat result)).
Proof.
  revert chains used; induction todo as [|evidence todo IH];
    intros chains used Htodo Hincl Hwell Hnd Hused; cbn [chains_from].
  - cbv zeta. auto.
  - assert (Htodo' : incl todo evidence_list) by (intros x Hx; apply Htodo; now right).
    destruct (PyText.mem (hash evidence) used) eqn:Em.
    + now apply IH.
    + apply mem_false_iff in Em.
      destruct (extend_chain_spec evidence_list [evidence] (hash evidence :: used))
        as (added & Hrun & Hsub & Hnda & Hout & Hg).
      rewrite Hrun. cbn [app].
      assert (Hused' : forall e, In e (concat chains) ->
                                 In (hash e) (rev (map hash added) ++ hash evidence :: used)).
      { intros e He. apply in_or_app. right. right. now apply Hused. }
      assert (Hnd_chain : NoDup (map hash (evidence :: added))).
      { cbn [map]. constructor; [|exact Hnda].
        intros Hin. apply in_map_iff in Hin. destruct Hin as (e & Eh & He).
        apply (Hout e He). left. now symmetry. }
      assert (Hfresh : forall h, In h (map hash (evidence :: added)) -> ~ In h used).
      { intros h Hin. cbn [map] in Hin. destruct Hin as [<- | Hin]; [exact Em |].
        apply in_map_iff in Hin. destruct Hin as (e & <- & He).
        intros Hu. apply (Hout e He). now right. }
      assert (Hmarked : forall e, In e (evidence :: added) ->
                                  In (hash e) (rev (map hash added) ++ hash evidence :: used)).
      { intros e [<- | He].
        - apply in_or_app. right. now left.
        - apply in_or_app. left. rewrite <- in_rev. now apply in_map. }
      assert (Hin_list : incl (evidence :: added) evidence_list).
      { intros x [<- | Hx]; [apply Htodo; now left |].
        eapply subsequence_In; eassumption. }
      destruct added as [|second rest]; cbn [length Nat.ltb Nat.leb].
      * now apply IH.
      * apply IH; try assumption.
        { apply Forall_app; split; [exact Hincl |]. constructor; [exact Hin_list | constructor]. }
        { apply Forall_app; split; [exact Hwell |]. constructor; [|constructor].
          exists evidence, second, rest. split; [reflexivity | exact Hg]. }
        { rewrite concat_app, map_app. cbn [concat]. rewrite app_nil_r.
          apply NoDup_app_disjoint; [exact Hnd | exact Hnd_chain |].
          intros h Hin Hin'. apply in_map_iff in Hin. destruct Hin as (e & <- & He).
          apply (Hfresh _ Hin'). now apply Hused. }
        { intros e He. rewrite concat_app in He. apply in_app_or in He.
          destruct He as [He | He]; [now apply Hused' |].
          cbn [concat] in He. rewrite app_nil_r in He. now apply Hmarked. }
Qed.

End ChainFacts.

Section ChainLoopFacts.
Context {num : Type} {P : Platform}.
Local Open Scope string_scope.

(** A hash that is marked as used and is in no chain so far is in no chain
    of the result. *)
Lemma chains_from_used (todo evidence_list : list (Evidence num))
    (chains : list (list (Evidence num))) (used : list string) (h : string) :
  In h used ->
  In h (map hash (concat (chains_from todo evidence_list chains used))) ->
  In h (map hash (concat chains)).
Proof.
  revert chains used; induction todo as [|evidence todo IH]; intros chains used Hused;
    cbn [chains_from]; [auto |].
  destruct (PyText.mem (hash evidence) used) eqn:Em; [now apply IH |].
  apply mem_false_iff in Em.
  destruct (extend_chain_spec evidence_list [evidence] (hash evidence :: used))
    as (added & Hrun & _ & _ & Hout & _).
  rewrite Hrun. cbn [app]. intros Hin.
  apply IH in Hin; [|apply in_or_app; right; now right].
  destruct (1 <? length (evidence :: added))%nat; [|exact Hin].
  rewrite concat_app, map_app in Hin. apply in_app_or in Hin.
  destruct Hin as [Hin | Hin]; [exact Hin |].
  cbn [concat] in Hin. rewrite app_nil_r in Hin. cbn [map] in Hin.
  destruct Hin as [<- | Hin]; [contradiction |].
  apply in_map_iff in Hin. destruct Hin as (e & <- & He).
  exfalso. apply (Hout e He). now right.
Qed.

(** The outer loop goes on from the state it reached, in which every
    record of the chains made so far is marked as used. *)
Lemma chains_from_split (visited todo evidence_list : list (Evidence num))
    (chains : list (list (Evidence num))) (used : list string) :
  (forall e, In e (concat chains) -> In (hash e) used) ->
  chains_from (visited ++ todo) evidence_list chains used
  = chains_from todo evidence_list
      (fst (chain_state visited evidence_list chains used))
      (snd (chain_state visited evidence_list chains used))
  /\ (forall e, In e (concat (fst (chain_state visited evidence_list chains used))) ->
                In (hash e) (snd (chain_state visited evidence_list chains used))).
Proof.
  revert chains used; induction visited as [|evidence visited IH]; intros chains used Hmarked.
  - split; [reflexivity | exact Hmarked].
  - cbn [app chains_from chain_state].
    destruct (PyText.mem (hash evidence) used) eqn:Em; [now apply IH |].
    destruct (extend_chain_spec evidence_list [evidence] (hash evidence :: used))
      as (added & Hrun & _).
    rewrite Hrun. cbn [app]. apply IH.
    assert (Hold : forall e, In e (concat chains) ->
                             In (hash e) (rev (map hash added) ++ hash evidence :: used)).
    { intros e He. apply in_or_app. right. right. now apply Hmarked. }
    destruct (1 <? length (evidence :: added))%nat; [|exact Hold].
    intros e He. rewrite concat_app in He. apply in_app_or in He.
    destruct He as [He | He]; [now apply Hold |].
    cbn [concat] in He. rewrite app_nil_r in He. destruct He as [<- | He].
    + apply in_or_app. right. now left.
    + apply in_or_app. left. rewrite <- in_rev. now apply in_map.
Qed.

(** A record the loop comes to when its hash is not used, and whose chain
    nobody joins, leaves its hash in no chain. *)
Lemma lone_opener_in_no_chain (visited rest : list (Evidence num)) (evidence : Evidence num) :
  let evidence_list := (visited ++ evidence :: rest)%list in
  let chains_so_far := fst (chain_state visited evidence_list [] []) in
  let used_so_far := snd (chain_state visited evidence_list [] []) in
  create_evidence_chain evidence_list
  = chains_from (evidence :: rest) evidence_list chains_so_far used_so_far
  /\ (PyText.mem (hash evidence) used_so_far = false ->
      fst (extend_chain evidence_list [evidence] (hash evidence :: used_so_far)) = [evidence] ->
      ~ In (hash evidence) (map hash (concat (create_evidence_chain evidence_list)))).
Proof.
  intros evidence_list chains used. unfold create_evidence_chain.
  destruct (chains_from_split visited (evidence :: rest) evidence_list [] []
              (fun e (H : In e []) => match H with end))
    as (Hsplit & Hmarked).
  fold evidence_list chains used in Hsplit, Hmarked. split; [exact Hsplit |].
  intros Em Hlone. rewrite Hsplit. cbn [chains_from]. rewrite Em.
  destruct (extend_chain_spec evidence_list [evidence] (hash evidence :: used))
    as (added & Hrun & _).
  rewrite Hrun in Hlone |- *. cbn [fst app] in Hlone.
  assert (Hnone : added = []).
  { destruct added; [reflexivity | discriminate Hlone]. }
  subst added. cbn [app map rev length Nat.ltb Nat.leb].
  intros Hin. apply chains_from_used in Hin; [|now left].
  apply in_map_iff in Hin. destruct Hin as (e & Eh & He).
  apply mem_false_iff in Em. apply Em. rewrite <- Eh. now apply Hmarked.
Qed.

End ChainLoopFacts.

(** The chains [create_evidence_chain] returns hold records of the list,
    two at least in each chain, and no hash twice, be it within a chain or
    across two chains.  Each chain starts from one record and grew by records
    that, when they joined, shared three words or more with the claims
    already in the chain.  A record that opened a chain nobody joined is in
    no chain at all, nor is any record of its hash: when the loop comes to a
    record whose hash is not marked as used and no record joins the chain it
    opens, that hash occurs in none of the chains returned. *)
Theorem evidence_chains_are_disjoint :
  forall (num : Type) (P : Platform) (evidence_list : list (Evidence num)),
    let chains := create_evidence_chain evidence_list in
    Forall (fun chain => (2 <= length chain)%nat) chains
    /\ Forall (fun chain => forall e, In e chain -> In e evidence_list) chains
    /\ NoDup (map hash (concat chains))
    /\ Forall well_chained chains
    /\ (forall (e : Evidence num) (chain : list (Evidence num)),
          _evidence_supports e chain = true
          <-> exists shared, NoDup shared /\ length shared = 3%nat
                             /\ forall w, In w shared -> shared_word e chain w)
    /\ (forall (visited rest : list (Evidence num)) (evidence : Evidence num),
          evidence_list = (visited ++ evidence :: rest)%list ->
          chains = chains_from (evidence :: rest) evidence_list
                     (fst (chain_state visited evidence_list [] []))
                     (snd (chain_state visited evidence_list [] []))
          /\ (PyText.mem (hash evidence) (snd (chain_state visited evidence_list [] [])) = false ->
              fst (extend_chain evidence_list [evidence]
                     (hash evidence :: snd (chain_state visited evidence_list [] [])))
              = [evidence] ->
              ~ In (hash evidence) (map hash (concat chains)))).
Proof.
  intros num P evidence_list chains.
  assert (Hinv := chains_from_inv evidence_list evidence_list [] []
                    (incl_refl _) (Forall_nil _) (Forall_nil _) (NoDup_nil _)
                    (fun e (H : In e []) => match H with end)).
  cbv zeta in Hinv. fold (create_evidence_chain evidence_list) in Hinv. fold chains in Hinv.
  destruct Hinv as (Hincl & Hwell & Hnd).
  split; [|split; [exact Hincl | split; [exact Hnd | split; [exact Hwell | split]]]].
  - eapply Forall_impl; [|exact Hwell].
    intros chain (a & b & rest & -> & _). cbn [length]. lia.
  - intros e chain; apply evidence_supports_iff.
  - intros visited rest evidence ->. apply lone_opener_in_no_chain.
Qed.

Lemma evidence_chains_are_disjoint_witness :
  PyText.mem (hash (P := sample_platform) (margin_a (N := ExactQ)))
    (snd (chain_state (P := sample_platform) []
            [margin_a (N := ExactQ); margin_b] [] [])) = false
  /\ fst (extend_chain (P := sample_platform) [margin_a (N := ExactQ); margin_b] [margin_a]
            (hash (P := sample_platform) (margin_a (N := ExactQ))
               :: snd (chain_state (P := sample_platform) []
                         [margin_a (N := ExactQ); margin_b] [] [])))
     = [margin_a]
  /\ ~ In (hash (P := sample_platform) (margin_a (N := ExactQ)))
          (map (hash (P := sample_platform))
               (concat (create_evidence_chain (P := sample_platform)
                          [margin_a (N := ExactQ); margin_b]))).
Proof.
  assert (H1 : PyText.mem (hash (P := sample_platform) (margin_a (N := ExactQ)))
                 (snd (chain_state (P := sample_platform) []
                         [margin_a (N := ExactQ); margin_b] [] [])) = false)
    by reflexivity.
  assert (H2 : fst (extend_chain (P := sample_platform) [margin_a (N := ExactQ); margin_b]
                      [margin_a]
                      (hash (P := sample_platform) (margin_a (N := ExactQ))
                         :: snd (chain_state (P := sample_platform) []
                                   [margin_a (N := ExactQ); margin_b] [] [])))
               = [margin_a])
    by (vm_compute; reflexivity).
  split; [exact H1 |]. split; [exact H2 |].
  destruct (evidence_chains_are_disjoint Q sample_platform
              [margin_a (N := ExactQ); margin_b])
    as (_ & _ & _ & _ & _ & Hlone).
  exact (proj2 (Hlone [] [margin_b] margin_a eq_refl) H1 H2).
Defined.

Section JudgeScoreFacts.
Context {num : Type} {N : PyNumber num} {EvidenceSummary : Type}.
Local Open Scope string_scope.

Lemma dict_update_keys (d : Scores num) (key : string) (f : num -> num) :
  map fst (dict_update d key f) = map fst d.
Proof.
  unfold dict_update. rewrite map_map. apply map_ext.
  intros [k v]. cbn [fst snd]. now destruct (String.eqb k key).
Qed.

Lemma dict_mem_keys (key : string) (d d' : Scores num) :
  map fst d = map fst d' -> dict_mem key d = dict_mem key d'.
Proof.
  unfold dict_mem. revert d'; induction d as [|[k v] d IH]; intros [|[k' v'] d'] E;
    try discriminate; [reflexivity |].
  cbn [map fst] in E. injection E as -> E. cbn [existsb fst]. now rewrite (IH d' E).
Qed.

Lemma score_categories_keys (apply : num -> num -> num) (entry : option num) (weight : num)
    (cats : list string) (scores scores' : Scores num) :
  for_each
    (fun scores category =>
       if dict_mem category scores
       then result_bind (subscript "impact" entry)
              (fun i => Ok (dict_update scores category (fun s => apply s (num_mul i weight))))
       else Ok scores)
    cats scores = Ok scores' ->
  map fst scores' = map fst scores.
Proof.
  revert scores; induction cats as [|c cats IH]; intros scores; cbn [for_each].
  - intros E; injection E as <-. reflexivity.
  - destruct (dict_mem c scores); cbn [result_bind].
    + destruct entry as [i|]; cbn [subscript result_bind]; [|discriminate].
      intros E. rewrite (IH _ E). apply dict_update_keys.
    + apply IH.
Qed.

Lemma score_argument_keys (apply : num -> num -> num) (scores scores' : Scores num)
    (arg : Argument num) :
  score_argument apply scores arg = Ok scores' -> map fst scores' = map fst scores.
Proof.
  unfold score_argument. destruct (evidence_tier arg) as [t|]; cbn [subscript result_bind];
    [|discriminate].
  apply score_categories_keys.
Qed.

Lemma score_arguments_keys (apply : num -> num -> num) (args : list (Argument num))
    (scores scores' : Scores num) :
  for_each (score_argument apply) args scores = Ok scores' ->
  map fst scores' = map fst scores.
Proof.
  revert scores; induction args as [|arg args IH]; intros scores; cbn [for_each].
  - intros E; injection E as <-. reflexivity.
  - destruct (score_argument apply scores arg) as [s1|] eqn:E1; cbn [result_bind];
      [|discriminate].
    intros E. rewrite (IH _ E). now apply score_argument_keys in E1.
Qed.

(** The five categories, in the order of the dict of [evaluate_debate]. *)
Lemma evaluate_debate_keys (pro con : list (Argument num)) (ev : EvidenceSummary)
    (scores : Scores num) :
  evaluate_debate pro con ev = Ok scores ->
  exists raw : Scores num,
    map fst raw = ["technical_feasibility"; "roi"; "risk"; "innovation"; "user_impact"]
    /\ scores = map (fun kv => (fst kv,
                               py_max (of_Z 0) (py_min (of_Z 100) (num_add (snd kv) (of_Z 50)))))
                    raw.
Proof.
  unfold evaluate_debate.
  destruct (for_each (score_argument num_add) pro _) as [s1|] eqn:E1; cbn [result_bind];
    [|discriminate].
  destruct (for_each (score_argument num_sub) con s1) as [s2|] eqn:E2; cbn [result_bind];
    [|discriminate].
  intros E; injection E as <-. exists s2. split; [|reflexivity].
  apply score_arguments_keys in E1, E2. rewrite E2, E1. reflexivity.
Qed.

End JudgeScoreFacts.

Section JudgeRangeFacts.
Context {EvidenceSummary : Type}.
Local Open Scope string_scope.

Lemma clamp_range (x : Q) :
  (0 <= py_max (N := ExactQ) 0 (py_min (N := ExactQ) 100 (x + 50)) <= 100)%Q.
Proof.
  unfold py_max, py_min. cbn [num_ltb ExactQ].
  destruct (Qltb (x + 50) 100) eqn:E1;
    [apply Qltb_iff in E1 | apply Qltb_false_iff in E1];
    match goal with |- context [Qltb 0 ?y] =>
      destruct (Qltb 0 y) eqn:E2; [apply Qltb_iff in E2 | apply Qltb_false_iff in E2]
    end; split; lra.
Qed.

(** The scores [evaluate_debate] returns: the five categories, each within
    [0, 100]. *)
Lemma evaluate_debate_range (pro con : list (Argument Q)) (ev : EvidenceSummary)
    (scores : Scores Q) :
  evaluate_debate pro con ev = Ok scores ->
  exists a b c d e : Q,
    scores = [ ("technical_feasibility", a); ("roi", b); ("risk", c);
               ("innovation", d); ("user_impact", e) ]
    /\ (0 <= a <= 100)%Q /\ (0 <= b <= 100)%Q /\ (0 <= c <= 100)%Q
    /\ (0 <= d <= 100)%Q /\ (0 <= e <= 100)%Q.
Proof.
  intros H. apply evaluate_debate_keys in H. destruct H as (raw & Hkeys & ->).
  destruct raw as [|[k1 a] [|[k2 b] [|[k3 c] [|[k4 d] [|[k5 e] [|]]]]]]; try discriminate.
  cbn [map fst] in Hkeys. injection Hkeys as -> -> -> -> ->.
  cbn [map fst snd of_Z ExactQ num_add].
  do 5 eexists. split; [reflexivity |].
  change (inject_Z 0) with 0%Q. change (inject_Z 100) with 100%Q. change (inject_Z 50) with 50%Q.
  repeat split; apply clamp_range.
Qed.

(** The final score of five scores within [0, 100]: their weighted mean. *)
Lemma final_score_range (p : JudgePersonality) (llm : option Llm) (a b c d e : Q) :
  (0 <= a <= 100)%Q -> (0 <= b <= 100)%Q -> (0 <= c <= 100)%Q ->
  (0 <= d <= 100)%Q -> (0 <= e <= 100)%Q ->
  (0 <= calculate_final_score (JudgeAgent_init (N := ExactQ) p llm)
          [ ("technical_feasibility", a); ("roi", b); ("risk", c);
            ("innovation", d); ("user_impact", e) ] <= 100)%Q.
Proof.
  intros Ha Hb Hc Hd He.
  unfold calculate_final_score, JudgeAgent_init.
  destruct p; cbn [scoring_weights _get_scoring_weights fold_left dict_get fst snd
                   String.eqb Ascii.eqb Bool.eqb of_decimal of_Z num_add num_mul ExactQ];
    change (inject_Z 0) with 0%Q; split; lra.
Qed.

End JudgeRangeFacts.

Section VerdictFacts.
Context {EvidenceSummary : Type}.
Local Open Scope string_scope.

Lemma generate_alternative_some {num} {N : PyNumber num} (requirement : string)
    (issues : list string) :
  exists suggestion, generate_alternative requirement issues = Some suggestion.
Proof.
  induction issues as [|i issues IH]; cbn [generate_alternative]; [eauto |].
  destruct (first_alternative alternatives i); eauto.
Qed.

(** [determine_verdict] on exact rationals: the three verdicts other than
    REJECTED come from the score alone. *)
Lemma determine_verdict_thresholds (final_score : Q) (issues : list string) :
  let verdict := determine_verdict (N := ExactQ) final_score issues in
  (verdict = APPROVED -> 70 <= final_score)%Q
  /\ (verdict = CONDITIONAL -> 50 <= final_score < 70)%Q
  /\ (verdict = NEEDS_RESEARCH -> 40 <= final_score < 50)%Q.
Proof.
  unfold determine_verdict. cbn [num_leb of_Z ExactQ].
  destruct (_ && _); [repeat split; discriminate |].
  change (inject_Z 70) with 70%Q. change (inject_Z 50) with 50%Q.
  change (inject_Z 40) with 40%Q.
  destruct (Qle_bool 70 final_score) eqn:E70;
    [|destruct (Qle_bool 50 final_score) eqn:E50;
      [|destruct (Qle_bool 40 final_score) eqn:E40]].
  all: rewrite ?Qle_bool_iff in *.
  all: repeat match goal with
              | H : Qle_bool ?x ?y = false |- _ =>
                  assert (y < x)%Q
                    by (apply Qnot_le_lt; rewrite <- Qle_bool_iff; congruence);
                  clear H
              end.
  all: split; [intros H'; try discriminate H'; assumption |].
  all: split; intros H'; try discriminate H'; split; assumption.
Qed.

Lemma confidence_range (final_score : Q) :
  (0 <= final_score <= 100)%Q ->
  let confidence := py_min (N := ExactQ) 100 (Qabs (final_score - 50) * 2) in
  (confidence == 2 * Qabs (final_score - 50))%Q /\ (0 <= confidence <= 100)%Q.
Proof.
  intros Hf. cbv zeta. unfold py_min. cbn [num_ltb ExactQ].
  assert (Habs : (0 <= Qabs (final_score - 50) <= 50)%Q).
  { split; [apply Qabs_nonneg |]. apply Qabs_Qle_condition. split; lra. }
  destruct (Qltb (Qabs (final_score - 50) * 2) 100) eqn:E;
    [apply Qltb_iff in E | apply Qltb_false_iff in E]; split; lra.
Qed.

End VerdictFacts.

(** The figures of a verdict stay in their ranges, for every personality:
    the five category scores and the final score lie in [0, 100], and the
    confidence is twice the distance of the final score from 50, itself
    within [0, 100].  The decision and the confidence go together: APPROVED
    comes with a final score of 70 or more and so with a confidence of 40 or
    more, CONDITIONAL with a score in [50, 70) and a confidence below 40,
    NEEDS_RESEARCH with a score in [40, 50) and a confidence of at most 20.
    At most three winning and three losing arguments are named; an
    alternative is suggested exactly for REJECTED and CONDITIONAL, and savings
    are estimated for REJECTED only. *)
Theorem verdict_figures_stay_in_range :
  forall (EvidenceSummary : Type) (p : JudgePersonality) (llm : option Llm)
         (requirement : string) (t : Transcript Q) (ev : EvidenceSummary) (v : Verdict Q),
    render_verdict (JudgeAgent_init (N := ExactQ) p llm) requirement t ev = Ok v ->
    exists final_score : Q,
      render_final_score (JudgeAgent_init (N := ExactQ) p llm) t ev = Ok final_score
      /\ (0 <= final_score <= 100)%Q
      /\ map fst (key_factors v)
         = ["technical_feasibility"; "roi"; "risk"; "innovation"; "user_impact"]%string
      /\ Forall (fun factor => 0 <= snd factor <= 100)%Q (key_factors v)
      /\ (confidence v == 2 * Qabs (final_score - 50))%Q
      /\ (0 <= confidence v <= 100)%Q
      /\ (decision v = APPROVED -> 70 <= final_score /\ 40 <= confidence v)%Q
      /\ (decision v = CONDITIONAL -> 50 <= final_score < 70 /\ confidence v < 40)%Q
      /\ (decision v = NEEDS_RESEARCH -> 40 <= final_score < 50 /\ confidence v <= 20)%Q
      /\ (length (winning_arguments v) <= 3)%nat
      /\ (length (losing_arguments v) <= 3)%nat
      /\ (alternative_suggestion v <> None
          <-> decision v = REJECTED \/ decision v = CONDITIONAL)
      /\ (estimated_savings v <> None -> decision v = REJECTED).
Proof.
  intros EvidenceSummary p llm requirement t ev v.
  unfold render_verdict, render_final_score.
  destruct (evaluate_debate _ _ ev) as [scores|] eqn:Es; cbn [result_bind]; [|discriminate].
  destruct (evaluate_debate_range _ _ _ _ Es)
    as (a & b & c & d & e & -> & Ha & Hb & Hc & Hd & He).
  pose proof (final_score_range p llm a b c d e Ha Hb Hc Hd He) as Hf.
  set (final_score := calculate_final_score _ _) in *. clearbody final_score.
  destruct (collect_critical_issues _) as [issues|]; cbn [result_bind]; [|discriminate].
  destruct (determine_verdict_thresholds final_score issues) as (H70 & H50 & H40).
  destruct (confidence_range final_score Hf) as (Hc2 & Hcr). cbv zeta in *.
  destruct (generate_alternative_some (N := ExactQ) requirement issues) as [s Hs].
  intros E; injection E as <-.
  cbn [decision confidence key_factors winning_arguments losing_arguments
       alternative_suggestion estimated_savings of_Z num_abs num_sub num_mul ExactQ].
  change (inject_Z 100) with 100%Q. change (inject_Z 50) with 50%Q.
  change (inject_Z 2) with 2%Q.
  exists final_score. split; [reflexivity |]. split; [exact Hf |]. split; [reflexivity |].
  split; [repeat constructor; cbn [snd]; tauto |].
  split; [exact Hc2 |]. split; [exact Hcr |].
  assert (Habs : forall x, (x <= final_score -> 50 <= x -> 2 * (x - 50) <= 2 * Qabs (final_score - 50))%Q).
  { intros x H1 H2. rewrite Qabs_pos; lra. }
  assert (Habs' : forall x, (final_score < x -> 50 <= final_score ->
                             2 * Qabs (final_score - 50) < 2 * (x - 50))%Q).
  { intros x H1 H2. rewrite Qabs_pos; lra. }
  assert (Habs'' : (40 <= final_score -> final_score < 50 ->
                    2 * Qabs (final_score - 50) <= 20)%Q).
  { intros H1 H2. rewrite Qabs_neg; lra. }
  split; [intros Hd'; specialize (H70 Hd'); split; [exact H70 |];
          rewrite Hc2; specialize (Habs 70%Q H70); lra |].
  split; [intros Hd'; specialize (H50 Hd'); split; [exact H50 |];
          rewrite Hc2; destruct H50 as [H1 H2]; specialize (Habs' 70%Q H2 H1); lra |].
  split; [intros Hd'; specialize (H40 Hd'); split; [exact H40 |];
          rewrite Hc2; destruct H40 as [H1 H2]; specialize (Habs'' H1 H2); lra |].
  split; [destruct (verdict_eqb _ REJECTED);
          match goal with
          | |- context [sorted_by_impact ?l] =>
              destruct (sorted_by_impact l) as [|? [|? [|? ?]]]
          end; cbn [map length]; lia |].
  split; [destruct (verdict_eqb _ REJECTED);
          match goal with
          | |- context [sorted_by_impact ?l] =>
              destruct (sorted_by_impact l) as [|? [|? [|? ?]]]
          end; cbn [map length]; lia |].
  rewrite Hs.
  destruct (determine_verdict final_score issues); cbn [verdict_eqb orb];
    (split; [split; [intros H | intros [H | H]] | intros H]);
    first [congruence | now auto].
Qed.

Lemma verdict_figures_stay_in_range_witness :
  exists (v : Verdict Q) (final_score : Q),
    render_verdict (JudgeAgent_init (N := ExactQ) PRAGMATIST None)
                   "Add single sign-on"%string breach_transcript tt = Ok v
    /\ render_final_score (JudgeAgent_init (N := ExactQ) PRAGMATIST None)
                          breach_transcript tt = Ok final_score
    /\ (0 <= final_score <= 100)%Q
    /\ (0 <= confidence v <= 100)%Q.
Proof.
  assert (E : exists v : Verdict Q,
             render_verdict (JudgeAgent_init (N := ExactQ) PRAGMATIST None)
                            "Add single sign-on"%string breach_transcript tt = Ok v)
    by (vm_compute; eexists; reflexivity).
  destruct E as [v E].
  destruct (verdict_figures_stay_in_range unit PRAGMATIST None "Add single sign-on"%string
              breach_transcript tt v E) as (f & Hf & Hr & _ & _ & _ & Hc & _).
  exists v, f. repeat split; try assumption; try apply Hr; apply Hc.
Defined.

Section JudgeReadingFacts.
Context {num : Type} {N : PyNumber num} {EvidenceSummary : Type}.
Local Open Scope string_scope.

Lemma dict_mem_judged (category : string) (scores : Scores num) :
  map fst scores = judged_categories ->
  dict_mem category scores = true <-> In category judged_categories.
Proof.
  intros <-. unfold dict_mem. rewrite existsb_exists, in_map_iff. split.
  - intros ([k v] & Hin & E). apply String.eqb_eq in E. now exists (k, v).
  - intros ([k v] & E & Hin). exists (k, v). split; [exact Hin |].
    cbn [fst] in *. subst. apply String.eqb_refl.
Qed.

(** The loop over the categories of one argument. *)
Lemma score_categories_reads (apply : num -> num -> num) (entry : option num) (weight : num)
    (cats : list string) (scores : Scores num) :
  map fst scores = judged_categories ->
  match for_each
          (fun scores category =>
             if dict_mem category scores
             then result_bind (subscript "impact" entry)
                    (fun i => Ok (dict_update scores category
                                    (fun s => apply s (num_mul i weight))))
             else Ok scores)
          cats scores with
  | Ok scores' =>
      map fst scores' = judged_categories
      /\ ((exists c, In c cats /\ In c judged_categories) -> entry <> None)
  | Raise e =>
      e = KeyError "impact"
      /\ (exists c, In c cats /\ In c judged_categories) /\ entry = None
  end.
Proof.
  revert scores; induction cats as [|c cats IH]; intros scores Hkeys; cbn [for_each].
  - split; [exact Hkeys |]. intros (c & [] & _).
  - destruct (dict_mem c scores) eqn:Em.
    + apply (dict_mem_judged c scores Hkeys) in Em.
      destruct entry as [i|]; cbn [subscript result_bind].
      * specialize (IH (dict_update scores c (fun s => apply s (num_mul i weight)))).
        rewrite dict_update_keys in IH. specialize (IH Hkeys).
        destruct (for_each _ cats _) as [s'|e].
        -- destruct IH as [Hk _]. split; [exact Hk | discriminate].
        -- destruct IH as (_ & _ & F). discriminate F.
      * split; [reflexivity |]. split; [|reflexivity]. exists c. split; [now left | exact Em].
    + cbn [result_bind]. specialize (IH scores Hkeys).
      assert (Hout : ~ In c judged_categories).
      { intros Hin. apply (dict_mem_judged c scores Hkeys) in Hin. congruence. }
      destruct (for_each _ cats scores) as [s'|e].
      * destruct IH as [Hk Himp]. split; [exact Hk |].
        intros (c' & [<- | Hin] & Hj); [contradiction |]. apply Himp. now exists c'.
      * destruct IH as (He & (c' & Hin & Hj) & Hnone). split; [exact He |].
        split; [|exact Hnone]. exists c'. split; [now right | exact Hj].
Qed.

Lemma score_argument_reads (apply : num -> num -> num) (scores : Scores num)
    (arg : Argument num) :
  map fst scores = judged_categories ->
  match score_argument apply scores arg with
  | Ok scores' => map fst scores' = judged_categories /\ can_be_scored arg
  | Raise e => missing_key e /\ ~ can_be_scored arg
  end.
Proof.
  intros Hkeys. unfold score_argument, can_be_scored, names_category.
  destruct (evidence_tier arg) as [t|]; cbn [subscript result_bind].
  - pose proof (score_categories_reads apply (impact arg) (tier_weight t)
                  (get_default (categories arg) []) scores Hkeys) as H.
    destruct (for_each _ _ scores) as [s'|e].
    + destruct H as [Hk Himp]. split; [exact Hk |]. split; [discriminate | exact Himp].
    + destruct H as (-> & Hex & Hnone). split; [right; now left |].
      intros [_ Himp]. now apply Himp.
  - split; [now left |]. intros [F _]. now apply F.
Qed.

Lemma score_arguments_reads (apply : num -> num -> num) (args : list (Argument num))
    (scores : Scores num) :
  map fst scores = judged_categories ->
  match for_each (score_argument apply) args scores with
  | Ok scores' => map fst scores' = judged_categories /\ Forall can_be_scored args
  | Raise e => missing_key e /\ ~ Forall can_be_scored args
  end.
Proof.
  revert scores; induction args as [|arg args IH]; intros scores Hkeys; cbn [for_each].
  - split; [exact Hkeys | constructor].
  - pose proof (score_argument_reads apply scores arg Hkeys) as H.
    destruct (score_argument apply scores arg) as [s1|e]; cbn [result_bind].
    + destruct H as [Hk Harg]. specialize (IH s1 Hk).
      destruct (for_each _ args s1) as [s2|e].
      * destruct IH as [Hk2 Hall]. split; [exact Hk2 | now constructor].
      * destruct IH as [He Hnot]. split; [exact He |].
        intros Hall. inversion Hall; subst. contradiction.
    + destruct H as [He Hnot]. split; [exact He |].
      intros Hall. inversion Hall; subst. contradiction.
Qed.

Lemma evaluate_debate_reads (pro con : list (Argument num)) (ev : EvidenceSummary) :
  match evaluate_debate pro con ev with
  | Ok _ => Forall can_be_scored pro /\ Forall can_be_scored con
  | Raise e => missing_key e /\ ~ (Forall can_be_scored pro /\ Forall can_be_scored con)
  end.
Proof.
  unfold evaluate_debate.
  pose proof (score_arguments_reads num_add pro
                [ ("technical_feasibility", of_Z 0); ("roi", of_Z 0); ("risk", of_Z 0);
                  ("innovation", of_Z 0); ("user_impact", of_Z 0) ] eq_refl) as H1.
  destruct (for_each (score_argument num_add) pro _) as [s1|e]; cbn [result_bind].
  - destruct H1 as [Hk Hpro].
    pose proof (score_arguments_reads num_sub con s1 Hk) as H2.
    destruct (for_each (score_argument num_sub) con s1) as [s2|e]; cbn [result_bind].
    + destruct H2 as [_ Hcon]. now split.
    + destruct H2 as [He Hnot]. split; [exact He | tauto].
  - destruct H1 as [He Hnot]. split; [exact He | tauto].
Qed.

Lemma collect_critical_issues_reads (con : list (Argument num)) :
  match collect_critical_issues con with
  | Ok _ => Forall (fun arg => severity arg = Some "critical" -> issue arg <> None) con
  | Raise e =>
      missing_key e
      /\ ~ Forall (fun arg => severity arg = Some "critical" -> issue arg <> None) con
  end.
Proof.
  induction con as [|arg con IH]; cbn [collect_critical_issues]; [constructor |].
  assert (Hskip : severity arg <> Some "critical" ->
                  match collect_critical_issues con with
                  | Ok _ => Forall (fun arg => severity arg = Some "critical" ->
                                               issue arg <> None) (arg :: con)
                  | Raise e =>
                      missing_key e
                      /\ ~ Forall (fun arg => severity arg = Some "critical" ->
                                              issue arg <> None) (arg :: con)
                  end).
  { intros Hne. destruct (collect_critical_issues con) as [issues|e].
    - constructor; [intros F; contradiction | exact IH].
    - destruct IH as [He Hnot]. split; [exact He |].
      intros Hall. inversion Hall; subst. contradiction. }
  destruct (severity arg) as [s|] eqn:Esev; [|apply Hskip; discriminate].
  destruct (String.eqb s "critical") eqn:Es.
  - apply String.eqb_eq in Es. subst s.
    destruct (issue arg) as [i|] eqn:Ei; cbn [subscript result_bind].
    + destruct (collect_critical_issues con) as [issues|e]; cbn [result_bind].
      * constructor; [intros _; rewrite Ei; discriminate | exact IH].
      * destruct IH as [He Hnot]. split; [exact He |].
        intros Hall. inversion Hall; subst. contradiction.
    + split; [right; now right |]. intros Hall. inversion Hall as [|? ? Harg _]; subst.
      apply (Harg Esev). exact Ei.
  - apply Hskip. apply String.eqb_neq in Es. congruence.
Qed.

End JudgeReadingFacts.

(** [render_verdict] returns a verdict exactly when the transcript holds the
    keys it subscripts: "evidence_tier" in every argument, "impact" in every
    argument that names one of the five categories, and "issue" in every CON
    argument of critical severity.  An argument that names no such category
    needs no "impact".  Otherwise the call raises a [KeyError] for one of
    these three keys, and nothing else. *)
Theorem verdict_is_rendered_iff_keys_are_present :
  forall (num : Type) (N : PyNumber num) (EvidenceSummary : Type)
         (judge : JudgeAgent num) (requirement : string) (t : Transcript num)
         (ev : EvidenceSummary),
    ((exists v, render_verdict judge requirement t ev = Ok v) <-> can_be_read t)
    /\ (forall e, render_verdict judge requirement t ev = Raise e -> missing_key e)
    /\ can_be_read (offtopic_transcript (N := N))
    /\ impact (offtopic_argument (N := N)) = None.
Proof.
  intros num N EvidenceSummary judge requirement t ev.
  unfold render_verdict, can_be_read.
  pose proof (evaluate_debate_reads (get_default (pro_arguments t) [])
                (get_default (con_arguments t) []) ev) as H1.
  pose proof (collect_critical_issues_reads (get_default (con_arguments t) [])) as H2.
  split; [|split; [|split; [|reflexivity]]].
  - destruct (evaluate_debate _ _ ev) as [scores|e]; cbn [result_bind].
    + destruct (collect_critical_issues _) as [issues|e]; cbn [result_bind].
      * split; [intros _; tauto | intros _; eauto].
      * split; [intros [v F]; discriminate F | tauto].
    + split; [intros [v F]; discriminate F | tauto].
  - intros e. destruct (evaluate_debate _ _ ev) as [scores|e1]; cbn [result_bind].
    + destruct (collect_critical_issues _) as [issues|e2]; cbn [result_bind].
      * discriminate.
      * intros E; injection E as <-. tauto.
    + intros E; injection E as <-. tauto.
  - unfold offtopic_transcript, can_be_scored, names_category, judged_categories.
    cbn [pro_arguments con_arguments get_default].
    split; [|split; constructor].
    constructor; [|constructor]. split; [discriminate |].
    intros (c & [<- | []] & Hin). cbn in Hin.
    repeat (destruct Hin as [F | Hin]; [discriminate F |]). destruct Hin.
Qed.

Section LedgerFacts.
Variable rng : nat -> Q.
Variable clock : Q -> Z.
Local Open Scope string_scope.
Local Open Scope Z_scope.

Lemma objections_by_app (team : string) (q1 q2 : list DebateEvent) :
  objections_by team (q1 ++ q2) = objections_by team q1 + objections_by team q2.
Proof. unfold objections_by. rewrite filter_app, length_app. lia. Qed.

Lemma presentations_by_app (team : string) (q1 q2 : list DebateEvent) :
  presentations_by team (q1 ++ q2) = presentations_by team q1 + presentations_by team q2.
Proof. unfold presentations_by. rewrite filter_app, length_app. lia. Qed.

Lemma momentum_gaps_app (q1 q2 : list DebateEvent) :
  momentum_gaps (q1 ++ q2) = (momentum_gaps q1 ++ momentum_gaps q2)%list.
Proof. unfold momentum_gaps. apply flat_map_app. Qed.

Lemma final_speakers_app (q1 q2 : list DebateEvent) :
  final_speakers (q1 ++ q2) = (final_speakers q1 ++ final_speakers q2)%list.
Proof. unfold final_speakers. apply flat_map_app. Qed.

Lemma objections_by_nonneg (team : string) (queue : list DebateEvent) :
  0 <= objections_by team queue.
Proof. unfold objections_by. lia. Qed.

(** Splits the tallies of a queue that grew by the events of a call. *)
Ltac tally :=
  unfold closing; cbn [self event_queue];
  rewrite ?objections_by_app, ?presentations_by_app, ?momentum_gaps_app, ?final_speakers_app, ?existsb_app,
    ?length_app;
  cbn [objections_by raised_by presentations_by presented_by momentum_gaps final_speakers is_knockout existsb flat_map
       filter length app event_type content agent dict_lookup
       String.eqb Ascii.eqb Bool.eqb andb orb Z.of_nat Pos.of_succ_nat Pos.succ];
  rewrite ?app_nil_r, ?orb_false_r, ?Z.add_0_r, ?Nat.add_0_r.

(** Resolves the next [random.choice] of the goal. *)
Ltac pick_speaker Hu :=
  match goal with
  | |- context [random_choice ?g ?seq ?w] =>
      let a := fresh "chosen" in
      let Hr := fresh "Hchoice" in
      let Hin := fresh "Hmember" in
      destruct (random_choice_ok g seq w Hu) as (a & Hr & Hin);
      [ try assumption; try discriminate | rewrite Hr ]
  end.

(** PRO presents evidence and CON may object: the evidence score of PRO
    gains the impact, its confidence the impact less ten for an objection. *)
Lemma pro_presents_books (requirement : string) (w : World) :
  uniform_draws rng -> speakers_chosen w ->
  exists w' gain raised,
    pro_presents rng requirement w = Ok (tt, w')
    /\ setup w' = setup w
    /\ 5 <= gain <= 20 /\ 0 <= raised <= 1
    /\ state (self w')
       = set_pro_evidence_score (pro_evidence_score (state (self w)) + gain)
           (set_pro_confidence (pro_confidence (state (self w)) + gain - 10 * raised)
              (state (self w)))
    /\ objections_by "CON" (event_queue (self w'))
       = objections_by "CON" (event_queue (self w)) + raised
    /\ objections_by "PRO" (event_queue (self w'))
       = objections_by "PRO" (event_queue (self w))
    /\ presentations_by "PRO" (event_queue (self w'))
       = presentations_by "PRO" (event_queue (self w)) + 1
    /\ presentations_by "CON" (event_queue (self w'))
       = presentations_by "CON" (event_queue (self w))
    /\ momentum_gaps (event_queue (self w')) = momentum_gaps (event_queue (self w))
    /\ closing w' = closing w.
Proof.
  intros Hu [[p Hp] [c Hc]].
  destruct w as [[pa ca j st cfg q pp pc] d sl]. cbn [self primary_pro primary_con] in Hp, Hc.
  subst pp pc. unfold setup. run_methods.
  pose proof (tier_of_draw_range _ (proj1 (Hu d)) (proj2 (Hu d))) as Ht.
  fold (tier_of_draw (rng d)). revert Ht. generalize (tier_of_draw (rng d)); intros tier Ht.
  destruct st as [ph rn cp cc ep ec sp tr evs ob dm]. run_methods.
  destruct (3 <=? tier); run_methods; unfold Qltb;
    [destruct (Qle_bool (rng (S (S d))) (objection_threshold cfg)) |];
    cbn [negb andb]; run_methods.
  1: eexists; exists ((5 - tier) * 5), 1.
  2, 3: eexists; exists ((5 - tier) * 5), 0.
  all: (split; [reflexivity |]); run_methods; (split; [reflexivity |]).
  all: (split; [lia |]); (split; [lia |]); (split; [f_equal; lia |]).
  all: tally; repeat split; try reflexivity; lia.
Qed.

(** The same for a presentation by CON and PRO's chance to object. *)
Lemma con_presents_books (requirement : string) (w : World) :
  uniform_draws rng -> speakers_chosen w ->
  exists w' gain raised,
    con_presents rng requirement w = Ok (tt, w')
    /\ setup w' = setup w
    /\ 5 <= gain <= 20 /\ 0 <= raised <= 1
    /\ state (self w')
       = set_con_evidence_score (con_evidence_score (state (self w)) + gain)
           (set_con_confidence (con_confidence (state (self w)) + gain - 10 * raised)
              (state (self w)))
    /\ objections_by "PRO" (event_queue (self w'))
       = objections_by "PRO" (event_queue (self w)) + raised
    /\ objections_by "CON" (event_queue (self w'))
       = objections_by "CON" (event_queue (self w))
    /\ presentations_by "CON" (event_queue (self w'))
       = presentations_by "CON" (event_queue (self w)) + 1
    /\ presentations_by "PRO" (event_queue (self w'))
       = presentations_by "PRO" (event_queue (self w))
    /\ momentum_gaps (event_queue (self w')) = momentum_gaps (event_queue (self w))
    /\ closing w' = closing w.
Proof.
  intros Hu [[p Hp] [c Hc]].
  destruct w as [[pa ca j st cfg q pp pc] d sl]. cbn [self primary_pro primary_con] in Hp, Hc.
  subst pp pc. unfold setup. run_methods.
  pose proof (tier_of_draw_range _ (proj1 (Hu d)) (proj2 (Hu d))) as Ht.
  fold (tier_of_draw (rng d)). revert Ht. generalize (tier_of_draw (rng d)); intros tier Ht.
  destruct st as [ph rn cp cc ep ec sp tr evs ob dm]. run_methods.
  destruct (3 <=? tier); run_methods; unfold Qltb;
    [destruct (Qle_bool (rng (S (S d))) (objection_threshold cfg)) |];
    cbn [negb andb]; run_methods.
  1: eexists; exists ((5 - tier) * 5), 1.
  2, 3: eexists; exists ((5 - tier) * 5), 0.
  all: (split; [reflexivity |]); run_methods; (split; [reflexivity |]).
  all: (split; [lia |]); (split; [lia |]); (split; [f_equal; lia |]).
  all: tally; repeat split; try reflexivity; lia.
Qed.

(** The check for a dramatic moment logs at most one momentum shift, of the
    round the debate is in, and announces as many. *)
Lemma check_dramatic_moment_books (w : World) :
  exists w' moments,
    _check_dramatic_moment w = Ok (tt, w')
    /\ setup w' = setup w
    /\ state (self w')
       = set_dramatic_moments (dramatic_moments (state (self w)) ++ moments) (state (self w))
    /\ (length moments <= 1)%nat
    /\ Forall (fun moment =>
                 dict_lookup moment "round" = Some (VNum (round_number (state (self w)))))
              moments
    /\ length (momentum_gaps (event_queue (self w')))
       = (length (momentum_gaps (event_queue (self w))) + length moments)%nat
    /\ objections_by "CON" (event_queue (self w'))
       = objections_by "CON" (event_queue (self w))
    /\ objections_by "PRO" (event_queue (self w'))
       = objections_by "PRO" (event_queue (self w))
    /\ presentations_by "PRO" (event_queue (self w'))
       = presentations_by "PRO" (event_queue (self w))
    /\ presentations_by "CON" (event_queue (self w'))
       = presentations_by "CON" (event_queue (self w))
    /\ closing w' = closing w.
Proof.
  destruct w as [[pa ca j st cfg q pp pc] d sl].
  destruct st as [ph rn cp cc ep ec sp tr evs ob dm].
  unfold setup. run_methods.
  destruct (Qltb (dramatic_moment_threshold cfg) (inject_Z (Z.abs (cp - cc)))); run_methods.
  - do 2 eexists. split; [reflexivity |]. run_methods.
    split; [reflexivity |]. split; [reflexivity |].
    split; [cbn [length]; lia |]. split; [repeat constructor |].
    tally. repeat split; try reflexivity; lia.
  - exists (mkWorld
              (mkDebateOrchestrator pa ca j
                 (mkDebateState ph rn cp cc ep ec sp tr evs ob dm) cfg q pp pc) d sl), [].
    split; [reflexivity |]. run_methods.
    split; [reflexivity |]. split; [now rewrite app_nil_r |].
    split; [cbn [length]; lia |]. split; [constructor |].
    cbn [length]. repeat split; lia.
Qed.

(** One pass of the evidence duel keeps the books. *)
Lemma evidence_round_books (requirement : string) (opened k : Z) (w : World) :
  uniform_draws rng -> speakers_chosen w ->
  round_number (state (self w)) = 2 -> books opened k w ->
  exists w',
    evidence_round rng requirement w = Ok (tt, w')
    /\ setup w' = setup w
    /\ round_number (state (self w')) = 2
    /\ books opened (k + 1) w'
    /\ closing w' = closing w.
Proof.
  intros Hu Hsp Hrn Hb.
  destruct (pro_presents_books requirement w Hu Hsp)
    as (w1 & g1 & r1 & Hrun1 & Hset1 & Hg1 & Hr1 & Hst1 & Hoc1 & Hop1 & Hpp1 & Hpc1 & Hm1
        & Hcl1).
  pose proof (speakers_chosen_setup _ _ Hset1 Hsp) as Hsp1.
  destruct (con_presents_books requirement w1 Hu Hsp1)
    as (w2 & g2 & r2 & Hrun2 & Hset2 & Hg2 & Hr2 & Hst2 & Hop2 & Hoc2 & Hpc2 & Hpp2 & Hm2
        & Hcl2).
  destruct (check_dramatic_moment_books w2)
    as (w3 & moments & Hrun3 & Hset3 & Hst3 & Hlen & Hround & Hgaps & Hoc3 & Hop3 & Hpp3
        & Hpc3 & Hcl3).
  exists w3. split.
  { unfold evidence_round. rewrite (bind_ok _ _ _ _ _ Hrun1), (bind_ok _ _ _ _ _ Hrun2).
    exact Hrun3. }
  split; [congruence |].
  assert (Hrn2 : round_number (state (self w2)) = 2).
  { rewrite Hst2, Hst1. exact Hrn. }
  split; [rewrite Hst3; exact Hrn2 |].
  split; [|congruence].
  destruct Hb as (Hp & Hc & Hep & Hec & Hpp & Hpc & Hoc & Hop & Hdl & Hdg & Hdr & Htr & Hev
                  & Hob).
  unfold books.
  rewrite Hst3, Hoc3, Hop3, Hpp3, Hpc3, Hgaps, Hst2, Hoc2, Hop2, Hpp2, Hpc2, Hm2,
    Hst1, Hoc1, Hop1, Hpp1, Hpc1, Hm1.
  rewrite Hrn2 in Hround.
  cbn [set_dramatic_moments set_con_evidence_score set_con_confidence
       set_pro_evidence_score set_pro_confidence
       pro_confidence con_confidence pro_evidence_score con_evidence_score
       dramatic_moments transcript evidence_presented objections].
  rewrite length_app.
  repeat split; try assumption; try lia.
  apply Forall_app; split; assumption.
Qed.

(** [_initialize_debate] on a fresh orchestrator opens the books. *)
Lemma initialize_debate_books (requirement : string) (pro_team con_team : list Agent)
    (judge : Agent) (debate_config : option (list ConfigEntry)) :
  uniform_draws rng -> pro_team <> [] -> con_team <> [] ->
  exists w p c,
    _initialize_debate rng requirement (fresh_world pro_team con_team judge debate_config)
    = Ok (tt, w)
    /\ primary_pro (self w) = Some p /\ In p pro_team
    /\ primary_con (self w) = Some c /\ In c con_team
    /\ books 0 0 w
    /\ closing w = (false, []).
Proof.
  intros Hu Hpro Hcon. unfold fresh_world, DebateOrchestrator_init.
  generalize (match debate_config with
              | Some (e :: es) => config_update default_config (e :: es)
              | _ => default_config
              end); intros cfg.
  unfold DebateState_default. run_methods.
  pick_speaker Hu. run_methods. pick_speaker Hu. run_methods.
  eexists; exists chosen, chosen0. split; [reflexivity |]. cbn [self primary_pro primary_con].
  split; [reflexivity |]. split; [assumption |]. split; [reflexivity |]. split; [assumption |].
  split; [|tally; reflexivity].
  unfold books. run_methods. tally.
  repeat split; try reflexivity; try lia. constructor.
Qed.

(** [_run_opening_statements] adds 5 to each side. *)
Lemma run_opening_statements_books (requirement : string) (w : World) :
  speakers_chosen w -> books 0 0 w ->
  exists w',
    _run_opening_statements requirement w = Ok (tt, w')
    /\ setup w' = setup w
    /\ books 5 0 w'
    /\ closing w' = closing w.
Proof.
  intros [[p Hp] [c Hc]].
  destruct w as [[pa ca j st cfg q pp pc] d sl]. cbn [self primary_pro primary_con] in Hp, Hc.
  subst pp pc. destruct st as [ph rn cp cc ep ec sp tr evs ob dm].
  unfold setup, books. run_methods.
  intros (Hp & Hc & Hep & Hec & Hpp & Hpc & Hoc & Hop & Hdl & Hdg & Hdr & Htr & Hev & Hob).
  eexists. split; [reflexivity |]. run_methods.
  split; [reflexivity |]. tally.
  repeat split; try assumption; try reflexivity; lia.
Qed.

(** [_run_evidence_duel]: three passes, each side presents three times. *)
Lemma run_evidence_duel_books (requirement : string) (w : World) :
  uniform_draws rng -> speakers_chosen w -> books 5 0 w ->
  exists w',
    _run_evidence_duel rng requirement w = Ok (tt, w')
    /\ setup w' = setup w
    /\ books 5 3 w'
    /\ closing w' = closing w.
Proof.
  intros Hu Hsp Hb.
  set (w0 := mkWorld
               (with_event_queue
                  (with_state (self w)
                     (set_round_number 2 (set_phase EVIDENCE_DUEL (state (self w)))))
                  (event_queue (self w)
                     ++ [mkDebateEvent "phase_change" "system"
                           [ ("phase", VStr "evidence_duel"); ("round", VNum 2);
                             ("message", VStr "ROUND 2: Evidence Duel!") ]
                           (Some "lightning_flash") (Some "thunder") 4]))
               (draws w)
               (if enable_special_effects (config (self w))
                then slept w + streaming_delay (config (self w))
                else slept w)%Q).
  assert (Hset0 : setup w0 = setup w) by reflexivity.
  assert (Hcl0 : closing w0 = closing w).
  { unfold w0, closing, with_event_queue. cbn [self event_queue]. tally. reflexivity. }
  assert (Hb0 : books 5 0 w0).
  { destruct w as [[pa ca j st cfg q pp pc] d sl].
    destruct st as [ph rn cp cc ep ec sp tr evs ob dm].
    unfold books, w0 in *. run_methods. revert Hb. run_methods. tally. exact (fun H => H). }
  assert (Hrn0 : round_number (state (self w0)) = 2) by reflexivity.
  pose proof (speakers_chosen_setup _ _ Hset0 Hsp) as Hsp0.
  destruct (evidence_round_books requirement 5 0 w0 Hu Hsp0 Hrn0 Hb0)
    as (w1 & Hrun1 & Hset1 & Hrn1 & Hb1 & Hcl1).
  pose proof (speakers_chosen_setup _ _ Hset1 Hsp0) as Hsp1.
  destruct (evidence_round_books requirement 5 1 w1 Hu Hsp1 Hrn1 Hb1)
    as (w2 & Hrun2 & Hset2 & Hrn2 & Hb2 & Hcl2).
  pose proof (speakers_chosen_setup _ _ Hset2 Hsp1) as Hsp2.
  destruct (evidence_round_books requirement 5 2 w2 Hu Hsp2 Hrn2 Hb2)
    as (w3 & Hrun3 & Hset3 & Hrn3 & Hb3 & Hcl3).
  exists w3. split.
  { change (_run_evidence_duel rng requirement w)
      with (bind (evidence_round rng requirement)
              (fun _ => bind (evidence_round rng requirement)
                 (fun _ => bind (evidence_round rng requirement) (fun _ => ret tt))) w0).
    rewrite (bind_ok _ _ _ _ _ Hrun1), (bind_ok _ _ _ _ _ Hrun2), (bind_ok _ _ _ _ _ Hrun3).
    reflexivity. }
  split; [congruence |]. split; [exact Hb3 | congruence].
Qed.

(** [_run_cross_examination] leaves the books as they are. *)
Lemma run_cross_examination_books (requirement : string) (opened k : Z) (w : World) :
  uniform_draws rng -> speakers_chosen w -> books opened k w ->
  exists w',
    _run_cross_examination rng requirement w = Ok (tt, w')
    /\ setup w' = setup w
    /\ books opened k w'
    /\ closing w' = closing w.
Proof.
  intros Hu [[p Hp] [c Hc]].
  destruct w as [[pa ca j st cfg q pp pc] d sl]. cbn [self primary_pro primary_con] in Hp, Hc.
  subst pp pc. destruct st as [ph rn cp cc ep ec sp tr evs ob dm].
  unfold setup, books. run_methods. intros Hb.
  pick_speaker Hu. run_methods. pick_speaker Hu. run_methods.
  eexists. split; [reflexivity |]. run_methods.
  split; [reflexivity |]. tally. split; [exact Hb | reflexivity].
Qed.

(** [_run_final_arguments] with both confidences at 10 or more: no
    knockout, the two speakers make their final arguments. *)
Lemma run_final_arguments_books (requirement : string) (opened k : Z) (w : World)
    (p c : Agent) :
  primary_pro (self w) = Some p -> primary_con (self w) = Some c ->
  10 <= pro_confidence (state (self w)) -> 10 <= con_confidence (state (self w)) ->
  books opened k w ->
  exists w',
    _run_final_arguments requirement w = Ok (tt, w')
    /\ setup w' = setup w
    /\ round_number (state (self w')) = 4
    /\ books opened k w'
    /\ closing w'
       = (fst (closing w),
          snd (closing w) ++ [(role p, Some (VStr "PRO")); (role c, Some (VStr "CON"))])%list.
Proof.
  destruct w as [[pa ca j st cfg q pp pc] d sl]. cbn [self primary_pro primary_con].
  intros -> ->. destruct st as [ph rn cp cc ep ec sp tr evs ob dm].
  cbn [state pro_confidence con_confidence]. intros Hp10 Hc10.
  apply Z.ltb_ge in Hp10, Hc10.
  unfold setup, books, _run_final_arguments. run_methods. rewrite Hp10, Hc10.
  unfold _normal_final_arguments, final_argument_of. run_methods. intros Hb.
  eexists. split; [reflexivity |]. run_methods.
  split; [reflexivity |]. split; [reflexivity |]. tally.
  split; [exact Hb |]. cbn [fst snd]. now rewrite <- app_assoc.
Qed.

(** [_run_judgment] leaves the books as they are, and returns the verdict
    of the confidences. *)
Lemma run_judgment_books (requirement : string) (opened k : Z) (w : World) :
  books opened k w ->
  exists w',
    _run_judgment requirement w
    = Ok ({| jv_decision :=
               if pro_confidence (state (self w)) <? con_confidence (state (self w))
               then "REJECTED" else "APPROVED";
             jv_confidence :=
               Z.abs (con_confidence (state (self w)) - pro_confidence (state (self w)));
             jv_reasoning := "Based on the evidence presented...";
             jv_alternative := "Consider this alternative approach...";
             jv_savings :=
               if pro_confidence (state (self w)) <? con_confidence (state (self w))
               then 2100000 else 0 |}, w')
    /\ state (self w') = set_phase COMPLETE (state (self w))
    /\ books opened k w'
    /\ closing w' = closing w.
Proof.
  destruct w as [[pa ca j st cfg q pp pc] d sl].
  destruct st as [ph rn cp cc ep ec sp tr evs ob dm].
  unfold books, _run_judgment, _get_judge_verdict. run_methods. intros Hb.
  eexists. split; [reflexivity |]. run_methods.
  split; [reflexivity |]. tally. split; [exact Hb | reflexivity].
Qed.

(** A whole run of a fresh orchestrator, by its books. *)
Lemma whole_run_books (requirement : string) (pro_team con_team : list Agent) (judge : Agent)
    (debate_config : option (list ConfigEntry)) :
  uniform_draws rng -> pro_team <> [] -> con_team <> [] ->
  exists result w p c,
    analyze_requirement rng clock requirement
      (fresh_world pro_team con_team judge debate_config) = Ok (result, w)
    /\ In p pro_team /\ In c con_team
    /\ books 5 3 w
    /\ closing w = (false, [(role p, Some (VStr "PRO")); (role c, Some (VStr "CON"))])
    /\ result_requirement result = "The analyzed requirement"
    /\ result_verdict result
       = {| jv_decision :=
              if pro_confidence (state (self w)) <? con_confidence (state (self w))
              then "REJECTED" else "APPROVED";
            jv_confidence :=
              Z.abs (con_confidence (state (self w)) - pro_confidence (state (self w)));
            jv_reasoning := "Based on the evidence presented...";
            jv_alternative := "Consider this alternative approach...";
            jv_savings :=
              if pro_confidence (state (self w)) <? con_confidence (state (self w))
              then 2100000 else 0 |}
    /\ debate_summary result
       = {| duration := clock (slept w);
            rounds := 4;
            final_confidence_pro := pro_confidence (state (self w));
            final_confidence_con := con_confidence (state (self w));
            evidence_scores_pro := pro_evidence_score (state (self w));
            evidence_scores_con := con_evidence_score (state (self w));
            summary_dramatic_moments := dramatic_moments (state (self w));
            summary_objections := Z.of_nat (length (objections (state (self w)))) |}
    /\ result_transcript result = transcript (state (self w))
    /\ result_evidence result = evidence_presented (state (self w)).
Proof.
  intros Hu Hpro Hcon.
  destruct (initialize_debate_books requirement pro_team con_team judge debate_config
              Hu Hpro Hcon) as (w1 & p & c & Hrun1 & Hp1 & Hinp & Hc1 & Hinc & Hb1 & Hcl1).
  assert (Hsp1 : speakers_chosen w1) by (split; eauto).
  destruct (run_opening_statements_books requirement w1 Hsp1 Hb1)
    as (w2 & Hrun2 & Hset2 & Hb2 & Hcl2).
  pose proof (speakers_chosen_setup _ _ Hset2 Hsp1) as Hsp2.
  destruct (run_evidence_duel_books requirement w2 Hu Hsp2 Hb2)
    as (w3 & Hrun3 & Hset3 & Hb3 & Hcl3).
  pose proof (speakers_chosen_setup _ _ Hset3 Hsp2) as Hsp3.
  destruct (run_cross_examination_books requirement 5 3 w3 Hu Hsp3 Hb3)
    as (w4 & Hrun4 & Hset4 & Hb4 & Hcl4).
  assert (Hp4 : primary_pro (self w4) = Some p).
  { unfold setup in *. congruence. }
  assert (Hc4 : primary_con (self w4) = Some c).
  { unfold setup in *. congruence. }
  assert (Hlow : 10 <= pro_confidence (state (self w4))
                 /\ 10 <= con_confidence (state (self w4))).
  { destruct Hb4 as (Hp & Hc & Hep & Hec & _ & _ & Hoc & Hop & _). lia. }
  destruct (run_final_arguments_books requirement 5 3 w4 p c Hp4 Hc4
              (proj1 Hlow) (proj2 Hlow) Hb4)
    as (w5 & Hrun5 & Hset5 & Hrn5 & Hb5 & Hcl5).
  destruct (run_judgment_books requirement 5 3 w5 Hb5)
    as (w6 & Hrun6 & Hst6 & Hb6 & Hcl6).
  eexists. exists w6, p, c. split.
  { unfold analyze_requirement.
    rewrite (bind_ok _ _ _ _ _ Hrun1), (bind_ok _ _ _ _ _ Hrun2), (bind_ok _ _ _ _ _ Hrun3),
      (bind_ok _ _ _ _ _ Hrun4), (bind_ok _ _ _ _ _ Hrun5), (bind_ok _ _ _ _ _ Hrun6).
    reflexivity. }
  split; [exact Hinp |]. split; [exact Hinc |]. split; [exact Hb6 |].
  split.
  { rewrite Hcl6, Hcl5, Hcl4, Hcl3, Hcl2, Hcl1. reflexivity. }
  cbn [result_requirement result_verdict debate_summary result_transcript result_evidence].
  split; [reflexivity |].
  split; [rewrite Hst6; reflexivity |].
  split; [|split; reflexivity].
  f_equal. rewrite Hst6. exact Hrn5.
Qed.

End LedgerFacts.

(** Over a whole run of a fresh orchestrator the final confidence of a side
    is accounted for by what happened to it: the starting 50, 5 for its
    opening statement, its evidence score, and 10 off for each objection the
    other side raised.  Each side presents exactly three pieces of evidence,
    so its evidence score lies between 15 and 60, and at most three
    objections are raised against it. *)
Theorem final_confidence_is_accounted_for :
  forall (rng : nat -> Q) (clock : Q -> Z) (requirement : string)
         (pro_team con_team : list Agent)
         (judge : Agent) (debate_config : option (list ConfigEntry)),
    uniform_draws rng -> pro_team <> [] -> con_team <> [] ->
    exists result w,
      analyze_requirement rng clock requirement
        (fresh_world pro_team con_team judge debate_config) = Ok (result, w)
      /\ (final_confidence_pro (debate_summary result)
          = 50 + 5 + evidence_scores_pro (debate_summary result)
            - 10 * objections_by "CON" (event_queue (self w)))%Z
      /\ (final_confidence_con (debate_summary result)
          = 50 + 5 + evidence_scores_con (debate_summary result)
            - 10 * objections_by "PRO" (event_queue (self w)))%Z
      /\ presentations_by "PRO" (event_queue (self w)) = 3%Z
      /\ presentations_by "CON" (event_queue (self w)) = 3%Z
      /\ (15 <= evidence_scores_pro (debate_summary result) <= 60)%Z
      /\ (15 <= evidence_scores_con (debate_summary result) <= 60)%Z
      /\ (0 <= objections_by "CON" (event_queue (self w)) <= 3)%Z
      /\ (0 <= objections_by "PRO" (event_queue (self w)) <= 3)%Z.
Proof.
  intros rng clock requirement pro_team con_team judge debate_config Hu Hpro Hcon.
  destruct (whole_run_books rng clock requirement pro_team con_team judge debate_config
              Hu Hpro Hcon)
    as (result & w & p & c & Hrun & _ & _ & Hb & _ & _ & _ & Hsum & _).
  destruct Hb as (Hp & Hc & Hep & Hec & Hpp & Hpc & Hoc & Hop & _).
  exists result, w. rewrite Hsum.
  cbn [final_confidence_pro final_confidence_con evidence_scores_pro evidence_scores_con].
  repeat split; try assumption; lia.
Qed.

Lemma final_confidence_is_accounted_for_witness :
  uniform_draws middling_draws
  /\ sample_pro_team <> []
  /\ sample_con_team <> []
  /\ exists result w,
       analyze_requirement middling_draws steady_clock "Add offline mode"
         (fresh_world sample_pro_team sample_con_team (mkAgent "Judge") None)
       = Ok (result, w)
       /\ (final_confidence_pro (debate_summary result)
           = 50 + 5 + evidence_scores_pro (debate_summary result)
             - 10 * objections_by "CON" (event_queue (self w)))%Z.
Proof.
  split; [exact middling_draws_uniform |].
  split; [discriminate |]. split; [discriminate |].
  destruct (final_confidence_is_accounted_for middling_draws steady_clock "Add offline mode"
              sample_pro_team sample_con_team (mkAgent "Judge") None
              middling_draws_uniform ltac:(discriminate) ltac:(discriminate))
    as (result & w & Hrun & Hp & _).
  exists result, w. split; assumption.
Defined.

(** The bundle a whole run returns never holds a log of the debate: its
    transcript and its evidence are empty lists and its count of objections
    is 0, whatever was argued, presented (six pieces of evidence, by the
    events of the queue) or objected to, because no method appends to these
    lists of the state; and its "requirement" is a fixed text, not the
    requirement analysed.  The one log kept is that of the momentum shifts:
    at most three, all of round 2, as many as were announced. *)
Theorem result_holds_no_log_of_the_debate :
  forall (rng : nat -> Q) (clock : Q -> Z) (requirement : string)
         (pro_team con_team : list Agent)
         (judge : Agent) (debate_config : option (list ConfigEntry)),
    uniform_draws rng -> pro_team <> [] -> con_team <> [] ->
    exists result w,
      analyze_requirement rng clock requirement
        (fresh_world pro_team con_team judge debate_config) = Ok (result, w)
      /\ result_transcript result = []
      /\ result_evidence result = []
      /\ summary_objections (debate_summary result) = 0%Z
      /\ (presentations_by "PRO" (event_queue (self w))
          + presentations_by "CON" (event_queue (self w)) = 6)%Z
      /\ result_requirement result = "The analyzed requirement"%string
      /\ (length (summary_dramatic_moments (debate_summary result)) <= 3)%nat
      /\ length (summary_dramatic_moments (debate_summary result))
         = length (momentum_gaps (event_queue (self w)))
      /\ Forall (fun moment => dict_lookup moment "round" = Some (VNum 2))
                (summary_dramatic_moments (debate_summary result)).
Proof.
  intros rng clock requirement pro_team con_team judge debate_config Hu Hpro Hcon.
  destruct (whole_run_books rng clock requirement pro_team con_team judge debate_config
              Hu Hpro Hcon)
    as (result & w & p & c & Hrun & _ & _ & Hb & _ & Hreq & _ & Hsum & Htr & Hev).
  destruct Hb as (_ & _ & _ & _ & Hpp & Hpc & _ & _ & Hdl & Hdg & Hdr & Htr0 & Hev0 & Hob0).
  exists result, w. rewrite Hsum, Htr, Hev.
  cbn [summary_objections summary_dramatic_moments]. rewrite Hob0.
  repeat split; try assumption; try reflexivity; lia.
Qed.

Lemma result_holds_no_log_of_the_debate_witness :
  uniform_draws middling_draws
  /\ sample_pro_team <> []
  /\ sample_con_team <> []
  /\ exists result w,
       analyze_requirement middling_draws steady_clock "Add offline mode"
         (fresh_world sample_pro_team sample_con_team (mkAgent "Judge") None)
       = Ok (result, w)
       /\ result_evidence result = []
       /\ summary_objections (debate_summary result) = 0%Z.
Proof.
  split; [exact middling_draws_uniform |].
  split; [discriminate |]. split; [discriminate |].
  destruct (result_holds_no_log_of_the_debate middling_draws steady_clock "Add offline mode"
              sample_pro_team sample_con_team (mkAgent "Judge") None
              middling_draws_uniform ltac:(discriminate) ltac:(discriminate))
    as (result & w & Hrun & _ & Hev & Hob & _).
  exists result, w. repeat split; assumption.
Defined.

(** A whole run of a fresh orchestrator never ends in a knockout, whatever
    the generator draws and whatever the configuration: both confidences
    stand at 40 or more when the final arguments begin, so the test for a
    confidence below 10 fails, no knockout is announced and no finishing
    move is made.  The final arguments are those of the two speakers chosen
    at the start, members of their teams, PRO first. *)
Theorem whole_run_never_ends_in_knockout :
  forall (rng : nat -> Q) (clock : Q -> Z) (requirement : string)
         (pro_team con_team : list Agent)
         (judge : Agent) (debate_config : option (list ConfigEntry)),
    uniform_draws rng -> pro_team <> [] -> con_team <> [] ->
    exists result w pro_speaker con_speaker,
      analyze_requirement rng clock requirement
        (fresh_world pro_team con_team judge debate_config) = Ok (result, w)
      /\ In pro_speaker pro_team
      /\ In con_speaker con_team
      /\ existsb is_knockout (event_queue (self w)) = false
      /\ final_speakers (event_queue (self w))
         = [ (role pro_speaker, Some (VStr "PRO")); (role con_speaker, Some (VStr "CON")) ]
      /\ (40 <= final_confidence_pro (debate_summary result))%Z
      /\ (40 <= final_confidence_con (debate_summary result))%Z.
Proof.
  intros rng clock requirement pro_team con_team judge debate_config Hu Hpro Hcon.
  destruct (whole_run_books rng clock requirement pro_team con_team judge debate_config
              Hu Hpro Hcon)
    as (result & w & p & c & Hrun & Hinp & Hinc & Hb & Hcl & _ & _ & Hsum & _).
  destruct Hb as (Hp & Hc & Hep & Hec & _ & _ & Hoc & Hop & _).
  exists result, w, p, c. rewrite Hsum.
  cbn [final_confidence_pro final_confidence_con].
  unfold closing in Hcl. injection Hcl as Hko Hfin.
  repeat split; try assumption; lia.
Qed.

Lemma whole_run_never_ends_in_knockout_witness :
  uniform_draws low_draws
  /\ sample_pro_team <> []
  /\ sample_con_team <> []
  /\ exists result w,
       analyze_requirement low_draws steady_clock "Add offline mode"
         (fresh_world sample_pro_team sample_con_team (mkAgent "Judge") None)
       = Ok (result, w)
       /\ existsb is_knockout (event_queue (self w)) = false.
Proof.
  split; [exact low_draws_uniform |].
  split; [discriminate |]. split; [discriminate |].
  destruct (whole_run_never_ends_in_knockout low_draws steady_clock "Add offline mode"
              sample_pro_team sample_con_team (mkAgent "Judge") None
              low_draws_uniform ltac:(discriminate) ltac:(discriminate))
    as (result & w & _ & _ & Hrun & _ & _ & Hko & _).
  exists result, w. split; assumption.
Defined.

Create HintDb settings.

Section SettingsFacts.
Variable rng : nat -> Q.
Variable clock : Q -> Z.
Local Open Scope string_scope.
Local Open Scope Z_scope.

(** Takes the two worlds of [alike] apart: the second is the first but for
    the configuration [cfg] and the time paused. *)
Ltac two_worlds :=
  let o1 := fresh "o" in
  let d1 := fresh "d" in
  let sl1 := fresh "sl" in
  let o2 := fresh "o" in
  let d2 := fresh "d" in
  let sl2 := fresh "sl" in
  let cfg := fresh "cfg" in
  let Ho := fresh "Ho" in
  let Hth := fresh "Hth" in
  let Hd := fresh "Hd" in
  intros [o1 d1 sl1] [o2 d2 sl2] [(cfg & Ho & Hth) Hd];
  cbn [self draws slept] in Ho, Hth, Hd; subst o2 d2.

(** Closes the goal that the two worlds still differ in nothing else. *)
Ltac still_alike cfg Hth :=
  split; [exists cfg; split; [reflexivity | exact Hth] | reflexivity].

Lemma same_but_settings_thresholds (o1 o2 : DebateOrchestrator) :
  same_but_settings o1 o2 -> same_thresholds (config o1) (config o2).
Proof. intros (cfg & -> & Hth). exact Hth. Qed.

Lemma same_but_settings_teams (o1 o2 : DebateOrchestrator) :
  same_but_settings o1 o2 ->
  pro_agents o2 = pro_agents o1 /\ con_agents o2 = con_agents o1
  /\ judge_agent o2 = judge_agent o1.
Proof. intros (cfg & -> & _). repeat split. Qed.

Lemma same_but_settings_primaries (o1 o2 : DebateOrchestrator) (p c : option Agent) :
  same_but_settings o1 o2 ->
  same_but_settings (with_primaries o1 p c) (with_primaries o2 p c).
Proof. intros (cfg & -> & Hth). exists cfg. split; [reflexivity | exact Hth]. Qed.

Lemma alike_ret {A} (R : A -> A -> Prop) (a1 a2 : A) :
  R a1 a2 -> alike R (ret a1) (ret a2).
Proof. intros HR w1 w2 Hw. unfold ret. split; assumption. Qed.

Lemma alike_raise {A} (R : A -> A -> Prop) (e : Exception) :
  alike R (raise e) (raise e).
Proof. intros w1 w2 _. reflexivity. Qed.

Lemma alike_bind {A B} (RA : A -> A -> Prop) (RB : B -> B -> Prop)
    (m1 m2 : M A) (k1 k2 : A -> M B) :
  alike RA m1 m2 ->
  (forall a1 a2, RA a1 a2 -> alike RB (k1 a1) (k2 a2)) ->
  alike RB (bind m1 k1) (bind m2 k2).
Proof.
  intros Hm Hk w1 w2 Hw. specialize (Hm w1 w2 Hw). unfold bind.
  destruct (m1 w1) as [[a1 w1']|e1], (m2 w2) as [[a2 w2']|e2]; try contradiction.
  - destruct Hm as [Ha Hw']. exact (Hk a1 a2 Ha w1' w2' Hw').
  - exact Hm.
Qed.

Lemma ignores_ret {A} (a : A) : ignores_settings (ret a).
Proof. now apply alike_ret. Qed.

Lemma ignores_raise {A} (e : Exception) : ignores_settings (raise (A := A) e).
Proof. apply alike_raise. Qed.

Lemma ignores_bind {A B} (m : M A) (k : A -> M B) :
  ignores_settings m -> (forall a, ignores_settings (k a)) -> ignores_settings (bind m k).
Proof.
  intros Hm Hk. apply (alike_bind eq eq); [exact Hm |]. intros a ? <-. apply Hk.
Qed.

Lemma ignores_if {A} (b : bool) (m1 m2 : M A) :
  ignores_settings m1 -> ignores_settings m2 -> ignores_settings (if b then m1 else m2).
Proof. now destruct b. Qed.

Lemma ignores_modify_state (f : DebateState -> DebateState) :
  ignores_settings (modify_state f).
Proof. two_worlds. unfold modify_state. split; [reflexivity |]. still_alike cfg Hth. Qed.

Lemma ignores_get_state : ignores_settings get_state.
Proof. two_worlds. unfold get_state. split; [reflexivity |]. still_alike cfg Hth. Qed.

(** The orchestrator read on either side is the same but for its settings. *)
Lemma alike_get_self : alike same_but_settings get_self get_self.
Proof.
  two_worlds. unfold get_self. cbn [self].
  split; [exists cfg; split; [reflexivity | exact Hth] |]. still_alike cfg Hth.
Qed.

(** The time paused is what differs: nothing relates the two readings. *)
Lemma alike_get_slept : alike (fun _ _ => True) get_slept get_slept.
Proof. two_worlds. unfold get_slept. split; [exact I |]. still_alike cfg Hth. Qed.

Lemma alike_set_self (o1 o2 : DebateOrchestrator) :
  same_but_settings o1 o2 -> alike eq (set_self o1) (set_self o2).
Proof.
  intros Ho w1 w2 [_ Hd]. unfold set_self. split; [reflexivity |].
  split; [exact Ho | exact Hd].
Qed.

(** A pause changes the time paused only, however long it is. *)
Lemma alike_asyncio_sleep (delay1 delay2 : Q) :
  alike eq (asyncio_sleep delay1) (asyncio_sleep delay2).
Proof. two_worlds. unfold asyncio_sleep. split; [reflexivity |]. still_alike cfg Hth. Qed.

(** [_emit_event] reads [enable_special_effects] and [streaming_delay], to
    pause: the event it queues is the same. *)
Lemma ignores_emit_event (event_type agent : string) (content : Dict)
    (visual_effect sound_effect : option string) (importance : Z) :
  ignores_settings (_emit_event event_type agent content visual_effect sound_effect importance).
Proof. two_worlds. unfold _emit_event. split; [reflexivity |]. still_alike cfg Hth. Qed.

Lemma ignores_random_random : ignores_settings (random_random rng).
Proof. two_worlds. unfold random_random. split; [reflexivity |]. still_alike cfg Hth. Qed.

Lemma ignores_random_choice {A} (seq : list A) : ignores_settings (random_choice rng seq).
Proof.
  unfold random_choice. destruct seq as [|x seq]; [apply ignores_raise |].
  apply ignores_bind; [apply ignores_random_random | intros u].
  destruct (nth_error (x :: seq) _); [apply ignores_ret | apply ignores_raise].
Qed.

Lemma ignores_get_primary_pro : ignores_settings get_primary_pro.
Proof.
  two_worlds. unfold get_primary_pro. cbn [self with_config primary_pro].
  destruct (primary_pro o); [| reflexivity]. split; [reflexivity |]. still_alike cfg Hth.
Qed.

Lemma ignores_get_primary_con : ignores_settings get_primary_con.
Proof.
  two_worlds. unfold get_primary_con. cbn [self with_config primary_con].
  destruct (primary_con o); [| reflexivity]. split; [reflexivity |]. still_alike cfg Hth.
Qed.

Hint Resolve ignores_ret ignores_raise ignores_if ignores_modify_state ignores_get_state
  ignores_emit_event ignores_random_random ignores_random_choice
  ignores_get_primary_pro ignores_get_primary_con : settings.

(** Takes a method apart into the calls it makes. *)
Ltac by_calls :=
  repeat first
    [ match goal with |- alike eq ?m ?m => change (ignores_settings m) end
    | solve [auto with settings]
    | apply ignores_if
    | apply ignores_bind; [| intros ?] ].

Lemma ignores_update_confidence : ignores_settings _update_confidence.
Proof. unfold _update_confidence. by_calls. Qed.

Lemma ignores_get_agent_argument (agent : Agent) (prompt : string) :
  ignores_settings (_get_agent_argument agent prompt).
Proof. unfold _get_agent_argument. by_calls. Qed.

Lemma ignores_gather_evidence (agent : Agent) (requirement stance : string) :
  ignores_settings (_gather_evidence rng agent requirement stance).
Proof. unfold _gather_evidence, random_randint. by_calls. Qed.

Hint Resolve ignores_update_confidence ignores_get_agent_argument ignores_gather_evidence
  : settings.

Lemma ignores_present_evidence (agent : Agent) (evidence : GatheredEvidence) (team : string) :
  ignores_settings (_present_evidence agent evidence team).
Proof. unfold _present_evidence. by_calls. Qed.

(** [_attempt_objection] reads the objection threshold. *)
Lemma ignores_attempt_objection (agent : Agent) (evidence : GatheredEvidence)
    (team : string) :
  ignores_settings (_attempt_objection rng agent evidence team).
Proof.
  unfold _attempt_objection, _generate_objection.
  apply ignores_bind; [auto with settings | intros r].
  apply (alike_bind same_but_settings eq); [apply alike_get_self |].
  intros o1 o2 Ho. destruct (same_but_settings_thresholds o1 o2 Ho) as [<- _].
  by_calls.
Qed.

(** [_check_dramatic_moment] reads the threshold of the dramatic moments. *)
Lemma ignores_check_dramatic_moment : ignores_settings _check_dramatic_moment.
Proof.
  unfold _check_dramatic_moment.
  apply ignores_bind; [auto with settings | intros st].
  apply (alike_bind same_but_settings eq); [apply alike_get_self |].
  intros o1 o2 Ho. destruct (same_but_settings_thresholds o1 o2 Ho) as [_ <-].
  by_calls.
Qed.

Hint Resolve ignores_present_evidence ignores_attempt_objection ignores_check_dramatic_moment
  : settings.

(** [_initialize_debate] reads [streaming_delay], to pause, and the two
    teams. *)
Lemma ignores_initialize_debate (requirement : string) :
  ignores_settings (_initialize_debate rng requirement).
Proof.
  unfold _initialize_debate.
  apply ignores_bind; [auto with settings | intros _].
  apply ignores_bind; [auto with settings | intros _].
  apply (alike_bind same_but_settings eq); [apply alike_get_self |].
  intros o1 o2 _.
  apply (alike_bind eq eq); [apply alike_asyncio_sleep | intros _ _ _].
  apply (alike_bind same_but_settings eq); [apply alike_get_self |].
  intros o3 o4 Ho. destruct (same_but_settings_teams o3 o4 Ho) as (-> & -> & _).
  apply ignores_bind; [auto with settings | intros p].
  apply ignores_bind; [auto with settings | intros c].
  apply (alike_bind same_but_settings eq); [apply alike_get_self |].
  intros o5 o6 Ho'.
  apply (alike_bind eq eq);
    [apply alike_set_self, same_but_settings_primaries, Ho' | intros _ _ _].
  apply ignores_emit_event.
Qed.

Lemma ignores_run_opening_statements (requirement : string) :
  ignores_settings (_run_opening_statements requirement).
Proof. unfold _run_opening_statements. by_calls. Qed.

Lemma ignores_pro_presents (requirement : string) :
  ignores_settings (pro_presents rng requirement).
Proof. unfold pro_presents. by_calls. Qed.

Lemma ignores_con_presents (requirement : string) :
  ignores_settings (con_presents rng requirement).
Proof. unfold con_presents. by_calls. Qed.

Hint Resolve ignores_pro_presents ignores_con_presents : settings.

Lemma ignores_evidence_round (requirement : string) :
  ignores_settings (evidence_round rng requirement).
Proof. unfold evidence_round. by_calls. Qed.

Lemma ignores_repeat_m (n : nat) (body : M unit) :
  ignores_settings body -> ignores_settings (repeat_m n body).
Proof.
  intros Hbody. induction n as [|n IH]; cbn [repeat_m]; [apply ignores_ret |].
  apply ignores_bind; [exact Hbody | intros _; exact IH].
Qed.

Lemma ignores_run_evidence_duel (requirement : string) :
  ignores_settings (_run_evidence_duel rng requirement).
Proof.
  unfold _run_evidence_duel.
  apply ignores_bind; [auto with settings | intros _].
  apply ignores_bind; [auto with settings | intros _].
  apply ignores_bind; [auto with settings | intros _].
  apply ignores_repeat_m, ignores_evidence_round.
Qed.

Lemma ignores_run_cross_examination (requirement : string) :
  ignores_settings (_run_cross_examination rng requirement).
Proof.
  unfold _run_cross_examination, _generate_critical_question, _respond_to_question,
    _evaluate_response.
  by_calls.
Qed.

Lemma ignores_knockout_finish (winning_team : string) (winning_agent : Agent) :
  ignores_settings (_knockout_finish winning_team winning_agent).
Proof. unfold _knockout_finish. by_calls. Qed.

Lemma ignores_normal_final_arguments (requirement : string) :
  ignores_settings (_normal_final_arguments requirement).
Proof. unfold _normal_final_arguments, final_argument_of. by_calls. Qed.

Hint Resolve ignores_knockout_finish ignores_normal_final_arguments : settings.

Lemma ignores_run_final_arguments (requirement : string) :
  ignores_settings (_run_final_arguments requirement).
Proof. unfold _run_final_arguments. by_calls. Qed.

(** [_run_judgment] reads [streaming_delay], to pause, and the judge of the
    orchestrator. *)
Lemma ignores_run_judgment (requirement : string) :
  ignores_settings (_run_judgment requirement).
Proof.
  unfold _run_judgment, _get_judge_verdict.
  apply ignores_bind; [auto with settings | intros _].
  apply ignores_bind; [auto with settings | intros _].
  apply (alike_bind same_but_settings eq); [apply alike_get_self |].
  intros o1 o2 _.
  apply (alike_bind eq eq); [apply alike_asyncio_sleep | intros _ _ _].
  apply ignores_bind; [by_calls | intros verdict].
  apply (alike_bind same_but_settings eq); [apply alike_get_self |].
  intros o3 o4 Ho. destruct (same_but_settings_teams o3 o4 Ho) as (_ & _ & ->).
  by_calls.
Qed.

(** [_compile_results] reads the clock: the two bundles differ in the
    duration, and in nothing else. *)
Lemma compile_results_alike (verdict : JudgeVerdict) :
  alike same_but_duration (_compile_results clock verdict) (_compile_results clock verdict).
Proof.
  unfold _compile_results.
  apply (alike_bind eq same_but_duration); [apply ignores_get_state | intros st ? <-].
  apply (alike_bind (fun _ _ => True) same_but_duration); [apply alike_get_slept |].
  intros paused1 paused2 _. apply alike_ret. repeat split.
Qed.

Lemma analyze_requirement_alike (requirement : string) :
  alike same_but_duration (analyze_requirement rng clock requirement)
        (analyze_requirement rng clock requirement).
Proof.
  unfold analyze_requirement.
  apply (alike_bind eq _); [apply ignores_initialize_debate | intros _ _ _].
  apply (alike_bind eq _); [apply ignores_run_opening_statements | intros _ _ _].
  apply (alike_bind eq _); [apply ignores_run_evidence_duel | intros _ _ _].
  apply (alike_bind eq _); [apply ignores_run_cross_examination | intros _ _ _].
  apply (alike_bind eq _); [apply ignores_run_final_arguments | intros _ _ _].
  apply (alike_bind eq _); [apply ignores_run_judgment | intros verdict ? <-].
  apply compile_results_alike.
Qed.

Lemma times_the_pauses_bind {A} (m : M A) (k : A -> M DebateResult) :
  (forall a, times_the_pauses clock (k a)) -> times_the_pauses clock (bind m k).
Proof.
  intros Hk w result w'. unfold bind. destruct (m w) as [[a w1]|e]; [| discriminate].
  apply Hk.
Qed.

Lemma compile_results_times_the_pauses (verdict : JudgeVerdict) :
  times_the_pauses clock (_compile_results clock verdict).
Proof.
  intros w result w' E. unfold _compile_results, bind, get_state, get_slept, ret in E.
  injection E as <- <-. reflexivity.
Qed.

Lemma analyze_requirement_times_the_pauses (requirement : string) :
  times_the_pauses clock (analyze_requirement rng clock requirement).
Proof.
  unfold analyze_requirement.
  do 5 (apply times_the_pauses_bind; intros _).
  apply times_the_pauses_bind. intros verdict. apply compile_results_times_the_pauses.
Qed.

(** Two fresh orchestrators for the same teams, with the same thresholds. *)
Lemma fresh_worlds_same_but_pauses (pro_team con_team : list Agent) (judge : Agent)
    (settings1 settings2 : option (list ConfigEntry)) :
  same_thresholds
    (config (DebateOrchestrator_init pro_team con_team judge settings1))
    (config (DebateOrchestrator_init pro_team con_team judge settings2)) ->
  same_but_pauses (fresh_world pro_team con_team judge settings1)
                  (fresh_world pro_team con_team judge settings2).
Proof.
  intros Hth. split; [| reflexivity].
  exists (config (DebateOrchestrator_init pro_team con_team judge settings2)).
  split; [reflexivity | exact Hth].
Qed.

End SettingsFacts.

(** The pauses of the two depths of the REST interface, whose settings switch
    the special effects off: two and three times [streaming_delay], 1.5 s and
    3.5 s, of which a clock that counts whole seconds makes 1 and 3. *)
Lemma quick_and_deep_durations :
  match quick_run, deep_run with
  | Ok (result1, w1), Ok (result2, w2) =>
      (slept w1 == 1.5)%Q /\ (slept w2 == 3.5)%Q
      /\ duration (debate_summary result1) = 1%Z
      /\ duration (debate_summary result2) = 3%Z
  | _, _ => False
  end.
Proof. vm_compute. repeat split. Qed.


(** Of the settings of the orchestrator only the two thresholds matter
    to what a run decides: two fresh orchestrators for the same teams whose
    configurations agree on [objection_threshold] and
    [dramatic_moment_threshold] run the same debate on the same draws,
    whatever their [max_rounds], [time_per_round],
    [evidence_weight_multiplier], [enable_special_effects] and
    [streaming_delay].  Both return the same bundle but for its [duration],
    queue the same events (their [timestamp] apart) and end in the same state
    (its [start_time] apart), or both raise the same exception.  The
    [duration] of either bundle is what the clock makes of the pauses of its
    run, which [streaming_delay] and [enable_special_effects] set, and so
    differs between the two.  In particular [max_rounds] is never read: the
    debate has four rounds. *)
Theorem only_the_thresholds_matter_to_a_run :
  forall (rng : nat -> Q) (clock : Q -> Z) (requirement : string)
         (pro_team con_team : list Agent)
         (judge : Agent) (settings1 settings2 : option (list ConfigEntry)),
    same_thresholds
      (config (DebateOrchestrator_init pro_team con_team judge settings1))
      (config (DebateOrchestrator_init pro_team con_team judge settings2)) ->
    match analyze_requirement rng clock requirement
            (fresh_world pro_team con_team judge settings1),
          analyze_requirement rng clock requirement
            (fresh_world pro_team con_team judge settings2) with
    | Ok (result1, w1), Ok (result2, w2) =>
        same_but_duration result1 result2
        /\ duration (debate_summary result1) = clock (slept w1)
        /\ duration (debate_summary result2) = clock (slept w2)
        /\ event_queue (self w1) = event_queue (self w2)
        /\ state (self w1) = state (self w2)
    | Raise e1, Raise e2 => e1 = e2
    | _, _ => False
    end.
Proof.
  intros rng clock requirement pro_team con_team judge settings1 settings2 Hsame.
  pose proof (analyze_requirement_alike rng clock requirement _ _
                (fresh_worlds_same_but_pauses pro_team con_team judge
                   settings1 settings2 Hsame)) as Hrun.
  pose proof (analyze_requirement_times_the_pauses rng clock requirement
                (fresh_world pro_team con_team judge settings1)) as Htime1.
  pose proof (analyze_requirement_times_the_pauses rng clock requirement
                (fresh_world pro_team con_team judge settings2)) as Htime2.
  destruct (analyze_requirement rng clock requirement
              (fresh_world pro_team con_team judge settings1)) as [[result1 w1]|e1],
           (analyze_requirement rng clock requirement
              (fresh_world pro_team con_team judge settings2)) as [[result2 w2]|e2];
    try contradiction; [| exact Hrun].
  destruct Hrun as [Hresult [(cfg & Hself & _) _]].
  split; [exact Hresult |].
  split; [exact (Htime1 result1 w1 eq_refl) |].
  split; [exact (Htime2 result2 w2 eq_refl) |].
  rewrite Hself. split; reflexivity.
Qed.

Lemma only_the_thresholds_matter_to_a_run_witness :
  same_thresholds
    (config (DebateOrchestrator_init sample_pro_team sample_con_team (mkAgent "Judge")
               (Some quick_settings)))
    (config (DebateOrchestrator_init sample_pro_team sample_con_team (mkAgent "Judge")
               (Some deep_settings)))
  /\ match analyze_requirement middling_draws steady_clock "Add offline mode"
              (fresh_world sample_pro_team sample_con_team (mkAgent "Judge")
                 (Some quick_settings)),
            analyze_requirement middling_draws steady_clock "Add offline mode"
              (fresh_world sample_pro_team sample_con_team (mkAgent "Judge")
                 (Some deep_settings)) with
     | Ok (result1, w1), Ok (result2, w2) =>
         same_but_duration result1 result2
         /\ duration (debate_summary result1) = steady_clock (slept w1)
         /\ duration (debate_summary result2) = steady_clock (slept w2)
         /\ event_queue (self w1) = event_queue (self w2)
         /\ state (self w1) = state (self w2)
     | Raise e1, Raise e2 => e1 = e2
     | _, _ => False
     end.
Proof.
  assert (H : same_thresholds
                (config (DebateOrchestrator_init sample_pro_team sample_con_team
                           (mkAgent "Judge") (Some quick_settings)))
                (config (DebateOrchestrator_init sample_pro_team sample_con_team
                           (mkAgent "Judge") (Some deep_settings)))).
  { split; reflexivity. }
  split; [exact H |].
  exact (only_the_thresholds_matter_to_a_run middling_draws steady_clock "Add offline mode"
           sample_pro_team sample_con_team (mkAgent "Judge")
           (Some quick_settings) (Some deep_settings) H).
Defined.



Section RestFacts.
Local Open Scope string_scope.
Local Open Scope Z_scope.


End RestFacts.



Section ClaimFacts.
Local Open Scope string_scope.

Lemma append_assoc (a b c : string) : (a ++ b) ++ c = a ++ b ++ c.
Proof. induction a as [|x a IH]; cbn; [reflexivity | now rewrite IH]. Qed.

Lemma append_empty_r (a : string) : a ++ "" = a.
Proof. induction a as [|x a IH]; cbn; [reflexivity | now rewrite IH]. Qed.

(** The first piece of a split on ". ": what was read so far and the text
    up to the first ". ", which holds none. *)
Lemma split_on_from_first (s piece : string) :
  exists first rest others,
    PyText.split_on_from ". " s piece 0 = (piece ++ first) :: others
    /\ s = first ++ rest
    /\ (rest = "" \/ PyStr.startswith ". " rest = true)
    /\ PyStr.contains ". " first = false.
Proof.
  revert piece; induction s as [|c s IH]; intros piece.
  - exists "", "", []. cbn. rewrite append_empty_r. repeat split. now left.
  - cbn [PyText.split_on_from].
    destruct (PyStr.startswith ". " (String c s)) eqn:Hstart.
    + exists "", (String c s). eexists. rewrite append_empty_r.
      split; [reflexivity |]. split; [reflexivity |]. split; [now right | reflexivity].
    + destruct (IH (piece ++ String c "")) as (first & rest & others & Hsplit & Hs & Hrest & Hno).
      exists (String c first), rest, others.
      split; [rewrite Hsplit, append_assoc; reflexivity |].
      split; [cbn; now rewrite Hs |].
      split; [exact Hrest |].
      cbn [PyStr.contains]. rewrite Hno, orb_false_r.
      destruct (PyStr.startswith ". " (String c first)) eqn:Hf; [|reflexivity].
      apply startswith_iff in Hf. destruct Hf as [post Hf].
      assert (Hs' : PyStr.startswith ". " (String c s) = true).
      { apply startswith_iff. exists (post ++ rest).
        rewrite Hs. change (String c (first ++ rest)) with (String c first ++ rest).
        rewrite Hf. reflexivity. }
      congruence.
Qed.

End ClaimFacts.

(** The claim of a piece of evidence is the title of the search result when
    the title has more than 20 characters, and otherwise the first sentence
    of the snippet: the text before its first ". ", or the whole snippet
    when it has none.  The cut to 100 characters is never taken, as a split
    never yields an empty list, so a claim is as long as the title or the
    first sentence is. *)
Theorem claim_is_title_or_first_sentence :
  forall title snippet : string,
    ((20 < String.length title)%nat -> _extract_claim title snippet = title)
    /\ ((String.length title <= 20)%nat ->
        exists rest,
          snippet = (_extract_claim title snippet ++ rest)%string
          /\ (rest = ""%string \/ PyStr.startswith ". " rest = true)
          /\ ~ PyStr.substring_of ". " (_extract_claim title snippet))
    /\ ((String.length title <= 20)%nat -> ~ PyStr.substring_of ". " snippet ->
        _extract_claim title snippet = snippet).
Proof.
  intros title snippet. unfold _extract_claim, PyText.split_on.
  destruct (split_on_from_first snippet "") as (first & rest & others & Hsplit & Hs & Hrest & Hno).
  rewrite Hsplit. cbn [append].
  split; [|split].
  - intros Hlen. apply Nat.ltb_lt in Hlen. now rewrite Hlen.
  - intros Hlen. apply Nat.ltb_ge in Hlen. rewrite Hlen.
    exists rest. split; [exact Hs |]. split; [exact Hrest |].
    intros Hsub. apply contains_iff in Hsub. congruence.
  - intros Hlen Hnone. apply Nat.ltb_ge in Hlen. rewrite Hlen.
    destruct Hrest as [-> | Hstart].
    + now rewrite append_empty_r in Hs.
    + exfalso. apply Hnone. apply startswith_iff in Hstart. destruct Hstart as [post ->].
      exists first, post. exact Hs.
Qed.

Lemma claim_is_title_or_first_sentence_witness :
  (String.length "OAuth notes" <= 20)%nat
  /\ exists rest,
       "Token rotation cut incidents by 40%. Rollout took a week."%string
       = (_extract_claim "OAuth notes"
            "Token rotation cut incidents by 40%. Rollout took a week." ++ rest)%string
       /\ (rest = ""%string \/ PyStr.startswith ". " rest = true).
Proof.
  assert (Hlen : (String.length "OAuth notes" <= 20)%nat) by (cbn; lia).
  split; [exact Hlen |].
  destruct (proj1 (proj2 (claim_is_title_or_first_sentence
                            "OAuth notes"
                            "Token rotation cut incidents by 40%. Rollout took a week."))
              Hlen) as (rest & Hs & Hrest & _).
  exists rest. split; assumption.
Defined.

Section EmptyTeamFacts.
Variable rng : nat -> Q.
Variable clock : Q -> Z.
Local Open Scope string_scope.
Local Open Scope Z_scope.

(** With an empty team the choice of the speakers raises. *)
Lemma analyze_requirement_empty_team (requirement : string) (pro_team con_team : list Agent)
    (judge : Agent) (debate_config : option (list ConfigEntry)) :
  uniform_draws rng -> pro_team = [] \/ con_team = [] ->
  analyze_requirement rng clock requirement (fresh_world pro_team con_team judge debate_config)
  = Raise (IndexError "Cannot choose from an empty sequence").
Proof.
  intros Hu Hempty. unfold analyze_requirement, fresh_world, DebateOrchestrator_init.
  generalize (match debate_config with
              | Some (e :: es) => config_update default_config (e :: es)
              | _ => default_config
              end); intros cfg.
  unfold DebateState_default.
  destruct pro_team as [|p pro_team].
  - reflexivity.
  - destruct Hempty as [Hpro | ->]; [discriminate |].
    run_methods.
    match goal with
    | |- context [random_choice ?g ?seq ?w] =>
        destruct (random_choice_ok g seq w Hu) as (a & Hr & _); [discriminate | rewrite Hr]
    end.
    reflexivity.
Qed.

End EmptyTeamFacts.

(** A run of a fresh orchestrator fails exactly when one of its teams is
    empty: [analyze_requirement] then raises the [IndexError] of
    [random.choice], before any speaker is heard, and it raises nothing else
    and in no other case.  Through [POST /api/analyze] the failure is
    answered with the status 500, and nothing is stored. *)
Theorem run_fails_exactly_on_an_empty_team :
  forall (rng : nat -> Q) (clock : Q -> Z) (requirement : string)
         (pro_team con_team : list Agent)
         (judge : Agent) (debate_config : option (list ConfigEntry)),
    uniform_draws rng ->
    ((exists e, analyze_requirement rng clock requirement
                  (fresh_world pro_team con_team judge debate_config) = Raise e)
     <-> pro_team = [] \/ con_team = [])
    /\ (forall e, analyze_requirement rng clock requirement
                    (fresh_world pro_team con_team judge debate_config) = Raise e ->
                  e = IndexError "Cannot choose from an empty sequence")
    /\ (pro_team = [] \/ con_team = [] ->
        forall (analysis_id : string) (request : Rest.RequirementAnalysisRequest)
               (debate_results : Rest.Store),
          Rest.analyze_requirement rng clock pro_team con_team judge analysis_id request
            debate_results
          = (Rest.HTTPException 500 (IndexError "Cannot choose from an empty sequence"),
             debate_results)).
Proof.
  intros rng clock requirement pro_team con_team judge debate_config Hu.
  assert (Hcases : (pro_team = [] \/ con_team = []) \/ (pro_team <> [] /\ con_team <> [])).
  { destruct pro_team, con_team; auto; right; split; discriminate. }
  split; [|split].
  - split.
    + intros [e He]. destruct Hcases as [H | [Hpro Hcon]]; [exact H |].
      destruct (whole_run_books rng clock requirement pro_team con_team judge debate_config
                  Hu Hpro Hcon) as (result & w & _ & _ & Hrun & _).
      congruence.
    + intros Hempty. eexists. now apply analyze_requirement_empty_team.
  - intros e He. destruct Hcases as [H | [Hpro Hcon]].
    + rewrite (analyze_requirement_empty_team rng clock requirement pro_team con_team judge
                 debate_config Hu H) in He. congruence.
    + destruct (whole_run_books rng clock requirement pro_team con_team judge debate_config
                  Hu Hpro Hcon) as (result & w & _ & _ & Hrun & _).
      congruence.
  - intros Hempty analysis_id request debate_results. unfold Rest.analyze_requirement.
    change (mkWorld (DebateOrchestrator_init pro_team con_team judge
                       (Some (Rest.debate_config (Rest.request_debate_mode request)))) 0 0)
      with (fresh_world pro_team con_team judge
              (Some (Rest.debate_config (Rest.request_debate_mode request)))).
    now rewrite (analyze_requirement_empty_team rng clock _ pro_team con_team judge _ Hu Hempty).
Qed.

Lemma run_fails_exactly_on_an_empty_team_witness :
  uniform_draws low_draws
  /\ analyze_requirement low_draws steady_clock "Add offline mode"
       (fresh_world sample_pro_team [] (mkAgent "Judge") None)
     = Raise (IndexError "Cannot choose from an empty sequence").
Proof.
  split; [exact low_draws_uniform |].
  destruct (run_fails_exactly_on_an_empty_team low_draws steady_clock "Add offline mode"
              sample_pro_team [] (mkAgent "Judge") None low_draws_uniform)
    as ([_ Hraise] & Honly & _).
  destruct (Hraise (or_intror eq_refl)) as [e He].
  rewrite He. f_equal. exact (Honly e He).
Defined.

(** ** Gathering through the research pipeline *)

Section LiftFacts.
Context {P : Platform} {Tool : Type} {T : SearchTool Tool}.
Local Open Scope string_scope.

(** What holds of every record made of a selected result holds of the
    records gathered, when every result the searches bring in is selected;
    and the clock is read as little as for the single results. *)
Section Lift.
Variable sel : SearchResult -> Prop.
Variable keep : Evidence Q -> Prop.
Hypothesis Hstep :
  forall result requirement (self self' : Gatherer Tool) out,
    sel result ->
    process_result (N := ExactQ) result requirement self = Ok (out, self') ->
    clock_reads self' = clock_reads self /\ forall e, out = Some e -> keep e.

Lemma process_search_results_lift (results : list SearchResult) (requirement : string)
    (self self' : Gatherer Tool) (evidence_list : list (Evidence Q)) :
  Forall sel results ->
  _process_search_results (N := ExactQ) results requirement self = Ok (evidence_list, self') ->
  clock_reads self' = clock_reads self /\ Forall keep evidence_list.
Proof.
  revert self self' evidence_list.
  induction results as [|result results IH]; intros self self' evidence_list Hsel.
  - cbn. intros E. injection E as <- <-. split; [reflexivity | constructor].
  - inversion Hsel as [|? ? Hr Hrest]; subst. cbn [_process_search_results].
    destruct (process_result result requirement self) as [[out self1]|e] eqn:E1;
      cbn [result_bind]; [|discriminate].
    destruct (Hstep _ _ _ _ _ Hr E1) as [Hclock Hkeep].
    destruct (_process_search_results results requirement self1) as [[evs self2]|e] eqn:E2;
      cbn [result_bind]; [|discriminate].
    destruct (IH _ _ _ Hrest E2) as [Hclock2 Hall].
    intros E. injection E as <- <-. split; [congruence |].
    destruct out as [e|]; [constructor; auto | exact Hall].
Qed.

Lemma search_all_lift (queries : list string) (requirement : string)
    (self self' : Gatherer Tool) (all_evidence : list (Evidence Q)) :
  Forall sel (answers (neutral_calls queries) (search_tool self)) ->
  search_all (N := ExactQ) queries requirement self = Ok (all_evidence, self') ->
  clock_reads self' = clock_reads self /\ Forall keep all_evidence.
Proof.
  revert self self' all_evidence.
  induction queries as [|query queries IH]; intros self self' all_evidence.
  - cbn. intros _ E. injection E as <- <-. split; [reflexivity | constructor].
  - cbn [search_all neutral_calls map answers]. unfold _search_and_parse.
    destruct (search_evidence query "neutral" (search_tool self)) as [outcome tool] eqn:Es.
    cbn [fst snd]. intros Hsel. apply Forall_app in Hsel. destruct Hsel as [Hnow Hlater].
    set (results := match outcome with
                    | Results results => results
                    | NotAList => []
                    | SearchRaised => []
                    end) in *.
    assert (Hsplit : (let self0 := mkGatherer tool (clock_reads self) in
                      match outcome with
                      | Results results => (results, self0)
                      | NotAList => ([], self0)
                      | SearchRaised => ([], self0)
                      end) = (results, mkGatherer tool (clock_reads self))).
    { unfold results. now destruct outcome. }
    cbv zeta in Hsplit. rewrite Hsplit.
    destruct (_process_search_results results requirement
                (mkGatherer tool (clock_reads self))) as [[evs self1]|e] eqn:E1;
      cbn [result_bind]; [|discriminate].
    destruct (process_search_results_lift _ _ _ _ _ Hnow E1) as [Hclock1 Hall1].
    destruct (process_search_results_ok results requirement
                (mkGatherer tool (clock_reads self)))
      as (evs' & self1' & E1' & Htool1 & _).
    rewrite E1 in E1'. injection E1' as <- <-.
    cbn [search_tool] in Htool1.
    destruct (search_all queries requirement self1) as [[others self2]|e] eqn:E2;
      cbn [result_bind]; [|discriminate].
    rewrite <- Htool1 in Hlater.
    destruct (IH _ _ _ Hlater E2) as [Hclock2 Hall2].
    intros E. injection E as <- <-. cbn [clock_reads] in Hclock1.
    split; [congruence | apply Forall_app; split; assumption].
Qed.

Lemma gather_evidence_lift (requirement stance : string) (max_sources : Z)
    (self : Gatherer Tool) :
  Forall sel (answers (neutral_calls (firstn 3 (_generate_search_queries requirement stance)))
                (search_tool self)) ->
  exists ranked self',
    gather_evidence (N := ExactQ) requirement stance max_sources self = Ok (ranked, self')
    /\ clock_reads self' = clock_reads self
    /\ Forall keep ranked
    /\ (length ranked
        <= length (answers (neutral_calls
                              (firstn 3 (_generate_search_queries requirement stance)))
                     (search_tool self)))%nat
    /\ search_tool self'
       = tool_after (neutral_calls (firstn 3 (_generate_search_queries requirement stance)))
           (search_tool self).
Proof.
  intros Hsel.
  destruct (gather_evidence_ok requirement stance max_sources self)
    as (all_evidence & ranked & self' & Hall & Hrun & -> & Htool & Hlen & _).
  cbv zeta in Hall, Hlen, Htool.
  destruct (search_all_lift _ _ _ _ _ Hsel Hall) as [Hclock Hkeep].
  exists (PyText.slice_to (sorted_by_score (_deduplicate_evidence all_evidence)) max_sources),
         self'.
  destruct (slice_to_firstn (sorted_by_score (_deduplicate_evidence all_evidence)) max_sources)
    as [k Hk].
  pose proof (firstn_subsequence k (sorted_by_score (_deduplicate_evidence all_evidence)))
    as Hsub.
  rewrite <- Hk in Hsub.
  pose proof (sorted_by_score_perm (_deduplicate_evidence all_evidence)) as Hperm.
  split; [exact Hrun |]. split; [exact Hclock |]. split; [|split; [|exact Htool]].
  - eapply subsequence_Forall; [exact Hsub |].
    eapply Permutation_Forall; [symmetry; exact Hperm |].
    eapply subsequence_Forall; [apply dedup_from_subsequence | exact Hkeep].
  - apply subsequence_length in Hsub. rewrite (Permutation_length Hperm) in Hsub.
    pose proof (subsequence_length _ _ (dedup_from_subsequence all_evidence [])) as Hd.
    unfold _deduplicate_evidence in *. lia.
Qed.

End Lift.

(** A record made of a result without a date has the recency 0.5, and the
    clock was not read for it. *)
Lemma process_result_undated (result : SearchResult) (requirement : string)
    (self self' : Gatherer Tool) (out : option (Evidence Q)) :
  undated result ->
  process_result (N := ExactQ) result requirement self = Ok (out, self') ->
  clock_reads self' = clock_reads self
  /\ forall e, out = Some e -> recency_score e = 0.5%Q.
Proof.
  unfold undated, process_result, _calculate_recency. intros ->.
  cbn [String.eqb].
  destruct (String.eqb (result_get result "url") "" || String.eqb (result_get result "snippet") "").
  - intros E. injection E as <- <-. split; [reflexivity | discriminate].
  - destruct (_get_source_credibility _) as [c|e]; cbn [result_bind]; [|discriminate].
    intros E. injection E as <- <-. split; [reflexivity |].
    intros e E. injection E as <-. reflexivity.
Qed.

End LiftFacts.

Section PipelineFacts.
Context {P : Platform} {W : Pipeline.Web}.
Local Open Scope string_scope.

Lemma keyed_undated (result : SearchResult) :
  map fst result = result_keys -> undated result.
Proof.
  unfold result_keys, undated.
  destruct result as [|[k1 v1] [|[k2 v2] [|[k3 v3] [|[k4 v4] [|[k5 v5] [|? ?]]]]]];
    cbn [map fst]; intros E; try discriminate E.
  injection E as -> -> -> -> ->. reflexivity.
Qed.

Lemma fallback_results_keyed (query : string) (lines : list string) (i : Z) :
  Forall (fun result => map fst result = result_keys) (Pipeline.fallback_results query lines i)
  /\ (length (Pipeline.fallback_results query lines i) <= length lines)%nat.
Proof.
  revert i; induction lines as [|line lines IH]; intros i; cbn [Pipeline.fallback_results].
  - split; [constructor | cbn; lia].
  - destruct (IH (i + 1)%Z) as [Hall Hlen].
    destruct (String.eqb (PyText.strip line) ""); cbn [List.app length].
    + split; [exact Hall | lia].
    + split; [constructor; [reflexivity | exact Hall] | lia].
Qed.

Lemma use_duckduckgo_fallback_keyed (query : string) (self : Pipeline.WorkingResearchPipeline) :
  Forall (fun result => map fst result = result_keys)
         (fst (Pipeline._use_duckduckgo_fallback query self))
  /\ (length (fst (Pipeline._use_duckduckgo_fallback query self)) <= 5)%nat.
Proof.
  unfold Pipeline._use_duckduckgo_fallback.
  destruct (Pipeline.DuckDuckGoSearchRun_run _ query) as [raw|]; cbn [fst].
  - destruct (String.eqb raw ""); cbn [fst].
    + split; [constructor | cbn; lia].
    + destruct (fallback_results_keyed query
                  (firstn 3 (PyText.split_on (String (ascii_of_nat 10) "") raw)) 0)
        as [Hall Hlen].
      split; [exact Hall |].
      pose proof (firstn_le_length 3 (PyText.split_on (String (ascii_of_nat 10) "") raw)).
      lia.
  - split; [constructor | cbn; lia].
Qed.

Lemma brave_search_keyed (query : string) (self : Pipeline.WorkingResearchPipeline) :
  Forall (fun result => map fst result = result_keys) (fst (Pipeline.brave_search query self))
  /\ (length (fst (Pipeline.brave_search query self)) <= 5)%nat.
Proof.
  unfold Pipeline.brave_search.
  destruct (Pipeline.requests_get _ query) as [|status found];
    [apply use_duckduckgo_fallback_keyed |].
  destruct (status =? 200)%Z; [destruct found as [found|] |destruct (status =? 429)%Z];
    try apply use_duckduckgo_fallback_keyed.
  cbn [fst]. split.
  - apply Forall_forall. intros r Hin. apply in_map_iff in Hin.
    destruct Hin as (raw & <- & _). reflexivity.
  - rewrite length_map. apply firstn_le_length.
Qed.

Lemma search_query_keyed (query : string) (self : Pipeline.WorkingResearchPipeline) :
  Forall (fun result => map fst result = result_keys) (fst (Pipeline.search_query query self))
  /\ (length (fst (Pipeline.search_query query self)) <= 5)%nat.
Proof.
  unfold Pipeline.search_query.
  destruct (Pipeline.brave_direct self); [apply brave_search_keyed |].
  destruct (Pipeline.DuckDuckGoSearchRun_run _ query) as [text|]; cbn [fst].
  - split; [repeat constructor | cbn; lia].
  - split; [constructor | cbn; lia].
Qed.

Lemma search_queries_keyed (queries : list string) (self : Pipeline.WorkingResearchPipeline) :
  Forall (fun result => map fst result = result_keys)
         (fst (Pipeline.search_queries queries self)).
Proof.
  revert self; induction queries as [|query queries IH]; intros self;
    cbn [Pipeline.search_queries]; [constructor |].
  pose proof (search_query_keyed query self) as [Hnow _].
  destruct (Pipeline.search_query query self) as [results self1]. cbn [fst] in Hnow.
  specialize (IH self1).
  destruct (Pipeline.search_queries queries self1) as [all_results self2]. cbn [fst] in *.
  apply Forall_app; split; assumption.
Qed.

(** What a search of the pipeline comes to. *)
Lemma search_evidence_outcome (requirement stance : string)
    (self : Pipeline.WorkingResearchPipeline) :
  match Pipeline.search_evidence requirement stance self with
  | (Results results, _) =>
      Pipeline.int_MAX_EVIDENCE_QUERIES <> None
      /\ (length results <= 10)%nat
      /\ Forall (fun result => map fst result = result_keys) results
  | (SearchRaised, self') => Pipeline.int_MAX_EVIDENCE_QUERIES = None /\ self' = self
  | (NotAList, _) => False
  end.
Proof.
  unfold Pipeline.search_evidence.
  destruct Pipeline.int_MAX_EVIDENCE_QUERIES as [max_queries|]; [|split; reflexivity].
  pose proof (search_queries_keyed
                (PyText.slice_to (Pipeline._generate_search_queries requirement stance)
                                 max_queries) self) as Hall.
  destruct (Pipeline.search_queries _ self) as [all_results self1]. cbn [fst] in Hall.
  split; [discriminate |]. split; [apply firstn_le_length |].
  eapply subsequence_Forall; [apply firstn_subsequence | exact Hall].
Qed.

Lemma answers_keyed (calls : list (string * string))
    (self : Pipeline.WorkingResearchPipeline) :
  Forall (fun result => map fst result = result_keys)
         (answers (T := Pipeline.pipeline_tool) calls self)
  /\ (length (answers (T := Pipeline.pipeline_tool) calls self) <= 10 * length calls)%nat.
Proof.
  revert self; induction calls as [|[query stance] calls IH]; intros self; cbn [answers].
  - split; [constructor | cbn; lia].
  - change (search_evidence (SearchTool := Pipeline.pipeline_tool) query stance self)
      with (Pipeline.search_evidence query stance self).
    pose proof (search_evidence_outcome query stance self) as H.
    destruct (Pipeline.search_evidence query stance self) as [outcome self1].
    cbn [fst snd]. destruct (IH self1) as [Hall Hlen].
    rewrite length_app. cbn [length].
    destruct outcome as [results| |].
    + destruct H as (_ & Hten & Hkeys). split; [apply Forall_app; split; assumption | lia].
    + destruct H.
    + split; [exact Hall | cbn [length]; lia].
Qed.

End PipelineFacts.

(** The results of [WorkingResearchPipeline] never carry a date: whichever
    engine answers (the Brave API, the DuckDuckGo fallback or DuckDuckGo
    itself), a result has the five keys "title", "snippet", "url", "source"
    and "published", and a search returns at most ten of them; it raises
    only where [MAX_EVIDENCE_QUERIES] is no integer.  So an
    [EvidenceGatherer], which reads the date under the key "date", gives
    every record it gathers through the pipeline the recency 0.5 and never
    reads the clock, and it gathers at most thirty results' worth. *)
Theorem evidence_gathered_through_pipeline_has_recency_half :
  forall (P : Platform) (W : Pipeline.Web),
    (forall (requirement stance : string) (self : Pipeline.WorkingResearchPipeline),
        match Pipeline.search_evidence requirement stance self with
        | (Results results, _) =>
            Pipeline.int_MAX_EVIDENCE_QUERIES <> None
            /\ (length results <= 10)%nat
            /\ Forall (fun result => map fst result = result_keys) results
        | (SearchRaised, self') => Pipeline.int_MAX_EVIDENCE_QUERIES = None /\ self' = self
        | (NotAList, _) => False
        end)
    /\ (forall (requirement stance : string) (max_sources : Z)
               (self : Gatherer Pipeline.WorkingResearchPipeline),
          exists ranked self',
            gather_evidence (N := ExactQ) (T := Pipeline.pipeline_tool)
              requirement stance max_sources self = Ok (ranked, self')
            /\ clock_reads self' = clock_reads self
            /\ Forall (fun e => recency_score e = 0.5%Q) ranked
            /\ Forall (fun e => _check_recency e = (true, None)) ranked
            /\ (length ranked <= 30)%nat).
Proof.
  intros P W. split; [apply search_evidence_outcome |].
  intros requirement stance max_sources self.
  pose proof (answers_keyed
                (neutral_calls (firstn 3 (_generate_search_queries requirement stance)))
                (search_tool self)) as [Hkeys Hlen].
  assert (Hsel : Forall undated
                   (answers (T := Pipeline.pipeline_tool)
                      (neutral_calls (firstn 3 (_generate_search_queries requirement stance)))
                      (search_tool self))).
  { eapply Forall_impl; [|exact Hkeys]. intros r. apply keyed_undated. }
  destruct (gather_evidence_lift (T := Pipeline.pipeline_tool) undated
              (fun e => recency_score e = 0.5%Q)
              (fun result requirement self self' out =>
                 process_result_undated result requirement self self' out)
              requirement stance max_sources self Hsel)
    as (ranked & self' & Hrun & Hclock & Hrec & Hcount & _).
  exists ranked, self'. split; [exact Hrun |]. split; [exact Hclock |].
  split; [exact Hrec |]. split.
  - eapply Forall_impl; [|exact Hrec]. intros e He.
    unfold _check_recency. rewrite He. reflexivity.
  - unfold neutral_calls in *. rewrite length_map in Hlen.
    pose proof (firstn_le_length 3 (_generate_search_queries requirement stance)).
    assert (length (firstn 3 (_generate_search_queries requirement stance)) <= 3)%nat.
    { rewrite length_firstn. lia. }
    lia.
Qed.

Section DuckDuckGoFacts.
Context {P : Platform} {W : Pipeline.Web}.
Local Open Scope string_scope.

Lemma length_append (a b : string) :
  String.length (a ++ b) = (String.length a + String.length b)%nat.
Proof. induction a as [|c a IH]; cbn; [reflexivity | now rewrite IH]. Qed.

Lemma pipeline_queries_long (requirement stance : string) :
  Forall (fun query => (11 <= String.length query)%nat)
         (Pipeline._generate_search_queries requirement stance).
Proof.
  unfold Pipeline._generate_search_queries.
  destruct (String.eqb stance "support"); [|destruct (String.eqb stance "oppose")];
    repeat constructor; rewrite length_append; cbn [String.length]; lia.
Qed.

(** Without the Brave API a query brings in at most the one page of
    DuckDuckGo, and no request is sent. *)
Lemma search_query_duckduckgo (query : string) (self : Pipeline.WorkingResearchPipeline) :
  Pipeline.brave_direct self = false -> (11 <= String.length query)%nat ->
  Forall duckduckgo_page (fst (Pipeline.search_query query self))
  /\ (length (fst (Pipeline.search_query query self)) <= 1)%nat
  /\ Pipeline.brave_direct (snd (Pipeline.search_query query self)) = false
  /\ Pipeline.requests_sent (snd (Pipeline.search_query query self))
     = Pipeline.requests_sent self.
Proof.
  intros Hb Hlen. unfold Pipeline.search_query. rewrite Hb.
  destruct (Pipeline.DuckDuckGoSearchRun_run _ query) as [text|]; cbn [fst snd].
  - split; [|repeat split; cbn; lia].
    constructor; [|constructor]. exists text, query. split; [reflexivity | exact Hlen].
  - repeat split; [constructor | cbn; lia].
Qed.

Lemma search_queries_duckduckgo (queries : list string)
    (self : Pipeline.WorkingResearchPipeline) :
  Pipeline.brave_direct self = false ->
  Forall (fun query => (11 <= String.length query)%nat) queries ->
  Forall duckduckgo_page (fst (Pipeline.search_queries queries self))
  /\ (length (fst (Pipeline.search_queries queries self)) <= length queries)%nat
  /\ Pipeline.brave_direct (snd (Pipeline.search_queries queries self)) = false
  /\ Pipeline.requests_sent (snd (Pipeline.search_queries queries self))
     = Pipeline.requests_sent self.
Proof.
  revert self; induction queries as [|query queries IH]; intros self Hb Hlong;
    cbn [Pipeline.search_queries].
  - repeat split; [constructor | cbn; lia | exact Hb].
  - inversion Hlong as [|? ? Hq Hrest]; subst.
    destruct (search_query_duckduckgo query self Hb Hq) as (Hnow & Hone & Hb1 & Hsent1).
    destruct (Pipeline.search_query query self) as [results self1]. cbn [fst snd] in *.
    destruct (IH self1 Hb1 Hrest) as (Hlater & Hmany & Hb2 & Hsent2).
    destruct (Pipeline.search_queries queries self1) as [all_results self2].
    cbn [fst snd length] in *. rewrite length_app.
    repeat split; [apply Forall_app; split; assumption | lia | exact Hb2 | congruence].
Qed.

Lemma search_evidence_duckduckgo (requirement stance : string)
    (self : Pipeline.WorkingResearchPipeline) :
  Pipeline.brave_direct self = false ->
  let results := match fst (Pipeline.search_evidence requirement stance self) with
                 | Results results => results
                 | NotAList => []
                 | SearchRaised => []
                 end in
  Forall duckduckgo_page results
  /\ (length results <= 3)%nat
  /\ Pipeline.brave_direct (snd (Pipeline.search_evidence requirement stance self)) = false
  /\ Pipeline.requests_sent (snd (Pipeline.search_evidence requirement stance self))
     = Pipeline.requests_sent self.
Proof.
  intros Hb. unfold Pipeline.search_evidence.
  destruct Pipeline.int_MAX_EVIDENCE_QUERIES as [max_queries|]; cbn [fst snd];
    [|repeat split; [constructor | cbn; lia | exact Hb]].
  destruct (slice_to_firstn (Pipeline._generate_search_queries requirement stance) max_queries)
    as [k Hk].
  assert (Hlong : Forall (fun query => (11 <= String.length query)%nat)
                    (PyText.slice_to (Pipeline._generate_search_queries requirement stance)
                                     max_queries)).
  { rewrite Hk. eapply subsequence_Forall; [apply firstn_subsequence |].
    apply pipeline_queries_long. }
  assert (Hthree : (length (PyText.slice_to
                              (Pipeline._generate_search_queries requirement stance)
                              max_queries) <= 3)%nat).
  { rewrite Hk.
    pose proof (length_firstn k (Pipeline._generate_search_queries requirement stance)) as H.
    assert (Hq : length (Pipeline._generate_search_queries requirement stance) = 3%nat).
    { unfold Pipeline._generate_search_queries.
      destruct (String.eqb stance "support"); [|destruct (String.eqb stance "oppose")];
        reflexivity. }
    lia. }
  destruct (search_queries_duckduckgo _ self Hb Hlong) as (Hall & Hmany & Hb1 & Hsent).
  destruct (Pipeline.search_queries _ self) as [all_results self1]. cbn [fst snd] in *.
  split; [eapply subsequence_Forall; [apply firstn_subsequence | exact Hall] |].
  pose proof (length_firstn 10 all_results).
  repeat split; [lia | exact Hb1 | exact Hsent].
Qed.

Lemma answers_duckduckgo (calls : list (string * string))
    (self : Pipeline.WorkingResearchPipeline) :
  Pipeline.brave_direct self = false ->
  Forall duckduckgo_page (answers (T := Pipeline.pipeline_tool) calls self)
  /\ (length (answers (T := Pipeline.pipeline_tool) calls self) <= 3 * length calls)%nat
  /\ Pipeline.requests_sent (tool_after (T := Pipeline.pipeline_tool) calls self)
     = Pipeline.requests_sent self.
Proof.
  revert self; induction calls as [|[query stance] calls IH]; intros self Hb;
    cbn [answers tool_after].
  - repeat split; [constructor | cbn; lia].
  - change (search_evidence (SearchTool := Pipeline.pipeline_tool) query stance self)
      with (Pipeline.search_evidence query stance self).
    destruct (search_evidence_duckduckgo query stance self Hb) as (Hnow & Hthree & Hb1 & Hsent).
    destruct (IH _ Hb1) as (Hlater & Hmany & Hsent2).
    rewrite length_app. cbn [length].
    repeat split; [apply Forall_app; split; assumption | lia | congruence].
Qed.

(** A record made of a page of DuckDuckGo. *)
Lemma process_result_duckduckgo (result : SearchResult) (requirement : string)
    (self self' : Gatherer Pipeline.WorkingResearchPipeline) (out : option (Evidence Q)) :
  urlparse_netloc "https://duckduckgo.com" = Some "duckduckgo.com" ->
  duckduckgo_page result ->
  process_result (N := ExactQ) result requirement self
  = Ok (out, self') ->
  clock_reads self' = clock_reads self /\ forall e, out = Some e -> duckduckgo_evidence e.
Proof.
  intros Hnet (text & query & Hpage & Hlen) Hrun.
  unfold Pipeline._parse_duckduckgo_result in Hpage. injection Hpage as ->.
  match type of Hrun with
  | process_result ?r _ _ = _ =>
      destruct (process_result_undated r requirement self self'
                  out eq_refl Hrun) as [Hclock Hrec];
      destruct (process_result_ok r requirement self)
        as (out' & g & Hrun' & _ & Hout)
  end.
  rewrite Hrun in Hrun'. injection Hrun' as <- <-.
  split; [exact Hclock |]. intros e ->. specialize (Hrec e eq_refl).
  cbv zeta in Hout. cbn [result_get String.eqb Ascii.eqb Bool.eqb] in Hout.
  destruct Hout as (_ & _ & Hclaim & Hurl & _ & Hsrc & Htier & _ & _ & Hcred & _).
  rewrite Hurl in Hsrc. unfold _extract_domain in Hsrc. rewrite Hnet in Hsrc.
  rewrite Hsrc, Hurl in Htier. rewrite Hsrc in Hcred.
  assert (Hc : credibility_score e = 0.5%Q).
  { assert (Hdef : _get_source_credibility (N := ExactQ) "duckduckgo.com" = Ok 0.5%Q)
      by (vm_compute; reflexivity).
    rewrite Hdef in Hcred. injection Hcred as Hcred. now symmetry. }
  assert (Ht : tier e = BRONZE) by (rewrite Htier; reflexivity).
  unfold duckduckgo_evidence.
  split; [exact Hsrc |]. split; [exact Hurl |]. split; [exact Ht |].
  split; [exact Hc |]. split; [exact Hrec |]. split.
  - rewrite Hclaim. unfold _extract_claim.
    assert (Hlong : (20 <? String.length ("Research: " ++ query))%nat = true).
    { apply Nat.ltb_lt. rewrite length_append. cbn [String.length]. lia. }
    cbn [append] in Hlong. rewrite Hlong. reflexivity.
  - unfold total_score. rewrite Ht, Hrec, Hc. cbn [tier_weights of_Z num_mul ExactQ].
    ring.
Qed.

End DuckDuckGoFacts.

(** The pipeline uses the Brave API only when [BRAVE_SEARCH_API_KEY] is
    set, not empty and without the text "your_brave".  Without it (the
    pipeline as it is by default) everything an [EvidenceGatherer] gathers is
    the search page of DuckDuckGo: each record has the source "duckduckgo.com" and the URL
    "https://duckduckgo.com", the lowest tier BRONZE, the default credibility
    0.5 and the recency 0.5, so its total score is a quarter of its
    relevance; its claim is the title "Research: ..." made of the query, never
    a sentence of what was found.  At most nine records are gathered, and no
    request is sent to the Brave API. *)
Theorem without_brave_all_evidence_is_the_search_page :
  forall (P : Platform) (W : Pipeline.Web) (requirement stance : string) (max_sources : Z)
         (self : Gatherer Pipeline.WorkingResearchPipeline),
    (Pipeline.brave_direct Pipeline.WorkingResearchPipeline_init = false
     <-> match Pipeline.getenv_BRAVE_SEARCH_API_KEY with
         | Some key => key = ""%string \/ PyStr.substring_of "your_brave" key
         | None => True
         end)
    /\ (Pipeline.brave_direct (search_tool self) = false ->
        urlparse_netloc "https://duckduckgo.com" = Some "duckduckgo.com"%string ->
        exists ranked self',
          gather_evidence (N := ExactQ) (T := Pipeline.pipeline_tool)
            requirement stance max_sources self = Ok (ranked, self')
          /\ Forall duckduckgo_evidence ranked
          /\ (length ranked <= 9)%nat
          /\ Pipeline.requests_sent (search_tool self')
             = Pipeline.requests_sent (search_tool self)).
Proof.
  intros P W requirement stance max_sources self. split.
  { unfold Pipeline.WorkingResearchPipeline_init. cbn [Pipeline.brave_direct].
    destruct Pipeline.getenv_BRAVE_SEARCH_API_KEY as [key|]; [|tauto].
    rewrite andb_false_iff, !negb_false_iff, String.eqb_eq, contains_iff. tauto. }
  intros Hb Hnet.
  destruct (answers_duckduckgo
              (neutral_calls (firstn 3 (_generate_search_queries requirement stance)))
              (search_tool self) Hb) as (Hpages & Hlen & Hsent).
  destruct (gather_evidence_lift (T := Pipeline.pipeline_tool) duckduckgo_page
              duckduckgo_evidence
              (fun result requirement self self' out =>
                 process_result_duckduckgo result requirement self self' out Hnet)
              requirement stance max_sources self Hpages)
    as (ranked & self' & Hrun & _ & Hall & Hcount & Htool).
  exists ranked, self'. split; [exact Hrun |]. split; [exact Hall |]. split.
  - unfold neutral_calls in *. rewrite length_map in Hlen.
    assert (length (firstn 3 (_generate_search_queries requirement stance)) <= 3)%nat.
    { rewrite length_firstn. lia. }
    lia.
  - rewrite Htool. exact Hsent.
Qed.

Lemma without_brave_all_evidence_is_the_search_page_witness :
  Pipeline.brave_direct
    (search_tool (mkGatherer (Pipeline.WorkingResearchPipeline_init (W := sample_web)) 0))
  = false
  /\ urlparse_netloc (Platform := sample_platform) "https://duckduckgo.com"
     = Some "duckduckgo.com"%string
  /\ exists ranked self',
       gather_evidence (N := ExactQ) (P := sample_platform)
         (T := Pipeline.pipeline_tool (P := sample_platform) (W := sample_web))
         "offline mode" "support" 10
         (mkGatherer (Pipeline.WorkingResearchPipeline_init (W := sample_web)) 0)
       = Ok (ranked, self')
       /\ Forall duckduckgo_evidence ranked.
Proof.
  split; [reflexivity |]. split; [reflexivity |].
  destruct (proj2 (without_brave_all_evidence_is_the_search_page sample_platform sample_web
                     "offline mode" "support" 10
                     (mkGatherer (Pipeline.WorkingResearchPipeline_init (W := sample_web)) 0))
              eq_refl eq_refl)
    as (ranked & self' & Hrun & Hall & _).
  exists ranked, self'. split; assumption.
Defined.
